(** * Batch dispatch engine of the WhatsApp sender

    A shallow embedding of [send_batch.py] (row processor, rate limiter,
    sequential and worker-pool dispatchers) and of the parts of
    [whatsapp_client.py] it calls (media cache, media upload, payload
    builders), followed by the properties of the specification that were
    checked against them.

    Conventions.
    - Python [str] values are [string]s whose characters are code points
      below 256; [dict] literals are association lists in insertion order;
      a CSV row is a finite map from column names to cell texts (a cell
      holding [None] is the same as an absent column for every
      [row.get(k) or d] of the source).
    - A raised exception is the [Raise] case of [result] and carries
      [str(e)], the only part of an exception the source looks at.
    - Everything outside the process (file system, HTTP endpoint, the
      thread that owns the stop and pause events, the monotonic clock) is
      an oracle; the calls made on collaborators are recorded in a trace.
    - The float timestamps of [BatchSendResult] and [BatchProgressEvent]
      ([started_at], [finished_at], [timestamp]) and the properties derived
      from them are left out: no counter depends on them. *)

From Stdlib Require Import ZArith QArith Qminmax Qround Qpower String Ascii List Lia Lqa
  DecimalString DecimalNat.
From stdpp Require Import base option list strings gmap sorting.

Set Warnings "-register-all".

(** ** Python values *)

Module Py.

Inductive result (A : Type) : Type :=
| Ok (a : A)
| Raise (msg : string).
Arguments Ok {A} a.
Arguments Raise {A} msg.

(** [str.isspace] on one character (code points below 256). *)
Definition isspace (c : ascii) : bool :=
  let n := N_of_ascii c in
  ((9 <=? n) && (n <=? 13) || (28 <=? n) && (n <=? 32)
   || (n =? 133) || (n =? 160))%N.

Fixpoint lstrip (s : string) : string :=
  match s with
  | EmptyString => EmptyString
  | String c s' => if isspace c then lstrip s' else s
  end.

Fixpoint rstrip (s : string) : string :=
  match s with
  | EmptyString => EmptyString
  | String c s' =>
      match rstrip s' with
      | EmptyString => if isspace c then EmptyString else String c EmptyString
      | r => String c r
      end
  end.

(** [s.strip()] *)
Definition strip (s : string) : string := rstrip (lstrip s).

Definition lower_char (c : ascii) : ascii :=
  let n := N_of_ascii c in
  if ((65 <=? n) && (n <=? 90)
      || (192 <=? n) && (n <=? 222) && negb (n =? 215))%N
  then ascii_of_N (n + 32) else c.

(** [s.lower()] *)
Fixpoint lower (s : string) : string :=
  match s with
  | EmptyString => EmptyString
  | String c s' => String (lower_char c) (lower s')
  end.

(** [s.split(sep)] for a one-character separator. *)
Fixpoint split (sep : ascii) (s : string) : list string :=
  match s with
  | EmptyString => [EmptyString]
  | String c s' =>
      if decide (c = sep) then EmptyString :: split sep s'
      else match split sep s' with
           | h :: t => String c h :: t
           | [] => [String c EmptyString]
           end
  end.

(** [str(n)] for integers. *)
Definition str_nat (n : nat) : string := NilZero.string_of_uint (Nat.to_uint n).
Definition str_int (z : Z) : string := NilZero.string_of_int (Z.to_int z).

(** [a or b] on strings, and [s or None]. *)
Definition or_str (a b : string) : string := if decide (a = "") then b else a.
Definition or_none (s : string) : option string :=
  if decide (s = "") then None else Some s.

(** JSON-serialisable values: what payloads, cache records and HTTP
    bodies are made of. *)
Inductive json : Type :=
| JNull
| JBool (b : bool)
| JInt (n : Z)
| JStr (s : string)
| JList (xs : list json)
| JDict (kvs : list (string * json)).

Abbreviation dict := (list (string * json)).

(** Truth value of a Python object. *)
Definition truthy (v : json) : bool :=
  match v with
  | JNull => false
  | JBool b => b
  | JInt n => negb (n =? 0)%Z
  | JStr s => if decide (s = "") then false else true
  | JList xs => if xs is [] then false else true
  | JDict kvs => if kvs is [] then false else true
  end.

(** [d.get(k)] on a dict. *)
Fixpoint dict_get (d : dict) (k : string) : option json :=
  match d with
  | [] => None
  | (k', v) :: d' => if decide (k' = k) then Some v else dict_get d' k
  end.

Definition type_name (v : json) : string :=
  match v with
  | JNull => "NoneType"
  | JBool _ => "bool"
  | JInt _ => "int"
  | JStr _ => "str"
  | JList _ => "list"
  | JDict _ => "dict"
  end.

(** [Optional[str]] seen as a Python object. *)
Definition of_opt (o : option string) : json :=
  match o with
  | None => JNull
  | Some s => JStr s
  end.

(** Navigation in a JSON document, for statements about payloads. *)
Inductive sel : Type :=
| Key (k : string)
| Idx (i : nat).

Definition jstep (v : json) (p : sel) : option json :=
  match p, v with
  | Key k, JDict kvs => dict_get kvs k
  | Idx i, JList xs => xs !! i
  | _, _ => None
  end.

Fixpoint jpath (v : json) (ps : list sel) : option json :=
  match ps with
  | [] => Some v
  | p :: ps' => match jstep v p with
                | Some v' => jpath v' ps'
                | None => None
                end
  end.

End Py.
Import Py.

(** A CSV row: [row.get(k)] is [row !! k]. *)
Abbreviation Row := (gmap string string).

(** [(row.get(k) or d)] *)
Definition get_or (row : Row) (k d : string) : string :=
  match row !! k with
  | Some v => or_str v d
  | None => d
  end.

(** [f"{prefix}{n}{suffix}"], the indexed column names. *)
Definition fkey (prefix : string) (n : nat) (suffix : string) : string :=
  prefix +:+ str_nat n +:+ suffix.

(** [range(0, 10)] *)
Definition range10 : list nat := seq 0 10.

(** ** whatsapp_client.py *)

Record WhatsAppConfig : Type := {
  token : string;
  phone_number_id : string;
  api_version : string;
  base_url : string
}.

Definition messages_url (c : WhatsAppConfig) : string :=
  base_url c +:+ "/" +:+ api_version c +:+ "/" +:+ phone_number_id c +:+ "/messages".

Definition media_url (c : WhatsAppConfig) : string :=
  base_url c +:+ "/" +:+ api_version c +:+ "/" +:+ phone_number_id c +:+ "/media".

(** What [session.post] is given: the multipart form of an upload or the
    JSON body of a send. *)
Inductive http_request : Type :=
| PostMedia (url file_name file_bytes mime : string) (data : dict)
| PostJson (url : string) (body : dict).

(** What [session.post] gives back: [resp.status_code], [resp.text], and
    [resp.json()], which raises on a body that is not JSON. *)
Record http_response : Type := {
  status_code : Z;
  text : string;
  json_body : result json
}.

(** The world outside the process, as the client sees it. Requests are
    numbered in the order they are posted. *)
Record Runtime : Type := {
  path_resolve : string -> string;            (* Path.resolve *)
  path_name : string -> string;               (* Path.name *)
  fs_read : string -> option string;          (* None: the file does not exist *)
  sha256_hex : string -> string;              (* hashlib.sha256(bytes).hexdigest() *)
  guess_type : string -> option string;       (* mimetypes.guess_type(name)[0] *)
  http_post : nat -> http_request -> result http_response;
  time_now : nat -> Z;                        (* int(time.time()) *)
  py_str : json -> string;                    (* str(value) in an f-string *)
  cache_write : nat -> option string          (* writing the cache file after the
                                                 n-th request: Some e when mkdir
                                                 or write_text raises e *)
}.

(** The mutable part of a client: the [MediaCache] it shares, whose
    entries are dicts as the annotation of [get] says, and the requests
    posted so far. *)
Record ClientState : Type := {
  media_cache : gmap string dict;
  posted : list http_request
}.

Module MediaCache.

Definition get (digest : string) (s : ClientState) : option dict :=
  media_cache s !! digest.

(** [set] assigns the entry first and writes the cache file after it:
    the entry stays when [mkdir] or [write_text] raises. What the file
    holds is not modelled. *)
Definition set (rt : Runtime) (digest : string) (data : dict) (s : ClientState)
    : result unit * ClientState :=
  let s := {| media_cache := <[digest := data]> (media_cache s); posted := posted s |} in
  match cache_write rt (length (posted s)) with
  | None => (Ok tt, s)
  | Some e => (Raise e, s)
  end.

End MediaCache.

(** One flow button and one copy-code button, as the dicts [_prepare_row]
    builds: every key is always present. *)
Record flow_button : Type := {
  fb_index : string;
  fb_flow_token : string;
  fb_flow_action : string;
  fb_navigate_screen : string
}.

Record copy_code_button : Type := {
  cc_index : string;
  cc_coupon_code : string
}.

(** The keyword arguments of [build_template_components]. *)
Record components_args : Type := {
  header_type : string;
  header_text : option string;
  header_media_id : json;
  header_media_link : option string;
  body_params : list string;
  button_params : option (list (list string));
  button_flow : option (list flow_button);
  button_copy_code : option (list copy_code_button)
}.

(** [htype in ("image", "video", "document")] *)
Definition is_media_header (htype : string) : bool :=
  bool_decide (htype = "image") || bool_decide (htype = "video")
  || bool_decide (htype = "document").

Module WhatsAppClient.
Section Methods.

Variable config : WhatsAppConfig.
Variable rt : Runtime.

Definition _hash_file (file_path : string) (bytes : string) : string :=
  "sha256:" +:+ sha256_hex rt bytes.

Definition post (req : http_request) (s : ClientState)
  : result http_response * ClientState :=
  (http_post rt (length (posted s)) req,
   {| media_cache := media_cache s; posted := posted s ++ [req] |}).

(** [cached and "id" in cached] *)
Definition cache_hit (cached : option dict) : option dict :=
  match cached with
  | Some d => if truthy (JDict d) && bool_decide (is_Some (dict_get d "id"))
              then Some d else None
  | None => None
  end.

Definition upload_media (file_path : string) (mime_type : option string)
    (s : ClientState) : result dict * ClientState :=
  let file_path := path_resolve rt file_path in
  match fs_read rt file_path with
  | None => (Raise ("Media not found: " +:+ file_path), s)
  | Some bytes =>
      let digest := _hash_file file_path bytes in
      match cache_hit (MediaCache.get digest s) with
      | Some cached => (Ok cached, s)
      | None =>
          let mime_type :=
            match mime_type with
            | Some m => if decide (m = "") then None else Some m
            | None => None
            end in
          let mime_type :=
            match mime_type with
            | Some m => m
            | None => or_str (default "" (guess_type rt (path_name rt file_path)))
                             "application/octet-stream"
            end in
          let data := [("messaging_product", JStr "whatsapp"); ("type", JStr mime_type)] in
          let '(resp, s) :=
            post (PostMedia (media_url config) (path_name rt file_path) bytes mime_type data) s in
          match resp with
          | Raise e => (Raise e, s)
          | Ok resp =>
              if (400 <=? status_code resp)%Z then
                (Raise ("Media upload failed: " +:+ str_int (status_code resp)
                        +:+ " " +:+ text resp), s)
              else
                match json_body resp with
                | Raise e => (Raise e, s)
                | Ok (JDict d) =>
                    let media_id := default JNull (dict_get d "id") in
                    if truthy media_id then
                      let record :=
                        [("id", media_id);
                         ("mime_type", JStr mime_type);
                         ("path", JStr file_path);
                         ("uploaded_at", JInt (time_now rt (length (posted s))))] in
                      let '(written, s) := MediaCache.set rt digest record s in
                      match written with
                      | Ok _ => (Ok record, s)
                      | Raise e => (Raise e, s)
                      end
                    else
                      (Raise ("Media upload response missing id: " +:+ py_str rt (JDict d)), s)
                | Ok data =>
                    (Raise ("'" +:+ type_name data +:+ "' object has no attribute 'get'"), s)
                end
          end
      end
  end.


End Methods.

Definition text_param (x : string) : json :=
  JDict [("type", JStr "text"); ("text", JStr x)].

(** Header component (lines 134-153). *)
Definition header_component (a : components_args) : result (list json) :=
  let htype := lower (or_str (header_type a) "none") in
  if decide (htype = "none") then Ok []
  else
    let header ps := JDict [("type", JStr "header"); ("parameters", JList ps)] in
    if decide (htype = "text") then
      match header_text a with
      | None => Raise "header_type=text requires header_text"
      | Some t => Ok [header [text_param t]]
      end
    else if is_media_header htype then
      if truthy (header_media_id a) then
        Ok [header [JDict [("type", JStr htype);
                           (htype, JDict [("id", header_media_id a)])]]]
      else
        match header_media_link a with
        | Some l =>
            if decide (l = "") then
              Raise ("header_type=" +:+ htype +:+ " requires media id or link")
            else
              Ok [header [JDict [("type", JStr htype);
                                 (htype, JDict [("link", JStr l)])]]]
        | None => Raise ("header_type=" +:+ htype +:+ " requires media id or link")
        end
    else Raise ("Unsupported header_type: " +:+ header_type a).

(** URL buttons (lines 161-170): [enumerate(button_params)], empty groups
    skipped. *)
Fixpoint url_buttons (idx : nat) (groups : list (list string)) : list json :=
  match groups with
  | [] => []
  | params :: rest =>
      (if params is [] then []
       else [JDict [("type", JStr "button"); ("sub_type", JStr "url");
                    ("index", JStr (str_nat idx));
                    ("parameters", JList (text_param <$> params))]])
      ++ url_buttons (S idx) rest
  end.

(** Flow buttons (lines 173-197). *)
Fixpoint flow_components (fbs : list flow_button) : result (list json) :=
  match fbs with
  | [] => Ok []
  | fb :: rest =>
      if bool_decide (fb_flow_token fb = "") || bool_decide (fb_flow_action fb = "")
         || bool_decide (fb_navigate_screen fb = "")
      then Raise "button_flow requires flow_token, flow_action, navigate_screen"
      else
        match flow_components rest with
        | Raise e => Raise e
        | Ok cs =>
            Ok (JDict [("type", JStr "button"); ("sub_type", JStr "flow");
                       ("index", JStr (fb_index fb));
                       ("parameters", JList [JDict
                          [("type", JStr "action");
                           ("action", JDict
                              [("flow_token", JStr (fb_flow_token fb));
                               ("flow_action_data", JDict
                                  [("flow_action", JStr (fb_flow_action fb));
                                   ("navigate_screen", JStr (fb_navigate_screen fb))])])]])]
                :: cs)
        end
  end.

(** Copy-code buttons (lines 200-216). *)
Fixpoint copy_code_components (btns : list copy_code_button) : result (list json) :=
  match btns with
  | [] => Ok []
  | btn :: rest =>
      if decide (cc_coupon_code btn = "") then
        Raise "button_copy_code entries require coupon_code"
      else
        match copy_code_components rest with
        | Raise e => Raise e
        | Ok cs =>
            Ok (JDict [("type", JStr "button"); ("sub_type", JStr "COPY_CODE");
                       ("index", JStr (cc_index btn));
                       ("parameters", JList [JDict
                          [("type", JStr "coupon_code");
                           ("coupon_code", JStr (cc_coupon_code btn))]])]
                :: cs)
        end
  end.

Definition build_template_components (a : components_args) : result (list json) :=
  match header_component a with
  | Raise e => Raise e
  | Ok header =>
      let body :=
        if body_params a is [] then []
        else [JDict [("type", JStr "body");
                     ("parameters", JList (text_param <$> body_params a))]] in
      let buttons := url_buttons 0 (default [] (button_params a)) in
      match flow_components (default [] (button_flow a)) with
      | Raise e => Raise e
      | Ok flows =>
          match copy_code_components (default [] (button_copy_code a)) with
          | Raise e => Raise e
          | Ok copies => Ok (header ++ body ++ buttons ++ flows ++ copies)
          end
      end
  end.

Definition build_template_payload (to template lang : string)
    (components : option (list json)) : result dict :=
  let components := match components with
                    | Some (c :: cs) => [("components", JList (c :: cs))]
                    | _ => []
                    end in
  Ok [("messaging_product", JStr "whatsapp");
      ("to", JStr to);
      ("type", JStr "template");
      ("template", JDict ([("name", JStr template);
                           ("language", JDict [("code", JStr lang)])]
                          ++ components))].

Definition footer_field (footer_text : option string) : dict :=
  match footer_text with
  | Some f => if decide (f = "") then [] else [("footer", JDict [("text", JStr f)])]
  | None => []
  end.

Definition build_interactive_cta_url (to body_text url display_text : string)
    (footer_text : option string) : result dict :=
  let interactive :=
    [("type", JStr "cta_url");
     ("body", JDict [("text", JStr body_text)]);
     ("action", JDict
        [("name", JStr "cta_url");
         ("parameters", JDict [("display_text", JStr (or_str display_text "View"));
                               ("url", JStr url)])])]
    ++ footer_field footer_text in
  Ok [("messaging_product", JStr "whatsapp");
      ("to", JStr to);
      ("type", JStr "interactive");
      ("interactive", JDict interactive)].

Definition build_interactive_cta_call (to body_text phone_number display_text : string)
    (footer_text : option string) : result dict :=
  let interactive :=
    [("type", JStr "cta_call");
     ("body", JDict [("text", JStr body_text)]);
     ("action", JDict
        [("name", JStr "cta_call");
         ("parameters", JDict [("display_text", JStr (or_str display_text "Call"));
                               ("phone_number", JStr phone_number)])])]
    ++ footer_field footer_text in
  Ok [("messaging_product", JStr "whatsapp");
      ("to", JStr to);
      ("type", JStr "interactive");
      ("interactive", JDict interactive)].

Section Send.

Variable config : WhatsAppConfig.
Variable rt : Runtime.

Definition send_message (payload : dict) (s : ClientState)
    : result json * ClientState :=
  let '(resp, s) := post rt (PostJson (messages_url config) payload) s in
  match resp with
  | Raise e => (Raise e, s)
  | Ok resp =>
      if (400 <=? status_code resp)%Z then
        (Raise ("Send failed: " +:+ str_int (status_code resp) +:+ " " +:+ text resp), s)
      else
        match json_body resp with
        | Raise e => (Raise e, s)
        | Ok data => (Ok data, s)
        end
  end.

End Send.

End WhatsAppClient.

(** ** The client as [send_batch.py] uses it

    [_prepare_row] and the dispatchers receive their client as an
    argument and only call the methods below, over a state [S] that
    belongs to the client. *)

Record Client (S : Type) : Type := {
  upload_media : string -> S -> result dict * S;
  build_template_components : components_args -> result (list json);
  build_template_payload : string -> string -> string -> option (list json) -> result dict;
  build_interactive_cta_url : string -> string -> string -> string -> option string -> result dict;
  build_interactive_cta_call : string -> string -> string -> string -> option string -> result dict;
  send_message : dict -> S -> result json * S
}.
Arguments upload_media {S} _ _ _.
Arguments build_template_components {S} _ _.
Arguments build_template_payload {S} _ _ _ _ _.
Arguments build_interactive_cta_url {S} _ _ _ _ _ _.
Arguments build_interactive_cta_call {S} _ _ _ _ _ _.
Arguments send_message {S} _ _ _.

(** The real client. *)
Definition whatsapp_client (config : WhatsAppConfig) (rt : Runtime) : Client ClientState := {|
  upload_media := fun p s => WhatsAppClient.upload_media config rt p None s;
  build_template_components := WhatsAppClient.build_template_components;
  build_template_payload := WhatsAppClient.build_template_payload;
  build_interactive_cta_url := WhatsAppClient.build_interactive_cta_url;
  build_interactive_cta_call := WhatsAppClient.build_interactive_cta_call;
  send_message := WhatsAppClient.send_message config rt
|}.

(** The calls made on the client, in order. *)
Inductive call : Type :=
| UploadMedia (file_path : string)
| BuildTemplateComponents (a : components_args)
| BuildTemplatePayload (to template lang : string) (components : option (list json))
| BuildInteractiveCtaUrl (to body_text url display_text : string) (footer_text : option string)
| BuildInteractiveCtaCall (to body_text phone_number display_text : string) (footer_text : option string)
| SendMessage (payload : dict).

Definition is_upload (c : call) : bool :=
  if c is UploadMedia _ then true else false.

(** ** send_batch.py: row parsing *)

Definition parse_list (value : option string) (sep : ascii) : option (list string) :=
  match value with
  | None => None
  | Some value =>
      let value := strip value in
      if decide (value = "") then None
      else Some (strip <$> split sep value)
  end.

Definition parse_button_params (raw : option string) : option (list (list string)) :=
  match raw with
  | None => None
  | Some raw =>
      if decide (raw = "") then None
      else
        let parts := filter (fun p => p ≠ "") (strip <$> split "," raw) in
        if parts is [] then None
        else Some ((fun p => default [] (parse_list (Some p) "|")) <$> parts)
  end.

Definition infer_button_params_from_cta (row : Row) : option (list (list string)) :=
  let groups :=
    omap (fun n =>
            let cta_type := lower (strip (get_or row (fkey "cta" n "_type") "")) in
            if decide (cta_type = "url") then
              let url_value := strip (get_or row (fkey "cta" n "_url") "") in
              if decide (url_value = "") then None else Some [url_value]
            else None) range10 in
  if groups is [] then None else Some groups.

(** ** send_batch.py: the row processor *)

(** What [_prepare_row] returns, [(status, phone, payload, message)],
    with the calls it made and the client state it leaves. *)
Record prepared (S : Type) : Type := Prepared {
  p_result : string * string * option dict * string;
  p_calls : list call;
  p_state : S
}.
Arguments Prepared {S} _ _ _.
Arguments p_result {S} _.
Arguments p_calls {S} _.
Arguments p_state {S} _.

(** The first call-to-action scan of the interactive branch (lines
    177-188): [(cta_type, cta_text, cta_url, cta_phone)]. *)
Fixpoint scan_cta (row : Row) (ns : list nat)
    : option string * option string * option string * option string :=
  match ns with
  | [] => (None, None, None, None)
  | n :: ns' =>
      let ct := lower (strip (get_or row (fkey "cta" n "_type") "")) in
      if decide (ct = "") then scan_cta row ns'
      else
        (Some ct,
         Some (or_str (strip (get_or row (fkey "cta" n "_text") ""))
                      (if decide (ct = "url") then "View" else "Call")),
         or_none (strip (get_or row (fkey "cta" n "_url") "")),
         or_none (strip (get_or row (fkey "cta" n "_phone") "")))
  end.

(** The flow-button loop (lines 241-252). *)
Definition flow_buttons_of (row : Row) : list flow_button :=
  omap (fun n =>
          let btype := lower (strip (get_or row (fkey "button" n "_type") "")) in
          if decide (btype = "flow") then
            Some {| fb_index := strip (get_or row (fkey "button" n "_index") (str_nat n));
                    fb_flow_token := strip (get_or row (fkey "button" n "_flow_token") "");
                    fb_flow_action := strip (get_or row (fkey "button" n "_flow_action") "");
                    fb_navigate_screen := strip (get_or row (fkey "button" n "_navigate_screen") "") |}
          else None) range10.

(** The copy-code loop (lines 254-265); [Raise] carries the message of
    its early [return "error", ...]. *)
Fixpoint copy_code_buttons_of (row : Row) (ns : list nat) (acc : list copy_code_button)
    : result (list copy_code_button) :=
  match ns with
  | [] => Ok acc
  | n :: ns' =>
      let cta_type := lower (strip (get_or row (fkey "cta" n "_type") "")) in
      if decide (cta_type = "copy_code") then
        let coupon_code := strip (get_or row (fkey "cta" n "_coupon_code") "") in
        if decide (coupon_code = "") then
          Raise (fkey "cta" n "_coupon_code" +:+ " is required for copy_code buttons")
        else
          copy_code_buttons_of row ns'
            (acc ++ [{| cc_index := str_nat (length acc); cc_coupon_code := coupon_code |}])
      else copy_code_buttons_of row ns' acc
  end.

Section PrepareRow.

Context {S : Type}.
Variable row : Row.
Variable client : Client S.

(** Lines 173-214, [msg_type == "interactive"]. *)
Definition prepare_interactive (phone : string) (s : S) : prepared S :=
  let body_text := strip (get_or row "body_text" "") in
  let footer_text := or_none (strip (get_or row "footer_text" "")) in
  let '(cta_type, cta_text, cta_url, cta_phone) := scan_cta row range10 in
  match cta_type with
  | None =>
      Prepared ("skip", phone, None, "interactive needs body_text and at least one CTA") [] s
  | Some cta_type =>
      if decide (body_text = "") then
        Prepared ("skip", phone, None, "interactive needs body_text and at least one CTA") [] s
      else if decide (cta_type = "copy_code") then
        Prepared ("skip", phone, None, "interactive CTA does not support copy_code") [] s
      else
        let '(built, called) :=
          if decide (cta_type = "call") then
            let phone_number := default "" cta_phone in
            let display_text := or_str (default "" cta_text) "Call" in
            (build_interactive_cta_call client phone body_text phone_number display_text footer_text,
             BuildInteractiveCtaCall phone body_text phone_number display_text footer_text)
          else
            let url := default "" cta_url in
            let display_text := or_str (default "" cta_text) "View" in
            (build_interactive_cta_url client phone body_text url display_text footer_text,
             BuildInteractiveCtaUrl phone body_text url display_text footer_text) in
        match built with
        | Raise e => Prepared ("error", phone, None, "build_failed: " +:+ e) [called] s
        | Ok payload => Prepared ("ready", phone, Some payload, "") [called] s
        end
  end.

(** Lines 268-287: the two builder calls inside one [try]. *)
Definition build_template (phone template lang : string) (a : components_args)
    (calls : list call) (s : S) : prepared S :=
  match build_template_components client a with
  | Raise e =>
      Prepared ("error", phone, None, "build_failed: " +:+ e)
               (calls ++ [BuildTemplateComponents a]) s
  | Ok components =>
      let components := if components is [] then None else Some components in
      let calls := calls ++ [BuildTemplateComponents a;
                             BuildTemplatePayload phone template lang components] in
      match build_template_payload client phone template lang components with
      | Raise e => Prepared ("error", phone, None, "build_failed: " +:+ e) calls s
      | Ok payload => Prepared ("ready", phone, Some payload, "") calls s
      end
  end.

(** Lines 236-287, after the header media has been settled. *)
Definition prepare_template_rest (phone template lang header_type : string)
    (header_text header_media_url : option string) (header_media_id : json)
    (calls : list call) (s : S) : prepared S :=
  let body_params := default [] (parse_list (row !! "body_params") "|") in
  let button_params := parse_button_params (row !! "button_params") in
  let button_params :=
    match button_params with
    | Some (g :: gs) => Some (g :: gs)
    | _ => infer_button_params_from_cta row
    end in
  let flow_buttons := flow_buttons_of row in
  match copy_code_buttons_of row range10 [] with
  | Raise message => Prepared ("error", phone, None, message) calls s
  | Ok copy_code_buttons =>
      build_template phone template lang
        {| header_type := header_type;
           header_text := header_text;
           header_media_id := header_media_id;
           header_media_link := header_media_url;
           body_params := body_params;
           button_params := button_params;
           button_flow := if flow_buttons is [] then None else Some flow_buttons;
           button_copy_code := if copy_code_buttons is [] then None
                               else Some copy_code_buttons |}
        calls s
  end.

(** Lines 216-287, the default template mode. *)
Definition prepare_template (phone : string) (s : S) : prepared S :=
  let template := strip (get_or row "template" "") in
  let lang := strip (get_or row "lang" "en_US") in
  if decide (template = "") then
    Prepared ("skip", phone, None, "missing template for template msg_type") [] s
  else
    let header_type := lower (strip (get_or row "header_type" "none")) in
    let header_text := match row !! "header_text" with
                       | Some v => or_none v
                       | None => None
                       end in
    let header_media_path := or_none (strip (get_or row "header_media_path" "")) in
    let header_media_url := or_none (strip (get_or row "header_media_url" "")) in
    let header_media_id_csv := or_none (strip (get_or row "header_media_id" "")) in
    let header_media_id := of_opt header_media_id_csv in
    let rest := prepare_template_rest phone template lang header_type
                                      header_text header_media_url in
    if is_media_header header_type then
      match header_media_path with
      | Some path =>
          if truthy header_media_id then rest header_media_id [] s
          else
            let '(media_info, s) := upload_media client path s in
            match media_info with
            | Raise e =>
                Prepared ("error", phone, None, "media_upload_failed: " +:+ e)
                         [UploadMedia path] s
            | Ok media_info =>
                match dict_get media_info "id" with
                | None =>
                    (* media_info["id"] raises KeyError('id') *)
                    Prepared ("error", phone, None, "media_upload_failed: 'id'")
                             [UploadMedia path] s
                | Some id => rest id [UploadMedia path] s
                end
            end
      | None => rest header_media_id [] s
      end
    else rest header_media_id [] s.

Definition _prepare_row (s : S) : prepared S :=
  let phone := strip (get_or row "phone" "") in
  if decide (phone = "") then Prepared ("skip", "", None, "missing phone") [] s
  else
    let msg_type := lower (strip (get_or row "msg_type" "template")) in
    if decide (msg_type = "interactive") then prepare_interactive phone s
    else prepare_template phone s.

End PrepareRow.

(** ** Floats

    A Python [float] is a binary64 number, here the rational it stands
    for. An operation on floats gives the exact result rounded to the
    nearest number with a significand of 53 bits, the one with the even
    significand at a tie. The exponent is not bounded: [round] is the
    rounding of binary64 wherever the result neither overflows nor
    falls below the normal range, and a difference of two floats that
    falls below the normal range is exact in both. Clock readings and
    their differences are far from overflow. *)

Module Float.

(** [2 ** e] *)
Definition pow2 (e : Z) : Q := (2 ^ e)%Q.

(** The exponent [e] with [2 ** e <= x < 2 ** (e + 1)], for [x > 0]. *)
Definition binade (x : Q) : Z :=
  if Qle_bool 1 x then Z.log2 (Qfloor x) else (- Z.log2_up (Qceiling (/ x)))%Z.

(** The nearest integer, the even one of the two at a tie. *)
Definition rne (z : Q) : Z :=
  let f := Qfloor z in
  match (z - inject_Z f ?= 1 # 2)%Q with
  | Lt => f
  | Gt => (f + 1)%Z
  | Eq => if Z.even f then f else (f + 1)%Z
  end.

(** The nearest number with a significand of 53 bits, for [x > 0]. *)
Definition round_pos (x : Q) : Q :=
  let e := binade x in
  inject_Z (rne (x * pow2 (52 - e))) * pow2 (e - 52).

Definition round (x : Q) : Q :=
  match (x ?= 0)%Q with
  | Eq => 0
  | Gt => round_pos x
  | Lt => - round_pos (- x)
  end.

(** [a - b] *)
Definition sub (a b : Q) : Q := round (a - b).

End Float.

(** ** send_batch.py: the rate limiter

    [time.monotonic()] readings are floats; [now - t] and [1.0 - ...]
    are float subtractions. *)

Module AsyncRateLimiter.

Record t : Type := {
  rate : Z;
  _timestamps : list Q
}.

(** [__init__] *)
Definition init (rate : Z) : t :=
  {| rate := Z.max 1 rate; _timestamps := [] |}.

(** [while self._timestamps and now - self._timestamps[0] >= 1.0: popleft()] *)
Fixpoint evict (now : Q) (ts : list Q) : list Q :=
  match ts with
  | [] => []
  | t0 :: ts' => if Qle_bool 1 (Float.sub now t0) then evict now ts' else ts
  end.

(** The literal [0.01]. *)
Definition poll : Q := Float.round (1 # 100).

Inductive outcome : Type :=
| Acquired
| Sleep (wait_for : Q).

(** One turn of the [while True] loop of [acquire]: the body run under
    the lock at clock reading [now]. [Sleep d] leaves the lock and awaits
    [asyncio.sleep(d)]. *)
Definition attempt (now : Q) (l : t) : outcome * t :=
  let ts := evict now (_timestamps l) in
  if (Z.of_nat (length ts) <? rate l)%Z then
    (Acquired, {| rate := rate l; _timestamps := ts ++ [now] |})
  else
    let wait_for := Float.sub 1 (Float.sub now (hd 0%Q ts)) in
    (Sleep (Qmax wait_for poll), {| rate := rate l; _timestamps := ts |}).

(** [acquire] for a caller that is alone on the limiter; [wake now d] is
    the clock reading when [asyncio.sleep(d)] started at [now] is over.
    [None]: still waiting after [fuel] sleeps. *)
Fixpoint acquire (fuel : nat) (wake : Q -> Q -> Q) (now : Q) (l : t) : option (Q * t) :=
  match attempt now l with
  | (Acquired, l') => Some (now, l')
  | (Sleep d, l') =>
      match fuel with
      | O => None
      | S fuel' => acquire fuel' wake (wake now d) l'
      end
  end.

(** Any number of callers: the lock serialises the loop bodies, so a run
    is the list of turns [(caller, now)] in the order the lock was taken.
    [serve] gives the turns at which [acquire] returned. *)
Fixpoint serve (turns : list (nat * Q)) (l : t) : list (nat * Q) * t :=
  match turns with
  | [] => ([], l)
  | (caller, now) :: rest =>
      let '(o, l') := attempt now l in
      let '(returns, l'') := serve rest l' in
      (match o with
       | Acquired => (caller, now) :: returns
       | Sleep _ => returns
       end, l'')
  end.

(** The readings of a monotonic clock never decrease. *)
Fixpoint monotonic (prev : Q) (turns : list (nat * Q)) : Prop :=
  match turns with
  | [] => True
  | (_, now) :: rest => (prev <= now)%Q /\ monotonic now rest
  end.

(** How many of the instants fall in the window [[a, a + width)]. *)
Definition in_window (width a x : Q) : bool :=
  Qle_bool a x && negb (Qle_bool (a + width) x).

Definition count_in_window (width a : Q) (returns : list (nat * Q)) : nat :=
  length (filter (fun r => in_window width a (snd r) = true) returns).

(** [t] is still inside the trailing window at [now]: the test
    [now - t >= 1.0] of the eviction loop fails. *)
Definition live (now t : Q) : bool := negb (Qle_bool 1 (Float.sub now t)).

(** The shortest distance from [t] to [now] at which that test holds:
    [1 - 2 ** -54], which the float subtraction rounds to [1.0]. *)
Definition second : Q := 1 - (1 # 18014398509481984).

(** The returns still inside the trailing window at [now]. *)
Definition trailing (now : Q) (returns : list (nat * Q)) : list (nat * Q) :=
  filter (fun r => live now (snd r) = true) returns.

(** The last clock reading of a run that started at [t0]. *)
Fixpoint last_reading (t0 : Q) (turns : list (nat * Q)) : Q :=
  match turns with
  | [] => t0
  | (_, now) :: rest => last_reading now rest
  end.

End AsyncRateLimiter.

(** ** send_batch.py: results, progress events, outcome log *)

Module BatchProgressEvent.

Record t : Type := {
  index : Z;
  phone : string;
  status : string;
  sent : Z;
  skipped : Z;
  errors : Z;
  dry_run : bool;
  total : option Z;
  message : string
}.

Definition processed (e : t) : Z := sent e + skipped e + errors e.

End BatchProgressEvent.

Module BatchSendResult.

Record t : Type := {
  total_rows : option Z;
  processed : Z;
  sent : Z;
  skipped : Z;
  errors : Z;
  dry_run : bool;
  aborted : bool
}.

Definition init (total_rows : option Z) (dry_run : bool) : t :=
  {| total_rows := total_rows; processed := 0; sent := 0; skipped := 0;
     errors := 0; dry_run := dry_run; aborted := false |}.

(** [stats.aborted = True] *)
Definition set_aborted (r : t) : t :=
  {| total_rows := total_rows r; processed := processed r; sent := sent r;
     skipped := skipped r; errors := errors r; dry_run := dry_run r;
     aborted := true |}.

(** [stats.skipped += 1] *)
Definition add_skipped (r : t) : t :=
  {| total_rows := total_rows r; processed := processed r; sent := sent r;
     skipped := skipped r + 1; errors := errors r; dry_run := dry_run r;
     aborted := aborted r |}.

(** [stats.errors += 1] *)
Definition add_error (r : t) : t :=
  {| total_rows := total_rows r; processed := processed r; sent := sent r;
     skipped := skipped r; errors := errors r + 1; dry_run := dry_run r;
     aborted := aborted r |}.

(** [stats.sent += 1; stats.processed += 1] *)
Definition add_sent (r : t) : t :=
  {| total_rows := total_rows r; processed := processed r + 1; sent := sent r + 1;
     skipped := skipped r; errors := errors r; dry_run := dry_run r;
     aborted := aborted r |}.

(** [stats.total_rows = n] *)
Definition set_total_rows (n : option Z) (r : t) : t :=
  {| total_rows := n; processed := processed r; sent := sent r;
     skipped := skipped r; errors := errors r; dry_run := dry_run r;
     aborted := aborted r |}.

(** The rows that reached a terminal disposition. *)
Definition disposed (r : t) : Z := sent r + skipped r + errors r.

End BatchSendResult.

(** One line of the outcome log. *)
Inductive log_line : Type :=
| LogSkip (reason : string) (row : Row)
| LogError (reason : string) (row : Row)
| LogDryRun (payload : dict)
| LogSent (response : json)
| LogSendError (reason : string) (payload : dict).

(** ** The run control and its owner

    The stop and pause events belong to the caller; another thread sets
    and clears them while the batch runs. [owner k] is what that thread
    did between the previous look of the dispatcher at an event and its
    look number [k]. Within one batch the owner sets the stop event and
    never clears it. *)

Record RunControl : Type := {
  stop_event : option bool;     (* None: no event was passed *)
  pause_event : option bool
}.

Inductive owner_action : Type :=
| SetStop
| SetPause
| ClearPause.

Definition act (c : RunControl) (a : owner_action) : RunControl :=
  match a with
  | SetStop => {| stop_event := (fun _ => true) <$> stop_event c; pause_event := pause_event c |}
  | SetPause => {| stop_event := stop_event c; pause_event := (fun _ => true) <$> pause_event c |}
  | ClearPause => {| stop_event := stop_event c; pause_event := (fun _ => false) <$> pause_event c |}
  end.

(** The launch parameters shared by both dispatchers. *)
Record launch : Type := {
  l_dry_run : bool;
  l_delay_ms : Z;
  l_log_path : bool;               (* whether a log destination is given *)
  l_total_rows : option Z;
  l_progress_callback : bool;      (* whether an observer is registered *)
  l_owner : nat -> list owner_action
}.

(** Everything a dispatcher works on besides its counters. *)
Record world (S : Type) : Type := World {
  client_state : S;
  control : RunControl;
  looks : nat;                              (* looks at an event so far *)
  log : option (list log_line);             (* None: no log handle *)
  emitted : list BatchProgressEvent.t;      (* what the observer received *)
  trace : list call                         (* calls made on the client *)
}.
Arguments World {S} _ _ _ _ _ _.
Arguments client_state {S} _.
Arguments control {S} _.
Arguments looks {S} _.
Arguments log {S} _.
Arguments emitted {S} _.
Arguments trace {S} _.

Section Dispatch.

Context {S : Type}.
Variable client : Client S.
Variable cfg : launch.

Definition look (w : world S) : world S :=
  World (client_state w) (foldl act (control w) (l_owner cfg (looks w)))
        (Datatypes.S (looks w)) (log w) (emitted w) (trace w).

(** [stop_event and stop_event.is_set()] *)
Definition stop_is_set (w : world S) : bool * world S :=
  let w := look w in (default false (stop_event (control w)), w).

(** [pause_event and pause_event.is_set()] *)
Definition pause_is_set (w : world S) : bool * world S :=
  let w := look w in (default false (pause_event (control w)), w).

Definition _write_log_line (line : log_line) (w : world S) : world S :=
  World (client_state w) (control w) (looks w)
        ((fun lines => lines ++ [line]) <$> log w) (emitted w) (trace w).

Definition with_client (s : S) (calls : list call) (w : world S) : world S :=
  World s (control w) (looks w) (log w) (emitted w) (trace w ++ calls).

(** The closure [emit]; [total] is [total_count] in the sequential
    dispatcher and [stats.total_rows] in the concurrent one. *)
Definition emit (stats : BatchSendResult.t) (total : option Z)
    (status phone message : string) (row_index : Z) (w : world S) : world S :=
  if l_progress_callback cfg then
    World (client_state w) (control w) (looks w) (log w)
          (emitted w ++ [{| BatchProgressEvent.index := row_index;
                            BatchProgressEvent.phone := phone;
                            BatchProgressEvent.status := status;
                            BatchProgressEvent.sent := BatchSendResult.sent stats;
                            BatchProgressEvent.skipped := BatchSendResult.skipped stats;
                            BatchProgressEvent.errors := BatchSendResult.errors stats;
                            BatchProgressEvent.dry_run := l_dry_run cfg;
                            BatchProgressEvent.total := total;
                            BatchProgressEvent.message := message |}])
          (trace w)
  else w.

Definition _send_payload_sync (payload : dict) (w : world S)
    : (string * string) * world S :=
  if l_dry_run cfg then
    (("dry_run", ""), _write_log_line (LogDryRun payload) w)
  else
    let '(resp, s) := send_message client payload (client_state w) in
    let w := with_client s [SendMessage payload] w in
    match resp with
    | Ok resp => (("sent", ""), _write_log_line (LogSent resp) w)
    | Raise e =>
        let message := "send_failed: " +:+ e in
        (("error", message), _write_log_line (LogSendError message payload) w)
    end.

(** [send_status in {"sent", "dry_run"}] *)
Definition is_success (send_status : string) : bool :=
  bool_decide (send_status = "sent") || bool_decide (send_status = "dry_run").

(** *** Sequential mode *)

(** The pause loop of lines 399-403, at most [fuel] sleeps of 0.2 s long.
    [None]: the pause event was still set, and the stop event clear, when
    the budget ran out. *)
Fixpoint pause_wait (fuel : nat) (stats : BatchSendResult.t) (w : world S)
    : option (BatchSendResult.t * world S) :=
  let '(paused, w) := pause_is_set w in
  if paused then
    let '(stop, w) := stop_is_set w in
    if stop then Some (BatchSendResult.set_aborted stats, w)
    else match fuel with
         | O => None
         | Datatypes.S fuel' => pause_wait fuel' stats w
         end
  else Some (stats, w).

(** Lines 407-437: one row past the cancellation and pause checks. The
    sleep of [delay_ms] changes nothing here. *)
Definition process_row (total_count : option Z) (idx : Z) (row : Row)
    (stats : BatchSendResult.t) (w : world S) : BatchSendResult.t * world S :=
  let r := _prepare_row row client (client_state w) in
  let w := with_client (p_state r) (p_calls r) w in
  let '(status, phone, payload, message) := p_result r in
  if decide (status = "skip") then
    let stats := BatchSendResult.add_skipped stats in
    let w := _write_log_line (LogSkip message row) w in
    (stats, emit stats total_count "skip" phone message idx w)
  else if decide (status = "error") then
    let stats := BatchSendResult.add_error stats in
    let w := _write_log_line (LogError message row) w in
    (stats, emit stats total_count "error" phone message idx w)
  else
    match payload with
    | None => (stats, w)
    | Some payload =>
        let '((send_status, send_message), w) := _send_payload_sync payload w in
        if is_success send_status then
          let stats := BatchSendResult.add_sent stats in
          (stats, emit stats total_count send_status phone "" idx w)
        else
          let stats := BatchSendResult.add_error stats in
          (stats, emit stats total_count "error" phone send_message idx w)
    end.

(** The [for idx, row in enumerate(iterable, start=1)] loop. *)
Fixpoint batch_loop (fuel : nat) (total_count : option Z) (idx : Z) (rows : list Row)
    (stats : BatchSendResult.t) (w : world S) : option (BatchSendResult.t * world S) :=
  match rows with
  | [] => Some (stats, w)
  | row :: rest =>
      let '(stop, w) := stop_is_set w in
      if stop then Some (BatchSendResult.set_aborted stats, w)
      else
        match pause_wait fuel stats w with
        | None => None
        | Some (stats, w) =>
            if BatchSendResult.aborted stats then Some (stats, w)
            else
              let '(stats, w) := process_row total_count idx row stats w in
              batch_loop fuel total_count (idx + 1) rest stats w
        end
  end.

(** [run_batch_from_rows(rows, client, ...)] on a list of rows, started
    with the client state [s] and the events as [ctl]. *)
Definition run_batch_from_rows (fuel : nat) (rows : list Row) (s : S) (ctl : RunControl)
    : option (BatchSendResult.t * world S) :=
  let stats := BatchSendResult.init (l_total_rows cfg) (l_dry_run cfg) in
  let total_count := match l_total_rows cfg with
                     | Some n => Some n
                     | None => Some (Z.of_nat (length rows))
                     end in
  let w := World s ctl 0 (if l_log_path cfg then Some [] else None) [] [] in
  batch_loop fuel total_count 1 rows stats w.

End Dispatch.

(** *** Concurrent mode

    The workers are asyncio tasks on one event loop: between two awaits a
    worker runs alone. A step of the pool runs one worker from the await
    it is suspended at to its next one. The await on the queue is taken
    as a suspension point although asyncio completes it at once on a
    queue that is not empty, which only adds interleavings; the two
    locks are free whenever they are taken, since nothing awaits while
    holding them, so taking them is not a suspension point. The body of
    [_prepare_row] and of [_send_payload_sync], run by
    [asyncio.to_thread], takes effect at the step that resumes the
    worker, and the workers' clients share one state. *)

(** Where a worker is suspended. *)
Inductive worker : Type :=
| WIdle                                                    (* await queue.get() *)
| WPaused (idx : Z) (row : Row)                            (* await asyncio.sleep(0.2) *)
| WPreparing (idx : Z) (row : Row)                         (* await to_thread(_prepare_row) *)
| WAcquiring (idx : Z) (phone : string) (payload : dict)   (* await limiter.acquire() *)
| WSending (idx : Z) (phone : string) (payload : dict)     (* await to_thread(_send_payload_sync) *)
| WDelaying (idx : Z) (phone send_status send_message : string)  (* await asyncio.sleep(delay) *)
| WDone.                                                   (* returned *)

Definition is_done (wk : worker) : bool :=
  if wk is WDone then true else false.

(** Holding a row that was dequeued and has no disposition yet. *)
Definition holds_row (wk : worker) : bool :=
  match wk with
  | WIdle | WDone => false
  | _ => true
  end.

Record pool (S : Type) : Type := Pool {
  queue : list (option (Z * Row));   (* None is the sentinel *)
  workers : list worker;
  stats : BatchSendResult.t;
  limiter : AsyncRateLimiter.t;
  shared : world S;
  steps : nat                         (* steps taken so far *)
}.
Arguments Pool {S} _ _ _ _ _ _.
Arguments queue {S} _.
Arguments workers {S} _.
Arguments stats {S} _.
Arguments limiter {S} _.
Arguments shared {S} _.
Arguments steps {S} _.

(** [max(1, msg_per_sec or 1)], the rate handed to the limiter. *)
Definition limiter_rate (msg_per_sec : Z) : Z :=
  Z.max 1 (if (msg_per_sec =? 0)%Z then 1 else msg_per_sec).

(** [min(max(1, msg_per_sec // 4 or 1), 32)] *)
Definition derived_workers (msg_per_sec : Z) : Z :=
  Z.min (Z.max 1 (if (msg_per_sec / 4 =? 0)%Z then 1 else msg_per_sec / 4)) 32.

(** Lines 483-486. *)
Definition worker_count (msg_per_sec : Z) (async_workers : option Z) : Z :=
  match async_workers with
  | Some n => if negb (n =? 0)%Z && (0 <? n)%Z then n else derived_workers msg_per_sec
  | None => derived_workers msg_per_sec
  end.

(** [enumerate(rows_list, start=idx)] *)
Fixpoint enumerate (idx : Z) (rows : list Row) : list (Z * Row) :=
  match rows with
  | [] => []
  | row :: rest => (idx, row) :: enumerate (idx + 1) rest
  end.

Section Workers.

Context {S : Type}.
Variable client : Client S.
Variable cfg : launch.
Variable clock : nat -> Q.      (* time.monotonic() at each step of the pool *)

(** Lines 460-494: the pool before any worker has run. *)
Definition start_pool (rows : list Row) (msg_per_sec : Z) (async_workers : option Z)
    (s : S) (ctl : RunControl) : pool S :=
  let stats := BatchSendResult.init (l_total_rows cfg) (l_dry_run cfg) in
  let stats := BatchSendResult.set_total_rows
                 (match l_total_rows cfg with
                  | Some n => Some n
                  | None => Some (Z.of_nat (length rows))
                  end) stats in
  let worker_count := Z.to_nat (worker_count msg_per_sec async_workers) in
  Pool ((Some <$> enumerate 1 rows) ++ replicate worker_count None)
       (replicate worker_count WIdle)
       stats
       (AsyncRateLimiter.init (limiter_rate msg_per_sec))
       (World s ctl 0 (if l_log_path cfg then Some [] else None) [] [])
       0.

Definition set_worker (i : nat) (wk : worker) (p : pool S) : pool S :=
  Pool (queue p) (<[i := wk]> (workers p)) (stats p) (limiter p) (shared p) (steps p).

(** [update_stats] followed by [emit] (lines 514-523). *)
Definition update_stats (status phone message : string) (idx : Z) (p : pool S) : pool S :=
  let stats :=
    if is_success status then BatchSendResult.add_sent (stats p)
    else if decide (status = "skip") then BatchSendResult.add_skipped (stats p)
    else if decide (status = "error") then BatchSendResult.add_error (stats p)
    else stats p in
  Pool (queue p) (workers p) stats (limiter p)
       (emit cfg stats (BatchSendResult.total_rows stats) status phone message idx (shared p))
       (steps p).

(** The pause loop from its test to its next sleep, and lines 545-549
    when it is left. *)
Definition pause_turn (i : nat) (idx : Z) (row : Row) (p : pool S) : pool S :=
  let '(paused, w) := pause_is_set cfg (shared p) in
  if paused then
    let '(stop, w) := stop_is_set cfg w in
    if stop then
      (* aborted, break, then [if stats.aborted: task_done(); continue] *)
      Pool (queue p) (<[i := WIdle]> (workers p)) (BatchSendResult.set_aborted (stats p))
           (limiter p) w (steps p)
    else
      Pool (queue p) (<[i := WPaused idx row]> (workers p)) (stats p) (limiter p) w (steps p)
  else if BatchSendResult.aborted (stats p) then
    Pool (queue p) (<[i := WIdle]> (workers p)) (stats p) (limiter p) w (steps p)
  else
    Pool (queue p) (<[i := WPreparing idx row]> (workers p)) (stats p) (limiter p) w (steps p).

(** One turn of [limiter.acquire()]. *)
Definition acquire_turn (i : nat) (idx : Z) (phone : string) (payload : dict)
    (p : pool S) : pool S :=
  let '(o, l) := AsyncRateLimiter.attempt (clock (steps p)) (limiter p) in
  Pool (queue p)
       (<[i := match o with
               | AsyncRateLimiter.Acquired => WSending idx phone payload
               | AsyncRateLimiter.Sleep _ => WAcquiring idx phone payload
               end]> (workers p))
       (stats p) l (shared p) (steps p).

(** Lines 577-583. *)
Definition finish_send (i : nat) (idx : Z) (phone send_status send_message : string)
    (p : pool S) : pool S :=
  set_worker i WIdle
    (update_stats (if is_success send_status then send_status else "error")
                  phone send_message idx p).

(** Worker [i] runs from its await to the next one. *)
Definition worker_step (i : nat) (p : pool S) : pool S :=
  let p := Pool (queue p) (workers p) (stats p) (limiter p) (shared p) (Datatypes.S (steps p)) in
  match workers p !! i with
  | None => p
  | Some WDone => p
  | Some WIdle =>
      match queue p with
      | [] => p
      | None :: q =>
          Pool q (<[i := WDone]> (workers p)) (stats p) (limiter p) (shared p) (steps p)
      | Some (idx, row) :: q =>
          let '(stop, w) := stop_is_set cfg (shared p) in
          if stop then
            Pool q (workers p) (BatchSendResult.set_aborted (stats p)) (limiter p) w (steps p)
          else
            pause_turn i idx row (Pool q (workers p) (stats p) (limiter p) w (steps p))
      end
  | Some (WPaused idx row) => pause_turn i idx row p
  | Some (WPreparing idx row) =>
      let r := _prepare_row row client (client_state (shared p)) in
      let w := with_client (p_state r) (p_calls r) (shared p) in
      let '(status, phone, payload, message) := p_result r in
      if decide (status = "skip") then
        let w := _write_log_line (LogSkip message row) w in
        set_worker i WIdle
          (update_stats "skip" phone message idx
             (Pool (queue p) (workers p) (stats p) (limiter p) w (steps p)))
      else if decide (status = "error") then
        let w := _write_log_line (LogError message row) w in
        set_worker i WIdle
          (update_stats "error" phone message idx
             (Pool (queue p) (workers p) (stats p) (limiter p) w (steps p)))
      else
        match payload with
        | None => Pool (queue p) (<[i := WIdle]> (workers p)) (stats p) (limiter p) w (steps p)
        | Some payload =>
            acquire_turn i idx phone payload
              (Pool (queue p) (workers p) (stats p) (limiter p) w (steps p))
        end
  | Some (WAcquiring idx phone payload) => acquire_turn i idx phone payload p
  | Some (WSending idx phone payload) =>
      let '((send_status, send_message), w) := _send_payload_sync client cfg payload (shared p) in
      let p := Pool (queue p) (workers p) (stats p) (limiter p) w (steps p) in
      if is_success send_status && (0 <? l_delay_ms cfg)%Z then
        set_worker i (WDelaying idx phone send_status send_message) p
      else finish_send i idx phone send_status send_message p
  | Some (WDelaying idx phone send_status send_message) =>
      finish_send i idx phone send_status send_message p
  end.

(** The pool after the workers named by [schedule] took a step each, in
    that order. *)
Definition run_pool (schedule : list nat) (p : pool S) : pool S :=
  foldl (fun p i => worker_step i p) p schedule.

(** [await queue.join()] and the awaits on the tasks are over once every
    worker has returned; the result is [stats]. *)
Definition pool_result (p : pool S) : option BatchSendResult.t :=
  if forallb is_done (workers p) then Some (stats p) else None.

(** [async_run_batch_from_rows] under the given schedule. [None]: some
    worker has not returned yet. *)
Definition async_run_batch_from_rows (schedule : list nat) (rows : list Row)
    (msg_per_sec : Z) (async_workers : option Z) (s : S) (ctl : RunControl)
    : option BatchSendResult.t :=
  pool_result (run_pool schedule (start_pool rows msg_per_sec async_workers s ctl)).

End Workers.

(** ** Vocabulary of the statements *)

(** A text made of whitespace only; the empty text is one. *)
Fixpoint all_space (s : string) : bool :=
  match s with
  | EmptyString => true
  | String c s' => isspace c && all_space s'
  end.

(** The destination address is missing, empty or whitespace-only. *)
Definition no_phone (row : Row) : Prop :=
  match row !! "phone" with
  | None => True
  | Some v => all_space v = true
  end.

(** The row has a destination address and its [msg_type] selects the
    interactive kind: the rows that reach line 173. *)
Definition interactive_kind (row : Row) : Prop :=
  ~ no_phone row /\ lower (strip (get_or row "msg_type" "template")) = "interactive".

(** The row has a destination address and is of the (default) template
    kind with a template name: the rows that reach line 222. *)
Definition template_kind (row : Row) : Prop :=
  ~ no_phone row
  /\ lower (strip (get_or row "msg_type" "template")) <> "interactive"
  /\ strip (get_or row "template" "") <> "".

(** The kind of the call-to-action descriptor [n], normalised as the
    source does; a descriptor is well-formed when its kind is not empty. *)
Definition cta_kind (row : Row) (n : nat) : string :=
  lower (strip (get_or row (fkey "cta" n "_type") "")).

(** Descriptor [n] is the first well-formed one among 0..9, of kind [ct]. *)
Definition first_cta (row : Row) (n : nat) (ct : string) : Prop :=
  n < 10 /\ cta_kind row n = ct /\ ct <> ""
  /\ forall m, m < n -> cta_kind row m = "".

(** A cell of the row, stripped, or [None] when nothing is left. *)
Definition cell (row : Row) (k : string) : option string :=
  or_none (strip (get_or row k "")).

(** How many times the media-upload collaborator was called. *)
Definition uploads (calls : list call) : nat :=
  length (filter (fun c => is_upload c = true) calls).

(** The state of a client after any further calls of [upload_media]
    and [send_message] made one after the other. *)
Inductive after_calls (config : WhatsAppConfig) (rt : Runtime)
    : ClientState -> ClientState -> Prop :=
| after_none s : after_calls config rt s s
| after_upload s s' file_path mime_type :
    after_calls config rt s s' ->
    after_calls config rt s (snd (WhatsAppClient.upload_media config rt file_path mime_type s'))
| after_send s s' payload :
    after_calls config rt s s' ->
    after_calls config rt s (snd (WhatsAppClient.send_message config rt payload s')).

(** [clamp(x, lo, hi)] of the specification. *)
Definition clamp (x lo hi : Z) : Z := Z.min (Z.max x lo) hi.

(** What holds of a limiter at clock reading [last], after it granted
    the returns [rs] (oldest first): the deque holds the returns of the
    trailing window, oldest first, no more than the rate [R] of them, and
    no window [[a, a + second)] has more than [R] returns. *)
Record limiter_inv (R : Z) (l : AsyncRateLimiter.t) (rs : list (nat * Q)) (last : Q) : Prop := {
  inv_rate : AsyncRateLimiter.rate l = R;
  inv_le : Forall (fun r => (snd r <= last)%Q) rs;
  inv_sorted : StronglySorted Qle (snd <$> rs);
  inv_deque : AsyncRateLimiter._timestamps l = snd <$> AsyncRateLimiter.trailing last rs;
  inv_len : (Z.of_nat (length (AsyncRateLimiter.trailing last rs)) <= R)%Z;
  inv_window : forall a, (Z.of_nat (AsyncRateLimiter.count_in_window
                                     AsyncRateLimiter.second a rs) <= R)%Z
}.

(** The readings of [ts] still inside the trailing window at [now]. *)
Definition trail (now : Q) (ts : list Q) : list Q :=
  filter (fun t => AsyncRateLimiter.live now t = true) ts.

(** No cancellation: the stop event, if there is one, is clear at launch
    and its owner never sets it. *)
Definition never_cancelled (cfg : launch) (ctl : RunControl) : Prop :=
  stop_event ctl <> Some true /\ forall k, SetStop ∉ l_owner cfg k.

(** No pause: the pause event, if there is one, is clear at launch and
    its owner never sets it. *)
Definition never_paused (cfg : launch) (ctl : RunControl) : Prop :=
  pause_event ctl <> Some true /\ forall k, SetPause ∉ l_owner cfg k.

(** The total-rows hint is absent or equal to the number of rows. *)
Definition hint_matches (cfg : launch) (rows : list Row) : Prop :=
  l_total_rows cfg = None \/ l_total_rows cfg = Some (Z.of_nat (length rows)).

(** Counting in a pool: the workers that have not returned, the workers
    that hold a row, the rows and the sentinels still queued. *)
Definition count_workers (f : worker -> bool) (ws : list worker) : nat :=
  length (filter (fun wk => f wk = true) ws).

Definition alive (ws : list worker) : nat :=
  count_workers (fun wk => negb (is_done wk)) ws.

Definition holding (ws : list worker) : nat := count_workers holds_row ws.

Definition rows_left (q : list (option (Z * Row))) : nat := length (omap id q).

Definition sentinels (q : list (option (Z * Row))) : nat :=
  length (filter (fun x => x = None) q).

(** The queue holds rows first and sentinels after them. *)
Definition rows_first (q : list (option (Z * Row))) : Prop :=
  exists items k, q = (Some <$> items) ++ replicate k None.

(** What holds of a pool at every step of a batch of [N] rows: every row
    is counted, held by a worker, or still queued, unless rows were
    dropped, which needs the aborted flag; there is one sentinel per
    worker that has not returned; a worker returns only from a queue
    without rows; and [processed] is [sent]. *)
Definition pool_inv {S : Type} (N : nat) (p : pool S) : Prop :=
  rows_first (queue p)
  /\ sentinels (queue p) = alive (workers p)
  /\ (BatchSendResult.disposed (stats p) + Z.of_nat (holding (workers p))
      + Z.of_nat (rows_left (queue p)) <= Z.of_nat N)%Z
  /\ (BatchSendResult.aborted (stats p) = false ->
      (BatchSendResult.disposed (stats p) + Z.of_nat (holding (workers p))
       + Z.of_nat (rows_left (queue p)) = Z.of_nat N)%Z)
  /\ (alive (workers p) < length (workers p) -> rows_left (queue p) = 0)
  /\ 0 < length (workers p)
  /\ BatchSendResult.processed (stats p) = BatchSendResult.sent (stats p).

(** What holds of a pool at every step once the stop event is set at
    launch: nothing is counted, no worker holds a row, and the aborted
    flag is set as soon as a row has left the queue. *)
Definition cancelled_inv {S : Type} (N : nat) (p : pool S) : Prop :=
  stop_event (control (shared p)) = Some true
  /\ Forall (fun wk => wk = WIdle \/ wk = WDone) (workers p)
  /\ BatchSendResult.sent (stats p) = 0%Z
  /\ BatchSendResult.skipped (stats p) = 0%Z
  /\ BatchSendResult.errors (stats p) = 0%Z
  /\ (rows_left (queue p) < N -> BatchSendResult.aborted (stats p) = true).

(** The control and the count of looks after [n] more looks. *)
Fixpoint looked (cfg : launch) (n : nat) (c : RunControl) (k : nat) : RunControl * nat :=
  match n with
  | O => (c, k)
  | Datatypes.S n' => looked cfg n' (foldl act c (l_owner cfg k)) (Datatypes.S k)
  end.

(** What a step of the pool may do to the events and the counters: it
    looks at the events some number of times and changes nothing else
    about them; it sets the aborted flag only on a stop event that it
    has seen set; it never decreases a counter and leaves [total_rows]
    alone. *)
Definition step_effect {S : Type} (cfg : launch) (p p' : pool S) : Prop :=
  (exists n, (control (shared p'), looks (shared p'))
             = looked cfg n (control (shared p)) (looks (shared p)))
  /\ (BatchSendResult.aborted (stats p') = BatchSendResult.aborted (stats p)
      \/ (BatchSendResult.aborted (stats p') = true
          /\ stop_event (control (shared p')) = Some true))
  /\ (BatchSendResult.sent (stats p) <= BatchSendResult.sent (stats p'))%Z
  /\ (BatchSendResult.skipped (stats p) <= BatchSendResult.skipped (stats p'))%Z
  /\ (BatchSendResult.errors (stats p) <= BatchSendResult.errors (stats p'))%Z
  /\ BatchSendResult.total_rows (stats p') = BatchSendResult.total_rows (stats p).

(** The stop event is set when the dispatcher takes its look number [k]
    (from 0) at the events: it was set at launch or its owner set it
    before that look. *)
Definition stop_seen (cfg : launch) (ctl : RunControl) (k : nat) : Prop :=
  stop_event (fst (looked cfg (Datatypes.S k) ctl 0)) = Some true.

(** What holds of a pool of a batch of [N] rows from the moment on at
    which the stop event is set while a row is still queued: a
    cancellation check finds the event set, and a row is still queued
    or a row was dropped, with the aborted flag set. *)
Definition dropping_inv {S : Type} (cfg : launch) (N : nat) (p : pool S) : Prop :=
  0 < N
  /\ fst (stop_is_set cfg (shared p)) = true
  /\ ((pool_inv N p /\ 0 < rows_left (queue p))
      \/ (BatchSendResult.aborted (stats p) = true /\ pool_inv (N - 1) p)).

(** Sample data for the examples. *)
Module Sample.

Definition config : WhatsAppConfig :=
  {| token := "TOKEN"; phone_number_id := "1055"; api_version := "v20.0";
     base_url := "https://graph.facebook.com" |}.

(** Two files on disk with the same bytes, [/srv/promo.png] and
    [/srv/copy.png]; the endpoint accepts every upload and names the
    asset after the request number; the cache file can be written. *)
Definition rt : Runtime :=
  {| path_resolve := fun p => "/srv/" +:+ p;
     path_name := fun p => p;
     fs_read := fun p => if decide (p = "/srv/promo.png") then Some "PNGDATA"
                         else if decide (p = "/srv/copy.png") then Some "PNGDATA"
                         else None;
     sha256_hex := fun bytes => "digest-of-" +:+ bytes;
     guess_type := fun _ => Some "image/png";
     http_post := fun n _ =>
       Ok {| status_code := 200; text := "ok";
             json_body := Ok (JDict [("id", JStr ("MEDIA" +:+ str_nat n))]) |};
     time_now := fun _ => 1700000000%Z;
     py_str := fun _ => "{}";
     cache_write := fun _ => None |}.

Definition client : Client ClientState := whatsapp_client config rt.

Definition fresh : ClientState := {| media_cache := ∅; posted := [] |}.

Definition row_of (cells : list (string * string)) : Row := list_to_map cells.

(** Five turns on a limiter of rate 2, taken by three callers. *)
Definition turns : list (nat * Q) :=
  [(0, 0%Q); (1, (1 # 8)%Q); (2, (1 # 4)%Q); (0, 1%Q); (2, (5 # 4)%Q)].

(** Two turns at the readings [2 ** -60] and [1.0]: less than a second
    apart, at a float distance of [1.0]. *)
Definition near_turns : list (nat * Q) :=
  [(0, (1 # 1152921504606846976)%Q); (1, 1%Q)].

(** A batch of three rows: one that is sent, one without a destination
    address, one whose header type no builder accepts. *)
Definition rows : list Row :=
  [row_of [("phone", "201000000001"); ("template", "promo"); ("body_params", "Ann|10%")];
   row_of [("phone", " "); ("template", "promo")];
   row_of [("phone", "201000000003"); ("template", "promo"); ("header_type", "sticker")]].

Definition launch_with (owner : nat -> list owner_action) : launch :=
  {| l_dry_run := false; l_delay_ms := 0; l_log_path := true;
     l_total_rows := None; l_progress_callback := true; l_owner := owner |}.

(** An owner that never touches the events. *)
Definition quiet : launch := launch_with (fun _ => []).

(** An owner that sets the stop event right after the first look of the
    dispatcher, that is after the cancellation check of the first row. *)
Definition late_stop : launch :=
  launch_with (fun k => if decide (k = 1) then [SetStop] else []).

Definition events_clear : RunControl :=
  {| stop_event := Some false; pause_event := Some false |}.

Definition stop_set : RunControl :=
  {| stop_event := Some true; pause_event := Some false |}.

(** A clock that advances by an eighth of a second per step of the pool,
    and a schedule that gives the two workers alternating turns. *)
Definition clock (k : nat) : Q := Z.of_nat k # 8.

Definition round_robin : list nat := [0; 1; 0; 1; 0; 1; 0; 1; 0; 1; 0; 1].

End Sample.

(** ** Vocabulary of the further statements *)

(** The character occurs in the text, and how often. *)
Fixpoint contains (c : ascii) (s : string) : bool :=
  match s with
  | EmptyString => false
  | String c' s' => if decide (c' = c) then true else contains c s'
  end.

Fixpoint occurrences (c : ascii) (s : string) : nat :=
  match s with
  | EmptyString => 0
  | String c' s' => (if decide (c' = c) then 1 else 0) + occurrences c s'
  end.

(** ** payload_builder.py *)

(** [sep.join(parts)] *)
Fixpoint join (sep : string) (parts : list string) : string :=
  match parts with
  | [] => ""
  | [x] => x
  | x :: rest => x +:+ sep +:+ join sep rest
  end.

Module CtaButton.

Record t : Type := {
  type : string;
  text : string;
  url : string;
  phone : string;
  coupon_code : string
}.

(** [CtaButton()], the dataclass defaults. *)
Definition default : t :=
  {| type := "url"; text := ""; url := ""; phone := ""; coupon_code := "" |}.

(** [bool(a and b)] on strings. *)
Definition both (a b : string) : bool :=
  negb (bool_decide (a = "")) && negb (bool_decide (b = "")).

Definition is_complete (self : t) : bool :=
  let t := lower (or_str (type self) "url") in
  if decide (t = "url") then both (strip (text self)) (strip (url self))
  else if decide (t = "call") then both (strip (text self)) (strip (phone self))
  else if decide (t = "copy_code") then negb (bool_decide (strip (coupon_code self) = ""))
  else false.

End CtaButton.

Module FlowButton.

Record t : Type := {
  index : string;
  flow_token : string;
  flow_action : string;
  navigate_screen : string
}.

Definition is_complete (self : t) : bool :=
  negb (bool_decide (flow_token self = ""))
  && negb (bool_decide (flow_action self = ""))
  && negb (bool_decide (navigate_screen self = "")).

Definition to_csv_columns (self : t) (n : nat) : list (string * string) :=
  [(fkey "button" n "_type", "flow");
   (fkey "button" n "_index", index self);
   (fkey "button" n "_flow_token", flow_token self);
   (fkey "button" n "_flow_action", flow_action self);
   (fkey "button" n "_navigate_screen", navigate_screen self)].

End FlowButton.

(** [row.update(columns)] *)
Definition row_update (row : Row) (columns : list (string * string)) : Row :=
  foldl (fun r kv => <[fst kv := snd kv]> r) row columns.

(** [[f(n, x) for n, x in enumerate(xs)]], from [n]. *)
Fixpoint enumerate_from {A : Type} (n : nat) (xs : list A) : list (nat * A) :=
  match xs with
  | [] => []
  | x :: rest => (n, x) :: enumerate_from (S n) rest
  end.

Module TemplateConfig.

Record t : Type := {
  msg_type : string;
  template : string;
  lang : string;
  header_type : string;
  header_text : string;
  header_media_path : string;
  header_media_url : string;
  header_media_id : string;
  body_params : list string;
  button_params_groups : list (list string);
  flow_buttons : list FlowButton.t;
  body_text : string;
  footer_text : string;
  ctas : list CtaButton.t
}.

(** The loop over the call-to-action buttons of [validate] (lines 84-89);
    [Raise] carries the message of its [return False, ...]. *)
Fixpoint validate_ctas (i : nat) (ctas : list CtaButton.t) : result unit :=
  match ctas with
  | [] => Ok tt
  | cta :: rest =>
      let cta_type := lower (or_str (CtaButton.type cta) "url") in
      if negb (bool_decide (cta_type = "url") || bool_decide (cta_type = "call")
               || bool_decide (cta_type = "copy_code")) then
        Raise ("Unsupported CTA type: " +:+ CtaButton.type cta)
      else if bool_decide (cta_type = "copy_code")
              && bool_decide (strip (CtaButton.coupon_code cta) = "") then
        Raise ("CTA #" +:+ str_nat (i + 1) +:+ " (copy_code) requires a coupon code")
      else validate_ctas (S i) rest
  end.

(** The loop over the flow buttons of [validate] (lines 107-109). *)
Fixpoint validate_flows (i : nat) (fbs : list FlowButton.t) : result unit :=
  match fbs with
  | [] => Ok tt
  | fb :: rest =>
      if FlowButton.is_complete fb then validate_flows (S i) rest
      else Raise ("Flow button #" +:+ str_nat (i + 1) +:+ " is incomplete")
  end.

(** [validate]: [(ok, message)]. *)
Definition validate (self : t) : bool * string :=
  let mode := lower (or_str (msg_type self) "template") in
  if negb (bool_decide (mode = "template") || bool_decide (mode = "interactive")) then
    (false, "Invalid msg_type: " +:+ msg_type self)
  else
    match validate_ctas 0 (ctas self) with
    | Raise m => (false, m)
    | Ok _ =>
        let htype := lower (or_str (header_type self) "none") in
        if negb (bool_decide (htype = "none") || bool_decide (htype = "text")
                 || is_media_header htype) then
          (false, "Invalid header_type: " +:+ header_type self)
        else if bool_decide (htype = "text") && bool_decide (strip (header_text self) = "") then
          (false, "Header text is required when header_type is text")
        else
          let chosen :=
            length (filter (fun v => v <> "")
                           [strip (header_media_path self); strip (header_media_url self);
                            strip (header_media_id self)]) in
          if is_media_header htype && bool_decide (chosen = 0) then
            (false, "Choose one media source: Path or URL or existing Media ID")
          else if is_media_header htype && bool_decide (1 < chosen) then
            (false, "Only one media source allowed (Path OR URL OR Media ID)")
          else if decide (mode = "template") then
            if decide (strip (template self) = "") then
              (false, "Template name is required for template messages")
            else
              match validate_flows 0 (flow_buttons self) with
              | Raise m => (false, m)
              | Ok _ => (true, "")
              end
          else if decide (strip (body_text self) = "") then
            (false, "Body text is required for interactive CTA messages")
          else
            match ctas self with
            | [] => (false, "At least one CTA button is required for interactive messages")
            | cta0 :: _ =>
                if negb (CtaButton.is_complete cta0) then
                  (false, "First CTA button is incomplete")
                else if decide (lower (or_str (CtaButton.type cta0) "url") = "copy_code") then
                  (false, "Interactive CTA does not support copy_code buttons")
                else (true, "")
            end
    end.

(** [[p.strip() for p in params if str(p).strip()]] *)
Definition stripped_params (params : list string) : list string :=
  filter (fun p => p <> "") (strip <$> params).

Definition body_params_csv (self : t) : string :=
  join "|" (stripped_params (body_params self)).

Definition button_params_csv (self : t) : string :=
  join "," (filter (fun g => g <> "")
                   ((fun group => join "|" (stripped_params group))
                      <$> button_params_groups self)).

(** The loop of [copy_code_buttons] (lines 136-147). *)
Fixpoint copy_code_loop (ctas : list CtaButton.t) (buttons : list copy_code_button)
    : list copy_code_button :=
  match ctas with
  | [] => buttons
  | cta :: rest =>
      if decide (lower (CtaButton.type cta) = "copy_code") then
        let coupon := strip (CtaButton.coupon_code cta) in
        if decide (coupon = "") then copy_code_loop rest buttons
        else copy_code_loop rest
               (buttons ++ [{| cc_index := str_nat (length buttons); cc_coupon_code := coupon |}])
      else copy_code_loop rest buttons
  end.

Definition copy_code_buttons (self : t) : list copy_code_button :=
  copy_code_loop (ctas self) [].

Definition cta_columns (n : nat) (cta : CtaButton.t) : list (string * string) :=
  [(fkey "cta" n "_type", strip (CtaButton.type cta));
   (fkey "cta" n "_text", strip (CtaButton.text cta));
   (fkey "cta" n "_url", strip (CtaButton.url cta));
   (fkey "cta" n "_phone", strip (CtaButton.phone cta));
   (fkey "cta" n "_coupon_code", strip (CtaButton.coupon_code cta))].

Definition csv_row_for (self : t) (phone : string) : Row :=
  let row : Row :=
    list_to_map
      [("phone", strip phone);
       ("msg_type", lower (strip (or_str (msg_type self) "template")));
       ("template", strip (template self));
       ("lang", strip (lang self));
       ("body_params", body_params_csv self);
       ("header_type", lower (strip (or_str (header_type self) "none")));
       ("header_text", if decide (header_type self = "text")
                       then strip (header_text self) else "");
       ("header_media_path", strip (header_media_path self));
       ("header_media_url", strip (header_media_url self));
       ("header_media_id", strip (header_media_id self));
       ("button_params", button_params_csv self);
       ("body_text", strip (body_text self));
       ("footer_text", strip (footer_text self))] in
  let row :=
    foldl (fun r nfb => row_update r (FlowButton.to_csv_columns (snd nfb) (fst nfb)))
          row (enumerate_from 0 (flow_buttons self)) in
  foldl (fun r ncta => row_update r (cta_columns (fst ncta) (snd ncta)))
        row (enumerate_from 0 (ctas self)).

End TemplateConfig.

(** The loop of [build_csv_rows] (lines 221-229): the phones kept, in
    order, given those [seen] so far. *)
Fixpoint kept_phones (phones : list string) (seen : gset string) : list string :=
  match phones with
  | [] => []
  | raw :: rest =>
      let p := strip raw in
      if decide (p = "") then kept_phones rest seen
      else if decide (p ∈ seen) then kept_phones rest seen
      else p :: kept_phones rest ({[p]} ∪ seen)
  end.

Definition build_csv_rows (phones : list string) (config : TemplateConfig.t) : list Row :=
  TemplateConfig.csv_row_for config <$> kept_phones phones ∅.

(** [preview_payload]; the dummy client only lends its builders. *)
Definition preview_payload (phone : string) (config : TemplateConfig.t) : result dict :=
  let mode := lower (or_str (TemplateConfig.msg_type config) "template") in
  if decide (mode = "interactive") then
    let cta := match TemplateConfig.ctas config with
               | cta :: _ => cta
               | [] => CtaButton.default
               end in
    let cta_type := lower (or_str (CtaButton.type cta) "url") in
    if decide (cta_type = "copy_code") then
      Raise "Interactive CTA does not support copy_code buttons. Switch to template mode."
    else if decide (cta_type = "call") then
      WhatsAppClient.build_interactive_cta_call phone (TemplateConfig.body_text config)
        (CtaButton.phone cta) (or_str (CtaButton.text cta) "Call")
        (or_none (TemplateConfig.footer_text config))
    else
      WhatsAppClient.build_interactive_cta_url phone (TemplateConfig.body_text config)
        (CtaButton.url cta) (or_str (CtaButton.text cta) "View")
        (or_none (TemplateConfig.footer_text config))
  else
    let flows :=
      (fun fb => {| fb_index := FlowButton.index fb;
                    fb_flow_token := FlowButton.flow_token fb;
                    fb_flow_action := FlowButton.flow_action fb;
                    fb_navigate_screen := FlowButton.navigate_screen fb |})
        <$> TemplateConfig.flow_buttons config in
    let copies := TemplateConfig.copy_code_buttons config in
    match WhatsAppClient.build_template_components
            {| header_type := TemplateConfig.header_type config;
               header_text := or_none (TemplateConfig.header_text config);
               header_media_id := of_opt (or_none (TemplateConfig.header_media_id config));
               header_media_link := or_none (TemplateConfig.header_media_url config);
               body_params := TemplateConfig.body_params config;
               button_params := if TemplateConfig.button_params_groups config is []
                                then None
                                else Some (TemplateConfig.button_params_groups config);
               button_flow := if flows is [] then None else Some flows;
               button_copy_code := if copies is [] then None else Some copies |} with
    | Raise e => Raise e
    | Ok components =>
        WhatsAppClient.build_template_payload phone (TemplateConfig.template config)
          (or_str (TemplateConfig.lang config) "en_US")
          (if components is [] then None else Some components)
    end.

(** ** send_batch.py: [main]

    [max(1, min(80, args.msg_per_sec or 80))], also line 587 of
    [app/ui_app.py]. *)
Definition cli_msg_per_sec (arg : Z) : Z :=
  Z.max 1 (Z.min 80 (if (arg =? 0)%Z then 80 else arg)).

(** ** Vocabulary of the further statements, continued *)

(** The verdict of [_prepare_row], the first entry of its result. *)
Definition p_status {S : Type} (r : prepared S) : string := (p_result r).1.1.1.

(** The upload calls among the calls made. *)
Definition upload_calls (calls : list call) : list call :=
  filter (fun c => is_upload c = true) calls.

(** Copy-code buttons as both [_prepare_row] and [copy_code_buttons]
    build them: numbered from 0 in order, each with a coupon code. *)
Definition numbered_coupons (btns : list copy_code_button) : Prop :=
  cc_index <$> btns = str_nat <$> seq 0 (length btns)
  /\ Forall (fun b => cc_coupon_code b <> "") btns.

(** The reasons for which [build_template_components] rejects what the
    row processor hands it. *)
Definition builder_rejection (e : string) : Prop :=
  e = "header_type=text requires header_text"
  \/ (exists htype, is_media_header htype = true
                    /\ e = "header_type=" +:+ htype +:+ " requires media id or link")
  \/ (exists htype, e = "Unsupported header_type: " +:+ htype)
  \/ e = "button_flow requires flow_token, flow_action, navigate_screen".

Definition is_send (c : call) : bool :=
  if c is SendMessage _ then true else false.

(** What holds of the observer's events and of the calls made while a
    batch runs: the events count the disposed rows up from 1, carry the
    total [T] and the dry-run flag of the launch, and a dry run has
    called [send_message] never. *)
Definition progress_inv {S : Type} (cfg : launch) (T : option Z)
    (stats : BatchSendResult.t) (w : world S) : Prop :=
  (0 <= BatchSendResult.disposed stats)%Z
  /\ BatchProgressEvent.processed <$> emitted w
     = (if l_progress_callback cfg then seqZ 1 (BatchSendResult.disposed stats) else [])
  /\ Forall (fun e => BatchProgressEvent.total e = T
                      /\ BatchProgressEvent.dry_run e = l_dry_run cfg) (emitted w)
  /\ (l_dry_run cfg = true -> Forall (fun c => is_send c = false) (trace w)).

(** What holds besides in sequential mode at the row numbered [idx]:
    the rows before it are disposed, every event is numbered as the row
    it reports, and the log has a line per disposed row. *)
Definition sequential_inv {S : Type} (idx : Z) (stats : BatchSendResult.t)
    (w : world S) : Prop :=
  idx = (BatchSendResult.disposed stats + 1)%Z
  /\ Forall (fun e => BatchProgressEvent.index e = BatchProgressEvent.processed e) (emitted w)
  /\ match log w with
     | Some lines => Z.of_nat (length lines) = BatchSendResult.disposed stats
     | None => True
     end.

(** The phone cells of exported rows. *)
Definition phone_column (rows : list Row) : list string :=
  (fun r : Row => default "" (r !! "phone")) <$> rows.

(** A decimal digit, a text of digits and a text without whitespace. *)
Definition is_digit (c : ascii) : bool :=
  ((48 <=? N_of_ascii c) && (N_of_ascii c <=? 57))%N.

Fixpoint all_digits (s : string) : bool :=
  match s with
  | EmptyString => true
  | String c s' => is_digit c && all_digits s'
  end.

Fixpoint no_space (s : string) : bool :=
  match s with
  | EmptyString => true
  | String c s' => negb (isspace c) && no_space s'
  end.

(** A column suffix as the exports write them: it starts with a
    character that is no digit. *)
Definition is_suffix (s : string) : Prop :=
  exists c t, s = String c t /\ is_digit c = false.

(** A flow button as the sender reads it back from the columns that
    [to_csv_columns] wrote for position [n]. *)
Definition read_flow_button (n : nat) (fb : FlowButton.t) : flow_button :=
  {| fb_index := strip (or_str (FlowButton.index fb) (str_nat n));
     fb_flow_token := strip (FlowButton.flow_token fb);
     fb_flow_action := strip (FlowButton.flow_action fb);
     fb_navigate_screen := strip (FlowButton.navigate_screen fb) |}.

(** Sample configurations for the examples. *)
Module SampleConfig.

(** An interactive message with one call button. *)
Definition call_us : TemplateConfig.t :=
  {| TemplateConfig.msg_type := "Interactive"; TemplateConfig.template := "";
     TemplateConfig.lang := "en_US"; TemplateConfig.header_type := "none";
     TemplateConfig.header_text := ""; TemplateConfig.header_media_path := "";
     TemplateConfig.header_media_url := ""; TemplateConfig.header_media_id := "";
     TemplateConfig.body_params := []; TemplateConfig.button_params_groups := [];
     TemplateConfig.flow_buttons := []; TemplateConfig.body_text := "Talk to us";
     TemplateConfig.footer_text := "";
     TemplateConfig.ctas := [{| CtaButton.type := "call"; CtaButton.text := "Call";
                                CtaButton.url := ""; CtaButton.phone := "+20100";
                                CtaButton.coupon_code := "" |}] |}.

(** An interactive message whose only button has no type. *)
Definition untyped : TemplateConfig.t :=
  {| TemplateConfig.msg_type := "interactive"; TemplateConfig.template := "";
     TemplateConfig.lang := "en_US"; TemplateConfig.header_type := "none";
     TemplateConfig.header_text := ""; TemplateConfig.header_media_path := "";
     TemplateConfig.header_media_url := ""; TemplateConfig.header_media_id := "";
     TemplateConfig.body_params := []; TemplateConfig.button_params_groups := [];
     TemplateConfig.flow_buttons := []; TemplateConfig.body_text := "Visit us";
     TemplateConfig.footer_text := "";
     TemplateConfig.ctas := [{| CtaButton.type := ""; CtaButton.text := "Open";
                                CtaButton.url := "https://example.com"; CtaButton.phone := "";
                                CtaButton.coupon_code := "" |}] |}.

(** A template message with body and button parameters to clean up. *)
Definition promo : TemplateConfig.t :=
  {| TemplateConfig.msg_type := "template"; TemplateConfig.template := "promo";
     TemplateConfig.lang := "en_US"; TemplateConfig.header_type := "none";
     TemplateConfig.header_text := ""; TemplateConfig.header_media_path := "";
     TemplateConfig.header_media_url := ""; TemplateConfig.header_media_id := "";
     TemplateConfig.body_params := [" Ann "; "  "; "10%"];
     TemplateConfig.button_params_groups := [["a "; " b"]; [" "]; ["c"]];
     TemplateConfig.flow_buttons := []; TemplateConfig.body_text := "";
     TemplateConfig.footer_text := ""; TemplateConfig.ctas := [] |}.

(** A template message with a link button and a coupon button. *)
Definition coupon : TemplateConfig.t :=
  {| TemplateConfig.msg_type := "template"; TemplateConfig.template := "sale";
     TemplateConfig.lang := "en_US"; TemplateConfig.header_type := "none";
     TemplateConfig.header_text := ""; TemplateConfig.header_media_path := "";
     TemplateConfig.header_media_url := ""; TemplateConfig.header_media_id := "";
     TemplateConfig.body_params := ["Ann"]; TemplateConfig.button_params_groups := [];
     TemplateConfig.flow_buttons := []; TemplateConfig.body_text := "";
     TemplateConfig.footer_text := "";
     TemplateConfig.ctas := [{| CtaButton.type := "url"; CtaButton.text := "Shop";
                                CtaButton.url := "https://example.com/sale";
                                CtaButton.phone := ""; CtaButton.coupon_code := "" |};
                             {| CtaButton.type := "COPY_CODE"; CtaButton.text := "";
                                CtaButton.url := ""; CtaButton.phone := "";
                                CtaButton.coupon_code := " SAVE10 " |}] |}.

End SampleConfig.

(** How many times [send_message] was called, and the workers that
    hold a grant of the limiter they have not used yet. *)
Definition sends (calls : list call) : nat :=
  length (filter (fun c => is_send c = true) calls).

Definition is_sending (wk : worker) : bool :=
  if wk is WSending _ _ _ then true else false.

(** The grants of the limiter in a run of the pool. A step of worker
    [i] is a grant when it takes the worker past
    [await limiter.acquire()], from before the send to the send; the
    grant is made at the clock reading of that step. *)
Definition granted_to (i : nat) (before after : list worker) : bool :=
  is_sending (default WIdle (after !! i)) && negb (is_sending (default WIdle (before !! i))).

Definition step_grant {S : Type} (clock : nat -> Q) (i : nat) (p p' : pool S)
    : list (nat * Q) :=
  if granted_to i (workers p) (workers p') then [(i, clock (steps p'))] else [].

Fixpoint pool_grants {S : Type} (client : Client S) (cfg : launch) (clock : nat -> Q)
    (schedule : list nat) (p : pool S) : list (nat * Q) :=
  match schedule with
  | [] => []
  | i :: rest =>
      let p' := worker_step client cfg clock i p in
      step_grant clock i p p' ++ pool_grants client cfg clock rest p'
  end.

(** What holds of a pool whose limiter granted the returns [rs]: the
    limiter is as [limiter_inv] says at some reading not after the
    clock, every send made or due has its grant, every grant of a run
    that is not dry is a send made or due, and the grants were made at
    readings of the clock. *)
Definition granted_inv {S : Type} (cfg : launch) (clock : nat -> Q) (R : Z) (p : pool S)
    (rs : list (nat * Q)) : Prop :=
  exists last, limiter_inv R (limiter p) rs last
               /\ (last <= clock (steps p))%Q
               /\ sends (trace (shared p)) + count_workers is_sending (workers p)
                  <= length rs
               /\ (l_dry_run cfg = false ->
                   sends (trace (shared p)) + count_workers is_sending (workers p)
                   = length rs)
               /\ Forall (fun r => exists k, k <= steps p /\ snd r = clock k) rs.

(** [csv_headers] of [payload_builder.py] (lines 149-185). *)
Definition flow_headers (n : nat) : list string :=
  [fkey "button" n "_type"; fkey "button" n "_index"; fkey "button" n "_flow_token";
   fkey "button" n "_flow_action"; fkey "button" n "_navigate_screen"].

Definition cta_headers (n : nat) : list string :=
  [fkey "cta" n "_type"; fkey "cta" n "_text"; fkey "cta" n "_url";
   fkey "cta" n "_phone"; fkey "cta" n "_coupon_code"].

Definition csv_headers (self : TemplateConfig.t) : list string :=
  ["phone"; "msg_type"; "template"; "lang"; "body_params"; "header_type"; "header_text";
   "header_media_path"; "header_media_url"; "header_media_id"; "button_params";
   "body_text"; "footer_text"]
  ++ concat ((fun nfb => flow_headers nfb.1)
               <$> enumerate_from 0 (TemplateConfig.flow_buttons self))
  ++ concat ((fun ncta => cta_headers ncta.1)
               <$> enumerate_from 0 (TemplateConfig.ctas self)).

(** The requests posted since the client was in state [s0] are uploads
    to the media endpoint. *)
Definition is_media_post (config : WhatsAppConfig) (req : http_request) : bool :=
  match req with
  | PostMedia url _ _ _ _ => bool_decide (url = media_url config)
  | PostJson _ _ => false
  end.

Definition only_uploads (config : WhatsAppConfig) (s0 s : ClientState) : Prop :=
  exists more, posted s = posted s0 ++ more
               /\ Forall (fun req => is_media_post config req = true) more.

(** * Properties *)

(** ** Text helpers *)

Lemma rstrip_empty s : rstrip s = "" -> all_space s = true.
Proof.
  induction s as [|c s IH]; simpl; [done|].
  destruct (rstrip s) eqn:E; [|done].
  destruct (isspace c); [|done]. intros _. by rewrite IH.
Qed.

Lemma lstrip_all_space s : all_space s = true -> lstrip s = "".
Proof.
  induction s as [|c s IH]; simpl; [done|].
  destruct (isspace c); simpl; [auto|done].
Qed.

Lemma lstrip_head s : lstrip s = "" \/ exists c r, lstrip s = String c r /\ isspace c = false.
Proof.
  induction s as [|c s IH]; simpl; [by left|].
  destruct (isspace c) eqn:E; [done|]. right. eauto.
Qed.

Lemma lstrip_empty s : lstrip s = "" -> all_space s = true.
Proof.
  induction s as [|c s IH]; simpl; [done|].
  destruct (isspace c); simpl; [auto|done].
Qed.

Lemma strip_empty_iff s : strip s = "" <-> all_space s = true.
Proof.
  unfold strip. split.
  - intros H. apply rstrip_empty in H.
    destruct (lstrip_head s) as [E|(c & r & E & Hc)]; [by apply lstrip_empty|].
    rewrite E in H. simpl in H. by rewrite Hc in H.
  - intros H. by rewrite lstrip_all_space.
Qed.

Lemma get_or_empty row k : get_or row k "" = default "" (row !! k).
Proof.
  unfold get_or, or_str. destruct (row !! k) as [v|]; simpl; [|done].
  by case_decide.
Qed.

Lemma no_phone_iff row : no_phone row <-> strip (get_or row "phone" "") = "".
Proof.
  unfold no_phone. rewrite get_or_empty, strip_empty_iff.
  destruct (row !! "phone"); simpl; [done|]. tauto.
Qed.

(** ** The row processor *)

(** C8. A row whose destination address is missing, empty or
    whitespace-only is skipped with the reason "missing phone", whatever
    its other fields are; no collaborator is called and the client is
    left as it was. *)
Theorem missing_phone_is_skipped {S : Type} (row : Row) (client : Client S) (s : S) :
  no_phone row ->
  _prepare_row row client s = Prepared ("skip", "", None, "missing phone") [] s.
Proof.
  intros H. apply no_phone_iff in H. unfold _prepare_row.
  rewrite H. by case_decide.
Qed.

Lemma missing_phone_is_skipped_witness :
  no_phone (Sample.row_of [("phone", "  "); ("template", "promo")])
  /\ _prepare_row (Sample.row_of [("phone", "  "); ("template", "promo")])
                  Sample.client Sample.fresh
     = Prepared ("skip", "", None, "missing phone") [] Sample.fresh.
Proof.
  split; [vm_compute; reflexivity|].
  apply (missing_phone_is_skipped _ Sample.client Sample.fresh).
  vm_compute. reflexivity.
Defined.



Lemma scan_cta_seq row a k n ct :
  a <= n < a + k -> cta_kind row n = ct -> ct <> "" ->
  (forall m, a <= m < n -> cta_kind row m = "") ->
  scan_cta row (seq a k)
  = (Some ct,
     Some (or_str (strip (get_or row (fkey "cta" n "_text") ""))
                  (if decide (ct = "url") then "View" else "Call")),
     cell row (fkey "cta" n "_url"),
     cell row (fkey "cta" n "_phone")).
Proof.
  revert a. induction k as [|k IH]; intros a Hn Hct Hne Hbefore; [lia|].
  simpl. destruct (decide (a = n)) as [->|Hna].
  - fold (cta_kind row n). rewrite Hct. by destruct (decide (ct = "")).
  - fold (cta_kind row a). rewrite (Hbefore a) by lia.
    destruct (decide ("" = "")); [|done]. apply IH; [lia|done|done|].
    intros m Hm. apply Hbefore. lia.
Qed.

Lemma scan_cta_first row n ct :
  first_cta row n ct ->
  scan_cta row range10
  = (Some ct,
     Some (or_str (strip (get_or row (fkey "cta" n "_text") ""))
                  (if decide (ct = "url") then "View" else "Call")),
     cell row (fkey "cta" n "_url"),
     cell row (fkey "cta" n "_phone")).
Proof.
  intros (Hn & Hct & Hne & Hbefore). apply scan_cta_seq; try done; [lia|].
  intros m Hm. apply Hbefore. lia.
Qed.

Lemma prepare_row_interactive {S : Type} (row : Row) (client : Client S) (s : S) :
  interactive_kind row ->
  _prepare_row row client s
  = prepare_interactive row client (strip (get_or row "phone" "")) s.
Proof.
  intros [Hp Hi]. rewrite no_phone_iff in Hp. unfold _prepare_row.
  case_decide; [done|]. rewrite Hi. by case_decide.
Qed.

(** C7, as the code has it. An interactive row whose first
    call-to-action descriptor is of kind [copy_code] is skipped, never
    an error and never ready, and no builder is called. The reason says
    that copy_code is unsupported when the row has a body text; without
    a body text the reason is the one of the earlier check on the body
    text and the call-to-action. *)
Theorem copy_code_first_is_skipped {S : Type} (row : Row) (client : Client S) (s : S) (n : nat) :
  interactive_kind row ->
  first_cta row n "copy_code" ->
  _prepare_row row client s
  = Prepared ("skip", strip (get_or row "phone" ""), None,
              if decide (strip (get_or row "body_text" "") = "")
              then "interactive needs body_text and at least one CTA"
              else "interactive CTA does not support copy_code") [] s.
Proof.
  intros Hk Hf. rewrite prepare_row_interactive by done.
  unfold prepare_interactive. rewrite (scan_cta_first _ _ _ Hf).
  case_decide; [done|]. by case_decide.
Qed.

Lemma copy_code_first_is_skipped_witness :
  let row := Sample.row_of [("phone", "201000000001"); ("msg_type", "interactive");
                            ("body_text", "Your coupon"); ("cta0_type", "copy_code")] in
  p_result (_prepare_row row Sample.client Sample.fresh)
  = ("skip", "201000000001", None, "interactive CTA does not support copy_code").
Proof.
  intros row.
  rewrite (copy_code_first_is_skipped row Sample.client Sample.fresh 0).
  - vm_compute. reflexivity.
  - split; [intros H; vm_compute in H; discriminate | vm_compute; reflexivity].
  - repeat split; [lia | vm_compute; discriminate | intros m Hm; lia].
Defined.

(** C7 as stated fails: an interactive row whose first descriptor is of
    kind [copy_code] but which has no body text is skipped with the
    reason of the body-text check, which does not mention copy_code. *)
Lemma copy_code_reason_counterexample :
  let row := Sample.row_of [("phone", "201000000001"); ("msg_type", "interactive");
                            ("cta0_type", "copy_code")] in
  interactive_kind row
  /\ first_cta row 0 "copy_code"
  /\ p_result (_prepare_row row Sample.client Sample.fresh)
     = ("skip", "201000000001", None, "interactive needs body_text and at least one CTA").
Proof.
  intros row. split; [|split].
  - split; [intros H; vm_compute in H; discriminate | vm_compute; reflexivity].
  - repeat split; [lia | vm_compute; discriminate | intros m Hm; lia].
  - vm_compute. reflexivity.
Qed.



(** *** Media upload in template mode *)

Lemma uploads_app (a b : list call) : uploads (a ++ b) = uploads a + uploads b.
Proof. unfold uploads. by rewrite filter_app, length_app. Qed.

Lemma prepare_row_template {S : Type} (row : Row) (client : Client S) (s : S) :
  template_kind row ->
  _prepare_row row client s
  = prepare_template row client (strip (get_or row "phone" "")) s.
Proof.
  intros (Hp & Hi & _). rewrite no_phone_iff in Hp. unfold _prepare_row.
  destruct (decide (strip (get_or row "phone" "") = "")); [done|].
  by destruct (decide (_ = "interactive")).
Qed.

Lemma build_template_uploads {S : Type} (client : Client S)
    phone template lang a calls (s : S) :
  uploads (p_calls (build_template client phone template lang a calls s)) = uploads calls.
Proof.
  unfold build_template.
  destruct (build_template_components client a) as [cs|e]; simpl.
  - destruct (build_template_payload client _ _ _ _); simpl;
      rewrite uploads_app; simpl; unfold uploads; simpl; lia.
  - rewrite uploads_app. unfold uploads. simpl. lia.
Qed.

Lemma prepare_template_rest_uploads {S : Type} (row : Row) (client : Client S)
    phone template lang ht htext hurl hid calls (s : S) :
  uploads (p_calls (prepare_template_rest row client phone template lang ht htext hurl hid calls s))
  = uploads calls.
Proof.
  unfold prepare_template_rest.
  destruct (copy_code_buttons_of row range10 []); [|done].
  apply build_template_uploads.
Qed.

(** In template mode with a media header, the upload collaborator is
    called once when the row has a local path and no media identifier,
    and not at all otherwise; a media URL in the row plays no part. *)
Lemma media_upload_condition {S : Type} (row : Row) (client : Client S) (s : S) :
  template_kind row ->
  is_media_header (lower (strip (get_or row "header_type" "none"))) = true ->
  uploads (p_calls (_prepare_row row client s))
  = match cell row "header_media_id", cell row "header_media_path" with
    | None, Some _ => 1
    | _, _ => 0
    end.
Proof.
  intros Hk Hm. rewrite prepare_row_template by done.
  destruct Hk as (_ & _ & Ht). unfold prepare_template.
  destruct (decide (strip (get_or row "template" "") = "")); [done|].
  rewrite Hm. fold (cell row "header_media_path") (cell row "header_media_id")
                   (cell row "header_media_url").
  destruct (cell row "header_media_path") as [path|].
  - destruct (cell row "header_media_id") as [i|] eqn:Ei; simpl.
    + assert (i <> "") as Hi.
      { unfold cell, or_none in Ei. by destruct (decide (_ = "")); simplify_eq. }
      destruct (decide (i = "")); [done|]. apply prepare_template_rest_uploads.
    + destruct (upload_media client path s) as [[info|e] s']; simpl; [|done].
      destruct (dict_get info "id"); [|done].
      by rewrite prepare_template_rest_uploads.
  - rewrite prepare_template_rest_uploads. by destruct (cell row "header_media_id").
Qed.

(** A failed upload is an error "media_upload_failed: <cause>". *)
Lemma media_upload_failure {S : Type} (row : Row) (client : Client S) (s s' : S) path e :
  template_kind row ->
  is_media_header (lower (strip (get_or row "header_type" "none"))) = true ->
  cell row "header_media_id" = None ->
  cell row "header_media_path" = Some path ->
  upload_media client path s = (Raise e, s') ->
  _prepare_row row client s
  = Prepared ("error", strip (get_or row "phone" ""), None, "media_upload_failed: " +:+ e)
             [UploadMedia path] s'.
Proof.
  intros Hk Hm Hid Hpath Hup. rewrite prepare_row_template by done.
  destruct Hk as (_ & _ & Ht). unfold prepare_template.
  destruct (decide (strip (get_or row "template" "") = "")); [done|].
  rewrite Hm. fold (cell row "header_media_path") (cell row "header_media_id").
  rewrite Hpath, Hid. simpl. by rewrite Hup.
Qed.

(** With the real builders, a payload built after an upload carries the
    identifier the upload returned, when that identifier is not empty. *)
Lemma media_upload_id_in_payload (config : WhatsAppConfig) (rt : Runtime)
    (row : Row) (s s' : ClientState) path info mid phone payload msg :
  template_kind row ->
  is_media_header (lower (strip (get_or row "header_type" "none"))) = true ->
  cell row "header_media_id" = None ->
  cell row "header_media_path" = Some path ->
  upload_media (whatsapp_client config rt) path s = (Ok info, s') ->
  dict_get info "id" = Some mid ->
  truthy mid = true ->
  p_result (_prepare_row row (whatsapp_client config rt) s) = ("ready", phone, Some payload, msg) ->
  jpath (JDict payload)
        [Key "template"; Key "components"; Idx 0; Key "parameters"; Idx 0;
         Key (lower (strip (get_or row "header_type" "none")))]
  = Some (JDict [("id", mid)]).
Proof.
  intros Hk Hm Hid Hpath Hup Hinfo Hmid. rewrite prepare_row_template by done.
  destruct Hk as (_ & _ & Ht). unfold prepare_template.
  destruct (decide (strip (get_or row "template" "") = "")); [done|].
  rewrite Hm. fold (cell row "header_media_path") (cell row "header_media_id").
  rewrite Hpath, Hid. cbn [of_opt truthy]. rewrite Hup, Hinfo.
  unfold prepare_template_rest.
  destruct (copy_code_buttons_of row range10 []) as [copies|]; [|done].
  unfold build_template. simpl.
  unfold WhatsAppClient.build_template_components, WhatsAppClient.header_component. simpl.
  set (ht := lower (strip (get_or row "header_type" "none"))) in *.
  assert (ht = "image" \/ ht = "video" \/ ht = "document") as Hht.
  { unfold is_media_header in Hm.
    repeat (apply orb_true_iff in Hm as [Hm|Hm]); apply bool_decide_eq_true in Hm; auto. }
  assert (lower (or_str ht "none") = ht) as ->.
  { by destruct Hht as [->|[->| ->]]. }
  destruct (decide (ht = "none")) as [->|_]; [by destruct Hht as [?|[?|?]]|].
  destruct (decide (ht = "text")) as [->|_]; [by destruct Hht as [?|[?|?]]|].
  rewrite Hm, Hmid.
  destruct (WhatsAppClient.flow_components _) as [flows|]; [|done].
  destruct (WhatsAppClient.copy_code_components _) as [cps|]; [|done].
  simpl. intros [= _ <- _]. simpl.
  by destruct Hht as [->|[->| ->]].
Qed.

(** C3 at the failing input: a template row with an image header that
    has both a media URL and a local path (and no media identifier).
    The processor calls the upload collaborator, one request is posted,
    and the payload carries the uploaded identifier instead of the
    URL of the row. *)
Theorem upload_despite_media_url :
  let row := Sample.row_of [("phone", "201000000001"); ("template", "promo");
                            ("header_type", "image");
                            ("header_media_url", "https://cdn.example.com/promo.png");
                            ("header_media_path", "promo.png")] in
  let r := _prepare_row row Sample.client Sample.fresh in
  cell row "header_media_url" = Some "https://cdn.example.com/promo.png"
  /\ uploads (p_calls r) = 1
  /\ length (posted (p_state r)) = 1
  /\ exists payload,
       p_result r = ("ready", "201000000001", Some payload, "")
       /\ jpath (JDict payload)
                [Key "template"; Key "components"; Idx 0; Key "parameters"; Idx 0; Key "image"]
          = Some (JDict [("id", JStr "MEDIA0")]).
Proof.
  intros row r. repeat split; try (vm_compute; reflexivity).
  eexists. split; vm_compute; reflexivity.
Qed.

(** ** The media cache *)

Lemma upload_media_hit config rt file_path mime_type s bytes record :
  fs_read rt (path_resolve rt file_path) = Some bytes ->
  WhatsAppClient.cache_hit (media_cache s !! ("sha256:" +:+ sha256_hex rt bytes)) = Some record ->
  WhatsAppClient.upload_media config rt file_path mime_type s = (Ok record, s).
Proof.
  intros Hfs Hhit. unfold WhatsAppClient.upload_media.
  rewrite Hfs. unfold WhatsAppClient._hash_file, MediaCache.get. by rewrite Hhit.
Qed.

Lemma cache_hit_Some cached record :
  WhatsAppClient.cache_hit cached = Some record <->
  cached = Some record /\ record <> [] /\ is_Some (dict_get record "id").
Proof.
  unfold WhatsAppClient.cache_hit. destruct cached as [d|]; [|split; [done|by intros [? _]]].
  simpl. destruct d as [|kv d]; simpl.
  { split; [done|]. by intros ([= <-] & ? & _). }
  case_bool_decide as Hid.
  - split; [by intros [= <-]|by intros ([= <-] & _)].
  - split; [done|]. by intros ([= <-] & _ & ?).
Qed.

(** A successful call that was no cache hit stored its record under
    the digest of the bytes and changed no other entry. *)
Lemma upload_media_records config rt file_path mime_type s bytes record s1 :
  fs_read rt (path_resolve rt file_path) = Some bytes ->
  WhatsAppClient.upload_media config rt file_path mime_type s = (Ok record, s1) ->
  WhatsAppClient.cache_hit (media_cache s1 !! ("sha256:" +:+ sha256_hex rt bytes)) = Some record
  /\ forall k, k <> "sha256:" +:+ sha256_hex rt bytes -> media_cache s1 !! k = media_cache s !! k.
Proof.
  intros Hfs. unfold WhatsAppClient.upload_media.
  rewrite Hfs. unfold WhatsAppClient._hash_file, MediaCache.get.
  destruct (WhatsAppClient.cache_hit _) as [cached|] eqn:Hhit.
  { by intros [= <- <-]. }
  unfold WhatsAppClient.post, MediaCache.set.
  destruct (http_post rt _ _) as [resp|]; [|done].
  destruct (400 <=? status_code resp)%Z; [done|].
  destruct (json_body resp) as [[| | | | |d]|]; try done.
  destruct (truthy (default JNull (dict_get d "id"))) eqn:Hid; [|done].
  cbn zeta. destruct (cache_write rt _); [done|].
  intros [= <- <-]. simpl. split.
  - rewrite lookup_insert_eq. unfold WhatsAppClient.cache_hit. simpl. done.
  - intros k Hk. by rewrite lookup_insert_ne.
Qed.

Lemma upload_media_keeps_hit config rt file_path mime_type s digest record :
  WhatsAppClient.cache_hit (media_cache s !! digest) = Some record ->
  WhatsAppClient.cache_hit
    (media_cache (snd (WhatsAppClient.upload_media config rt file_path mime_type s)) !! digest)
  = Some record.
Proof.
  intros Hhit. unfold WhatsAppClient.upload_media.
  destruct (fs_read rt _) as [bytes|]; [|done].
  unfold WhatsAppClient._hash_file, MediaCache.get.
  destruct (WhatsAppClient.cache_hit (media_cache s !! ("sha256:" +:+ sha256_hex rt bytes)))
    as [cached|] eqn:Hmiss; [done|].
  unfold WhatsAppClient.post, MediaCache.set.
  destruct (http_post rt _ _) as [resp|]; [|done].
  destruct (400 <=? status_code resp)%Z; [done|].
  destruct (json_body resp) as [[| | | | |d]|]; try done.
  destruct (truthy (default JNull (dict_get d "id"))); [|done].
  cbn zeta.
  assert (digest <> "sha256:" +:+ sha256_hex rt bytes) as Hne.
  { intros ->. by rewrite Hmiss in Hhit. }
  destruct (cache_write rt _); simpl; by rewrite lookup_insert_ne.
Qed.

Lemma send_message_keeps_cache config rt payload s :
  media_cache (snd (WhatsAppClient.send_message config rt payload s)) = media_cache s.
Proof.
  unfold WhatsAppClient.send_message, WhatsAppClient.post.
  destruct (http_post rt _ _) as [resp|]; [|done].
  destruct (400 <=? status_code resp)%Z; [done|].
  by destruct (json_body resp).
Qed.

Lemma after_calls_keeps_hit config rt s s' digest record :
  after_calls config rt s s' ->
  WhatsAppClient.cache_hit (media_cache s !! digest) = Some record ->
  WhatsAppClient.cache_hit (media_cache s' !! digest) = Some record.
Proof.
  induction 1 as [|s s' p m _ IH|s s' payload _ IH]; intros Hhit; [done| |].
  - by apply upload_media_keeps_hit, IH.
  - rewrite send_message_keeps_cache. by apply IH.
Qed.

(** A call that finds no record with an id under the digest of the
    bytes posts an upload of those bytes. *)
Lemma upload_media_miss config rt file_path mime_type s bytes :
  fs_read rt (path_resolve rt file_path) = Some bytes ->
  WhatsAppClient.cache_hit (media_cache s !! ("sha256:" +:+ sha256_hex rt bytes)) = None ->
  exists name mime data,
    posted (snd (WhatsAppClient.upload_media config rt file_path mime_type s))
    = posted s ++ [PostMedia (media_url config) name bytes mime data].
Proof.
  intros Hfs Hmiss. unfold WhatsAppClient.upload_media.
  rewrite Hfs. unfold WhatsAppClient._hash_file, MediaCache.get. rewrite Hmiss.
  unfold WhatsAppClient.post, MediaCache.set.
  destruct (http_post rt _ _) as [resp|]; [|by eexists _, _, _].
  destruct (400 <=? status_code resp)%Z; [by eexists _, _, _|].
  destruct (json_body resp) as [[| | | | |d]|]; try by eexists _, _, _.
  destruct (truthy (default JNull (dict_get d "id"))); [|by eexists _, _, _].
  cbn zeta. destruct (cache_write rt _); by eexists _, _, _.
Qed.

(** C6. [upload_media] is memoized by the SHA-256 digest of the bytes
    of the file. A successful upload leaves its record, which has an
    id, in the cache under the key ["sha256:"] followed by the
    hexadecimal digest of the bytes, and changes no other entry. From
    then on, after any further uploads and sends through the same
    cache, the record stays under that key, and uploading a file whose
    bytes have that digest (the same or another path, any MIME type),
    in particular a file with the same bytes, returns the very record
    of the first upload and leaves the client as it was: nothing is
    posted and the cache is not written. The digest is the only key: a
    call that finds no record with an id under the digest of the bytes
    of its file posts an upload of those bytes. *)
Theorem upload_media_memoized config rt (s s1 s2 : ClientState)
    file_path1 mime_type1 file_path2 mime_type2 bytes1 bytes2 record :
  fs_read rt (path_resolve rt file_path1) = Some bytes1 ->
  fs_read rt (path_resolve rt file_path2) = Some bytes2 ->
  WhatsAppClient.upload_media config rt file_path1 mime_type1 s = (Ok record, s1) ->
  after_calls config rt s1 s2 ->
  let key := fun bytes => "sha256:" +:+ sha256_hex rt bytes in
  media_cache s1 !! key bytes1 = Some record
  /\ is_Some (dict_get record "id")
  /\ (forall k, k <> key bytes1 -> media_cache s1 !! k = media_cache s !! k)
  /\ media_cache s2 !! key bytes1 = Some record
  /\ (sha256_hex rt bytes2 = sha256_hex rt bytes1 ->
      WhatsAppClient.upload_media config rt file_path2 mime_type2 s2 = (Ok record, s2))
  /\ (bytes2 = bytes1 ->
      WhatsAppClient.upload_media config rt file_path2 mime_type2 s2 = (Ok record, s2))
  /\ (WhatsAppClient.cache_hit (media_cache s2 !! key bytes2) = None ->
      exists name mime data,
        posted (snd (WhatsAppClient.upload_media config rt file_path2 mime_type2 s2))
        = posted s2 ++ [PostMedia (media_url config) name bytes2 mime data]).
Proof.
  intros Hfs1 Hfs2 Hup Hafter key.
  destruct (upload_media_records _ _ _ _ _ _ _ _ Hfs1 Hup) as [Hrec Hother].
  pose proof (after_calls_keeps_hit _ _ _ _ _ _ Hafter Hrec) as Hrec2.
  assert (sha256_hex rt bytes2 = sha256_hex rt bytes1 ->
          WhatsAppClient.upload_media config rt file_path2 mime_type2 s2 = (Ok record, s2))
    as Hhit.
  { intros Hd. eapply upload_media_hit; [exact Hfs2|]. by rewrite Hd. }
  split; [by apply cache_hit_Some in Hrec as [? _]|].
  split; [by apply cache_hit_Some in Hrec as (_ & _ & ?)|].
  split; [exact Hother|].
  split; [by apply cache_hit_Some in Hrec2 as [? _]|].
  split; [exact Hhit|]. split; [by intros ->; apply Hhit|].
  intros Hmiss. by apply upload_media_miss.
Qed.

Lemma upload_media_memoized_witness :
  let record := [("id", JStr "MEDIA0"); ("mime_type", JStr "image/png");
                 ("path", JStr "/srv/promo.png"); ("uploaded_at", JInt 1700000000)] in
  let first := WhatsAppClient.upload_media Sample.config Sample.rt "promo.png" None Sample.fresh in
  fst first = Ok record
  /\ length (posted (snd first)) = 1
  /\ media_cache (snd first) !! "sha256:digest-of-PNGDATA" = Some record
  /\ WhatsAppClient.upload_media Sample.config Sample.rt "copy.png" (Some "image/jpeg") (snd first)
     = (Ok record, snd first).
Proof.
  intros record first. split; [vm_compute; reflexivity|]. split; [vm_compute; reflexivity|].
  destruct (upload_media_memoized Sample.config Sample.rt Sample.fresh (snd first) (snd first)
              "promo.png" None "copy.png" (Some "image/jpeg") "PNGDATA" "PNGDATA" record)
    as (Hkey & _ & _ & _ & _ & Hsame & _).
  - vm_compute. reflexivity.
  - vm_compute. reflexivity.
  - vm_compute. reflexivity.
  - apply after_none.
  - split; [exact Hkey|]. by apply Hsame.
Defined.

(** ** The worker pool at launch *)

Lemma enumerate_length idx rows : length (enumerate idx rows) = length rows.
Proof. revert idx. induction rows as [|r rows IH]; intros idx; simpl; [done|]. by rewrite IH. Qed.

Lemma enumerate_lookup idx rows i row :
  rows !! i = Some row -> enumerate idx rows !! i = Some ((idx + Z.of_nat i)%Z, row).
Proof.
  revert idx i. induction rows as [|r rows IH]; intros idx i; [done|].
  destruct i as [|i]; simpl.
  - intros [= ->]. f_equal. f_equal. lia.
  - intros H. rewrite (IH _ _ H). f_equal. f_equal. lia.
Qed.

(** C9. With no worker count configured, or a non-positive one, the
    pool has [clamp(msg_per_sec // 4, 1, 32)] workers, all about to
    dequeue, and the queue holds the rows in input order, numbered from
    1, followed by exactly one sentinel per worker. *)
Theorem default_pool_shape {S : Type} (cfg : launch) (rows : list Row)
    (msg_per_sec : Z) (async_workers : option Z) (s : S) (ctl : RunControl) :
  match async_workers with
  | None => True
  | Some n => (n <= 0)%Z
  end ->
  let p := start_pool cfg rows msg_per_sec async_workers s ctl in
  let size := Z.to_nat (clamp (msg_per_sec / 4) 1 32) in
  workers p = replicate size WIdle
  /\ length (queue p) = length rows + size
  /\ (forall i row, rows !! i = Some row ->
        queue p !! i = Some (Some ((Z.of_nat i + 1)%Z, row)))
  /\ (forall j, j < size -> queue p !! (length rows + j) = Some None).
Proof.
  intros Hw p size.
  assert (worker_count msg_per_sec async_workers = clamp (msg_per_sec / 4) 1 32) as Hc.
  { assert (derived_workers msg_per_sec = clamp (msg_per_sec / 4) 1 32) as Hq.
    { unfold derived_workers, clamp.
      destruct (Z.eqb_spec (msg_per_sec / 4) 0) as [->|]; lia. }
    unfold worker_count. destruct async_workers as [n|]; [|done].
    destruct (Z.eqb_spec n 0), (Z.ltb_spec 0 n); simpl; try lia; done. }
  subst p size. unfold start_pool. simpl. rewrite Hc.
  split; [done|]. split; [|split].
  - by rewrite length_app, length_fmap, enumerate_length, length_replicate.
  - intros i row Hi. rewrite lookup_app_l.
    + rewrite list_lookup_fmap, (enumerate_lookup _ _ _ _ Hi). simpl.
      do 3 f_equal. lia.
    + rewrite length_fmap, enumerate_length. by eapply lookup_lt_Some.
  - intros j Hj. rewrite lookup_app_r; rewrite length_fmap, enumerate_length; [|lia].
    apply lookup_replicate. split; [done|lia].
Qed.

Lemma default_pool_shape_witness :
  let p := start_pool (S := ClientState)
             {| l_dry_run := true; l_delay_ms := 0; l_log_path := false;
                l_total_rows := None; l_progress_callback := false;
                l_owner := fun _ => [] |}
             [Sample.row_of [("phone", "201000000001")];
              Sample.row_of [("phone", "201000000002")]]
             10 (Some 0%Z) Sample.fresh
             {| stop_event := None; pause_event := None |} in
  (0 <= 0)%Z
  /\ workers p = [WIdle; WIdle]
  /\ queue p = [Some (1%Z, Sample.row_of [("phone", "201000000001")]);
                Some (2%Z, Sample.row_of [("phone", "201000000002")]);
                None; None].
Proof.
  intros p. split; [lia|].
  destruct (default_pool_shape
              {| l_dry_run := true; l_delay_ms := 0; l_log_path := false;
                 l_total_rows := None; l_progress_callback := false;
                 l_owner := fun _ => [] |}
              [Sample.row_of [("phone", "201000000001")];
               Sample.row_of [("phone", "201000000002")]]
              10 (Some 0%Z) Sample.fresh
              {| stop_event := None; pause_event := None |}) as (Hw & _ & _ & _).
  - simpl. lia.
  - split; [exact Hw|]. reflexivity.
Defined.

(** ** Floats *)

Section Floats.

Import Float.

Lemma pow2_pos e : (0 < pow2 e)%Q.
Proof. apply Qpower_0_lt. reflexivity. Qed.

Lemma pow2_add a b : (pow2 (a + b) == pow2 a * pow2 b)%Q.
Proof. apply Qpower_plus. discriminate. Qed.

Lemma pow2_split a b c : a = (b + c)%Z -> (pow2 a == pow2 b * pow2 c)%Q.
Proof. intros ->. apply pow2_add. Qed.

Lemma pow2_le a b : (a <= b)%Z -> (pow2 a <= pow2 b)%Q.
Proof. intros H. apply Qpower_le_compat_l; [done|]. discriminate. Qed.

Lemma pow2_le_inv a b : (pow2 a <= pow2 b)%Q -> (a <= b)%Z.
Proof. intros H. eapply Qpower_le_compat_l_inv; [exact H|reflexivity]. Qed.

Lemma pow2_lt_inv a b : (pow2 a < pow2 b)%Q -> (a < b)%Z.
Proof. intros H. eapply Qpower_lt_compat_l_inv; [exact H|reflexivity]. Qed.

Lemma pow2_Z e : (0 <= e)%Z -> (pow2 e == inject_Z (2 ^ e))%Q.
Proof. intros H. unfold pow2. by rewrite Zpower_Qpower. Qed.

Lemma pow2_opp e : (pow2 (- e) == / pow2 e)%Q.
Proof. apply Qpower_opp. Qed.

Lemma binade_spec x :
  (0 < x)%Q -> (pow2 (binade x) <= x)%Q /\ (x < pow2 (binade x + 1))%Q.
Proof.
  intros Hx. unfold binade. destruct (Qle_bool 1 x) eqn:E.
  - apply Qle_bool_iff in E.
    assert (1 <= Qfloor x)%Z as Hn.
    { change 1%Z with (Qfloor 1). by apply Qfloor_resp_le. }
    destruct (Z.log2_spec (Qfloor x)) as [H1 H2]; [lia|].
    pose proof (Z.log2_nonneg (Qfloor x)) as H0.
    rewrite !pow2_Z by lia. split.
    + eapply Qle_trans; [|apply Qfloor_le]. by rewrite <- Zle_Qle.
    + eapply Qlt_le_trans; [apply Qlt_floor|]. rewrite <- Zle_Qle.
      unfold Z.succ in H2. lia.
  - assert (x < 1)%Q as Hx1.
    { apply Qnot_le_lt. intros H. apply Qle_bool_iff in H. congruence. }
    assert (1 < / x)%Q as Hy.
    { apply Qlt_shift_inv_l; [done|]. lra. }
    set (m := Qceiling (/ x)).
    assert (1 < m)%Z as Hm.
    { rewrite Zlt_Qlt. eapply Qlt_le_trans; [exact Hy|]. apply Qle_ceiling. }
    destruct (Z.log2_up_spec m Hm) as [H1 H2].
    set (k := Z.log2_up m) in *.
    assert (0 < k)%Z as Hk by (apply Z.log2_up_pos; lia).
    assert (x * / x == 1)%Q as Hinv by (apply Qmult_inv_r; lra).
    split.
    + rewrite pow2_opp. apply Qle_shift_inv_r; [apply pow2_pos|].
      rewrite pow2_Z by lia.
      assert (/ x <= inject_Z (2 ^ k))%Q as Hle.
      { eapply Qle_trans; [apply Qle_ceiling|]. fold m. by rewrite <- Zle_Qle. }
      nra.
    + replace (- k + 1)%Z with (- (k - 1))%Z by lia.
      rewrite pow2_opp. apply Qlt_shift_inv_l; [apply pow2_pos|].
      rewrite pow2_Z by lia.
      assert (inject_Z (2 ^ (k - 1)) < / x)%Q as Hlt.
      { eapply Qle_lt_trans; [|apply Qceiling_lt]. fold m. rewrite <- Zle_Qle.
        unfold Z.pred in H1. replace (k + -1)%Z with (k - 1)%Z in H1 by lia. lia. }
      nra.
Qed.

Lemma inject_Z_pred n : (inject_Z (n - 1) == inject_Z n - 1)%Q.
Proof.
  unfold Z.sub. rewrite inject_Z_plus. change (inject_Z (- (1))) with (-1 # 1)%Q. lra.
Qed.

Lemma inject_Z_succ n : (inject_Z (n + 1) == inject_Z n + 1)%Q.
Proof. by rewrite inject_Z_plus. Qed.

Lemma rne_floor z :
  (Qfloor z <= rne z)%Z /\ (rne z <= Qfloor z + 1)%Z.
Proof.
  unfold rne. destruct (_ ?= _)%Q; [destruct (Z.even _)| |]; lia.
Qed.

Lemma rne_ge n z : (inject_Z n <= z)%Q -> (n <= rne z)%Z.
Proof.
  intros H. apply Qfloor_resp_le in H. rewrite Qfloor_Z in H.
  pose proof (rne_floor z). lia.
Qed.

Lemma rne_le n z : (z <= inject_Z n)%Q -> (rne z <= n)%Z.
Proof.
  intros H. pose proof (Qfloor_resp_le _ _ H) as Hf. rewrite Qfloor_Z in Hf.
  destruct (Z.eq_dec (Qfloor z) n) as [E|E].
  - unfold rne. rewrite E.
    destruct (Qcompare_spec (z - inject_Z n) (1 # 2)) as [H1|H1|H1]; [lra|lia|lra].
  - pose proof (rne_floor z). lia.
Qed.

(** At a tie the even neighbour is chosen. *)
Lemma rne_tie_ge n z :
  Z.even n = true -> (inject_Z n - (1 # 2) <= z)%Q -> (n <= rne z)%Z.
Proof.
  intros He H.
  assert (n - 1 <= Qfloor z)%Z as Hf.
  { rewrite <- (Qfloor_Z (n - 1)). apply Qfloor_resp_le.
    rewrite inject_Z_pred. lra. }
  destruct (Z.eq_dec (Qfloor z) (n - 1)%Z) as [E|E].
  - unfold rne. rewrite E.
    assert (Z.even (n - 1) = false) as Ho.
    { rewrite Z.even_sub, He. reflexivity. }
    pose proof (inject_Z_pred n) as Hi.
    destruct (Qcompare_spec (z - inject_Z (n - 1)) (1 # 2)) as [H1|H1|H1].
    + rewrite Ho. lia.
    + lra.
    + lia.
  - pose proof (rne_floor z). lia.
Qed.

Lemma rne_lt n z : (z < inject_Z n - (1 # 2))%Q -> (rne z <= n - 1)%Z.
Proof.
  intros H.
  assert (Qfloor z < n)%Z as Hf.
  { rewrite Zlt_Qlt. pose proof (Qfloor_le z). lra. }
  destruct (Z.eq_dec (Qfloor z) (n - 1)%Z) as [E|E].
  - unfold rne. rewrite E.
    pose proof (inject_Z_pred n) as Hi.
    destruct (Qcompare_spec (z - inject_Z (n - 1)) (1 # 2)) as [H1|H1|H1]; [lra|lia|lra].
  - pose proof (rne_floor z). lia.
Qed.

Lemma rne_err z :
  (inject_Z (rne z) - z <= 1 # 2)%Q /\ (z - inject_Z (rne z) <= 1 # 2)%Q.
Proof.
  pose proof (Qfloor_le z) as H1. pose proof (Qlt_floor z) as H2.
  rewrite inject_Z_succ in H2.
  unfold rne. destruct (Qcompare_spec (z - inject_Z (Qfloor z)) (1 # 2)) as [H|H|H].
  - destruct (Z.even _); [lra|]. rewrite inject_Z_succ. lra.
  - lra.
  - rewrite inject_Z_succ. lra.
Qed.

(** The scaled significand of a positive number lies between [2 ** 52]
    and [2 ** 53]. *)
Lemma scaled_bounds x :
  (0 < x)%Q ->
  (pow2 52 <= x * pow2 (52 - binade x))%Q /\ (x * pow2 (52 - binade x) < pow2 53)%Q.
Proof.
  intros Hx. destruct (binade_spec x Hx) as [H1 H2].
  pose proof (pow2_pos (52 - binade x)) as Hs.
  split.
  - rewrite (pow2_split 52 (binade x) (52 - binade x)) by lia. by apply Qmult_le_r.
  - rewrite (pow2_split 53 (binade x + 1) (52 - binade x)) by lia. by apply Qmult_lt_r.
Qed.

Lemma unscale x e : (x * pow2 (52 - e) * pow2 (e - 52) == x)%Q.
Proof.
  rewrite <- Qmult_assoc, <- (pow2_split 0 (52 - e) (e - 52)) by lia.
  change (pow2 0) with 1%Q. lra.
Qed.

Lemma round_pos_bounds x :
  (0 < x)%Q ->
  (pow2 (binade x) <= round_pos x)%Q /\ (round_pos x <= pow2 (binade x + 1))%Q.
Proof.
  intros Hx. destruct (scaled_bounds x Hx) as [H1 H2].
  unfold round_pos. set (e := binade x) in *. set (z := (x * pow2 (52 - e))%Q) in *.
  pose proof (pow2_pos (e - 52)) as Hu.
  rewrite pow2_Z in H1, H2 by lia.
  split.
  - rewrite (pow2_split e 52 (e - 52)) by lia.
    apply Qmult_le_r; [done|]. rewrite pow2_Z by lia. rewrite <- Zle_Qle. by apply rne_ge.
  - rewrite (pow2_split (e + 1) 53 (e - 52)) by lia.
    apply Qmult_le_r; [done|]. rewrite pow2_Z by lia. rewrite <- Zle_Qle.
    apply rne_le. lra.
Qed.

Lemma round_pos_err x :
  (0 < x)%Q ->
  (round_pos x - x <= pow2 (binade x - 53))%Q /\ (x - round_pos x <= pow2 (binade x - 53))%Q.
Proof.
  intros Hx. unfold round_pos. set (e := binade x). set (z := (x * pow2 (52 - e))%Q).
  pose proof (pow2_pos (e - 52)) as Hu.
  pose proof (unscale x e) as Hxz. fold z in Hxz.
  destruct (rne_err z) as [H1 H2].
  assert (pow2 (e - 53) == (1 # 2) * pow2 (e - 52))%Q as Hh.
  { by rewrite (pow2_split (e - 53) (-1) (e - 52)) by lia. }
  rewrite Hh. split; nra.
Qed.

Lemma round_pos_ge_pow k x :
  (0 < x)%Q -> (pow2 k <= x)%Q -> (pow2 k <= round_pos x)%Q.
Proof.
  intros Hx Hk. destruct (binade_spec x Hx) as [_ H2].
  destruct (round_pos_bounds x Hx) as [H3 _].
  assert (k < binade x + 1)%Z by (apply pow2_lt_inv; lra).
  eapply Qle_trans; [|exact H3]. apply pow2_le. lia.
Qed.

Lemma round_pos_le_pow k x :
  (0 < x)%Q -> (x <= pow2 k)%Q -> (round_pos x <= pow2 k)%Q.
Proof.
  intros Hx Hk. destruct (binade_spec x Hx) as [H1 _].
  destruct (round_pos_bounds x Hx) as [_ H4].
  assert (binade x <= k)%Z as Hle by (apply pow2_le_inv; lra).
  destruct (Z.eq_dec (binade x) k) as [E|E].
  - unfold round_pos. rewrite E.
    pose proof (pow2_pos (k - 52)) as Hu. pose proof (pow2_pos (52 - k)) as Hs.
    rewrite (pow2_split k 52 (k - 52)) by lia.
    apply Qmult_le_r; [done|]. rewrite (pow2_Z 52) by lia. rewrite <- Zle_Qle.
    apply rne_le. rewrite <- (pow2_Z 52) by lia.
    rewrite (pow2_split 52 k (52 - k)) by lia.
    by apply Qmult_le_r.
  - eapply Qle_trans; [exact H4|]. apply pow2_le. lia.
Qed.

Lemma round_nonneg x : (0 <= x)%Q -> (0 <= round x)%Q.
Proof.
  intros Hx. unfold round. destruct (Qcompare_spec x 0) as [H|H|H]; [lra|lra|].
  destruct (round_pos_bounds x H) as [H1 _]. pose proof (pow2_pos (binade x)). lra.
Qed.

Lemma round_nonpos x : (x <= 0)%Q -> (round x <= 0)%Q.
Proof.
  intros Hx. unfold round. destruct (Qcompare_spec x 0) as [H|H|H]; [lra| |lra].
  assert (0 < - x)%Q as Hn by lra.
  destruct (round_pos_bounds (- x) Hn) as [H1 _]. pose proof (pow2_pos (binade (- x))). lra.
Qed.

Lemma round_le_1 x : (x <= 1)%Q -> (round x <= 1)%Q.
Proof.
  intros Hx. destruct (Qlt_le_dec 0 x) as [H|H].
  - unfold round. destruct (Qcompare_spec x 0) as [H'|H'|H']; [lra|lra|].
    apply (round_pos_le_pow 0); done.
  - pose proof (round_nonpos x H). lra.
Qed.

Lemma binade_half x : (1 # 2 <= x)%Q -> (x < 1)%Q -> binade x = (-1)%Z.
Proof.
  intros H1 H2. assert (0 < x)%Q as Hx by lra.
  destruct (binade_spec x Hx) as [H3 H4].
  assert (binade x < 0)%Z by (apply pow2_lt_inv; change (pow2 0) with 1%Q; lra).
  assert (-1 < binade x + 1)%Z by (apply pow2_lt_inv; change (pow2 (-1)) with (1 # 2)%Q; lra).
  lia.
Qed.

(** The test [now - t >= 1.0] of the source holds exactly from the
    distance [second] on. *)
Lemma round_ge_1 x : (1 <= round x)%Q <-> (AsyncRateLimiter.second <= x)%Q.
Proof.
  unfold AsyncRateLimiter.second. split.
  - intros H. apply Qnot_lt_le. intros Hlt.
    destruct (Qlt_le_dec 0 x) as [Hx|Hx]; [|pose proof (round_nonpos x Hx); lra].
    revert H. unfold round. destruct (Qcompare_spec x 0) as [H'|H'|H']; [lra|lra|].
    destruct (Qlt_le_dec x (1 # 2)) as [Hh|Hh].
    + pose proof (round_pos_le_pow (-1) x Hx) as Hr.
      change (pow2 (-1)) with (1 # 2)%Q in Hr. lra.
    + unfold round_pos. rewrite (binade_half x) by lra.
      assert (rne (x * pow2 (52 - -1)) <= 2 ^ 53 - 1)%Z as Hm.
      { apply rne_lt. change (pow2 (52 - -1)) with (inject_Z (2 ^ 53)).
        change (inject_Z (2 ^ 53)) with (9007199254740992 # 1)%Q. lra. }
      rewrite Zle_Qle in Hm.
      change (pow2 (-1 - 52)) with (1 # 9007199254740992)%Q.
      change (inject_Z (2 ^ 53 - 1)) with (9007199254740991 # 1)%Q in Hm. lra.
  - intros H. unfold round. destruct (Qcompare_spec x 0) as [H'|H'|H']; [lra|lra|].
    destruct (Qlt_le_dec x 1) as [Hh|Hh].
    + unfold round_pos. rewrite (binade_half x) by lra.
      assert (2 ^ 53 <= rne (x * pow2 (52 - -1)))%Z as Hm.
      { apply rne_tie_ge; [done|]. change (pow2 (52 - -1)) with (inject_Z (2 ^ 53)).
        change (inject_Z (2 ^ 53)) with (9007199254740992 # 1)%Q. lra. }
      rewrite Zle_Qle in Hm.
      change (pow2 (-1 - 52)) with (1 # 9007199254740992)%Q.
      change (inject_Z (2 ^ 53)) with (9007199254740992 # 1)%Q in Hm. lra.
    + apply (round_pos_ge_pow 0); done.
Qed.

(** Rounding moves a number between 0 and 1 by [2 ** -53] at most. *)
Lemma round_err x :
  (0 <= x)%Q -> (x <= 1)%Q ->
  (round x - x <= 1 # 9007199254740992)%Q /\ (x - round x <= 1 # 9007199254740992)%Q.
Proof.
  intros H0 H1. unfold round. destruct (Qcompare_spec x 0) as [H'|H'|H']; [lra|lra|].
  destruct (round_pos_err x H') as [Ha Hb]. destruct (binade_spec x H') as [Hc _].
  assert (binade x <= 0)%Z as He by (apply pow2_le_inv; change (pow2 0) with 1%Q; lra).
  assert (pow2 (binade x - 53) <= pow2 (-53))%Q as Hp by (apply pow2_le; lia).
  change (pow2 (-53)) with (1 # 9007199254740992)%Q in Hp. lra.
Qed.

End Floats.

(** ** The rate limiter *)

Section RateLimiter.

Import AsyncRateLimiter.

Lemma live_iff now t : live now t = true <-> (now - t < second)%Q.
Proof.
  unfold live, Float.sub. rewrite negb_true_iff, <- not_true_iff_false, Qle_bool_iff, round_ge_1.
  split; [apply Qnot_le_lt | apply Qlt_not_le].
Qed.

Lemma live_later last now t : (last <= now)%Q -> live now t = true -> live last t = true.
Proof. rewrite !live_iff. lra. Qed.

Lemma trailing_times now rs : snd <$> trailing now rs = trail now (snd <$> rs).
Proof.
  unfold trailing, trail. induction rs as [|[c t] rs IH]; [done|].
  rewrite fmap_cons, !filter_cons. simpl.
  destruct (decide (live now t = true)); [rewrite fmap_cons; simpl; f_equal|]; exact IH.
Qed.

Lemma trail_all now ts : Forall (fun t => live now t = true) ts -> trail now ts = ts.
Proof.
  unfold trail. induction 1 as [|t ts Ht _ IH]; [done|].
  by rewrite filter_cons_True, IH.
Qed.

Lemma evict_trail last now ts :
  StronglySorted Qle ts -> (last <= now)%Q ->
  evict now (trail last ts) = trail now ts.
Proof.
  intros Hs Hln. induction Hs as [|t ts Hs IH Ht]; [done|].
  unfold trail in *. rewrite !filter_cons.
  destruct (decide (live last t = true)) as [Hl|Hl].
  - simpl. destruct (Qle_bool 1 (Float.sub now t)) eqn:E.
    + rewrite IH. destruct (decide (live now t = true)) as [Hn|_]; [|done].
      unfold live in Hn. by rewrite E in Hn.
    + destruct (decide (live now t = true)) as [Hn|Hn].
      2:{ unfold live in Hn. by rewrite E in Hn. }
      f_equal. rewrite live_iff in Hn.
      assert (Forall (fun t' => live now t' = true) ts) as Hall.
      { eapply Forall_impl; [exact Ht|]. simpl. intros t' Hle. apply live_iff. lra. }
      fold (trail now ts). fold (trail last ts). rewrite (trail_all now) by done.
      apply trail_all. eapply Forall_impl; [exact Hall|]. intros t'. by apply live_later.
  - destruct (decide (live now t = true)) as [Hn|_]; [|done].
    destruct Hl. by eapply live_later.
Qed.

Lemma length_filter_impl {A} (P Q : A -> Prop) `{!forall x, Decision (P x)}
    `{!forall x, Decision (Q x)} (l : list A) :
  Forall (fun x => P x -> Q x) l -> length (filter P l) <= length (filter Q l).
Proof.
  induction 1 as [|x l Hx _ IH]; [done|].
  rewrite !filter_cons. destruct (decide (P x)), (decide (Q x)); simpl; try lia. tauto.
Qed.

Lemma in_window_iff w a x : in_window w a x = true <-> (a <= x /\ x < a + w)%Q.
Proof.
  unfold in_window. rewrite andb_true_iff, negb_true_iff, <- not_true_iff_false, !Qle_bool_iff.
  split; intros [H1 H2]; split; try done; [by apply Qnot_le_lt | by apply Qlt_not_le].
Qed.

Lemma live_now now : live now now = true.
Proof. apply live_iff. unfold second. lra. Qed.

Lemma attempt_inv R l rs last now c :
  limiter_inv R l rs last -> (last <= now)%Q ->
  let granted := bool_decide (Z.of_nat (length (trailing now rs)) < R)%Z in
  let new := if granted then [(c, now)] else [] in
  (match fst (attempt now l) with Acquired => [(c, now)] | Sleep _ => [] end) = new
  /\ limiter_inv R (snd (attempt now l)) (rs ++ new) now.
Proof.
  intros [Hrate Hle Hsorted Hdeque Hlen Hwin] Hnow granted new.
  assert (evict now (_timestamps l) = snd <$> trailing now rs) as Hev.
  { rewrite Hdeque, !trailing_times. by apply evict_trail. }
  assert (Forall (fun r => (snd r <= now)%Q) rs) as Hle'.
  { eapply Forall_impl; [exact Hle|]. simpl. intros r Hr. lra. }
  unfold attempt. rewrite Hev, length_fmap, Hrate.
  subst new granted. destruct (Z.ltb_spec (Z.of_nat (length (trailing now rs))) R) as [Hlt|Hge].
  - rewrite bool_decide_eq_true_2 by done. simpl. split; [done|].
    assert (trailing now (rs ++ [(c, now)]) = trailing now rs ++ [(c, now)]) as Htr.
    { unfold trailing. rewrite filter_app. f_equal.
      rewrite filter_cons_True; [done|]. apply live_now. }
    split; simpl.
    + done.
    + apply Forall_app. split; [done|]. constructor; [simpl; lra|done].
    + rewrite fmap_app. apply StronglySorted_app. split; [|split; [done|]].
      * intros x1 x2 Hx1 Hx2. apply list_elem_of_fmap in Hx1 as (r & -> & Hr).
        apply list_elem_of_singleton in Hx2 as ->.
        by apply (proj1 (Forall_forall _ _) Hle').
      * repeat constructor.
    + by rewrite Htr, fmap_app.
    + rewrite Htr, length_app. simpl. lia.
    + intros a. unfold count_in_window. rewrite filter_app, length_app.
      rewrite filter_cons. simpl.
      destruct (decide (in_window second a now = true)) as [Hin|Hout]; simpl.
      2:{ specialize (Hwin a). unfold count_in_window in Hwin. lia. }
      apply in_window_iff in Hin as [Ha1 Ha2].
      assert (length (filter (fun r => in_window second a r.2 = true) rs)
              <= length (trailing now rs)); [|lia].
      apply length_filter_impl. eapply Forall_impl; [exact Hle'|].
      simpl. intros r Hr Hin. apply in_window_iff in Hin as [? ?]. apply live_iff. lra.
  - rewrite bool_decide_eq_false_2 by lia. simpl. split; [done|].
    rewrite app_nil_r. split; simpl; try done.
    assert (length (trailing now rs) <= length (trailing last rs)); [|lia].
    apply length_filter_impl. apply Forall_forall. intros r _. by apply live_later.
Qed.

Lemma serve_app a b l :
  serve (a ++ b) l
  = (fst (serve a l) ++ fst (serve b (snd (serve a l))), snd (serve b (snd (serve a l)))).
Proof.
  revert l. induction a as [|[c now] a IH]; intros l; simpl.
  - by destruct (serve b l).
  - destruct (attempt now l) as [o l'] eqn:E. rewrite IH.
    destruct (serve a l') as [ra la]. simpl.
    destruct (serve b la) as [rb lb]. simpl. by destruct o.
Qed.

Lemma serve_one c now l :
  serve [(c, now)] l
  = (match fst (attempt now l) with Acquired => [(c, now)] | Sleep _ => [] end,
     snd (attempt now l)).
Proof. simpl. by destruct (attempt now l) as [[|d] l']. Qed.

Lemma monotonic_app t0 a b :
  monotonic t0 (a ++ b) <-> monotonic t0 a /\ monotonic (last_reading t0 a) b.
Proof.
  revert t0. induction a as [|[c now] a IH]; intros t0; simpl; [tauto|].
  rewrite IH. tauto.
Qed.

Lemma last_reading_snoc t0 pre c now : last_reading t0 (pre ++ [(c, now)]) = now.
Proof. revert t0. induction pre as [|[c' t'] pre IH]; intros t0; simpl; [done|apply IH]. Qed.

Lemma init_inv n t0 : limiter_inv (Z.max 1 n) (init n) [] t0.
Proof. split; simpl; try done; try constructor; intros; unfold count_in_window; simpl; lia. Qed.

Lemma serve_inv n t0 turns :
  monotonic t0 turns ->
  limiter_inv (Z.max 1 n) (snd (serve turns (init n))) (fst (serve turns (init n)))
              (last_reading t0 turns).
Proof.
  induction turns as [|[c now] pre IH] using rev_ind; intros Hm.
  - apply init_inv.
  - apply monotonic_app in Hm as [Hpre [Hnow _]].
    rewrite serve_app, serve_one, last_reading_snoc. simpl.
    destruct (attempt_inv _ _ _ _ now c (IH Hpre) Hnow) as [Hnew Hinv].
    by rewrite Hnew.
Qed.

(** C2, as the code has it. On a limiter built with rate [n], whose
    rate is [max 1 n], let any callers take their turns under the lock
    at the readings of a monotonic clock. A turn returns from [acquire]
    exactly when fewer returns than the rate are left in the deque after
    the eviction, that is when fewer than the rate lie less than
    [second] before the reading; after the turn the deque holds those
    returns, the current one included when the turn returned. Hence no
    window [[a, a + second)] ever holds more returns than the rate. *)
Theorem rate_ceiling (n : Z) (t0 : Q) (turns : list (nat * Q)) :
  monotonic t0 turns ->
  rate (init n) = Z.max 1 n
  /\ (forall pre caller now post, turns = pre ++ (caller, now) :: post ->
     let before := fst (serve pre (init n)) in
     let granted := bool_decide (Z.of_nat (length (trailing now before)) < Z.max 1 n)%Z in
     let after := before ++ (if granted then [(caller, now)] else []) in
     fst (serve (pre ++ [(caller, now)]) (init n)) = after
     /\ _timestamps (snd (serve (pre ++ [(caller, now)]) (init n))) = snd <$> trailing now after
     /\ (forall r, r ∈ trailing now after <-> r ∈ after /\ (now - snd r < second)%Q))
  /\ (forall a, (Z.of_nat (count_in_window second a (fst (serve turns (init n))))
                 <= Z.max 1 n)%Z).
Proof.
  intros Hm. split; [done|]. split.
  - intros pre c now post -> before granted after.
    apply monotonic_app in Hm as [Hpre [Hnow _]].
    destruct (attempt_inv _ _ _ _ now c (serve_inv n t0 pre Hpre) Hnow) as [Hnew Hinv].
    rewrite serve_app, serve_one. simpl. fold before in Hnew, Hinv. fold granted in Hnew, Hinv.
    rewrite Hnew. split; [done|]. split; [apply (inv_deque _ _ _ _ Hinv)|].
    intros r. unfold trailing. rewrite list_elem_of_filter, live_iff. tauto.
  - intros a. apply (inv_window _ _ _ _ (serve_inv n t0 turns Hm)).
Qed.

Lemma attempt_eq R l rs last now :
  limiter_inv R l rs last -> (last <= now)%Q ->
  attempt now l
  = if (Z.of_nat (length (trailing now rs)) <? R)%Z
    then (Acquired, {| rate := R; _timestamps := (snd <$> trailing now rs) ++ [now] |})
    else (Sleep (Qmax (Float.sub 1 (Float.sub now (hd 0%Q (snd <$> trailing now rs)))) poll),
          {| rate := R; _timestamps := snd <$> trailing now rs |}).
Proof.
  intros [Hrate Hle Hsorted Hdeque Hlen Hwin] Hnow.
  unfold attempt. rewrite Hdeque, !trailing_times, evict_trail by done.
  by rewrite <- !trailing_times, length_fmap, Hrate.
Qed.

Lemma trailing_later now now' rs :
  (now <= now')%Q ->
  trailing now' rs = filter (fun r => live now' (snd r) = true) (trailing now rs).
Proof.
  intros Hle. unfold trailing. rewrite list_filter_filter.
  apply list_filter_iff. intros r. split; [|tauto].
  intros H. split; [done|]. by eapply live_later.
Qed.

Lemma poll_value : (poll == 5764607523034235 # 576460752303423488)%Q.
Proof. vm_compute. reflexivity. Qed.

(** The sleep asked for at a distance [x] below [second] from the
    oldest return falls short of the rest of the second by [2 ** -52]
    at most. *)
Lemma wait_for_bounds x :
  (0 <= x)%Q -> (x <= 1)%Q ->
  (1 - x - (1 # 4503599627370496) <= Float.sub 1 (Float.round x))%Q
  /\ (Float.sub 1 (Float.round x) <= 1)%Q.
Proof.
  intros H0 H1. unfold Float.sub.
  pose proof (round_nonneg x H0) as Hr0. pose proof (round_le_1 x H1) as Hr1.
  destruct (round_err x H0 H1) as [Ha Hb].
  destruct (round_err (1 - Float.round x)) as [Hc Hd]; [lra|lra|].
  split; [lra|]. apply round_le_1. lra.
Qed.

(** A caller alone on the limiter returns from [acquire] after at most
    two sleeps, when a sleep lasts at least as long as asked. *)
Lemma acquire_returns R l rs last now wake :
  limiter_inv R l rs last -> (1 <= R)%Z -> (last <= now)%Q ->
  (forall t d, (t + d <= wake t d)%Q) ->
  exists t l', acquire 2 wake now l = Some (t, l') /\ (now <= t)%Q
               /\ limiter_inv R l' (rs ++ [(0, t)]) t.
Proof.
  intros Hinv HR Hnow Hwake.
  destruct (attempt_inv R l rs last now 0 Hinv Hnow) as [Hnew Hinv1].
  simpl. rewrite (attempt_eq R l rs last now Hinv Hnow) in *.
  destruct (Z.ltb_spec (Z.of_nat (length (trailing now rs))) R) as [Hlt|Hge].
  { exists now. eexists. split; [done|]. split; [lra|].
    simpl in Hinv1. by rewrite bool_decide_eq_true_2 in Hinv1 by done. }
  simpl in Hinv1. rewrite bool_decide_eq_false_2, app_nil_r in Hinv1 by lia.
  set (d1 := Qmax (Float.sub 1 (Float.sub now (hd 0%Q (snd <$> trailing now rs)))) poll).
  set (now1 := wake now d1).
  assert (now + d1 <= now1)%Q as Hw1 by apply Hwake.
  assert (poll <= d1)%Q as Hp1 by apply Q.le_max_r.
  assert (Float.sub 1 (Float.sub now (hd 0%Q (snd <$> trailing now rs))) <= d1)%Q as Hd1
    by apply Q.le_max_l.
  pose proof poll_value as Hpoll.
  assert (now <= now1)%Q as Hn1 by lra.
  destruct (attempt_inv R _ rs now now1 0 Hinv1 Hn1) as [_ Hinv2].
  rewrite (attempt_eq R _ rs now now1 Hinv1 Hn1) in *.
  destruct (Z.ltb_spec (Z.of_nat (length (trailing now1 rs))) R) as [Hlt1|Hge1].
  { exists now1. eexists. split; [done|]. split; [done|].
    simpl in Hinv2. by rewrite bool_decide_eq_true_2 in Hinv2 by done. }
  simpl in Hinv2. rewrite bool_decide_eq_false_2, app_nil_r in Hinv2 by lia.
  set (d2 := Qmax (Float.sub 1 (Float.sub now1 (hd 0%Q (snd <$> trailing now1 rs)))) poll).
  set (now2 := wake now1 d2).
  assert (now1 + d2 <= now2)%Q as Hw2 by apply Hwake.
  assert (poll <= d2)%Q as Hp2 by apply Q.le_max_r.
  assert (now1 <= now2)%Q as Hn2 by lra.
  destruct (attempt_inv R _ rs now1 now2 0 Hinv2 Hn2) as [_ Hinv3].
  rewrite (attempt_eq R _ rs now1 now2 Hinv2 Hn2) in *.
  assert (Z.of_nat (length (trailing now2 rs)) < R)%Z as Hfree.
  { destruct (trailing now rs) as [|[c h] tl] eqn:Etr; [simpl in Hge; lia|].
    pose proof (inv_len _ _ _ _ Hinv1) as Hlen. rewrite Etr in Hlen.
    assert ((c, h) ∈ rs) as Hin.
    { assert ((c, h) ∈ (c, h) :: tl) as Hin by left. rewrite <- Etr in Hin.
      unfold trailing in Hin. by apply list_elem_of_filter in Hin as [_ Hin]. }
    assert (live now h = true) as Hlive.
    { assert ((c, h) ∈ (c, h) :: tl) as Hin' by left. rewrite <- Etr in Hin'.
      unfold trailing in Hin'. by apply list_elem_of_filter in Hin' as [Hin' _]. }
    apply live_iff in Hlive. unfold second in Hlive.
    pose proof (proj1 (Forall_forall _ _) (inv_le _ _ _ _ Hinv) _ Hin) as Hh. simpl in Hh.
    rewrite (trailing_later now now2) by lra. rewrite Etr.
    assert (length (filter (fun r => live now2 r.2 = true) ((c, h) :: tl))
            < length ((c, h) :: tl)); [|lia].
    apply length_filter_lt with (c, h); [left|].
    simpl. rewrite live_iff. unfold second. simpl in Hd1. unfold Float.sub at 2 in Hd1.
    destruct (wait_for_bounds (now - h)) as [Hwf _]; [lra|lra|]. lra. }
  destruct (Z.ltb_spec (Z.of_nat (length (trailing now2 rs))) R) as [_|?]; [|lia].
  exists now2. eexists. split; [done|]. split; [lra|].
  simpl in Hinv3. by rewrite bool_decide_eq_true_2 in Hinv3 by done.
Qed.

(** Two turns exactly one second apart both return at rate 1: the
    eviction test is [now - t >= 1.0]. *)
Lemma returns_one_second_apart :
  fst (serve [(0, 0%Q); (1, 1%Q)] (init 1)) = [(0, 0%Q); (1, 1%Q)].
Proof. vm_compute. reflexivity. Qed.

Lemma rate_ceiling_witness :
  monotonic 0 Sample.turns
  /\ fst (serve Sample.turns (init 2)) = [(0, 0%Q); (1, (1 # 8)%Q); (0, 1%Q); (2, (5 # 4)%Q)]
  /\ (forall a, (Z.of_nat (count_in_window second a (fst (serve Sample.turns (init 2))))
                 <= Z.max 1 2)%Z).
Proof.
  split; [|split].
  - simpl. unfold Qle. simpl. lia.
  - vm_compute. reflexivity.
  - apply (rate_ceiling 2 0 Sample.turns). simpl. unfold Qle. simpl. lia.
Defined.

(** C2 as stated fails. At rate 1 the turns at the clock readings
    [2 ** -60] and [1.0] both return from [acquire]: the float
    difference [1.0 - 2 ** -60] is [1.0], so the first return is evicted,
    and the window [[2 ** -60, 2 ** -60 + 1)] of one second holds two
    returns. Two turns at the readings [0.0] and [1.0] both return as
    well, so that the closed window [[0, 1]] holds two returns. *)
Lemma rate_ceiling_counterexample :
  rate (init 1) = 1%Z
  /\ monotonic 0 Sample.near_turns
  /\ fst (serve Sample.near_turns (init 1)) = Sample.near_turns
  /\ count_in_window 1 (1 # 1152921504606846976) (fst (serve Sample.near_turns (init 1))) = 2
  /\ monotonic 0 [(0, 0%Q); (1, 1%Q)]
  /\ fst (serve [(0, 0%Q); (1, 1%Q)] (init 1)) = [(0, 0%Q); (1, 1%Q)]
  /\ (0 <= 0 <= 0 + 1)%Q /\ (0 <= 1 <= 0 + 1)%Q.
Proof.
  split; [done|]. split; [simpl; unfold Qle; simpl; lia|].
  split; [vm_compute; reflexivity|]. split; [vm_compute; reflexivity|].
  split; [simpl; unfold Qle; simpl; lia|]. split; [vm_compute; reflexivity|].
  unfold Qle; simpl; lia.
Qed.

End RateLimiter.

(** ** The dispatchers *)

Import BatchSendResult.

Lemma build_template_cases {S : Type} (client : Client S) phone template lang a calls (s : S) :
  let r := p_result (build_template client phone template lang a calls s) in
  (exists m, r = ("error", phone, None, m)) \/ (exists pl, r = ("ready", phone, Some pl, "")).
Proof.
  unfold build_template. destruct (build_template_components client a); simpl; [|eauto].
  destruct (build_template_payload client _ _ _ _); simpl; eauto.
Qed.

Lemma prepare_template_rest_cases {S : Type} (row : Row) (client : Client S)
    phone template lang ht htext hurl hid calls (s : S) :
  let r := p_result (prepare_template_rest row client phone template lang ht htext hurl hid calls s) in
  (exists m, r = ("error", phone, None, m)) \/ (exists pl, r = ("ready", phone, Some pl, "")).
Proof.
  unfold prepare_template_rest.
  destruct (copy_code_buttons_of row range10 []); simpl; [|eauto].
  apply build_template_cases.
Qed.

(** The verdict of the row processor is one of skip, error and ready,
    and a ready verdict comes with a payload. *)
Lemma prepare_row_cases {S : Type} (row : Row) (client : Client S) (s : S) :
  let r := p_result (_prepare_row row client s) in
  (exists ph m, r = ("skip", ph, None, m))
  \/ (exists ph m, r = ("error", ph, None, m))
  \/ (exists ph pl, r = ("ready", ph, Some pl, "")).
Proof.
  unfold _prepare_row.
  destruct (decide (strip (get_or row "phone" "") = "")); simpl; [eauto|].
  set (phone := strip (get_or row "phone" "")).
  destruct (decide (_ = "interactive")).
  - unfold prepare_interactive.
    destruct (scan_cta row range10) as [[[[ct|] tx] ur] ph]; simpl; [|eauto].
    destruct (decide (strip (get_or row "body_text" "") = "")); simpl; [eauto|].
    destruct (decide (ct = "copy_code")); simpl; [eauto|].
    destruct (decide (ct = "call")).
    + destruct (build_interactive_cta_call client _ _ _ _ _); simpl; eauto 6.
    + destruct (build_interactive_cta_url client _ _ _ _ _); simpl; eauto 6.
  - unfold prepare_template.
    destruct (decide (strip (get_or row "template" "") = "")); simpl; [eauto|].
    assert (forall hid calls s',
      let r := p_result (prepare_template_rest row client phone
                   (strip (get_or row "template" "")) (strip (get_or row "lang" "en_US"))
                   (lower (strip (get_or row "header_type" "none")))
                   (match row !! "header_text" with Some v => or_none v | None => None end)
                   (or_none (strip (get_or row "header_media_url" ""))) hid calls s') in
      (exists ph m, r = ("skip", ph, None, m))
      \/ (exists ph m, r = ("error", ph, None, m))
      \/ (exists ph pl, r = ("ready", ph, Some pl, ""))) as Hrest.
    { intros hid calls s'. right.
      destruct (prepare_template_rest_cases row client phone
                  (strip (get_or row "template" "")) (strip (get_or row "lang" "en_US"))
                  (lower (strip (get_or row "header_type" "none")))
                  (match row !! "header_text" with Some v => or_none v | None => None end)
                  (or_none (strip (get_or row "header_media_url" ""))) hid calls s')
        as [[m H]|[pl H]]; simpl in *; rewrite H; eauto. }
    destruct (is_media_header _); [|apply Hrest].
    destruct (or_none (strip (get_or row "header_media_path" ""))) as [path|]; [|apply Hrest].
    destruct (truthy _); [apply Hrest|].
    destruct (upload_media client path s) as [[info|e] s']; simpl; [|eauto 6].
    destruct (dict_get info "id"); simpl; [apply Hrest|eauto 6].
Qed.

(** *** The stop event only ever gets set *)

Lemma act_keeps_stop c a : stop_event c = Some true -> stop_event (act c a) = Some true.
Proof. intros H. destruct a; simpl; [by rewrite H|done|done]. Qed.

Lemma acts_keep_stop acts c :
  stop_event c = Some true -> stop_event (foldl act c acts) = Some true.
Proof. revert c. induction acts as [|a acts IH]; intros c H; simpl; [done|]. by apply IH, act_keeps_stop. Qed.

Lemma acts_leave_stop acts c :
  SetStop ∉ acts -> stop_event (foldl act c acts) = stop_event c.
Proof.
  revert c. induction acts as [|a acts IH]; intros c H; simpl; [done|].
  apply not_elem_of_cons in H as [Ha Hacts]. rewrite IH by done. by destruct a.
Qed.

Section DispatchFacts.

Context {S : Type}.
Variable client : Client S.
Variable cfg : launch.

Lemma look_keeps_stop (w : world S) :
  stop_event (control w) = Some true -> stop_event (control (look cfg w)) = Some true.
Proof. intros H. simpl. by apply acts_keep_stop. Qed.

Lemma look_leaves_stop (w : world S) :
  (forall k, SetStop ∉ l_owner cfg k) ->
  stop_event (control (look cfg w)) = stop_event (control w).
Proof. intros H. simpl. by apply acts_leave_stop. Qed.

Lemma look_emitted (w : world S) : emitted (look cfg w) = emitted w.
Proof. done. Qed.

(** The checks of a world whose stop event is set. *)
Lemma stop_is_set_after_set (w : world S) :
  stop_event (control w) = Some true ->
  fst (stop_is_set cfg w) = true
  /\ stop_event (control (snd (stop_is_set cfg w))) = Some true.
Proof.
  intros H. apply look_keeps_stop in H. unfold stop_is_set. simpl in *. by rewrite H.
Qed.

(** The checks of a world whose stop event is never set. *)
Lemma stop_is_set_never (w : world S) :
  (forall k, SetStop ∉ l_owner cfg k) ->
  stop_event (control w) <> Some true ->
  fst (stop_is_set cfg w) = false
  /\ stop_event (control (snd (stop_is_set cfg w))) <> Some true.
Proof.
  intros Hn H. pose proof (look_leaves_stop w Hn) as E.
  unfold stop_is_set. simpl in *. rewrite E.
  split; [|done]. by destruct (stop_event (control w)) as [[|]|].
Qed.

Lemma stop_is_set_emitted (w : world S) : emitted (snd (stop_is_set cfg w)) = emitted w.
Proof. done. Qed.

Lemma pause_is_set_emitted (w : world S) : emitted (snd (pause_is_set cfg w)) = emitted w.
Proof. done. Qed.

Lemma pause_is_set_keeps_stop (w : world S) :
  stop_event (control w) = Some true ->
  stop_event (control (snd (pause_is_set cfg w))) = Some true.
Proof. apply look_keeps_stop. Qed.

Lemma pause_is_set_leaves_stop (w : world S) :
  (forall k, SetStop ∉ l_owner cfg k) ->
  stop_event (control (snd (pause_is_set cfg w))) = stop_event (control w).
Proof. apply look_leaves_stop. Qed.

Lemma emit_control stats total st ph m i (w : world S) :
  control (emit cfg stats total st ph m i w) = control w.
Proof. unfold emit. by destruct (l_progress_callback cfg). Qed.

(** What [emit] hands to the observer carries the counters of [stats]. *)
Lemma emit_emitted stats total st ph m i (w : world S) :
  exists es, emitted (emit cfg stats total st ph m i w) = emitted w ++ es
             /\ Forall (fun e => BatchProgressEvent.processed e = disposed stats) es.
Proof.
  unfold emit. destruct (l_progress_callback cfg); simpl.
  - eexists [_]. split; [done|]. by repeat constructor.
  - exists []. by rewrite app_nil_r.
Qed.

Lemma send_payload_control payload (w : world S) :
  control (snd (_send_payload_sync client cfg payload w)) = control w.
Proof.
  unfold _send_payload_sync. destruct (l_dry_run cfg); [done|].
  destruct (send_message client payload (client_state w)) as [[r|e] s]; done.
Qed.

Lemma send_payload_emitted payload (w : world S) :
  emitted (snd (_send_payload_sync client cfg payload w)) = emitted w.
Proof.
  unfold _send_payload_sync. destruct (l_dry_run cfg); [done|].
  destruct (send_message client payload (client_state w)) as [[r|e] s]; done.
Qed.

(** The status of a send is a success or ["error"]. *)
Lemma send_payload_status payload (w : world S) :
  let st := fst (fst (_send_payload_sync client cfg payload w)) in
  st = "dry_run" \/ st = "sent" \/ st = "error".
Proof.
  unfold _send_payload_sync. destruct (l_dry_run cfg); [by left|].
  destruct (send_message client payload (client_state w)) as [[r|e] s]; simpl; auto.
Qed.

(** One processed row is one disposition. *)
Lemma process_row_spec tc idx row stats (w : world S) :
  let out := process_row client cfg tc idx row stats w in
  disposed (fst out) = (disposed stats + 1)%Z
  /\ aborted (fst out) = aborted stats
  /\ (processed (fst out) - sent (fst out) = processed stats - sent stats)%Z
  /\ total_rows (fst out) = total_rows stats
  /\ control (snd out) = control w
  /\ exists es, emitted (snd out) = emitted w ++ es
                /\ Forall (fun e => BatchProgressEvent.processed e = disposed (fst out)) es.
Proof.
  unfold process_row.
  destruct (prepare_row_cases row client (client_state w))
    as [(ph & m & E)|[(ph & m & E)|(ph & pl & E)]]; simpl in E; rewrite E; simpl.
  - rewrite emit_control. unfold disposed. simpl. repeat split; try lia.
    edestruct emit_emitted as (es & -> & Hes). simpl. eauto.
  - rewrite emit_control. unfold disposed. simpl. repeat split; try lia.
    edestruct emit_emitted as (es & -> & Hes). simpl. eauto.
  - pose proof (send_payload_status pl
        (with_client (p_state (_prepare_row row client (client_state w)))
                     (p_calls (_prepare_row row client (client_state w))) w)) as Hst.
    pose proof (send_payload_control pl
        (with_client (p_state (_prepare_row row client (client_state w)))
                     (p_calls (_prepare_row row client (client_state w))) w)) as Hc.
    pose proof (send_payload_emitted pl
        (with_client (p_state (_prepare_row row client (client_state w)))
                     (p_calls (_prepare_row row client (client_state w))) w)) as He.
    destruct (_send_payload_sync client cfg pl _) as [[st sm] w']. simpl in *.
    destruct (is_success st) eqn:Es; simpl; rewrite emit_control, Hc;
      unfold disposed; simpl; repeat split; try lia.
    + destruct (emit_emitted (add_sent stats) tc st ph "" idx w') as (es & -> & Hes).
      rewrite He. eauto.
    + destruct (emit_emitted (add_error stats) tc "error" ph sm idx w') as (es & -> & Hes).
      rewrite He. eauto.
Qed.


Lemma set_aborted_counts stats :
  disposed (set_aborted stats) = disposed stats
  /\ processed (set_aborted stats) = processed stats
  /\ sent (set_aborted stats) = sent stats
  /\ total_rows (set_aborted stats) = total_rows stats
  /\ aborted (set_aborted stats) = true.
Proof. done. Qed.

(** The pause loop leaves the counters alone; it aborts only on a stop
    event that is set, and never clears that event. *)
Lemma pause_wait_spec fuel stats (w : world S) stats' w' :
  pause_wait cfg fuel stats w = Some (stats', w') ->
  emitted w' = emitted w
  /\ (stats' = stats \/ stats' = set_aborted stats)
  /\ (stop_event (control w) = Some true -> stop_event (control w') = Some true)
  /\ ((forall k, SetStop ∉ l_owner cfg k) -> stop_event (control w) <> Some true ->
      stats' = stats /\ stop_event (control w') <> Some true).
Proof.
  revert w. induction fuel as [|fuel IH]; intros w; simpl.
  - destruct (default false (pause_event _)).
    + destruct (default false (stop_event _)) eqn:Es; [|done].
      intros [= <- <-]. simpl. split; [done|]. split; [by right|]. split.
      * intros H. by do 2 apply acts_keep_stop.
      * intros Hn Hc. exfalso. rewrite !acts_leave_stop in Es by done.
        by destruct (stop_event (control w)) as [[|]|].
    + intros [= <- <-]. simpl. split; [done|]. split; [by left|]. split.
      * intros H. by apply acts_keep_stop.
      * intros Hn Hc. by rewrite acts_leave_stop.
  - destruct (default false (pause_event _)).
    + destruct (default false (stop_event _)) eqn:Es.
      * intros [= <- <-]. simpl. split; [done|]. split; [by right|]. split.
        -- intros H. by do 2 apply acts_keep_stop.
        -- intros Hn Hc. exfalso. rewrite !acts_leave_stop in Es by done.
           by destruct (stop_event (control w)) as [[|]|].
      * intros H. apply IH in H as (He & Hs & Hk & Hn). simpl in *.
        split; [done|]. split; [done|]. split.
        -- intros Hset. apply Hk. by do 2 apply acts_keep_stop.
        -- intros Hnever Hc. apply Hn; [done|]. by rewrite !acts_leave_stop.
    + intros [= <- <-]. simpl. split; [done|]. split; [by left|]. split.
      * intros H. by apply acts_keep_stop.
      * intros Hn Hc. by rewrite acts_leave_stop.
Qed.

(** The loop over the rows. *)
Lemma batch_loop_spec fuel tc rows :
  forall idx stats (w : world S) stats' w',
  batch_loop client cfg fuel tc idx rows stats w = Some (stats', w') ->
  aborted stats = false ->
  (disposed stats <= disposed stats' <= disposed stats + Z.of_nat (length rows))%Z
  /\ (aborted stats' = false ->
      disposed stats' = (disposed stats + Z.of_nat (length rows))%Z)
  /\ (processed stats' - sent stats' = processed stats - sent stats)%Z
  /\ total_rows stats' = total_rows stats
  /\ (exists es, emitted w' = emitted w ++ es
        /\ Forall (fun e => (BatchProgressEvent.processed e
                             <= disposed stats + Z.of_nat (length rows))%Z) es)
  /\ (stop_event (control w) = Some true -> stop_event (control w') = Some true)
  /\ ((forall k, SetStop ∉ l_owner cfg k) -> stop_event (control w) <> Some true ->
      aborted stats' = false).
Proof.
  induction rows as [|row rest IH]; intros idx stats w stats' w' Hrun Hna.
  { simpl in Hrun. injection Hrun as <- <-. simpl.
    repeat split; try lia; try done. exists []. by rewrite app_nil_r. }
  cbn [batch_loop] in Hrun.
  destruct (stop_is_set cfg w) as [stop w1] eqn:Estop.
  pose proof (stop_is_set_after_set w) as Hset.
  pose proof (stop_is_set_never w) as Hnever.
  pose proof (stop_is_set_emitted w) as Hem.
  rewrite Estop in Hset, Hnever, Hem. simpl in Hset, Hnever, Hem.
  destruct stop.
  { injection Hrun as <- <-. rewrite Hem. unfold disposed. simpl.
    repeat split; try lia; try done.
    - exists []. by rewrite app_nil_r.
    - intros H. by apply Hset.
    - intros Hn Hc. by destruct (Hnever Hn Hc). }
  destruct (pause_wait cfg fuel stats w1) as [[stats2 w2]|] eqn:Epause; [|done].
  apply pause_wait_spec in Epause as (Hem2 & Hst2 & Hk2 & Hn2).
  destruct (aborted stats2) eqn:Eab.
  { injection Hrun as <- <-. destruct Hst2 as [-> | ->]; [congruence|].
    rewrite Hem2, Hem. unfold disposed. simpl. repeat split; try lia; try done.
    - exists []. by rewrite app_nil_r.
    - intros H. apply Hk2. by apply Hset.
    - intros Hn Hc. destruct (Hnever Hn Hc) as [_ Hc1].
      destruct (Hn2 Hn Hc1) as [E _]. apply (f_equal aborted) in E. simpl in E. congruence. }
  destruct Hst2 as [-> | ->]; [|done].
  pose proof (process_row_spec tc idx row stats w2) as Hrow.
  destruct (process_row client cfg tc idx row stats w2) as [stats3 w3].
  simpl in Hrow. destruct Hrow as (Hd & Ha & Hp & Ht & Hc & es & Hes & Hall).
  apply IH in Hrun as (Hb & Heq & Hps & Htot & (es' & Hes' & Hall') & Hk & Hn); [|congruence].
  rewrite Hd in *. rewrite Hp in Hps. rewrite Ht in Htot.
  rewrite length_cons, Nat2Z.inj_succ. repeat split; try lia; try done.
  - intros H. rewrite (Heq H). lia.
  - exists (es ++ es'). rewrite Hes', Hes, Hem2, Hem, app_assoc. split; [done|].
    apply Forall_app. split.
    + eapply Forall_impl; [exact Hall|]. simpl. intros e ->. lia.
    + eapply Forall_impl; [exact Hall'|]. simpl. intros e He. lia.
  - intros H. apply Hk. rewrite Hc. apply Hk2. by apply Hset.
  - intros Hnv Hcl. apply Hn; [done|]. rewrite Hc.
    destruct (Hnever Hnv Hcl) as [_ Hc1]. by destruct (Hn2 Hnv Hc1).
Qed.

(** With the stop event set at launch the first check aborts the batch,
    whatever the pause event does. *)
Lemma batch_loop_cancelled fuel tc idx row rest stats (w : world S) :
  stop_event (control w) = Some true ->
  batch_loop client cfg fuel tc idx (row :: rest) stats w
  = Some (set_aborted stats, snd (stop_is_set cfg w)).
Proof.
  intros H. cbn [batch_loop].
  destruct (stop_is_set_after_set w H) as [E _].
  destruct (stop_is_set cfg w) as [stop w1]. simpl in *. by rewrite E.
Qed.

(** The pause loop is left at once when the pause event is never set. *)
Lemma pause_wait_not_paused fuel stats (w : world S) :
  (forall k, SetPause ∉ l_owner cfg k) ->
  pause_event (control w) <> Some true ->
  exists w', pause_wait cfg fuel stats w = Some (stats, w')
             /\ pause_event (control w') <> Some true.
Proof.
  intros Hn Hc.
  assert (forall acts c, SetPause ∉ acts -> pause_event c <> Some true ->
                         pause_event (foldl act c acts) <> Some true) as Hacts.
  { induction acts as [|a acts IH]; intros c Ha Hcc; simpl; [done|].
    apply not_elem_of_cons in Ha as [Ha Hacts]. apply IH; [done|].
    destruct a; simpl; try done. by destruct (pause_event c). }
  specialize (Hacts (l_owner cfg (looks w)) (control w) (Hn _) Hc).
  destruct fuel; simpl;
    destruct (pause_event (foldl act (control w) (l_owner cfg (looks w)))) as [[|]|] eqn:E;
    simpl; try done; eexists; (split; [done|]); simpl; by rewrite E.
Qed.


Lemma look_not_paused (w : world S) :
  (forall k, SetPause ∉ l_owner cfg k) ->
  pause_event (control w) <> Some true ->
  pause_event (control (look cfg w)) <> Some true.
Proof.
  intros Hn Hc. simpl. generalize (Hn (looks w)). generalize (l_owner cfg (looks w)).
  intros acts. revert Hc. generalize (control w).
  induction acts as [|a acts IH]; intros c Hcc Ha; simpl; [done|].
  apply not_elem_of_cons in Ha as [Ha Hacts]. apply IH; [|done].
  destruct a; simpl; try done. by destruct (pause_event c).
Qed.

(** A batch that is never paused returns, whatever the budget of the
    pause loop. *)
Lemma batch_loop_returns fuel tc rows :
  (forall k, SetPause ∉ l_owner cfg k) ->
  forall idx stats (w : world S),
  pause_event (control w) <> Some true ->
  is_Some (batch_loop client cfg fuel tc idx rows stats w).
Proof.
  intros Hn. induction rows as [|row rest IH]; intros idx stats w Hc; [done|].
  cbn [batch_loop].
  pose proof (look_not_paused w Hn Hc) as Hc1.
  destruct (stop_is_set cfg w) as [stop w1] eqn:Estop.
  assert (w1 = look cfg w) as -> by (unfold stop_is_set in Estop; by injection Estop).
  destruct stop; [done|].
  destruct (pause_wait_not_paused fuel stats (look cfg w) Hn Hc1) as (w2 & -> & Hc2).
  destruct (aborted stats); [done|].
  pose proof (process_row_spec tc idx row stats w2) as Hrow.
  destruct (process_row client cfg tc idx row stats w2) as [stats3 w3].
  simpl in Hrow. destruct Hrow as (_ & _ & _ & _ & Hcc & _).
  apply IH. by rewrite Hcc.
Qed.

(** Processing a row never decreases a counter. *)
Lemma process_row_counters tc idx row stats (w : world S) :
  let out := process_row client cfg tc idx row stats w in
  (sent stats <= sent (fst out))%Z
  /\ (skipped stats <= skipped (fst out))%Z
  /\ (errors stats <= errors (fst out))%Z.
Proof.
  unfold process_row.
  destruct (p_result (_prepare_row row client (client_state w)))
    as [[[status phone] payload] message].
  destruct (decide (status = "skip")); [simpl; lia|].
  destruct (decide (status = "error")); [simpl; lia|].
  destruct payload as [payload|]; [|simpl; lia].
  destruct (_send_payload_sync client cfg payload _) as [[st sm] w'].
  destruct (is_success st); simpl; lia.
Qed.

(** Neither does the loop, aborted or not. *)
Lemma batch_loop_counters fuel tc rows :
  forall idx stats (w : world S) stats' w',
  batch_loop client cfg fuel tc idx rows stats w = Some (stats', w') ->
  (sent stats <= sent stats')%Z
  /\ (skipped stats <= skipped stats')%Z
  /\ (errors stats <= errors stats')%Z.
Proof.
  induction rows as [|row rest IH]; intros idx stats w stats' w' Hrun.
  { simpl in Hrun. injection Hrun as <- <-. lia. }
  cbn [batch_loop] in Hrun.
  destruct (stop_is_set cfg w) as [[|] w1].
  { injection Hrun as <- <-. simpl. lia. }
  destruct (pause_wait cfg fuel stats w1) as [[stats2 w2]|] eqn:Epause; [|done].
  apply pause_wait_spec in Epause as (_ & Hst2 & _).
  assert (sent stats2 = sent stats /\ skipped stats2 = skipped stats
          /\ errors stats2 = errors stats) as (E1 & E2 & E3).
  { by destruct Hst2 as [-> | ->]. }
  destruct (aborted stats2).
  { injection Hrun as <- <-. lia. }
  pose proof (process_row_counters tc idx row stats2 w2) as Hrow.
  destruct (process_row client cfg tc idx row stats2 w2) as [stats3 w3].
  simpl in Hrow. apply IH in Hrun. lia.
Qed.

End DispatchFacts.

(** *** The worker pool *)

Lemma count_workers_insert f ws i wk wk' :
  ws !! i = Some wk ->
  count_workers f (<[i := wk']> ws) + (if f wk then 1 else 0)
  = count_workers f ws + (if f wk' then 1 else 0).
Proof.
  unfold count_workers. revert i. induction ws as [|x ws IH]; intros i Hi; [done|].
  destruct i as [|i]; simpl in *.
  - injection Hi as ->. rewrite !filter_cons.
    destruct (decide (f wk' = true)) as [->|Hf'], (decide (f wk = true)) as [->|Hf]; simpl; try lia.
    + apply not_true_is_false in Hf. rewrite Hf. lia.
    + apply not_true_is_false in Hf'. rewrite Hf'. lia.
    + apply not_true_is_false in Hf. apply not_true_is_false in Hf'. rewrite Hf, Hf'. lia.
  - specialize (IH i Hi). rewrite !filter_cons.
    destruct (decide (f x = true)); simpl; lia.
Qed.

Lemma rows_first_tail x q : rows_first (x :: q) -> rows_first q.
Proof.
  intros (items & k & E). destruct items as [|it items]; simpl in E.
  - destruct k as [|k]; [done|]. simpl in E. injection E as _ ->. by exists [], k.
  - injection E as _ ->. by exists items, k.
Qed.

Lemma rows_first_sentinel q : rows_first (None :: q) -> rows_left q = 0.
Proof.
  intros (items & k & E). destruct items as [|it items]; simpl in E; [|done].
  destruct k as [|k]; [done|]. simpl in E. injection E as ->.
  unfold rows_left. induction k; simpl; [done|]. done.
Qed.

Lemma rows_left_some x q : rows_left (Some x :: q) = Datatypes.S (rows_left q).
Proof. done. Qed.

Lemma rows_left_none q : rows_left (None :: q) = rows_left q.
Proof. done. Qed.

Lemma sentinels_some x q : sentinels (Some x :: q) = sentinels q.
Proof. unfold sentinels. by rewrite filter_cons_False. Qed.

Lemma sentinels_none q : sentinels (None :: q) = Datatypes.S (sentinels q).
Proof. unfold sentinels. by rewrite filter_cons_True. Qed.

(** Closes the counting side conditions of a step. *)
Ltac pool_count :=
  unfold disposed; simpl;
  rewrite ?rows_left_some, ?rows_left_none, ?sentinels_some, ?sentinels_none;
  first [ lia | done | intros; split; [done|lia] ].

Section PoolFacts.

Context {S : Type}.
Variable client : Client S.
Variable cfg : launch.
Variable clock : nat -> Q.

(** How the invariant moves when worker [i] goes from [wk] to [wk'],
    the queue becomes [q'] and the counters become [stats']. *)
Lemma pool_inv_update N (p p' : pool S) i wk wk' :
  pool_inv N p ->
  workers p !! i = Some wk ->
  workers p' = <[i := wk']> (workers p) ->
  rows_first (queue p') ->
  sentinels (queue p') + (if negb (is_done wk) then 1 else 0)
  = sentinels (queue p) + (if negb (is_done wk') then 1 else 0) ->
  (disposed (stats p') + (if holds_row wk' then 1 else 0) + Z.of_nat (rows_left (queue p'))
   <= disposed (stats p) + (if holds_row wk then 1 else 0) + Z.of_nat (rows_left (queue p)))%Z ->
  (aborted (stats p') = false ->
   aborted (stats p) = false
   /\ (disposed (stats p') + (if holds_row wk' then 1 else 0) + Z.of_nat (rows_left (queue p'))
       = disposed (stats p) + (if holds_row wk then 1 else 0) + Z.of_nat (rows_left (queue p)))%Z) ->
  rows_left (queue p') <= rows_left (queue p) ->
  (is_done wk = false -> is_done wk' = true -> rows_left (queue p') = 0) ->
  (is_done wk = true -> is_done wk' = true) ->
  (processed (stats p') - sent (stats p') = processed (stats p) - sent (stats p))%Z ->
  pool_inv N p'.
Proof.
  intros (Hq & Hs & Hle & Heq & Hdone & Hpos & Hps) Hi Hws Hq' Hs' Hle' Heq' Hl' Hd' Hdd Hps'.
  pose proof (count_workers_insert (fun wk => negb (is_done wk)) _ _ _ wk' Hi) as Ha.
  pose proof (count_workers_insert holds_row _ _ _ wk' Hi) as Hh.
  unfold pool_inv. rewrite Hws, length_insert. unfold alive, holding in *.
  split; [done|]. split; [lia|]. split.
  { destruct (holds_row wk), (holds_row wk'); lia. }
  split.
  { intros Hab. destruct (Heq' Hab) as [Hab0 E]. specialize (Heq Hab0).
    destruct (holds_row wk), (holds_row wk'); lia. }
  split; [|split; [done|lia]].
  intros Hlt. destruct (is_done wk) eqn:E1, (is_done wk') eqn:E2; simpl in *.
  - assert (rows_left (queue p) = 0) by (apply Hdone; lia). lia.
  - by specialize (Hdd eq_refl).
  - by apply Hd'.
  - assert (rows_left (queue p) = 0) by (apply Hdone; lia). lia.
Qed.

Lemma pool_inv_relabel N (p p' : pool S) i wk wk' :
  pool_inv N p -> workers p !! i = Some wk -> workers p' = <[i := wk']> (workers p) ->
  queue p' = queue p -> stats p' = stats p ->
  holds_row wk = holds_row wk' -> is_done wk = is_done wk' ->
  pool_inv N p'.
Proof.
  intros Hinv Hi Hws Hq Hst Hh Hd. pose proof Hinv as (Hrf & _).
  eapply pool_inv_update; eauto; rewrite ?Hq, ?Hst, ?Hh, ?Hd; try done; try lia.
  rewrite <- Hd. intros ->. done.
Qed.

Lemma pool_inv_finish N (p p' : pool S) i wk :
  pool_inv N p -> workers p !! i = Some wk -> workers p' = <[i := WIdle]> (workers p) ->
  queue p' = queue p -> holds_row wk = true ->
  disposed (stats p') = (disposed (stats p) + 1)%Z ->
  aborted (stats p') = aborted (stats p) ->
  (processed (stats p') - sent (stats p') = processed (stats p) - sent (stats p))%Z ->
  pool_inv N p'.
Proof.
  intros Hinv Hi Hws Hq Hh Hd Ha Hps. pose proof Hinv as (Hrf & _).
  assert (is_done wk = false) as Hnd by (by destruct wk).
  eapply pool_inv_update; eauto; rewrite ?Hq, ?Hh, ?Hnd, ?Hd, ?Ha; simpl; try done; try lia.
  intros ->. split; [done|lia].
Qed.

Lemma pool_inv_drop N (p p' : pool S) i wk :
  pool_inv N p -> workers p !! i = Some wk -> workers p' = <[i := WIdle]> (workers p) ->
  queue p' = queue p -> is_done wk = false ->
  disposed (stats p') = disposed (stats p) ->
  aborted (stats p') = true ->
  (processed (stats p') - sent (stats p') = processed (stats p) - sent (stats p))%Z ->
  pool_inv N p'.
Proof.
  intros Hinv Hi Hws Hq Hnd Hd Ha Hps. pose proof Hinv as (Hrf & _).
  eapply pool_inv_update; eauto; rewrite ?Hq, ?Hnd, ?Hd, ?Ha; simpl; try done; try lia.
  destruct (holds_row wk); lia.
Qed.

(** A row leaves the queue into the hands of the idle worker [i]. *)
Lemma pool_inv_take N (p : pool S) i idx row q :
  pool_inv N p -> workers p !! i = Some WIdle -> queue p = Some (idx, row) :: q ->
  pool_inv N (Pool q (<[i := WPaused idx row]> (workers p)) (stats p) (limiter p)
                   (shared p) (steps p)).
Proof.
  intros Hinv Hi Hq. pose proof Hinv as (Hrf & _). rewrite Hq in Hrf.
  eapply pool_inv_update; eauto; simpl; rewrite ?Hq; try done;
    first [ by eapply rows_first_tail | pool_count ].
Qed.

Lemma pool_inv_steps N (p : pool S) n :
  pool_inv N p -> pool_inv N (Pool (queue p) (workers p) (stats p) (limiter p) (shared p) n).
Proof. done. Qed.

Lemma pool_inv_shared N (p : pool S) (w : world S) :
  pool_inv N p -> pool_inv N (Pool (queue p) (workers p) (stats p) (limiter p) w (steps p)).
Proof. done. Qed.

Lemma update_stats_effect status phone message idx (p : pool S) :
  is_success status = true \/ status = "skip" \/ status = "error" ->
  let p' := update_stats cfg status phone message idx p in
  queue p' = queue p /\ workers p' = workers p
  /\ disposed (stats p') = (disposed (stats p) + 1)%Z
  /\ aborted (stats p') = aborted (stats p)
  /\ (processed (stats p') - sent (stats p') = processed (stats p) - sent (stats p))%Z
  /\ (sent (stats p) <= sent (stats p'))%Z /\ control (shared p') = control (shared p).
Proof.
  intros H p'. subst p'. unfold update_stats. simpl. rewrite emit_control.
  destruct H as [->|[->| ->]]; simpl; unfold disposed; simpl; repeat split; first [lia|done].
Qed.

(** The pause loop keeps or drops the row that worker [i] holds. *)
Lemma pause_turn_inv N i idx row (p : pool S) :
  pool_inv N p -> workers p !! i = Some (WPaused idx row) ->
  pool_inv N (pause_turn cfg i idx row p).
Proof.
  intros Hinv Hi. unfold pause_turn.
  destruct (pause_is_set cfg (shared p)) as [[|] w1].
  - destruct (stop_is_set cfg w1) as [[|] w2].
    + eapply pool_inv_drop; eauto.
    + eapply pool_inv_relabel; eauto.
  - destruct (aborted (stats p)) eqn:Ea.
    + eapply pool_inv_drop; eauto.
    + eapply pool_inv_relabel; eauto.
Qed.

Lemma pause_turn_overwrites i idx row (p : pool S) wk :
  pause_turn cfg i idx row (set_worker i wk p) = pause_turn cfg i idx row p.
Proof.
  unfold pause_turn, set_worker. cbn [shared stats queue workers limiter steps].
  destruct (pause_is_set cfg (shared p)) as [[|] w1].
  - destruct (stop_is_set cfg w1) as [[|] w2]; by rewrite list_insert_insert_eq.
  - destruct (aborted (stats p)); by rewrite list_insert_insert_eq.
Qed.

Lemma acquire_turn_inv N i idx phone payload (p : pool S) wk :
  pool_inv N p -> workers p !! i = Some wk -> holds_row wk = true ->
  pool_inv N (acquire_turn clock i idx phone payload p).
Proof.
  intros Hinv Hi Hh. unfold acquire_turn.
  assert (is_done wk = false) as Hnd by (by destruct wk).
  destruct (AsyncRateLimiter.attempt _ _) as [[|d] l];
    eapply pool_inv_relabel; eauto; by rewrite ?Hh, ?Hnd.
Qed.

Lemma finish_send_inv N i idx phone send_status send_message (p : pool S) wk :
  pool_inv N p -> workers p !! i = Some wk -> holds_row wk = true ->
  pool_inv N (finish_send cfg i idx phone send_status send_message p).
Proof.
  intros Hinv Hi Hh. unfold finish_send.
  destruct (update_stats_effect
              (if is_success send_status then send_status else "error")
              phone send_message idx p) as (Hq & Hw & Hd & Ha & Hps & _).
  { destruct (is_success send_status) eqn:E; auto. }
  eapply pool_inv_finish; eauto; simpl; by rewrite ?Hw.
Qed.

(** Every step of a worker keeps the invariant of the pool. *)
Lemma worker_step_inv N i (p : pool S) :
  pool_inv N p -> pool_inv N (worker_step client cfg clock i p).
Proof.
  intros Hinv. unfold worker_step. cbn [queue workers stats limiter shared steps].
  destruct (workers p !! i) as [wk|] eqn:Hi; [|done].
  destruct wk as [|idx row|idx row|idx phone payload|idx phone payload|idx phone st sm|].
  - (* WIdle *)
    destruct (queue p) as [|[[idx row]|] q] eqn:Hq.
    { unfold pool_inv in *. simpl. by rewrite Hq in Hinv. }
    + destruct (stop_is_set cfg (shared p)) as [[|] w1].
      * pose proof Hinv as (Hrf & _). rewrite Hq in Hrf.
        eapply (pool_inv_update N p _ i WIdle WIdle); eauto; simpl; rewrite ?Hq; try done;
          first [ by rewrite list_insert_id | by eapply rows_first_tail | pool_count ].
      * rewrite <- (pause_turn_overwrites i idx row _ (WPaused idx row)).
        apply pause_turn_inv; [|simpl; apply list_lookup_insert_eq; by eapply lookup_lt_Some].
        unfold set_worker. simpl.
        apply (pool_inv_shared N (Pool q (<[i:=WPaused idx row]> (workers p)) (stats p)
                                       (limiter p) (shared p) (Datatypes.S (steps p))) w1).
        by apply (pool_inv_take N p i idx row q).
    + pose proof Hinv as (Hrf & _). rewrite Hq in Hrf.
      eapply (pool_inv_update N p _ i WIdle WDone); eauto; simpl; rewrite ?Hq; try done;
        first [ by eapply rows_first_tail | by intros _ _; apply rows_first_sentinel
              | pool_count ].
  - (* WPaused *)
    apply pause_turn_inv; [by apply pool_inv_steps|done].
  - (* WPreparing *)
    destruct (prepare_row_cases row client (client_state (shared p)))
      as [(ph & m & E)|[(ph & m & E)|(ph & pl & E)]]; simpl in E; rewrite E; simpl.
    + match goal with |- pool_inv N (set_worker i WIdle (update_stats cfg ?st ?a ?b ?c ?p0)) =>
        destruct (update_stats_effect st a b c p0) as (Hq & Hw & Hd & Ha & Hps & _); [auto|];
        eapply (pool_inv_finish N p _ i); eauto; simpl; by rewrite ?Hw
      end.
    + match goal with |- pool_inv N (set_worker i WIdle (update_stats cfg ?st ?a ?b ?c ?p0)) =>
        destruct (update_stats_effect st a b c p0) as (Hq & Hw & Hd & Ha & Hps & _); [auto|];
        eapply (pool_inv_finish N p _ i); eauto; simpl; by rewrite ?Hw
      end.
    + eapply acquire_turn_inv; [|exact Hi|done]. done.
  - (* WAcquiring *)
    eapply acquire_turn_inv; [|exact Hi|done]. done.
  - (* WSending *)
    destruct (_send_payload_sync client cfg payload (shared p)) as [[st sm] w1].
    destruct (is_success st && (0 <? l_delay_ms cfg)%Z).
    + eapply pool_inv_relabel; eauto; done.
    + eapply finish_send_inv; [|exact Hi|done]. done.
  - (* WDelaying *)
    eapply finish_send_inv; [|exact Hi|done]. done.
  - done.
Qed.

Lemma run_pool_inv N schedule (p : pool S) :
  pool_inv N p -> pool_inv N (run_pool client cfg clock schedule p).
Proof.
  revert p. induction schedule as [|i schedule IH]; intros p Hinv; [done|].
  simpl. by apply IH, worker_step_inv.
Qed.

Lemma count_workers_replicate f k wk :
  count_workers f (replicate k wk) = if f wk then k else 0.
Proof.
  unfold count_workers. induction k as [|k IH]; simpl; [by destruct (f wk)|].
  rewrite filter_cons. destruct (decide (f wk = true)) as [E|E].
  - rewrite E in *. simpl. by rewrite IH.
  - apply not_true_is_false in E. by rewrite E in *.
Qed.

Lemma sentinels_shape (items : list (Z * Row)) k :
  sentinels ((Some <$> items) ++ replicate k None) = k.
Proof.
  induction items as [|it items IH].
  - induction k as [|k IH]; [done|]. simpl in *. by rewrite sentinels_none, IH.
  - by rewrite fmap_cons, <- app_comm_cons, sentinels_some.
Qed.

Lemma rows_left_shape (items : list (Z * Row)) k :
  rows_left ((Some <$> items) ++ replicate k None) = length items.
Proof.
  induction items as [|it items IH].
  - induction k as [|k IH]; [done|]. simpl in *. by rewrite rows_left_none.
  - by rewrite fmap_cons, <- app_comm_cons, rows_left_some, IH.
Qed.

Lemma worker_count_pos msg_per_sec async_workers :
  (1 <= worker_count msg_per_sec async_workers)%Z.
Proof.
  unfold worker_count, derived_workers. destruct async_workers as [n|]; [|lia].
  destruct (Z.eqb_spec n 0), (Z.ltb_spec 0 n); simpl; lia.
Qed.

(** The pool is launched in a state that satisfies the invariant. *)
Lemma start_pool_inv rows msg_per_sec async_workers (s : S) ctl :
  pool_inv (length rows) (start_pool cfg rows msg_per_sec async_workers s ctl).
Proof.
  unfold pool_inv, start_pool. simpl.
  pose proof (worker_count_pos msg_per_sec async_workers) as Hw.
  set (W := Z.to_nat (worker_count msg_per_sec async_workers)).
  assert (0 < W) by lia.
  unfold alive, holding. rewrite !count_workers_replicate, sentinels_shape, rows_left_shape,
    length_replicate, enumerate_length. simpl. unfold disposed. simpl.
  split; [by eexists _, _|]. repeat split; try done; lia.
Qed.

Lemma all_done_counts ws :
  forallb is_done ws = true -> alive ws = 0 /\ holding ws = 0.
Proof.
  unfold alive, holding, count_workers. induction ws as [|wk ws IH]; [done|].
  simpl. intros [Hd Hws]%andb_true_iff. destruct (IH Hws) as [Ha Hh].
  rewrite !filter_cons. by destruct wk.
Qed.

(** When every worker has returned, every row is counted unless the
    batch was aborted. *)
Lemma pool_inv_result N (p : pool S) r :
  pool_inv N p -> pool_result p = Some r ->
  (disposed r <= Z.of_nat N)%Z
  /\ (aborted r = false -> disposed r = Z.of_nat N)
  /\ processed r = sent r.
Proof.
  intros (_ & _ & Hle & Heq & Hdone & Hpos & Hps). unfold pool_result.
  destruct (forallb is_done (workers p)) eqn:E; [|done]. intros [= <-].
  destruct (all_done_counts _ E) as [Ha Hh]. rewrite Ha, Hh in *.
  rewrite (Hdone Hpos) in *. split; [lia|]. split; [|done]. intros H. specialize (Heq H). lia.
Qed.

(** *** Looks at the events *)

Lemma looked_add n m c k :
  looked cfg (n + m) c k = looked cfg m (fst (looked cfg n c k)) (snd (looked cfg n c k)).
Proof. revert c k. induction n as [|n IH]; intros c k; simpl; [done|]. apply IH. Qed.

Lemma look_looked (w : world S) :
  (control (look cfg w), looks (look cfg w)) = looked cfg 1 (control w) (looks w).
Proof. done. Qed.

Lemma looked_pred (P : RunControl -> Prop) n c k :
  (forall c k, P c -> P (foldl act c (l_owner cfg k))) -> P c -> P (fst (looked cfg n c k)).
Proof.
  intros HP. revert c k. induction n as [|n IH]; intros c k Hc; simpl; [done|].
  by apply IH, HP.
Qed.

Lemma emit_looks stats total st ph m i (w : world S) :
  looks (emit cfg stats total st ph m i w) = looks w.
Proof. unfold emit. by destruct (l_progress_callback cfg). Qed.

Lemma send_payload_looks payload (w : world S) :
  looks (snd (_send_payload_sync client cfg payload w)) = looks w.
Proof.
  unfold _send_payload_sync. destruct (l_dry_run cfg); [done|].
  destruct (send_message client payload (client_state w)) as [[r|e] s]; done.
Qed.

Lemma step_effect_refl (p p' : pool S) :
  control (shared p') = control (shared p) -> looks (shared p') = looks (shared p) ->
  stats p' = stats p -> step_effect cfg p p'.
Proof.
  intros Hc Hl Hs. split; [exists 0; simpl; by rewrite Hc, Hl|]. rewrite Hs.
  split; [by left|]. repeat split; first [lia|done].
Qed.


Lemma step_effect_after_looks (p p1 p2 : pool S) n :
  stats p1 = stats p ->
  (control (shared p1), looks (shared p1)) = looked cfg n (control (shared p)) (looks (shared p)) ->
  step_effect cfg p1 p2 -> step_effect cfg p p2.
Proof.
  intros Hs Hl ((m & Hm) & Ha & Hc). rewrite Hs in *. split; [|done].
  exists (n + m). rewrite looked_add, <- Hl. done.
Qed.

Lemma update_stats_step status phone message idx (p : pool S) :
  step_effect cfg p (update_stats cfg status phone message idx p).
Proof.
  unfold update_stats. split; [exists 0; simpl; by rewrite emit_control, emit_looks|].
  simpl. destruct (is_success status); [simpl; split; [by left|repeat split; first [lia|done]]|].
  destruct (decide (status = "skip")); [simpl; split; [by left|repeat split; first [lia|done]]|].
  destruct (decide (status = "error")); simpl; (split; [by left|repeat split; first [lia|done]]).
Qed.

Lemma set_worker_step i wk (p p' : pool S) :
  step_effect cfg p p' -> step_effect cfg p (set_worker i wk p').
Proof. done. Qed.

Lemma pause_turn_step i idx row (p : pool S) :
  step_effect cfg p (pause_turn cfg i idx row p).
Proof.
  unfold pause_turn, pause_is_set, stop_is_set.
  destruct (default false (pause_event (control (look cfg (shared p))))).
  - destruct (default false (stop_event (control (look cfg (look cfg (shared p)))))) eqn:E.
    + split; [by exists 2|]. simpl in *. split; [|repeat split; first [lia|done]]. right. split; [done|].
      by destruct (stop_event _) as [[|]|].
    + split; [by exists 2|]. simpl. split; [by left|repeat split; first [lia|done]].
  - destruct (aborted (stats p)) eqn:Ea; (split; [by exists 1|]); simpl; (split; [by left|repeat split; first [lia|done]]).
Qed.

Lemma acquire_turn_step i idx phone payload (p : pool S) :
  step_effect cfg p (acquire_turn clock i idx phone payload p).
Proof.
  unfold acquire_turn. destruct (AsyncRateLimiter.attempt _ _) as [o l].
  by apply step_effect_refl.
Qed.

Lemma finish_send_step i idx phone st sm (p : pool S) :
  step_effect cfg p (finish_send cfg i idx phone st sm p).
Proof. apply set_worker_step, update_stats_step. Qed.

(** Every step of a worker has the effect described by [step_effect]. *)
Lemma worker_step_effect i (p : pool S) :
  step_effect cfg p (worker_step client cfg clock i p).
Proof.
  unfold worker_step. cbn [queue workers stats limiter shared steps].
  destruct (workers p !! i) as [wk|] eqn:Hi; [|by apply step_effect_refl].
  destruct wk as [|idx row|idx row|idx phone payload|idx phone payload|idx phone st sm|].
  - destruct (queue p) as [|[[idx row]|] q] eqn:Hq; [by apply step_effect_refl| |].
    + unfold stop_is_set.
      destruct (default false (stop_event (control (look cfg (shared p))))) eqn:E.
      * split; [by exists 1|]. simpl in *. split; [|repeat split; first [lia|done]]. right. split; [done|].
        by destruct (stop_event _) as [[|]|].
      * eapply (step_effect_after_looks p _ _ 1); [| |apply pause_turn_step]; done.
    + by apply step_effect_refl.
  - eapply (step_effect_after_looks p _ _ 0); [| |apply pause_turn_step]; done.
  - destruct (p_result (_prepare_row row client (client_state (shared p))))
      as [[[status phone] payload] message].
    destruct (decide (status = "skip")).
    { eapply (step_effect_after_looks p _ _ 0);
        [| |apply set_worker_step, update_stats_step]; done. }
    destruct (decide (status = "error")).
    { eapply (step_effect_after_looks p _ _ 0);
        [| |apply set_worker_step, update_stats_step]; done. }
    destruct payload as [payload|]; [|by apply step_effect_refl].
    eapply (step_effect_after_looks p _ _ 0); [| |apply acquire_turn_step]; done.
  - eapply (step_effect_after_looks p _ _ 0); [| |apply acquire_turn_step]; done.
  - pose proof (send_payload_control client cfg payload (shared p)) as Hc.
    pose proof (send_payload_looks payload (shared p)) as Hl.
    destruct (_send_payload_sync client cfg payload (shared p)) as [[st sm] w1].
    simpl in Hc, Hl.
    destruct (is_success st && (0 <? l_delay_ms cfg)%Z).
    + by apply step_effect_refl.
    + eapply (step_effect_after_looks p _ _ 0); [| |apply finish_send_step]; simpl;
        by rewrite ?Hc, ?Hl.
  - eapply (step_effect_after_looks p _ _ 0); [| |apply finish_send_step]; done.
  - by apply step_effect_refl.
Qed.

(** No step of a worker clears the stop event. *)
Lemma worker_step_keeps_stop i (p : pool S) :
  stop_event (control (shared p)) = Some true ->
  stop_event (control (shared (worker_step client cfg clock i p))) = Some true.
Proof.
  intros H. destruct (worker_step_effect i p) as ((n & Hn) & _).
  apply (f_equal fst) in Hn. simpl in Hn. rewrite Hn.
  apply (looked_pred (fun c => stop_event c = Some true)); [|done].
  intros c k Hc. by apply acts_keep_stop.
Qed.

(** Without cancellation no step sets the aborted flag. *)
Lemma worker_step_never_cancelled i (p : pool S) :
  (forall k, SetStop ∉ l_owner cfg k) ->
  stop_event (control (shared p)) <> Some true /\ aborted (stats p) = false ->
  stop_event (control (shared (worker_step client cfg clock i p))) <> Some true
  /\ aborted (stats (worker_step client cfg clock i p)) = false.
Proof.
  intros Hn [Hc Ha]. destruct (worker_step_effect i p) as ((n & Hl) & Hab & _).
  apply (f_equal fst) in Hl. simpl in Hl.
  assert (stop_event (control (shared (worker_step client cfg clock i p))) <> Some true) as Hc'.
  { rewrite Hl. apply (looked_pred (fun c => stop_event c <> Some true)); [|done].
    intros c k Hcc. by rewrite acts_leave_stop. }
  split; [done|]. destruct Hab as [->|[_ ?]]; done.
Qed.

(** With the stop event set, a step drops a row or takes a sentinel. *)
Lemma worker_step_cancelled N i (p : pool S) :
  cancelled_inv N p -> cancelled_inv N (worker_step client cfg clock i p).
Proof.
  intros (Hstop & Hidle & Hs & Hk & He & Hab).
  unfold worker_step, cancelled_inv. cbn [queue workers stats limiter shared steps].
  destruct (workers p !! i) as [wk|] eqn:Hi; [|simpl; by repeat split].
  destruct (proj1 (Forall_lookup _ _) Hidle i wk Hi) as [-> | ->]; [|simpl; by repeat split].
  destruct (queue p) as [|[[idx row]|] q] eqn:Hq.
  - simpl. by repeat split.
  - destruct (stop_is_set_after_set cfg (shared p) Hstop) as [E1 E2].
    destruct (stop_is_set cfg (shared p)) as [stop w1]. simpl in E1, E2. subst stop.
    simpl. by repeat split.
  - simpl. rewrite ?rows_left_none in Hab. repeat split; try done.
    apply Forall_insert; [done|by right].
Qed.

Lemma start_pool_cancelled rows msg_per_sec async_workers (s : S) ctl :
  stop_event ctl = Some true ->
  cancelled_inv (length rows) (start_pool cfg rows msg_per_sec async_workers s ctl).
Proof.
  intros H. unfold cancelled_inv, start_pool. simpl.
  rewrite rows_left_shape, enumerate_length. repeat split; try done; [|lia].
  apply Forall_replicate. by left.
Qed.

Lemma start_pool_never_cancelled rows msg_per_sec async_workers (s : S) ctl :
  stop_event ctl <> Some true ->
  let p := start_pool cfg rows msg_per_sec async_workers s ctl in
  stop_event (control (shared p)) <> Some true /\ aborted (stats p) = false.
Proof. done. Qed.

Section Runs.

Variable schedule : list nat.

Lemma run_pool_snoc sched i (p : pool S) :
  run_pool client cfg clock (sched ++ [i]) p
  = worker_step client cfg clock i (run_pool client cfg clock sched p).
Proof. unfold run_pool. by rewrite foldl_app. Qed.

Lemma run_pool_keeps_stop (p : pool S) :
  stop_event (control (shared p)) = Some true ->
  stop_event (control (shared (run_pool client cfg clock schedule p))) = Some true.
Proof.
  revert p. induction schedule as [|i sched IH]; intros p H; [done|].
  simpl. by apply IH, worker_step_keeps_stop.
Qed.

Lemma run_pool_never_cancelled (p : pool S) :
  (forall k, SetStop ∉ l_owner cfg k) ->
  stop_event (control (shared p)) <> Some true /\ aborted (stats p) = false ->
  aborted (stats (run_pool client cfg clock schedule p)) = false.
Proof.
  intros Hn. revert p. induction schedule as [|i sched IH]; intros p H; [by destruct H|].
  simpl. by apply IH, worker_step_never_cancelled.
Qed.

Lemma run_pool_cancelled N (p : pool S) :
  cancelled_inv N p -> cancelled_inv N (run_pool client cfg clock schedule p).
Proof.
  revert p. induction schedule as [|i sched IH]; intros p H; [done|].
  simpl. by apply IH, worker_step_cancelled.
Qed.

Lemma run_pool_counters (p : pool S) :
  (sent (stats p) <= sent (stats (run_pool client cfg clock schedule p)))%Z
  /\ (skipped (stats p) <= skipped (stats (run_pool client cfg clock schedule p)))%Z
  /\ (errors (stats p) <= errors (stats (run_pool client cfg clock schedule p)))%Z
  /\ total_rows (stats (run_pool client cfg clock schedule p)) = total_rows (stats p).
Proof.
  revert p. induction schedule as [|i sched IH]; intros p; [repeat split; first [lia|done]|].
  simpl. destruct (IH (worker_step client cfg clock i p)) as (H1 & H2 & H3 & H4).
  destruct (worker_step_effect i p) as (_ & _ & G1 & G2 & G3 & G4).
  rewrite H4, G4. repeat split; first [lia|done].
Qed.

End Runs.
End PoolFacts.

(** *** The events under the sequential loop *)

Section SequentialLooks.

Context {S : Type}.
Variable client : Client S.
Variable cfg : launch.

Lemma process_row_looks tc idx row stats (w : world S) :
  looks (snd (process_row client cfg tc idx row stats w)) = looks w.
Proof.
  unfold process_row.
  destruct (p_result (_prepare_row row client (client_state w)))
    as [[[status phone] payload] message].
  destruct (decide (status = "skip")); [simpl; by rewrite emit_looks|].
  destruct (decide (status = "error")); [simpl; by rewrite emit_looks|].
  destruct payload as [payload|]; [|done].
  match goal with |- context [_send_payload_sync client cfg payload ?w0] =>
    pose proof (send_payload_looks client cfg payload w0) as Hl;
    destruct (_send_payload_sync client cfg payload w0) as [[st sm] w']
  end.
  simpl in Hl. destruct (is_success st); simpl; by rewrite emit_looks.
Qed.

Lemma pause_wait_looked fuel stats (w : world S) stats' w' :
  pause_wait cfg fuel stats w = Some (stats', w') ->
  exists n, (control w', looks w') = looked cfg n (control w) (looks w).
Proof.
  revert w. induction fuel as [|fuel IH]; intros w; simpl.
  - destruct (default false (pause_event _)).
    + destruct (default false (stop_event _)); [|done]. intros [= <- <-]. by exists 2.
    + intros [= <- <-]. by exists 1.
  - destruct (default false (pause_event _)).
    + destruct (default false (stop_event _)).
      * intros [= <- <-]. by exists 2.
      * intros H. apply IH in H as [n Hn]. exists (2 + n). by rewrite Hn.
    + intros [= <- <-]. by exists 1.
Qed.

(** The sequential loop changes the events in no other way than by
    looking at them: what they hold afterwards is what their owner did. *)
Lemma batch_loop_looked fuel tc rows :
  forall idx stats (w : world S) stats' w',
  batch_loop client cfg fuel tc idx rows stats w = Some (stats', w') ->
  exists n, (control w', looks w') = looked cfg n (control w) (looks w).
Proof.
  induction rows as [|row rest IH]; intros idx stats w stats' w' Hrun.
  { simpl in Hrun. injection Hrun as <- <-. by exists 0. }
  cbn [batch_loop] in Hrun. unfold stop_is_set in Hrun.
  destruct (default false (stop_event (control (look cfg w)))).
  { injection Hrun as <- <-. by exists 1. }
  destruct (pause_wait cfg fuel stats (look cfg w)) as [[stats2 w2]|] eqn:Epause; [|done].
  apply pause_wait_looked in Epause as [n Hn].
  destruct (aborted stats2).
  { injection Hrun as <- <-. exists (1 + n). by rewrite Hn. }
  pose proof (process_row_spec client cfg tc idx row stats2 w2) as Hrow.
  pose proof (process_row_looks tc idx row stats2 w2) as Hlk.
  destruct (process_row client cfg tc idx row stats2 w2) as [stats3 w3].
  simpl in Hrow, Hlk. destruct Hrow as (_ & _ & _ & _ & Hc & _).
  apply IH in Hrun as [m Hm]. exists (1 + n + m).
  rewrite looked_add. simpl (looked cfg (1 + n) _ _).
  change (looked cfg n (foldl act (control w) (l_owner cfg (looks w))) (Datatypes.S (looks w)))
    with (looked cfg n (control (look cfg w)) (looks (look cfg w))).
  rewrite <- Hn. simpl. by rewrite <- Hc, <- Hlk.
Qed.

End SequentialLooks.

(** *** Cancellation after the launch *)

Section Cancellation.

Context {S : Type}.
Variable client : Client S.
Variable cfg : launch.

Lemma looked_snd n c k : snd (looked cfg n c k) = k + n.
Proof. revert c k. induction n as [|n IH]; intros c k; simpl; [lia|]. rewrite IH. lia. Qed.

Lemma looked_keeps_stop n c k :
  stop_event c = Some true -> stop_event (fst (looked cfg n c k)) = Some true.
Proof.
  apply (looked_pred cfg (fun c => stop_event c = Some true)).
  intros c' k' Hc. by apply acts_keep_stop.
Qed.

Lemma looked_stop_mono n m c k :
  n <= m -> stop_event (fst (looked cfg n c k)) = Some true ->
  stop_event (fst (looked cfg m c k)) = Some true.
Proof.
  intros Hle H. replace m with (n + (m - n)) by lia. rewrite looked_add.
  by apply looked_keeps_stop.
Qed.

Lemma stop_seen_mono ctl j k : j <= k -> stop_seen cfg ctl j -> stop_seen cfg ctl k.
Proof. intros Hle. apply looked_stop_mono. lia. Qed.

Lemma default_false_stop (c : RunControl) :
  default false (stop_event c) = true <-> stop_event c = Some true.
Proof. by destruct (stop_event c) as [[|]|]. Qed.

(** The pause loop, entered with the stop event clear, takes its looks
    in pairs, the first at the pause event and the second at the stop
    event: it aborts on a stop event that it finds set, or its last
    look was at the pause event and the stop event was clear at the
    look before. *)
Lemma pause_wait_checks fuel stats (w : world S) stats' w' :
  pause_wait cfg fuel stats w = Some (stats', w') ->
  stop_event (control w) <> Some true ->
  exists n, Nat.Even n
    /\ ((stats' = set_aborted stats
         /\ (control w', looks w')
            = looked cfg (Datatypes.S (Datatypes.S n)) (control w) (looks w)
         /\ stop_event (control w') = Some true)
        \/ (stats' = stats
            /\ (control w', looks w') = looked cfg (Datatypes.S n) (control w) (looks w)
            /\ stop_event (fst (looked cfg n (control w) (looks w))) <> Some true)).
Proof.
  assert (Nat.Even 0) as H0 by (exists 0; lia).
  revert w. induction fuel as [|fuel IH]; intros w; simpl.
  - destruct (default false (pause_event _)).
    + destruct (default false (stop_event _)) eqn:Es; [|done]. intros [= <- <-] _.
      exists 0. split; [done|]. left. split; [done|]. split; [done|].
      by apply default_false_stop in Es.
    + intros [= <- <-] Hc. exists 0. split; [done|]. right. by split.
  - destruct (default false (pause_event _)).
    + destruct (default false (stop_event _)) eqn:Es.
      * intros [= <- <-] _. exists 0. split; [done|]. left. split; [done|]. split; [done|].
        by apply default_false_stop in Es.
      * intros H _. apply IH in H as (n & [m Hm] & Hn).
        2:{ simpl. intros Hc. apply default_false_stop in Hc. simpl in Hc. congruence. }
        exists (2 + n). split; [exists (1 + m); lia|].
        destruct Hn as [(-> & Hn & Hst)|(-> & Hn & Hs)]; [left|right]; simpl in *;
          by rewrite Hn.
    + intros [= <- <-] Hc. exists 0. split; [done|]. right. by split.
Qed.

(** The loop over the rows takes its looks in pairs as well, the first
    at the stop event. An aborted result left a row out, on a stop event
    that its last look, a look at the stop event, found set; a result
    that is not aborted took its last two looks at the stop and the
    pause event of the last row, the stop event being clear at the
    first of them. *)
Lemma batch_loop_stop fuel tc rows :
  forall idx stats (w : world S) stats' w',
  batch_loop client cfg fuel tc idx rows stats w = Some (stats', w') ->
  aborted stats = false ->
  (aborted stats' = true ->
   (disposed stats' < disposed stats + Z.of_nat (length rows))%Z
   /\ exists k, Nat.Even k
                /\ (control w', looks w') = looked cfg (Datatypes.S k) (control w) (looks w)
                /\ stop_event (control w') = Some true)
  /\ (aborted stats' = false -> rows <> [] ->
      exists n, Nat.Even n
                /\ (control w', looks w')
                   = looked cfg (Datatypes.S (Datatypes.S n)) (control w) (looks w)
                /\ stop_event (fst (looked cfg (Datatypes.S n) (control w) (looks w)))
                   <> Some true).
Proof.
  assert (Nat.Even 0) as H0 by (exists 0; lia).
  induction rows as [|row rest IH]; intros idx stats w stats' w' Hrun Hna.
  { simpl in Hrun. injection Hrun as <- <-. split; [congruence|done]. }
  cbn [batch_loop] in Hrun. unfold stop_is_set in Hrun.
  destruct (default false (stop_event (control (look cfg w)))) eqn:Es.
  { injection Hrun as <- <-. split; [|done]. intros _. rewrite length_cons.
    split; [unfold disposed; simpl; lia|]. exists 0. split; [done|]. split; [done|].
    by apply default_false_stop in Es. }
  assert (stop_event (control (look cfg w)) <> Some true) as Hns.
  { intros Hc. apply default_false_stop in Hc. congruence. }
  destruct (pause_wait cfg fuel stats (look cfg w)) as [[stats2 w2]|] eqn:Epause; [|done].
  destruct (pause_wait_checks _ _ _ _ _ Epause Hns)
    as (n & [m Hm] & [(-> & Hn & Hst)|(-> & Hn & Hs)]).
  { simpl in Hrun. injection Hrun as <- <-. split; [|done]. intros _. rewrite length_cons.
    split; [unfold disposed; simpl; lia|].
    exists (2 + n). split; [exists (1 + m); lia|]. split; [|done]. by rewrite Hn. }
  rewrite Hna in Hrun.
  pose proof (process_row_spec client cfg tc idx row stats w2) as Hrow.
  pose proof (process_row_looks client cfg tc idx row stats w2) as Hlk.
  destruct (process_row client cfg tc idx row stats w2) as [stats3 w3].
  simpl in Hrow, Hlk. destruct Hrow as (Hd & Ha & _ & _ & Hc & _).
  assert ((control w3, looks w3)
          = looked cfg (Datatypes.S (Datatypes.S n)) (control w) (looks w)) as Hw3.
  { rewrite Hc, Hlk, Hn. done. }
  destruct (IH _ _ _ _ _ Hrun) as [H1 H2]; [congruence|].
  split.
  - intros Hab. destruct (H1 Hab) as (Hlt & k & [j Hj] & Hk & Hst). rewrite length_cons.
    split; [lia|]. exists (Datatypes.S (Datatypes.S n) + k). split; [exists (1 + m + j); lia|].
    split; [|done].
    replace (Datatypes.S (Datatypes.S (Datatypes.S n) + k))
      with (Datatypes.S (Datatypes.S n) + Datatypes.S k) by lia.
    rewrite looked_add, <- Hw3. exact Hk.
  - intros Hab _. destruct rest as [|row' rest'].
    + simpl in Hrun. injection Hrun as <- <-. exists n. split; [by exists m|].
      split; [done|]. exact Hs.
    + destruct (H2 Hab) as (n' & [m' Hm'] & Hn' & Hsn'); [done|].
      exists (n + Datatypes.S (Datatypes.S n')). split; [exists (m + 1 + m'); lia|]. split.
      * replace (Datatypes.S (Datatypes.S (n + Datatypes.S (Datatypes.S n'))))
          with (Datatypes.S (Datatypes.S n) + Datatypes.S (Datatypes.S n')) by lia.
        rewrite looked_add, <- Hw3. exact Hn'.
      * replace (Datatypes.S (n + Datatypes.S (Datatypes.S n')))
          with (Datatypes.S (Datatypes.S n) + Datatypes.S n') by lia.
        rewrite looked_add, <- Hw3. exact Hsn'.
Qed.

Lemma pause_wait_look fuel stats (w : world S) :
  (forall k, SetPause ∉ l_owner cfg k) ->
  pause_event (control w) <> Some true ->
  pause_wait cfg fuel stats w = Some (stats, look cfg w).
Proof.
  intros Hn Hc. pose proof (look_not_paused cfg w Hn Hc) as Hc1.
  destruct fuel; simpl in *;
    destruct (pause_event (foldl act (control w) (l_owner cfg (looks w)))) as [[|]|]; done.
Qed.

(** A batch that is never paused takes two looks per row, the first of
    them at the stop event: a stop event set by the time of the check
    of row [i] (from 0) ends the batch there. *)
Lemma batch_loop_stops_at fuel tc rows :
  (forall k, SetPause ∉ l_owner cfg k) ->
  forall i idx stats (w : world S),
  pause_event (control w) <> Some true ->
  aborted stats = false ->
  i < length rows ->
  stop_event (fst (looked cfg (Datatypes.S (2 * i)) (control w) (looks w))) = Some true ->
  exists stats' w',
    batch_loop client cfg fuel tc idx rows stats w = Some (stats', w')
    /\ aborted stats' = true
    /\ (disposed stats <= disposed stats' <= disposed stats + Z.of_nat i)%Z.
Proof.
  intros Hn. induction rows as [|row rest IH]; intros i idx stats w Hc Hna Hi Hs;
    [simpl in Hi; lia|].
  cbn [batch_loop]. unfold stop_is_set.
  destruct (default false (stop_event (control (look cfg w)))) eqn:Es.
  { eexists _, _. split; [done|]. split; [done|]. unfold disposed. simpl. lia. }
  destruct i as [|i].
  { exfalso. simpl in Hs. apply default_false_stop in Hs. simpl in Es. congruence. }
  pose proof (look_not_paused cfg w Hn Hc) as Hc1.
  rewrite (pause_wait_look fuel stats (look cfg w) Hn Hc1), Hna.
  pose proof (look_not_paused cfg (look cfg w) Hn Hc1) as Hc2.
  pose proof (process_row_spec client cfg tc idx row stats (look cfg (look cfg w))) as Hrow.
  pose proof (process_row_looks client cfg tc idx row stats (look cfg (look cfg w))) as Hlk.
  destruct (process_row client cfg tc idx row stats (look cfg (look cfg w))) as [stats3 w3].
  simpl in Hrow, Hlk. destruct Hrow as (Hd & Ha & _ & _ & Hcc & _).
  destruct (IH i (idx + 1)%Z stats3 w3) as (stats' & w' & Hrun & Hab & Hle).
  - by rewrite Hcc.
  - congruence.
  - simpl in Hi. lia.
  - rewrite Hcc, Hlk.
    replace (Datatypes.S (2 * Datatypes.S i)) with (2 + Datatypes.S (2 * i)) in Hs by lia.
    rewrite looked_add in Hs. exact Hs.
  - exists stats', w'. split; [done|]. split; [done|]. lia.
Qed.

(** The pause loop returns once the stop event is set: a stop event set
    by look [j] from now ends it within [j / 2] sleeps. *)
Lemma pause_wait_returns_on_stop fuel :
  forall j stats (w : world S),
  stop_event (fst (looked cfg (Datatypes.S j) (control w) (looks w))) = Some true ->
  j <= 2 * fuel + 1 ->
  is_Some (pause_wait cfg fuel stats w).
Proof.
  induction fuel as [|fuel IH]; intros j stats w Hs Hj; simpl.
  - destruct (default false (pause_event _)); [|done].
    destruct (default false (stop_event _)) eqn:Es; [done|]. exfalso.
    assert (stop_event (fst (looked cfg 2 (control w) (looks w))) = Some true) as H2
      by (apply (looked_stop_mono (Datatypes.S j)); [lia|done]).
    simpl in H2. apply default_false_stop in H2. simpl in Es. congruence.
  - destruct (default false (pause_event _)); [|done].
    destruct (default false (stop_event _)) eqn:Es; [done|].
    destruct (decide (j <= 1)) as [Hle|Hgt].
    { exfalso.
      assert (stop_event (fst (looked cfg 2 (control w) (looks w))) = Some true) as H2
        by (apply (looked_stop_mono (Datatypes.S j)); [lia|done]).
      simpl in H2. apply default_false_stop in H2. simpl in Es. congruence. }
    apply (IH (j - 2)); [|lia].
    replace (Datatypes.S j) with (2 + Datatypes.S (j - 2)) in Hs by lia.
    rewrite looked_add in Hs. exact Hs.
Qed.

(** So does the loop over the rows, whatever the pauses. *)
Lemma batch_loop_returns_on_stop fuel tc rows :
  forall j idx stats (w : world S),
  stop_event (fst (looked cfg (Datatypes.S j) (control w) (looks w))) = Some true ->
  j <= 2 * fuel + 2 ->
  is_Some (batch_loop client cfg fuel tc idx rows stats w).
Proof.
  induction rows as [|row rest IH]; intros j idx stats w Hs Hj; [done|].
  cbn [batch_loop]. unfold stop_is_set.
  destruct (default false (stop_event (control (look cfg w)))) eqn:Es; [done|].
  assert (1 <= j) as H1.
  { destruct j; [|lia]. exfalso. simpl in Hs. apply default_false_stop in Hs.
    simpl in Es. congruence. }
  destruct (pause_wait_returns_on_stop fuel (j - 1) stats (look cfg w)) as [[stats2 w2] Epause];
    [|lia|].
  { replace (Datatypes.S j) with (1 + Datatypes.S (j - 1)) in Hs by lia.
    rewrite looked_add in Hs. exact Hs. }
  rewrite Epause. destruct (aborted stats2); [done|].
  apply pause_wait_looked in Epause as [n Hn].
  pose proof (process_row_spec client cfg tc idx row stats2 w2) as Hrow.
  pose proof (process_row_looks client cfg tc idx row stats2 w2) as Hlk.
  destruct (process_row client cfg tc idx row stats2 w2) as [stats3 w3].
  simpl in Hrow, Hlk. destruct Hrow as (_ & _ & _ & _ & Hc & _).
  apply (IH j); [|done]. rewrite Hc, Hlk.
  replace (control w2) with (fst (looked cfg (1 + n) (control w) (looks w)))
    by (simpl; change (looked cfg n _ _) with
          (looked cfg n (control (look cfg w)) (looks (look cfg w))); by rewrite <- Hn).
  replace (looks w2) with (snd (looked cfg (1 + n) (control w) (looks w)))
    by (simpl; change (looked cfg n _ _) with
          (looked cfg n (control (look cfg w)) (looks (look cfg w))); by rewrite <- Hn).
  rewrite <- looked_add. apply (looked_stop_mono (Datatypes.S j)); [lia|done].
Qed.

Variable clock : nat -> Q.

Lemma stop_visible_looked (w w' : world S) n :
  (control w', looks w') = looked cfg n (control w) (looks w) ->
  fst (stop_is_set cfg w) = true -> fst (stop_is_set cfg w') = true.
Proof.
  intros Hl H. unfold stop_is_set in *. simpl in *.
  apply default_false_stop in H. apply default_false_stop.
  change (stop_event (fst (looked cfg 1 (control w') (looks w'))) = Some true).
  change (stop_event (fst (looked cfg 1 (control w) (looks w))) = Some true) in H.
  replace (control w') with (fst (looked cfg n (control w) (looks w))) by (by rewrite <- Hl).
  replace (looks w') with (snd (looked cfg n (control w) (looks w))) by (by rewrite <- Hl).
  rewrite <- looked_add. apply (looked_stop_mono 1); [lia|done].
Qed.

Lemma pause_turn_queue i idx row (p : pool S) : queue (pause_turn cfg i idx row p) = queue p.
Proof.
  unfold pause_turn. destruct (pause_is_set cfg (shared p)) as [[|] w1].
  - by destruct (stop_is_set cfg w1) as [[|] w2].
  - by destruct (aborted (stats p)).
Qed.

Lemma acquire_turn_queue i idx phone payload (p : pool S) :
  queue (acquire_turn clock i idx phone payload p) = queue p.
Proof. unfold acquire_turn. by destruct (AsyncRateLimiter.attempt _ _). Qed.

(** A step takes a row from the queue only when an idle worker finds
    one at its head. *)
Lemma worker_step_queue i (p : pool S) :
  (exists idx row q, workers p !! i = Some WIdle /\ queue p = Some (idx, row) :: q)
  \/ rows_left (queue (worker_step client cfg clock i p)) = rows_left (queue p).
Proof.
  unfold worker_step. cbn [queue workers stats limiter shared steps].
  destruct (workers p !! i) as [wk|] eqn:Hi; [|by right].
  destruct wk as [|idx row|idx row|idx phone payload|idx phone payload|idx phone st sm|].
  - destruct (queue p) as [|[[idx row]|] q] eqn:Hq; [by right| |by right].
    left. by exists idx, row, q.
  - right. by rewrite pause_turn_queue.
  - right. destruct (p_result _) as [[[status phone] payload] message].
    destruct (decide _); [done|]. destruct (decide _); [done|].
    destruct payload; [|done]. by rewrite acquire_turn_queue.
  - right. by rewrite acquire_turn_queue.
  - right. destruct (_send_payload_sync client cfg payload (shared p)) as [[st sm] w1].
    by destruct (_ && _).
  - by right.
  - by right.
Qed.

Lemma worker_step_drop i (p : pool S) idx row q :
  workers p !! i = Some WIdle -> queue p = Some (idx, row) :: q ->
  fst (stop_is_set cfg (shared p)) = true ->
  worker_step client cfg clock i p
  = Pool q (workers p) (set_aborted (stats p)) (limiter p)
         (snd (stop_is_set cfg (shared p))) (Datatypes.S (steps p)).
Proof.
  intros Hi Hq Hs. unfold worker_step. cbn [queue workers stats limiter shared steps].
  rewrite Hi, Hq. destruct (stop_is_set cfg (shared p)) as [stop w1]. simpl in Hs. by subst.
Qed.

Lemma worker_step_dropping N i (p : pool S) :
  dropping_inv cfg N p -> dropping_inv cfg N (worker_step client cfg clock i p).
Proof.
  intros (HN & Hvis & Hcase).
  destruct (worker_step_effect client cfg clock i p) as ((n & Hn) & Hab & _).
  split; [done|]. split; [by eapply stop_visible_looked|].
  destruct Hcase as [[Hinv Hleft]|(Ha & Hinv)].
  - destruct (worker_step_queue i p) as [(idx & row & q & Hi & Hq)|Hsame].
    + right. rewrite (worker_step_drop i p idx row q Hi Hq Hvis).
      split; [done|]. destruct Hinv as (Hrf & Hs & Hle & Heq & Hdone & Hpos & Hps).
      rewrite Hq in *. rewrite rows_left_some in *. rewrite sentinels_some in Hs.
      unfold pool_inv. cbn [queue workers stats limiter shared steps].
      split; [by eapply rows_first_tail|]. split; [done|].
      split; [unfold disposed in *; simpl; lia|]. split; [done|].
      split; [intros Hlt; specialize (Hdone Hlt); lia|]. split; [done|].
      simpl. done.
    + left. split; [by apply worker_step_inv|]. by rewrite Hsame.
  - right. split; [|by apply worker_step_inv].
    destruct Hab as [->|[? _]]; done.
Qed.

Lemma run_pool_dropping N schedule : forall (p : pool S),
  dropping_inv cfg N p -> dropping_inv cfg N (run_pool client cfg clock schedule p).
Proof.
  induction schedule as [|i schedule IH]; intros p H; [done|].
  simpl. by apply IH, worker_step_dropping.
Qed.

Lemma run_pool_app pre post (p : pool S) :
  run_pool client cfg clock (pre ++ post) p
  = run_pool client cfg clock post (run_pool client cfg clock pre p).
Proof. unfold run_pool. by rewrite foldl_app. Qed.

(** Once the stop event is set with a row still queued, the pool can
    only return an aborted result that left a row out. *)
Lemma dropping_result N (p : pool S) r :
  dropping_inv cfg N p -> pool_result p = Some r ->
  aborted r = true /\ (disposed r < Z.of_nat N)%Z.
Proof.
  intros (HN & _ & Hcase) Hres.
  destruct Hcase as [[Hinv Hleft]|(Ha & Hinv)].
  - exfalso. destruct Hinv as (_ & _ & _ & _ & Hdone & Hpos & _).
    unfold pool_result in Hres. destruct (forallb is_done (workers p)) eqn:E; [|done].
    destruct (all_done_counts _ E) as [Hal _]. rewrite Hal in Hdone.
    specialize (Hdone Hpos). lia.
  - destruct (pool_inv_result (N - 1) p r Hinv Hres) as (Hle & _).
    split; [|lia]. unfold pool_result in Hres.
    destruct (forallb is_done (workers p)); [|done]. by injection Hres as <-.
Qed.

(** How the invariant moves when a row is dropped: worker [i] goes from
    [wk] to [wk'] and one row less is counted, held or queued. *)
Lemma pool_inv_dropped N (p p' : pool S) i wk wk' :
  pool_inv N p -> 0 < N ->
  workers p !! i = Some wk ->
  workers p' = <[i := wk']> (workers p) ->
  rows_first (queue p') ->
  sentinels (queue p') = sentinels (queue p) ->
  is_done wk = false -> is_done wk' = false ->
  (disposed (stats p') + (if holds_row wk' then 1 else 0) + Z.of_nat (rows_left (queue p')) + 1
   <= disposed (stats p) + (if holds_row wk then 1 else 0) + Z.of_nat (rows_left (queue p)))%Z ->
  aborted (stats p') = true ->
  rows_left (queue p') <= rows_left (queue p) ->
  (processed (stats p') - sent (stats p') = processed (stats p) - sent (stats p))%Z ->
  pool_inv (N - 1) p'.
Proof.
  intros (Hq & Hs & Hle & Heq & Hdone & Hpos & Hps) HN Hi Hws Hq' Hs' Hd Hd' Hle' Hab Hl' Hps'.
  pose proof (count_workers_insert (fun wk => negb (is_done wk)) _ _ _ wk' Hi) as Ha.
  pose proof (count_workers_insert holds_row _ _ _ wk' Hi) as Hh.
  cbn beta in Ha. rewrite Hd, Hd' in Ha. simpl in Ha.
  unfold pool_inv. rewrite Hws, length_insert. unfold alive, holding in *.
  split; [done|]. split; [lia|]. split.
  { destruct (holds_row wk), (holds_row wk'); lia. }
  split; [by rewrite Hab|].
  split; [|split; [done|lia]].
  intros Hlt. assert (rows_left (queue p) = 0) by (apply Hdone; lia). lia.
Qed.

Lemma pause_turn_aborting N i idx row (p : pool S) wk :
  pool_inv N p -> 0 < N -> workers p !! i = Some wk -> holds_row wk = true ->
  aborted (stats p) = false ->
  aborted (stats (pause_turn cfg i idx row p)) = true ->
  pool_inv (N - 1) (pause_turn cfg i idx row p).
Proof.
  intros Hinv HN Hi Hh Hna. pose proof Hinv as (Hrf & _).
  assert (is_done wk = false) as Hnd by (by destruct wk).
  unfold pause_turn.
  destruct (pause_is_set cfg (shared p)) as [[|] w1].
  - destruct (stop_is_set cfg w1) as [[|] w2]; simpl; [|congruence].
    intros _. eapply (pool_inv_dropped N p _ i wk WIdle); eauto; simpl; rewrite ?Hh;
      unfold disposed; simpl; lia.
  - rewrite Hna. simpl. congruence.
Qed.

Lemma update_stats_aborted status phone message idx (p : pool S) :
  aborted (stats (update_stats cfg status phone message idx p)) = aborted (stats p).
Proof.
  unfold update_stats. simpl. destruct (is_success status); [done|].
  destruct (decide _); [done|]. by destruct (decide _).
Qed.

(** The aborted flag is set by dropping a row. *)
Lemma worker_step_aborting N i (p : pool S) :
  0 < N -> pool_inv N p ->
  aborted (stats p) = false ->
  aborted (stats (worker_step client cfg clock i p)) = true ->
  pool_inv (N - 1) (worker_step client cfg clock i p).
Proof.
  intros HN Hinv Hna. unfold worker_step. cbn [queue workers stats limiter shared steps].
  destruct (workers p !! i) as [wk|] eqn:Hi; [|simpl; congruence].
  destruct wk as [|idx row|idx row|idx phone payload|idx phone payload|idx phone st sm|].
  - destruct (queue p) as [|[[idx row]|] q] eqn:Hq; [simpl; congruence| |simpl; congruence].
    pose proof Hinv as (Hrf & _). rewrite Hq in Hrf.
    destruct (stop_is_set cfg (shared p)) as [[|] w1].
    + intros _.
      eapply (pool_inv_dropped N p _ i WIdle WIdle); eauto; simpl; rewrite ?Hq;
        first [ by rewrite list_insert_id | by eapply rows_first_tail
              | by rewrite sentinels_some
              | rewrite rows_left_some; unfold disposed; simpl; lia ].
    + rewrite <- (pause_turn_overwrites cfg i idx row _ (WPaused idx row)).
      intros Hab.
      eapply (pause_turn_aborting N i idx row _ (WPaused idx row)); [|done| |done|done|exact Hab].
      * unfold set_worker. simpl.
        apply (pool_inv_shared N (Pool q (<[i:=WPaused idx row]> (workers p)) (stats p)
                                       (limiter p) (shared p) (Datatypes.S (steps p))) w1).
        by apply (pool_inv_take N p i idx row q).
      * simpl. apply list_lookup_insert_eq. by eapply lookup_lt_Some.
  - intros Hab. eapply (pause_turn_aborting N i idx row _ (WPaused idx row)); eauto.
  - destruct (p_result _) as [[[status phone] payload] message].
    destruct (decide (status = "skip"));
      [unfold set_worker; cbn [stats]; rewrite update_stats_aborted; cbn [stats]; congruence|].
    destruct (decide (status = "error"));
      [unfold set_worker; cbn [stats]; rewrite update_stats_aborted; cbn [stats]; congruence|].
    destruct payload as [payload|]; [|simpl; congruence].
    unfold acquire_turn. cbn [limiter steps]. destruct (AsyncRateLimiter.attempt _ _).
    simpl. congruence.
  - unfold acquire_turn. cbn [limiter steps]. destruct (AsyncRateLimiter.attempt _ _).
    simpl. congruence.
  - destruct (_send_payload_sync client cfg payload (shared p)) as [[st sm] w1].
    destruct (_ && _); [simpl; congruence|].
    unfold finish_send, set_worker. cbn [stats]. rewrite update_stats_aborted. cbn [stats]. congruence.
  - unfold finish_send, set_worker. cbn [stats]. rewrite update_stats_aborted. cbn [stats]. congruence.
  - simpl. congruence.
Qed.

Lemma worker_step_aborted N i (p : pool S) :
  0 < N -> pool_inv N p /\ (aborted (stats p) = true -> pool_inv (N - 1) p) ->
  pool_inv N (worker_step client cfg clock i p)
  /\ (aborted (stats (worker_step client cfg clock i p)) = true ->
      pool_inv (N - 1) (worker_step client cfg clock i p)).
Proof.
  intros HN [Hinv Hab]. split; [by apply worker_step_inv|]. intros Hab'.
  destruct (aborted (stats p)) eqn:Ea.
  - by apply worker_step_inv, Hab.
  - by apply worker_step_aborting.
Qed.

Lemma run_pool_aborted N schedule : forall (p : pool S),
  0 < N -> pool_inv N p /\ (aborted (stats p) = true -> pool_inv (N - 1) p) ->
  pool_inv N (run_pool client cfg clock schedule p)
  /\ (aborted (stats (run_pool client cfg clock schedule p)) = true ->
      pool_inv (N - 1) (run_pool client cfg clock schedule p)).
Proof.
  induction schedule as [|i schedule IH]; intros p HN H; [done|].
  simpl. apply IH; [done|]. by apply worker_step_aborted.
Qed.

Lemma run_pool_keeps_aborted schedule : forall (p : pool S),
  aborted (stats p) = true -> aborted (stats (run_pool client cfg clock schedule p)) = true.
Proof.
  induction schedule as [|i schedule IH]; intros p H; [done|].
  simpl. apply IH. destruct (worker_step_effect client cfg clock i p) as (_ & [->|[? _]] & _); done.
Qed.

(** The aborted flag is set on a stop event that is set. *)
Lemma run_pool_aborted_stop schedule : forall (p : pool S),
  (aborted (stats p) = true -> stop_event (control (shared p)) = Some true) ->
  aborted (stats (run_pool client cfg clock schedule p)) = true ->
  stop_event (control (shared (run_pool client cfg clock schedule p))) = Some true.
Proof.
  induction schedule as [|i schedule IH]; intros p H; [done|].
  simpl. apply IH. intros Hab.
  destruct (worker_step_effect client cfg clock i p) as (_ & [E|[_ ?]] & _); [|done].
  apply worker_step_keeps_stop, H. by rewrite <- E.
Qed.

End Cancellation.

(** ** The batch results *)

(** C1. Over [N] rows, in both dispatchers: the dispositions counted
    never exceed [N], at any step of the pool and in every snapshot the
    observer receives from the sequential loop; a run without
    cancellation ends with exactly [N] dispositions and is not aborted;
    fewer than [N] dispositions in a result mean that it is aborted.
    With the hint absent or equal to [N], [total_rows] is [N] in the
    concurrent result, and [N] or absent in the sequential one. *)
Theorem dispositions_bounded {S : Type} (client : Client S) (cfg : launch)
    (rows : list Row) (s : S) (ctl : RunControl) :
  hint_matches cfg rows ->
  let N := Z.of_nat (length rows) in
  (forall fuel stats w,
     run_batch_from_rows client cfg fuel rows s ctl = Some (stats, w) ->
     (disposed stats <= N)%Z
     /\ Forall (fun e => (BatchProgressEvent.processed e <= N)%Z) (emitted w)
     /\ (never_cancelled cfg ctl -> disposed stats = N /\ aborted stats = false)
     /\ ((disposed stats < N)%Z -> aborted stats = true)
     /\ (total_rows stats = None \/ total_rows stats = Some N))
  /\ (forall clock msg_per_sec async_workers schedule,
        let p := run_pool client cfg clock schedule
                   (start_pool cfg rows msg_per_sec async_workers s ctl) in
        (disposed (stats p) <= N)%Z
        /\ total_rows (stats p) = Some N
        /\ forall stats,
             async_run_batch_from_rows client cfg clock schedule rows
               msg_per_sec async_workers s ctl = Some stats ->
             (never_cancelled cfg ctl -> disposed stats = N /\ aborted stats = false)
             /\ ((disposed stats < N)%Z -> aborted stats = true)).
Proof.
  intros Hhint N. split.
  - intros fuel stats w Hrun. unfold run_batch_from_rows in Hrun.
    apply batch_loop_spec in Hrun as (Hb & Heq & _ & Htot & (es0 & Hes & Hall) & _ & Hn); [|done].
    assert (disposed (init (l_total_rows cfg) (l_dry_run cfg)) = 0%Z) as H0 by done.
    rewrite H0 in Hb, Heq, Hall. simpl in Hes, Hn, Htot. rewrite Hes.
    fold N in Hb, Heq, Hall.
    split; [lia|]. split.
    { eapply Forall_impl; [exact Hall|]. simpl. intros e He. lia. }
    split.
    { intros [Hc Hnever]. specialize (Hn Hnever Hc). split; [|done].
      rewrite (Heq Hn). lia. }
    split.
    { intros Hlt. destruct (aborted stats) eqn:E; [done|]. specialize (Heq eq_refl). lia. }
    rewrite Htot. destruct Hhint as [-> | ->]; auto.
  - intros clock msg_per_sec async_workers schedule p.
    pose proof (run_pool_inv client cfg clock (length rows) schedule _
                  (start_pool_inv cfg rows msg_per_sec async_workers s ctl)) as Hinv.
    fold p in Hinv.
    split; [destruct Hinv as (_ & _ & Hle & _); fold N in Hle; lia|].
    split.
    { destruct (run_pool_counters client cfg clock schedule
                  (start_pool cfg rows msg_per_sec async_workers s ctl)) as (_ & _ & _ & Ht).
      fold p in Ht. rewrite Ht. simpl. destruct Hhint as [-> | ->]; done. }
    intros stats Hres. unfold async_run_batch_from_rows in Hres. fold p in Hres.
    destruct (pool_inv_result _ _ _ Hinv Hres) as (Hle & Heq & _). fold N in Hle, Heq.
    split.
    + intros [Hc Hnever].
      pose proof (run_pool_never_cancelled client cfg clock schedule _ Hnever
                    (start_pool_never_cancelled cfg rows msg_per_sec async_workers s ctl Hc))
        as Hab.
      fold p in Hab. unfold pool_result in Hres.
      destruct (forallb is_done (workers p)); [|done]. injection Hres as <-. auto.
    + intros Hlt. destruct (aborted stats) eqn:E; [done|]. specialize (Heq eq_refl). lia.
Qed.

Lemma dispositions_bounded_witness :
  hint_matches Sample.quiet Sample.rows
  /\ never_cancelled Sample.quiet Sample.events_clear
  /\ (exists stats w,
        run_batch_from_rows Sample.client Sample.quiet 0 Sample.rows Sample.fresh
          Sample.events_clear = Some (stats, w)
        /\ disposed stats = 3%Z /\ aborted stats = false)
  /\ (exists stats,
        async_run_batch_from_rows Sample.client Sample.quiet Sample.clock Sample.round_robin
          Sample.rows 8 None Sample.fresh Sample.events_clear = Some stats
        /\ disposed stats = 3%Z /\ aborted stats = false).
Proof.
  assert (hint_matches Sample.quiet Sample.rows) as Hh by (by left).
  assert (never_cancelled Sample.quiet Sample.events_clear) as Hn.
  { split; [done|]. intros k. apply not_elem_of_nil. }
  destruct (dispositions_bounded Sample.client Sample.quiet Sample.rows Sample.fresh
              Sample.events_clear Hh) as [Hseq Hpool].
  split; [done|]. split; [done|]. split.
  - destruct (run_batch_from_rows Sample.client Sample.quiet 0 Sample.rows Sample.fresh
                Sample.events_clear) as [[stats w]|] eqn:E; [|vm_compute in E; discriminate].
    exists stats, w. split; [done|].
    destruct (Hseq 0 stats w E) as (_ & _ & Hc & _). by apply Hc.
  - destruct (async_run_batch_from_rows Sample.client Sample.quiet Sample.clock
                Sample.round_robin Sample.rows 8 None Sample.fresh Sample.events_clear)
      as [stats|] eqn:E; [|vm_compute in E; discriminate].
    exists stats. split; [done|].
    destruct (Hpool Sample.clock 8%Z None Sample.round_robin) as (_ & _ & Hres).
    destruct (Hres stats E) as (Hc & _). by apply Hc.
Defined.

(** C4, as the code has it. Over [N >= 1] rows the dispatchers check
    for cancellation at the top of the iteration of every row and inside
    the pause loop, and nowhere else. Sequential dispatcher: its looks
    at the events alternate, those with an even number (from 0) being
    the cancellation checks and the others the pause checks; the result
    is aborted exactly when the stop event is set by the time of one of
    the cancellation checks made; an aborted result counts fewer than
    [N] rows, leaves the stop event set and ends on a cancellation
    check; a result that is not aborted counts [N] rows and ends on the
    pause check of the last row, so that only a stop event set after
    the last cancellation check changes nothing. When the batch is
    never paused, the check of row [i + 1] is look [2 i], and a stop
    event set by then makes the dispatcher return an aborted result
    with at most [i] rows counted. Paused or not, the dispatcher
    returns once the stop event is set: a stop event set by look [k]
    lets every pause loop end within [k / 2] sleeps. Concurrent
    dispatcher: the aborted flag is set only by dropping a row, on a
    stop event that is set, so that a pool whose flag is set counts
    fewer than [N] rows; once the flag is set, or a cancellation check
    would find the event set while a row is still queued, every result
    is aborted and counts fewer than [N] rows. With the event set at
    launch both dispatchers count nothing. The loop and the workers
    change the events in no other way than by looking at them, so that
    a stop event that is set stays set, and they never decrease a
    counter, so that an abort leaves the counts of the rows already
    processed as they are. *)
Theorem cancelled_before_last_check {S : Type} (client : Client S) (cfg : launch)
    (rows : list Row) (s : S) (ctl : RunControl) :
  rows <> [] ->
  let N := Z.of_nat (length rows) in
  (forall fuel stats w,
     run_batch_from_rows client cfg fuel rows s ctl = Some (stats, w) ->
     (aborted stats = true <->
      exists k, Nat.Even k /\ k < looks w /\ stop_seen cfg ctl k)
     /\ (aborted stats = true ->
         (disposed stats < N)%Z /\ stop_event (control w) = Some true
         /\ Nat.Odd (looks w))
     /\ (aborted stats = false -> disposed stats = N /\ Nat.Even (looks w)))
  /\ (never_paused cfg ctl ->
      forall i, i < length rows -> stop_seen cfg ctl (2 * i) ->
      forall fuel, exists stats w,
        run_batch_from_rows client cfg fuel rows s ctl = Some (stats, w)
        /\ aborted stats = true
        /\ (disposed stats <= Z.of_nat i)%Z /\ (disposed stats < N)%Z)
  /\ (forall k fuel, stop_seen cfg ctl k -> k <= 2 * fuel + 2 ->
      is_Some (run_batch_from_rows client cfg fuel rows s ctl))
  /\ (forall clock msg_per_sec async_workers pre post,
        let p1 := run_pool client cfg clock pre
                    (start_pool cfg rows msg_per_sec async_workers s ctl) in
        (aborted (stats p1) = true ->
         (disposed (stats p1) < N)%Z /\ stop_event (control (shared p1)) = Some true)
        /\ (aborted (stats p1) = true
            \/ (0 < rows_left (queue p1) /\ fst (stop_is_set cfg (shared p1)) = true) ->
            forall stats,
              async_run_batch_from_rows client cfg clock (pre ++ post) rows
                msg_per_sec async_workers s ctl = Some stats ->
              aborted stats = true /\ (disposed stats < N)%Z))
  /\ (stop_event ctl = Some true ->
      (forall fuel, exists stats w,
         run_batch_from_rows client cfg fuel rows s ctl = Some (stats, w)
         /\ aborted stats = true
         /\ sent stats = 0%Z /\ skipped stats = 0%Z /\ errors stats = 0%Z
         /\ (disposed stats < N)%Z
         /\ stop_event (control w) = Some true)
      /\ (forall clock msg_per_sec async_workers schedule,
            let p := run_pool client cfg clock schedule
                       (start_pool cfg rows msg_per_sec async_workers s ctl) in
            stop_event (control (shared p)) = Some true
            /\ sent (stats p) = 0%Z /\ skipped (stats p) = 0%Z /\ errors (stats p) = 0%Z
            /\ forall stats,
                 async_run_batch_from_rows client cfg clock schedule rows
                   msg_per_sec async_workers s ctl = Some stats ->
                 aborted stats = true /\ (disposed stats < N)%Z))
  /\ (forall fuel total_count idx rows' stats w stats' w',
        batch_loop client cfg fuel total_count idx rows' stats w = Some (stats', w') ->
        (exists n, (control w', looks w') = looked cfg n (control w) (looks w))
        /\ (stop_event (control w) = Some true -> stop_event (control w') = Some true)
        /\ (sent stats <= sent stats')%Z /\ (skipped stats <= skipped stats')%Z
        /\ (errors stats <= errors stats')%Z)
  /\ (forall clock i (p : pool S),
        step_effect cfg p (worker_step client cfg clock i p)
        /\ (stop_event (control (shared p)) = Some true ->
            stop_event (control (shared (worker_step client cfg clock i p))) = Some true)).
Proof.
  intros Hrows N.
  assert (0 < N)%Z as HN by (subst N; destruct rows; [done|simpl; lia]).
  split; [|split; [|split; [|split; [|split; [|split]]]]].
  - intros fuel stats w Hrun. unfold run_batch_from_rows in Hrun.
    destruct (batch_loop_stop client cfg _ _ _ _ _ _ _ _ Hrun eq_refl) as [H1 H2].
    destruct (batch_loop_spec client cfg _ _ _ _ _ _ _ _ Hrun eq_refl) as (_ & Heq & _).
    assert (disposed (init (l_total_rows cfg) (l_dry_run cfg)) = 0%Z) as H0 by done.
    rewrite H0 in H1, Heq. cbn [control looks] in H1, H2.
    destruct (aborted stats) eqn:Hab.
    + destruct (H1 eq_refl) as (Hlt & k & [j Hj] & Hk & Hst).
      pose proof (f_equal snd Hk) as Hl. rewrite looked_snd in Hl. cbn [snd] in Hl.
      split; [|split; [|done]].
      * split; [|done]. intros _. exists k. split; [by exists j|]. split; [lia|].
        unfold stop_seen. apply (f_equal fst) in Hk. cbn [fst] in Hk. by rewrite <- Hk.
      * intros _. split; [lia|]. split; [done|]. exists j. lia.
    + destruct (H2 eq_refl Hrows) as (n & [m Hm] & Hn & Hs).
      pose proof (f_equal snd Hn) as Hl. rewrite looked_snd in Hl. cbn [snd] in Hl.
      split; [|split; [done|]].
      * split; [done|]. intros (k & [j Hj] & Hlt & Hk). exfalso.
        apply Hs. apply (stop_seen_mono cfg ctl k n); [lia|done].
      * intros _. split; [subst N; rewrite (Heq eq_refl); lia|]. exists (m + 1). lia.
  - intros [Hp Hnp] i Hi Hseen fuel. unfold run_batch_from_rows.
    destruct (batch_loop_stops_at client cfg fuel
                (match l_total_rows cfg with
                 | Some n => Some n
                 | None => Some (Z.of_nat (length rows))
                 end) rows Hnp i 1%Z (init (l_total_rows cfg) (l_dry_run cfg))
                (World s ctl 0 (if l_log_path cfg then Some [] else None) [] []))
      as (stats & w & Hrun & Hab & Hle); [done|done|done|exact Hseen|].
    exists stats, w. split; [exact Hrun|]. split; [done|].
    assert (disposed (init (l_total_rows cfg) (l_dry_run cfg)) = 0%Z) as H0 by done.
    rewrite H0 in Hle. subst N. split; lia.
  - intros k fuel Hk Hle. unfold run_batch_from_rows.
    by apply (batch_loop_returns_on_stop client cfg fuel _ rows k).
  - intros clock msg_per_sec async_workers pre post p1.
    assert (0 < length rows) as Hlen by lia.
    assert (pool_inv (length rows) p1
            /\ (aborted (stats p1) = true -> pool_inv (length rows - 1) p1)) as [Hinv Habi].
    { apply run_pool_aborted; [done|]. split; [apply start_pool_inv|done]. }
    split.
    { intros Hab. split; [destruct (Habi Hab) as (_ & _ & Hle & _); subst N; lia|].
      by apply (run_pool_aborted_stop client cfg clock pre). }
    intros Hcase stats Hres.
    unfold async_run_batch_from_rows in Hres. rewrite run_pool_app in Hres. fold p1 in Hres.
    destruct Hcase as [Hab|[Hleft Hvis]].
    + pose proof (run_pool_keeps_aborted client cfg clock post p1 Hab) as Hab'.
      destruct (run_pool_aborted client cfg clock (length rows) post p1 Hlen
                  (conj Hinv Habi)) as [_ Hinv'].
      destruct (pool_inv_result _ _ _ (Hinv' Hab') Hres) as (Hle & _).
      unfold pool_result in Hres.
      destruct (forallb is_done (workers (run_pool client cfg clock post p1))); [|done].
      injection Hres as <-. split; [done|]. subst N. lia.
    + eapply (dropping_result cfg (length rows)); [|exact Hres].
      apply run_pool_dropping. split; [lia|]. split; [done|]. left. by split.
  - intros Hstop. split.
    + intros fuel. destruct rows as [|row rest]; [done|].
      unfold run_batch_from_rows. rewrite batch_loop_cancelled by done.
      eexists _, _. split; [done|]. unfold disposed. simpl.
      repeat split; try done. by apply acts_keep_stop.
    + intros clock msg_per_sec async_workers schedule p.
      pose proof (run_pool_cancelled client cfg clock schedule (length rows) _
                    (start_pool_cancelled cfg rows msg_per_sec async_workers s ctl Hstop))
        as (Hs & _ & H1 & H2 & H3 & Hab).
      pose proof (run_pool_inv client cfg clock (length rows) schedule _
                    (start_pool_inv cfg rows msg_per_sec async_workers s ctl))
        as (_ & _ & _ & _ & Hdone & Hpos & _).
      fold p in Hs, H1, H2, H3, Hab, Hdone, Hpos.
      repeat split; try done.
      * unfold async_run_batch_from_rows, pool_result in H. fold p in H.
        destruct (forallb is_done (workers p)) eqn:E; [|done]. injection H as <-.
        destruct (all_done_counts _ E) as [Ha _]. rewrite Ha in Hdone.
        apply Hab. rewrite (Hdone Hpos). lia.
      * unfold async_run_batch_from_rows, pool_result in H. fold p in H.
        destruct (forallb is_done (workers p)) eqn:E; [|done]. injection H as <-.
        unfold disposed. rewrite H1, H2, H3. lia.
  - intros fuel tc idx rows' stats w stats' w' Hrun.
    destruct (batch_loop_looked client cfg fuel tc rows' idx stats w stats' w' Hrun) as [n Hn].
    split; [by exists n|]. split; [|by eapply batch_loop_counters].
    intros Hset. apply (f_equal fst) in Hn. simpl in Hn. rewrite Hn.
    apply (looked_pred cfg (fun c => stop_event c = Some true)); [|done].
    intros c k Hc. by apply acts_keep_stop.
  - intros clock i p. split; [apply worker_step_effect|apply worker_step_keeps_stop].
Qed.

Lemma cancelled_before_last_check_witness :
  Sample.rows <> []
  /\ never_paused Sample.late_stop Sample.events_clear
  /\ stop_event Sample.events_clear = Some false
  /\ stop_seen Sample.late_stop Sample.events_clear 2
  /\ (exists stats w,
        run_batch_from_rows Sample.client Sample.late_stop 0 Sample.rows Sample.fresh
          Sample.events_clear = Some (stats, w)
        /\ aborted stats = true /\ (disposed stats <= 1)%Z)
  /\ (exists stats,
        async_run_batch_from_rows Sample.client Sample.late_stop Sample.clock
          ([0] ++ [1; 1; 1; 0; 0; 0]) Sample.rows 8 None Sample.fresh Sample.events_clear
        = Some stats
        /\ aborted stats = true /\ (disposed stats < 3)%Z).
Proof.
  assert (Sample.rows <> []) as Hr by done.
  assert (never_paused Sample.late_stop Sample.events_clear) as Hp.
  { split; [discriminate|]. intros k Hin. simpl in Hin.
    destruct (decide (k = 1)); [|by apply elem_of_nil in Hin].
    apply list_elem_of_singleton in Hin. discriminate. }
  assert (stop_seen Sample.late_stop Sample.events_clear 2) as Hs by (vm_compute; reflexivity).
  destruct (cancelled_before_last_check Sample.client Sample.late_stop Sample.rows Sample.fresh
              Sample.events_clear Hr) as (_ & Hseq & _ & Hpool & _).
  split; [done|]. split; [done|]. split; [done|]. split; [done|]. split.
  - destruct (Hseq Hp 1 ltac:(simpl; lia) Hs 0) as (stats & w & E & Ha & Hd & _).
    by exists stats, w.
  - destruct (async_run_batch_from_rows Sample.client Sample.late_stop Sample.clock
                ([0] ++ [1; 1; 1; 0; 0; 0]) Sample.rows 8 None Sample.fresh Sample.events_clear)
      as [stats|] eqn:E; [|vm_compute in E; discriminate].
    exists stats. split; [done|].
    apply (Hpool Sample.clock 8%Z None [0] [1; 1; 1; 0; 0; 0]); [|exact E].
    right. split; [vm_compute; lia|vm_compute; reflexivity].
Defined.

(** C4 as stated fails. The owner sets the stop event right after the
    cancellation check of the only row, before the pause check and before
    the row is processed. The dispatcher looks at the stop event at the
    top of an iteration and inside the pause loop only: the row is sent,
    the result is not aborted and counts all [N = 1] rows, with the stop
    event set. *)
Lemma cancel_after_first_check_counterexample :
  let rows := [Sample.row_of [("phone", "201000000001"); ("template", "promo")]] in
  exists stats w,
    run_batch_from_rows Sample.client Sample.late_stop 0 rows Sample.fresh
      Sample.events_clear = Some (stats, w)
    /\ looks w = 2
    /\ stop_event (control w) = Some true
    /\ aborted stats = false
    /\ disposed stats = Z.of_nat (length rows).
Proof. intros rows. eexists _, _. split; [vm_compute; reflexivity|]. by repeat split. Qed.



(** * Further properties *)

(** ** Texts *)

Lemma rstrip_idem s : rstrip (rstrip s) = rstrip s.
Proof.
  induction s as [|c s IH]; [done|]. simpl.
  destruct (rstrip s) as [|c' r] eqn:E.
  - destruct (isspace c) eqn:Ec; [done|]. simpl. by rewrite Ec.
  - simpl in *. by rewrite IH.
Qed.

Lemma rstrip_keeps_head c r : isspace c = false -> exists r', rstrip (String c r) = String c r'.
Proof.
  intros Hc. simpl. destruct (rstrip r); [rewrite Hc|]; eauto.
Qed.

Lemma strip_head s : strip s = "" \/ exists c r, strip s = String c r /\ isspace c = false.
Proof.
  unfold strip. destruct (lstrip_head s) as [->|(c & r & -> & Hc)]; [by left|].
  right. destruct (rstrip_keeps_head c r Hc) as [r' ->]. eauto.
Qed.

Lemma lstrip_strip s : lstrip (strip s) = strip s.
Proof.
  destruct (strip_head s) as [->|(c & r & -> & Hc)]; [done|]. simpl. by rewrite Hc.
Qed.

Lemma rstrip_strip s : rstrip (strip s) = strip s.
Proof. apply rstrip_idem. Qed.

Lemma strip_idem s : strip (strip s) = strip s.
Proof. unfold strip at 1. by rewrite lstrip_strip, rstrip_strip. Qed.

Lemma app_empty x y : x +:+ y = "" -> x = "" /\ y = "".
Proof. destruct x; simpl; [done|discriminate]. Qed.

Lemma app_cons c x y : String c x +:+ y = String c (x +:+ y).
Proof. reflexivity. Qed.

Lemma lstrip_app x y : x <> "" -> lstrip x = x -> lstrip (x +:+ y) = x +:+ y.
Proof.
  destruct x as [|c x]; [done|]. intros _. simpl.
  destruct (isspace c) eqn:Ec; [|done].
  intros H. exfalso. destruct (lstrip_head x) as [E|(c' & r & E & Hc)].
  - by rewrite E in H.
  - rewrite E in H. injection H as -> ->. clear -E.
    assert (forall s, String.length (lstrip s) <= String.length s) as Hlen.
    { induction s as [|a s IH]; simpl; [lia|]. destruct (isspace a); simpl; lia. }
    specialize (Hlen x). rewrite E in Hlen. simpl in Hlen. lia.
Qed.

Lemma rstrip_app x y : y <> "" -> rstrip y = y -> rstrip (x +:+ y) = x +:+ y.
Proof.
  intros Hy Hr. induction x as [|c x IH]; [done|].
  rewrite app_cons. simpl. rewrite IH. destruct (x +:+ y) eqn:E; [|done].
  apply app_empty in E as [_ E]. done.
Qed.

Lemma contains_app c x y : contains c (x +:+ y) = contains c x || contains c y.
Proof. induction x as [|a x IH]; simpl; [done|]. by destruct (decide (a = c)). Qed.

Lemma contains_lstrip c s : contains c s = false -> contains c (lstrip s) = false.
Proof.
  induction s as [|a s IH]; simpl; [done|].
  destruct (decide (a = c)); [done|]. intros H. destruct (isspace a); [auto|].
  simpl. by destruct (decide (a = c)).
Qed.

Lemma contains_rstrip c s : contains c s = false -> contains c (rstrip s) = false.
Proof.
  induction s as [|a s IH]; simpl; [done|].
  destruct (decide (a = c)) as [|Hn]; [done|]. intros H. specialize (IH H).
  destruct (rstrip s); [destruct (isspace a)|]; simpl; try done;
    by destruct (decide (a = c)).
Qed.

Lemma contains_strip c s : contains c s = false -> contains c (strip s) = false.
Proof. intros H. by apply contains_rstrip, contains_lstrip. Qed.

(** ** Splitting and joining *)

Lemma split_nonempty sep s : split sep s <> [].
Proof. destruct s as [|c s]; simpl; [done|]. destruct (decide (c = sep)); [done|]. by destruct (split sep s). Qed.

Lemma split_length sep s : length (split sep s) = S (occurrences sep s).
Proof.
  induction s as [|c s IH]; simpl; [done|].
  destruct (decide (c = sep)); simpl; [by rewrite IH|].
  pose proof (split_nonempty sep s). destruct (split sep s); [done|]. simpl in *. lia.
Qed.

Lemma split_parts sep s : Forall (fun x => contains sep x = false) (split sep s).
Proof.
  induction s as [|c s IH]; simpl; [by repeat constructor|].
  destruct (decide (c = sep)); [by constructor|].
  destruct (split sep s) as [|h t]; [repeat constructor; simpl; by destruct (decide (c = sep))|].
  apply Forall_cons in IH as [Hh Ht]. constructor; [|done].
  simpl. by destruct (decide (c = sep)).
Qed.

Lemma split_no_sep sep s : contains sep s = false -> split sep s = [s].
Proof.
  induction s as [|c s IH]; simpl; [done|].
  destruct (decide (c = sep)); [done|]. intros H. by rewrite IH.
Qed.

Lemma split_app sep x y :
  contains sep x = false ->
  split sep (x +:+ String sep y) = x :: split sep y.
Proof.
  induction x as [|c x IH]; simpl.
  - intros _. by destruct (decide (sep = sep)).
  - destruct (decide (c = sep)); [done|]. intros H. by rewrite IH.
Qed.

(** Joining parts that are free of the separator and splitting again
    gives the parts back. *)
Lemma split_join sep parts :
  parts <> [] -> Forall (fun x => contains sep x = false) parts ->
  split sep (join (String sep "") parts) = parts.
Proof.
  induction parts as [|x rest IH]; [done|]. intros _ Hall.
  apply Forall_cons in Hall as [Hx Hrest].
  destruct rest as [|y rest]; [by apply split_no_sep|].
  change (join (String sep "") (x :: y :: rest))
    with (x +:+ String sep (join (String sep "") (y :: rest))).
  rewrite split_app by done. by rewrite IH.
Qed.

Lemma join_head sep x rest :
  x <> "" -> lstrip x = x -> lstrip (join sep (x :: rest)) = join sep (x :: rest).
Proof.
  intros Hx Hl. destruct rest as [|y rest]; [done|].
  change (join sep (x :: y :: rest)) with (x +:+ (sep +:+ join sep (y :: rest))).
  by apply lstrip_app.
Qed.

Lemma join_last sep parts :
  parts <> [] -> Forall (fun x => x <> "" /\ rstrip x = x) parts ->
  join sep parts <> "" /\ rstrip (join sep parts) = join sep parts.
Proof.
  induction parts as [|x rest IH]; [done|]. intros _ Hall.
  apply Forall_cons in Hall as [[Hx Hr] Hrest].
  destruct rest as [|y rest]; [done|].
  destruct IH as [Hne Hrs]; [done|done|].
  change (join sep (x :: y :: rest)) with (x +:+ (sep +:+ join sep (y :: rest))).
  split.
  - intros E. apply app_empty in E as [E _]. done.
  - apply rstrip_app; [|by apply rstrip_app].
    intros E. by apply app_empty in E as [_ E].
Qed.

Lemma strip_join sep parts :
  Forall (fun x => x <> "" /\ strip x = x) parts ->
  strip (join sep parts) = join sep parts.
Proof.
  intros Hall. destruct parts as [|x rest]; [done|].
  assert (Forall (fun x => x <> "" /\ lstrip x = x /\ rstrip x = x) (x :: rest)) as Hall'.
  { eapply Forall_impl; [exact Hall|]. simpl. intros y [Hy Hs].
    split; [done|]. rewrite <- Hs. split; [apply lstrip_strip|apply rstrip_strip]. }
  unfold strip. apply Forall_cons in Hall' as Hx. destruct Hx as [(Hx & Hl & _) _].
  rewrite join_head by done.
  apply join_last; [done|]. eapply Forall_impl; [exact Hall'|]. simpl. tauto.
Qed.

(** ** Parsing the parameter columns *)

(** X1. [parse_list] gives nothing exactly when the cell is absent or
    blank; otherwise it gives one part more than the stripped cell has
    separators, and every part is stripped and free of the separator. *)
Theorem parse_list_shape (value : option string) (sep : ascii) :
  match parse_list value sep with
  | None => match value with
            | None => True
            | Some v => all_space v = true
            end
  | Some parts =>
      exists v, value = Some v /\ all_space v = false
                /\ length parts = Datatypes.S (occurrences sep (strip v))
                /\ Forall (fun x => strip x = x /\ contains sep x = false) parts
  end.
Proof.
  unfold parse_list. destruct value as [v|]; [|done].
  destruct (decide (strip v = "")) as [E|E].
  - by apply strip_empty_iff.
  - exists v. split; [done|]. split.
    { destruct (all_space v) eqn:Ha; [|done]. by apply strip_empty_iff in Ha. }
    split; [by rewrite length_fmap, split_length|].
    apply Forall_fmap. eapply Forall_impl; [apply split_parts|]. simpl.
    intros x Hx. split; [apply strip_idem|by apply contains_strip].
Qed.

Lemma join_nonempty sep parts :
  parts <> [] -> Forall (fun x => x <> "") parts -> join sep parts <> "".
Proof.
  destruct parts as [|x rest]; [done|]. intros _ Hall.
  apply Forall_cons in Hall as [Hx _]. destruct rest as [|y rest]; [done|].
  change (join sep (x :: y :: rest)) with (x +:+ (sep +:+ join sep (y :: rest))).
  intros E. by apply app_empty in E as [E _].
Qed.

Lemma contains_join c sep parts :
  contains c sep = false -> Forall (fun x => contains c x = false) parts ->
  contains c (join sep parts) = false.
Proof.
  intros Hsep. induction parts as [|x rest IH]; [done|]. intros Hall.
  apply Forall_cons in Hall as [Hx Hrest]. destruct rest as [|y rest]; [done|].
  change (join sep (x :: y :: rest)) with (x +:+ (sep +:+ join sep (y :: rest))).
  rewrite !contains_app, Hx, Hsep. simpl. by apply IH.
Qed.

(** Parts that are stripped, not empty and free of the separator are
    read back from their joined form. *)
Lemma parse_list_join sep parts :
  Forall (fun p => p <> "" /\ strip p = p /\ contains sep p = false) parts ->
  parse_list (Some (join (String sep "") parts)) sep
  = if parts is [] then None else Some parts.
Proof.
  intros Hall. destruct parts as [|x rest]; [done|].
  unfold parse_list.
  rewrite strip_join by (eapply Forall_impl; [exact Hall|]; simpl; tauto).
  destruct (decide _) as [E|_].
  - exfalso. revert E. apply join_nonempty; [done|].
    eapply Forall_impl; [exact Hall|]. simpl. tauto.
  - rewrite split_join; [|done|eapply Forall_impl; [exact Hall|]; simpl; tauto].
    f_equal. rewrite <- (list_fmap_id (x :: rest)) at 2.
    apply Forall_fmap_ext_1. eapply Forall_impl; [exact Hall|]. simpl. tauto.
Qed.

Lemma stripped_params_shape (P : string -> Prop) params :
  (forall p, P p -> P (strip p)) -> Forall P params ->
  Forall (fun p => p <> "" /\ strip p = p /\ P p) (TemplateConfig.stripped_params params).
Proof.
  intros HP Hall. unfold TemplateConfig.stripped_params.
  induction Hall as [|p params Hp Hall IH]; [constructor|].
  rewrite fmap_cons, filter_cons. case_decide; [|done].
  constructor; [|done]. split; [done|]. split; [apply strip_idem|by apply HP].
Qed.

(** X2. The body parameters written by [body_params_csv] are read back
    by [parse_list]: stripped, blank ones dropped, in order, provided no
    parameter contains the separator. *)
Theorem body_params_round_trip (config : TemplateConfig.t) :
  Forall (fun p => contains "|" p = false) (TemplateConfig.body_params config) ->
  default [] (parse_list (Some (TemplateConfig.body_params_csv config)) "|")
  = TemplateConfig.stripped_params (TemplateConfig.body_params config).
Proof.
  intros Hall. unfold TemplateConfig.body_params_csv.
  rewrite (parse_list_join "|").
  - by destruct (TemplateConfig.stripped_params _).
  - apply (stripped_params_shape (fun p => contains "|" p = false)); [|done].
    intros p. apply contains_strip.
Qed.

Lemma body_params_round_trip_witness :
  TemplateConfig.body_params_csv SampleConfig.promo = "Ann|10%"
  /\ default [] (parse_list (Some (TemplateConfig.body_params_csv SampleConfig.promo)) "|")
     = ["Ann"; "10%"].
Proof.
  split; [reflexivity|].
  apply (body_params_round_trip SampleConfig.promo). simpl. repeat constructor.
Defined.

(** The groups of [button_params_csv] that are written: the stripped
    parameters of each group, groups left empty dropped. *)
Lemma written_groups (groups : list (list string)) :
  filter (fun g => g <> "")
         ((fun group => join "|" (TemplateConfig.stripped_params group)) <$> groups)
  = join "|" <$> filter (fun g => g <> []) (TemplateConfig.stripped_params <$> groups).
Proof.
  induction groups as [|g groups IH]; [done|].
  rewrite !fmap_cons, !filter_cons, IH.
  destruct (TemplateConfig.stripped_params g) as [|x rest] eqn:E.
  - change (join "|" []) with "".
    destruct (decide ("" <> "")) as [|_]; [done|].
    by destruct (decide (@nil string <> [])).
  - assert (join "|" (x :: rest) <> "") as Hne.
    { apply join_nonempty; [done|]. rewrite <- E.
      eapply Forall_impl;
        [apply (stripped_params_shape (fun _ => True)); [done|by apply Forall_true]|].
      simpl. tauto. }
    destruct (decide (join "|" (x :: rest) <> "")); [|done].
    destruct (decide (x :: rest <> [])) as [_|Hn]; [by rewrite fmap_cons|by destruct Hn].
Qed.

(** X3. The button parameter groups written by [button_params_csv] are
    read back by [parse_button_params]: each group stripped of blanks,
    empty groups dropped, in order, provided no parameter contains a
    separator. *)
Theorem button_params_round_trip (config : TemplateConfig.t) :
  Forall (Forall (fun p => contains "|" p = false /\ contains "," p = false))
         (TemplateConfig.button_params_groups config) ->
  parse_button_params (Some (TemplateConfig.button_params_csv config))
  = match filter (fun g => g <> [])
                 (TemplateConfig.stripped_params
                    <$> TemplateConfig.button_params_groups config) with
    | [] => None
    | groups => Some groups
    end.
Proof.
  intros Hall. unfold TemplateConfig.button_params_csv. rewrite written_groups.
  set (G := filter _ _).
  assert (Forall (fun g => g <> []
                           /\ Forall (fun p => p <> "" /\ strip p = p
                                               /\ contains "|" p = false
                                               /\ contains "," p = false) g) G) as HG.
  { subst G. apply Forall_forall. intros g Hg.
    apply list_elem_of_filter in Hg as [Hne Hg]. split; [done|].
    apply list_elem_of_fmap in Hg as (g0 & -> & Hg0).
    rewrite Forall_forall in Hall. specialize (Hall _ Hg0).
    apply (stripped_params_shape
             (fun p => contains "|" p = false /\ contains "," p = false)); [|done].
    intros p [? ?]. split; by apply contains_strip. }
  clearbody G. clear Hall.
  assert (Forall (fun p => p <> "" /\ strip p = p /\ contains "," p = false)
                 (join "|" <$> G)) as Hparts.
  { apply Forall_fmap. eapply Forall_impl; [exact HG|]. simpl. intros g [Hne Hg].
    split; [|split].
    - apply join_nonempty; [done|]. eapply Forall_impl; [exact Hg|]. simpl. tauto.
    - apply strip_join. eapply Forall_impl; [exact Hg|]. simpl. tauto.
    - apply contains_join; [done|]. eapply Forall_impl; [exact Hg|]. simpl. tauto. }
  unfold parse_button_params. destruct G as [|g G]; [done|].
  destruct (decide _) as [E|_].
  { exfalso. revert E. apply join_nonempty; [done|].
    eapply Forall_impl; [exact Hparts|]. simpl. tauto. }
  rewrite (split_join ","); [|done|eapply Forall_impl; [exact Hparts|]; simpl; tauto].
  assert (strip <$> (join "|" <$> g :: G) = join "|" <$> g :: G) as ->.
  { rewrite <- (list_fmap_id (join "|" <$> g :: G)) at 2.
    apply Forall_fmap_ext_1. eapply Forall_impl; [exact Hparts|]. simpl. tauto. }
  assert (filter (fun p => p <> "") (join "|" <$> g :: G) = join "|" <$> g :: G) as ->.
  { clear -Hparts. induction Hparts as [|p ps [Hp _] _ IH]; [done|].
    rewrite filter_cons, decide_True by done. by rewrite IH. }
  rewrite fmap_cons. f_equal. rewrite <- fmap_cons, <- list_fmap_compose.
  rewrite <- (list_fmap_id (g :: G)) at 2.
  apply Forall_fmap_ext_1. eapply Forall_impl; [exact HG|]. intros g' [Hne Hg'].
  unfold compose, id. cbn beta.
  rewrite (parse_list_join "|"); [by destruct g'|].
  eapply Forall_impl; [exact Hg'|]. simpl. tauto.
Qed.

Lemma button_params_round_trip_witness :
  TemplateConfig.button_params_csv SampleConfig.promo = "a|b,c"
  /\ parse_button_params (Some (TemplateConfig.button_params_csv SampleConfig.promo))
     = Some [["a"; "b"]; ["c"]].
Proof.
  split; [reflexivity|].
  apply (button_params_round_trip SampleConfig.promo). simpl. repeat constructor.
Defined.

Lemma StronglySorted_filter_lt (P : nat -> Prop) `{!forall n, Decision (P n)} (l : list nat) :
  StronglySorted lt l -> StronglySorted lt (filter P l).
Proof.
  induction 1 as [|x l Hs IH Hx]; [constructor|].
  rewrite filter_cons. destruct (decide (P x)); [|done].
  constructor; [done|]. apply Forall_forall. intros y Hy.
  apply list_elem_of_filter in Hy as [_ Hy]. by apply (proj1 (Forall_forall _ _) Hx).
Qed.

Lemma StronglySorted_seq a n : StronglySorted lt (seq a n).
Proof.
  revert a. induction n as [|n IH]; intros a; simpl; [constructor|].
  constructor; [apply IH|]. apply Forall_forall. intros y Hy. apply elem_of_seq in Hy. lia.
Qed.

Lemma omap_filter_fmap {A B} (f : A -> option B) (g : A -> B) (P : A -> Prop)
    `{!forall x, Decision (P x)} (l : list A) :
  (forall x, P x -> f x = Some (g x)) -> (forall x, ~ P x -> f x = None) ->
  omap f l = g <$> filter P l.
Proof.
  intros Hp Hn. induction l as [|x l IH]; [done|].
  rewrite filter_cons.
  change (omap f (x :: l)) with (match f x with Some y => y :: omap f l | None => omap f l end).
  destruct (decide (P x)) as [Hx|Hx].
  - by rewrite (Hp x Hx), fmap_cons, IH.
  - by rewrite (Hn x Hx), IH.
Qed.

(** X4. The button parameters inferred from the call-to-action columns
    are exactly these: take the descriptors among 0..9 that are of kind
    url and have a link, in increasing order; each of them gives one
    group, holding its link stripped, and the groups come in the order
    of the descriptors; there are ten at most, and the result is
    nothing, rather than an empty list, when there is no such
    descriptor. *)
Theorem inferred_button_params (row : Row) :
  exists ns : list nat,
    StronglySorted lt ns
    /\ (forall n, n ∈ ns <-> n < 10 /\ cta_kind row n = "url"
                             /\ is_Some (cell row (fkey "cta" n "_url")))
    /\ length ns <= 10
    /\ Forall (fun n => cell row (fkey "cta" n "_url")
                        = Some (strip (get_or row (fkey "cta" n "_url") ""))) ns
    /\ infer_button_params_from_cta row
       = if ns is [] then None
         else Some ((fun n => [strip (get_or row (fkey "cta" n "_url") "")]) <$> ns).
Proof.
  set (P := fun n => cta_kind row n = "url" /\ is_Some (cell row (fkey "cta" n "_url"))).
  exists (filter P range10).
  split; [apply StronglySorted_filter_lt, StronglySorted_seq|].
  split.
  { intros n. rewrite list_elem_of_filter. unfold range10. rewrite elem_of_seq. subst P.
    simpl. split; [intros [? ?]; split; [lia|done]|intros [? ?]; split; [done|lia]]. }
  split.
  { etransitivity; [apply length_filter|]. done. }
  split.
  { apply Forall_forall. intros n Hn. apply list_elem_of_filter in Hn as [[_ [u Hu]] _].
    rewrite Hu. unfold cell, or_none in *. destruct (decide _); [done|]. done. }
  unfold infer_button_params_from_cta.
  rewrite (omap_filter_fmap _ (fun n => [strip (get_or row (fkey "cta" n "_url") "")]) P).
  - by destruct (filter P range10).
  - intros n [Hk [u Hu]]. simpl. unfold cta_kind in Hk. rewrite Hk. simpl.
    unfold cell, or_none in Hu. by destruct (decide _).
  - intros n Hn. simpl. fold (cta_kind row n).
    destruct (decide (cta_kind row n = "url")) as [Hk|]; [|done].
    destruct (decide (strip _ = "")) as [|Hu]; [done|]. destruct Hn. split; [done|].
    unfold cell, or_none. rewrite decide_False by done. by eexists.
Qed.

(** ** The verdicts of the row processor *)

Lemma scan_cta_blank row ns :
  (forall n, n ∈ ns -> cta_kind row n = "") -> scan_cta row ns = (None, None, None, None).
Proof.
  induction ns as [|n ns IH]; [done|]. intros H. simpl.
  fold (cta_kind row n). rewrite (H n) by left. simpl. apply IH. intros m Hm. apply H. by right.
Qed.

Lemma first_cta_below row k :
  (forall n, n < k -> cta_kind row n = "")
  \/ exists n ct, n < k /\ cta_kind row n = ct /\ ct <> ""
                  /\ forall m, m < n -> cta_kind row m = "".
Proof.
  induction k as [|k [IH|(n & ct & Hn & IH)]].
  - left. lia.
  - destruct (decide (cta_kind row k = "")) as [E|E].
    + left. intros n Hn. destruct (decide (n = k)) as [->|]; [done|]. apply IH. lia.
    + right. exists k, (cta_kind row k). repeat split; [lia|done|done].
  - right. exists n, ct. split; [lia|done].
Qed.

Lemma first_cta_exists row :
  (forall n, n < 10 -> cta_kind row n = "") \/ exists n ct, first_cta row n ct.
Proof.
  destruct (first_cta_below row 10) as [H|(n & ct & H)]; [by left|].
  right. by exists n, ct.
Qed.

Lemma first_cta_unique row n ct n' ct' :
  first_cta row n ct -> first_cta row n' ct' -> n = n' /\ ct = ct'.
Proof.
  intros (Hn & Hk & Hne & Hb) (Hn' & Hk' & Hne' & Hb').
  assert (n = n') as ->.
  { destruct (Nat.lt_trichotomy n n') as [Hlt|[->|Hlt]]; [|done|].
    - specialize (Hb' _ Hlt). congruence.
    - specialize (Hb _ Hlt). congruence. }
  split; [done|congruence].
Qed.

Lemma build_template_trace {S : Type} (client : Client S) phone template lang a calls (s : S) :
  let r := build_template client phone template lang a calls s in
  p_state r = s /\ p_status r <> "skip"
  /\ exists more, p_calls r = calls ++ more /\ Forall (fun c => is_upload c = false) more.
Proof.
  unfold build_template, p_status.
  destruct (build_template_components client a).
  - destruct (build_template_payload client phone template lang _); simpl;
      (split; [done|]; split; [done|]; eexists; split; [done|by repeat constructor]).
  - simpl. split; [done|]. split; [done|]. eexists; split; [done|by repeat constructor].
Qed.

Lemma prepare_template_rest_trace {S : Type} (row : Row) (client : Client S)
    phone template lang ht htext hurl hid calls (s : S) :
  let r := prepare_template_rest row client phone template lang ht htext hurl hid calls s in
  p_state r = s /\ p_status r <> "skip"
  /\ exists more, p_calls r = calls ++ more /\ Forall (fun c => is_upload c = false) more.
Proof.
  unfold prepare_template_rest. destruct (copy_code_buttons_of row range10 []).
  - apply build_template_trace.
  - unfold p_status. simpl. split; [done|]. split; [done|].
    exists []. by rewrite app_nil_r.
Qed.

Lemma upload_calls_app a b : upload_calls (a ++ b) = upload_calls a ++ upload_calls b.
Proof. apply filter_app. Qed.

Lemma upload_calls_none calls :
  Forall (fun c => is_upload c = false) calls -> upload_calls calls = [].
Proof.
  induction 1 as [|c calls Hc _ IH]; [done|].
  unfold upload_calls in *. rewrite filter_cons, IH. destruct (decide _); [congruence|done].
Qed.

(** What [prepare_template] does besides deciding: no upload and the
    state untouched, or one upload first and the state it leaves. *)
Lemma prepare_template_trace {S : Type} (row : Row) (client : Client S) phone (s : S) :
  let r := prepare_template row client phone s in
  (p_status r = "skip" <-> strip (get_or row "template" "") = "")
  /\ (p_status r = "skip" -> p_calls r = [])
  /\ ((upload_calls (p_calls r) = [] /\ p_state r = s)
      \/ exists path, upload_calls (p_calls r) = [UploadMedia path]
                      /\ p_state r = (upload_media client path s).2
                      /\ cell row "header_media_path" = Some path).
Proof.
  unfold prepare_template.
  destruct (decide (strip (get_or row "template" "") = "")) as [E|E].
  { unfold p_status. simpl. split; [done|]. split; [done|]. by left. }
  assert (forall hid,
    let r := prepare_template_rest row client phone (strip (get_or row "template" ""))
               (strip (get_or row "lang" "en_US"))
               (lower (strip (get_or row "header_type" "none")))
               (match row !! "header_text" with Some v => or_none v | None => None end)
               (or_none (strip (get_or row "header_media_url" ""))) hid [] s in
    (p_status r = "skip" <-> strip (get_or row "template" "") = "")
    /\ (p_status r = "skip" -> p_calls r = [])
    /\ ((upload_calls (p_calls r) = [] /\ p_state r = s)
      \/ exists path, upload_calls (p_calls r) = [UploadMedia path]
                      /\ p_state r = (upload_media client path s).2
                      /\ cell row "header_media_path" = Some path)) as Hrest.
  { intros hid r.
    destruct (prepare_template_rest_trace row client phone (strip (get_or row "template" ""))
                (strip (get_or row "lang" "en_US"))
                (lower (strip (get_or row "header_type" "none")))
                (match row !! "header_text" with Some v => or_none v | None => None end)
                (or_none (strip (get_or row "header_media_url" ""))) hid [] s)
      as (Hs & Hst & more & Hc & Hm). fold r in Hs, Hst, Hc.
    split; [split; [done|by intros ?]|]. split; [done|]. left. split; [|done].
    rewrite Hc. simpl. by apply upload_calls_none. }
  destruct (is_media_header _); [|apply Hrest].
  fold (cell row "header_media_path").
  destruct (cell row "header_media_path") as [path|] eqn:Hp; [|apply Hrest].
  destruct (truthy _); [apply Hrest|].
  destruct (upload_media client path s) as [info s1] eqn:Hu.
  assert (s1 = (upload_media client path s).2) as Hs1 by by rewrite Hu.
  destruct info as [info|e].
  - destruct (dict_get info "id") as [id|].
    + destruct (prepare_template_rest_trace row client phone (strip (get_or row "template" ""))
                (strip (get_or row "lang" "en_US"))
                (lower (strip (get_or row "header_type" "none")))
                (match row !! "header_text" with Some v => or_none v | None => None end)
                (or_none (strip (get_or row "header_media_url" ""))) id [UploadMedia path] s1)
        as (Hs & Hst & more & Hc & Hm).
      split; [split; [done|by intros ?]|]. split; [done|]. right. exists path.
      rewrite Hc, upload_calls_app, (upload_calls_none more) by done.
      split; [done|]. split; [|done]. by rewrite Hs.
    + unfold p_status. simpl. split; [done|]. split; [done|]. right. by exists path.
  - unfold p_status. simpl. split; [done|]. split; [done|]. right. by exists path.
Qed.

(** What [prepare_interactive] does: it decides from the row alone
    whether to skip, calls one builder otherwise and never uploads. *)
Lemma prepare_interactive_trace {S : Type} (row : Row) (client : Client S) phone (s : S) :
  let r := prepare_interactive row client phone s in
  (p_status r = "skip" <->
     strip (get_or row "body_text" "") = ""
     \/ (forall n, n < 10 -> cta_kind row n = "")
     \/ exists n, first_cta row n "copy_code")
  /\ (p_status r = "skip" -> p_calls r = [])
  /\ upload_calls (p_calls r) = [] /\ p_state r = s.
Proof.
  unfold prepare_interactive.
  destruct (first_cta_exists row) as [Hb|(n & ct & Hf)].
  - rewrite scan_cta_blank.
    + unfold p_status. simpl. split; [|done]. split; [|done]. intros _. right. by left.
    + intros n Hn. apply Hb. unfold range10 in Hn. apply elem_of_seq in Hn. lia.
  - rewrite (scan_cta_first row n ct Hf).
    destruct (decide (strip (get_or row "body_text" "") = "")) as [E|E].
    { unfold p_status. simpl. split; [|done]. split; [|done]. intros _. by left. }
    destruct (decide (ct = "copy_code")) as [->|Hct].
    { unfold p_status. simpl. split; [|done]. split; [|done]. intros _. right. right. by exists n. }
    assert (~ (strip (get_or row "body_text" "") = ""
               \/ (forall n, n < 10 -> cta_kind row n = "")
               \/ exists n, first_cta row n "copy_code")) as Hno.
    { intros [?|[Hb|[n' Hf']]]; [done| |].
      - destruct Hf as (Hn & Hk & Hne & _). rewrite Hb in Hk by done. congruence.
      - destruct (first_cta_unique _ _ _ _ _ Hf Hf'). congruence. }
    destruct (decide (ct = "call")).
    + destruct (build_interactive_cta_call client _ _ _ _ _); unfold p_status; simpl;
        (split; [split; [done|by intros ?]|done]).
    + destruct (build_interactive_cta_url client _ _ _ _ _); unfold p_status; simpl;
        (split; [split; [done|by intros ?]|done]).
Qed.

Lemma skip_conditions_iff {S : Type} (row : Row) (client : Client S) (s : S) :
  p_status (_prepare_row row client s) = "skip" <->
    no_phone row
    \/ (interactive_kind row
        /\ (strip (get_or row "body_text" "") = ""
            \/ (forall n, n < 10 -> cta_kind row n = "")
            \/ exists n, first_cta row n "copy_code"))
    \/ (~ no_phone row
        /\ lower (strip (get_or row "msg_type" "template")) <> "interactive"
        /\ strip (get_or row "template" "") = "").
Proof.
  unfold _prepare_row.
  destruct (decide (strip (get_or row "phone" "") = "")) as [Hp|Hp].
  { unfold p_status. simpl. split; [|done]. intros _. left. by apply no_phone_iff. }
  assert (~ no_phone row) as Hnp by by rewrite no_phone_iff.
  destruct (decide (lower (strip (get_or row "msg_type" "template")) = "interactive")) as [Hm|Hm].
  - destruct (prepare_interactive_trace row client (strip (get_or row "phone" "")) s)
      as (Hiff & _).
    rewrite Hiff. split.
    + intros H. right. left. by split.
    + intros [?|[[_ H]|(_ & ? & _)]]; done.
  - destruct (prepare_template_trace row client (strip (get_or row "phone" "")) s)
      as (Hiff & _).
    rewrite Hiff. split.
    + intros H. right. right. by repeat split.
    + intros [?|[[[_ ?] _]|(_ & _ & ?)]]; done.
Qed.

(** X5. The row processor skips a row exactly when the row has no
    destination, or is interactive without a body, without any
    call-to-action or with a copy-code one first, or is a template row
    without a template name; a skip calls no collaborator and leaves
    the client as it was. *)
Theorem skip_conditions {S : Type} (row : Row) (client : Client S) (s : S) :
  let r := _prepare_row row client s in
  (p_status r = "skip" <->
     no_phone row
     \/ (interactive_kind row
         /\ (strip (get_or row "body_text" "") = ""
             \/ (forall n, n < 10 -> cta_kind row n = "")
             \/ exists n, first_cta row n "copy_code"))
     \/ (~ no_phone row
         /\ lower (strip (get_or row "msg_type" "template")) <> "interactive"
         /\ strip (get_or row "template" "") = ""))
  /\ (p_status r = "skip" -> p_calls r = [] /\ p_state r = s).
Proof.
  split; [apply skip_conditions_iff|].
  unfold _prepare_row.
  destruct (decide (strip (get_or row "phone" "") = "")) as [Hp|Hp]; [done|].
  destruct (decide (lower (strip (get_or row "msg_type" "template")) = "interactive")) as [Hm|Hm].
  - destruct (prepare_interactive_trace row client (strip (get_or row "phone" "")) s)
      as (_ & Hc & _ & Hs).
    intros Hskip. split; [by apply Hc|done].
  - destruct (prepare_template_trace row client (strip (get_or row "phone" "")) s)
      as (_ & Hc & Hs).
    intros Hskip. split; [by apply Hc|].
    destruct Hs as [[_ ?]|(path & Hu & _)]; [done|].
    rewrite (Hc Hskip) in Hu. done.
Qed.

(** X6. A row uploads at most once, only for a template row that names
    a media file, and the client is left as that upload left it: every
    other call the row processor makes leaves the client alone. *)
Theorem one_upload_per_row {S : Type} (row : Row) (client : Client S) (s : S) :
  let r := _prepare_row row client s in
  (upload_calls (p_calls r) = [] /\ p_state r = s)
  \/ exists path, upload_calls (p_calls r) = [UploadMedia path]
                  /\ p_state r = (upload_media client path s).2
                  /\ cell row "header_media_path" = Some path
                  /\ template_kind row.
Proof.
  unfold _prepare_row.
  destruct (decide (strip (get_or row "phone" "") = "")) as [Hp|Hp]; [by left|].
  assert (~ no_phone row) as Hnp by by rewrite no_phone_iff.
  destruct (decide (lower (strip (get_or row "msg_type" "template")) = "interactive")) as [Hm|Hm].
  - left. by destruct (prepare_interactive_trace row client (strip (get_or row "phone" "")) s)
      as (_ & _ & ? & ?).
  - destruct (prepare_template_trace row client (strip (get_or row "phone" "")) s)
      as (Hiff & Hc & [Hs|(path & Hu & Hs & Hpath)]); [by left|].
    right. exists path. repeat split; try done.
    intros E. apply Hiff in E. apply Hc in E. by rewrite E in Hu.
Qed.

(** ** Copy-code buttons *)

Lemma numbered_coupons_nil : numbered_coupons [].
Proof. by split. Qed.

Lemma numbered_coupons_snoc btns coupon :
  numbered_coupons btns -> coupon <> "" ->
  numbered_coupons (btns ++ [{| cc_index := str_nat (length btns); cc_coupon_code := coupon |}]).
Proof.
  intros [Hi Hc] Hne. split.
  - rewrite fmap_app, Hi, length_app. simpl. rewrite Nat.add_1_r, seq_S, fmap_app. done.
  - apply Forall_app. split; [done|]. by repeat constructor.
Qed.

(** The builder accepts numbered coupons, one component each. *)
Lemma numbered_coupons_accepted btns :
  Forall (fun b => cc_coupon_code b <> "") btns ->
  exists cs, WhatsAppClient.copy_code_components btns = Ok cs /\ length cs = length btns.
Proof.
  induction 1 as [|b btns Hb _ (cs & IH & Hlen)]; [by exists []|].
  simpl. rewrite decide_False by done. rewrite IH. eexists. split; [done|]. simpl. by rewrite Hlen.
Qed.

Lemma copy_code_buttons_of_ok row ns : forall acc btns,
  copy_code_buttons_of row ns acc = Ok btns ->
  numbered_coupons acc ->
  numbered_coupons btns /\ length btns <= length acc + length ns.
Proof.
  induction ns as [|n ns IH]; intros acc btns; simpl.
  - intros [= <-] H. split; [done|lia].
  - destruct (decide _); [destruct (decide _) as [|Hc]; [done|]|].
    + intros Hok Hacc. apply IH in Hok as [? Hlen]; [|by apply numbered_coupons_snoc].
      split; [done|]. rewrite length_app in Hlen. simpl in Hlen. lia.
    + intros Hok Hacc. apply IH in Hok as [? Hlen]; [|done]. split; [done|lia].
Qed.

(** X7. The copy-code buttons the row processor collects are numbered
    from 0 in order, at most ten, each with a coupon code, so that the
    component builder accepts every one of them. *)
Theorem copy_code_buttons_wellformed (row : Row) (btns : list copy_code_button) :
  copy_code_buttons_of row range10 [] = Ok btns ->
  cc_index <$> btns = str_nat <$> seq 0 (length btns)
  /\ length btns <= 10
  /\ Forall (fun b => cc_coupon_code b <> "") btns
  /\ exists cs, WhatsAppClient.copy_code_components btns = Ok cs /\ length cs = length btns.
Proof.
  intros Hok. apply copy_code_buttons_of_ok in Hok as [[Hi Hc] Hlen]; [|apply numbered_coupons_nil].
  repeat split; [done|done|done|]. by apply numbered_coupons_accepted.
Qed.

Lemma copy_code_buttons_wellformed_witness :
  let row := Sample.row_of [("cta0_type", "url"); ("cta1_type", "copy_code");
                            ("cta1_coupon_code", "SAVE10"); ("cta3_type", "COPY_CODE");
                            ("cta3_coupon_code", " SAVE20 ")] in
  let btns := [{| cc_index := "0"; cc_coupon_code := "SAVE10" |};
               {| cc_index := "1"; cc_coupon_code := "SAVE20" |}] in
  copy_code_buttons_of row range10 [] = Ok btns
  /\ cc_index <$> btns = str_nat <$> seq 0 (length btns).
Proof.
  split; [by vm_compute|].
  apply (copy_code_buttons_wellformed
           (Sample.row_of [("cta0_type", "url"); ("cta1_type", "copy_code");
                           ("cta1_coupon_code", "SAVE10"); ("cta3_type", "COPY_CODE");
                           ("cta3_coupon_code", " SAVE20 ")])).
  by vm_compute.
Defined.

Lemma copy_code_buttons_of_raise row n : forall a k acc,
  a <= n < a + k -> cta_kind row n = "copy_code" ->
  cell row (fkey "cta" n "_coupon_code") = None ->
  (forall m, a <= m < n -> cta_kind row m = "copy_code" ->
             cell row (fkey "cta" m "_coupon_code") <> None) ->
  copy_code_buttons_of row (seq a k) acc
  = Raise (fkey "cta" n "_coupon_code" +:+ " is required for copy_code buttons").
Proof.
  intros a k. revert a. induction k as [|k IH]; intros a acc Hn Hk Hc Hb; [lia|].
  simpl. destruct (decide (a = n)) as [->|Hne].
  - unfold cta_kind in Hk. rewrite Hk. simpl.
    unfold cell, or_none in Hc. destruct (decide (strip _ = "")); done.
  - fold (cta_kind row a).
    destruct (decide (cta_kind row a = "copy_code")) as [Ha|Ha].
    + pose proof (Hb a ltac:(lia) Ha) as Hba. unfold cell, or_none in Hba.
      destruct (decide (strip _ = "")); [done|].
      apply IH; [lia|done|done|]. intros m Hm. apply Hb. lia.
    + apply IH; [lia|done|done|]. intros m Hm. apply Hb. lia.
Qed.

(** X8. A template row whose first incomplete copy-code descriptor is
    number [n] is an error that names the coupon column of [n], unless
    the header upload failed first; either way no builder is called. *)
Theorem copy_code_needs_coupon {S : Type} (row : Row) (client : Client S) (s : S) (n : nat) :
  template_kind row ->
  n < 10 -> cta_kind row n = "copy_code" ->
  cell row (fkey "cta" n "_coupon_code") = None ->
  (forall m, m < n -> cta_kind row m = "copy_code" ->
             cell row (fkey "cta" m "_coupon_code") <> None) ->
  let r := _prepare_row row client s in
  (exists message,
     p_result r = ("error", strip (get_or row "phone" ""), None, message)
     /\ (message = fkey "cta" n "_coupon_code" +:+ " is required for copy_code buttons"
         \/ exists e, message = "media_upload_failed: " +:+ e))
  /\ Forall (fun c => is_upload c = true) (p_calls r).
Proof.
  intros Hkind Hn Hk Hc Hb. rewrite prepare_row_template by done.
  destruct Hkind as (_ & _ & Ht).
  assert (copy_code_buttons_of row range10 []
          = Raise (fkey "cta" n "_coupon_code" +:+ " is required for copy_code buttons")) as Hr.
  { apply copy_code_buttons_of_raise; [lia|done|done|]. intros m Hm. apply Hb. lia. }
  unfold prepare_template. rewrite decide_False by done.
  assert (forall ht htext hurl hid calls s',
    Forall (fun c => is_upload c = true) calls ->
    let r := prepare_template_rest row client (strip (get_or row "phone" ""))
               (strip (get_or row "template" "")) (strip (get_or row "lang" "en_US"))
               ht htext hurl hid calls s' in
    (exists message,
       p_result r = ("error", strip (get_or row "phone" ""), None, message)
       /\ (message = fkey "cta" n "_coupon_code" +:+ " is required for copy_code buttons"
           \/ exists e, message = "media_upload_failed: " +:+ e))
    /\ Forall (fun c => is_upload c = true) (p_calls r)) as Hrest.
  { intros ht htext hurl hid calls s' Hcalls r. subst r.
    unfold prepare_template_rest. rewrite Hr. simpl. split; [|done].
    eexists. split; [done|]. by left. }
  destruct (is_media_header _); [|by apply Hrest].
  destruct (or_none (strip (get_or row "header_media_path" ""))) as [path|]; [|by apply Hrest].
  destruct (truthy _); [by apply Hrest|].
  destruct (upload_media client path s) as [[info|e] s1].
  - destruct (dict_get info "id").
    + apply Hrest. by repeat constructor.
    + simpl. split; [|by repeat constructor]. eexists. split; [done|]. right. by exists "'id'".
  - simpl. split; [|by repeat constructor]. eexists. split; [done|]. right. by exists e.
Qed.

Lemma copy_code_needs_coupon_witness :
  let row := Sample.row_of [("phone", "201000000001"); ("template", "promo");
                            ("cta0_type", "copy_code"); ("cta0_coupon_code", "SAVE10");
                            ("cta1_type", "copy_code"); ("cta1_coupon_code", " ")] in
  exists message,
    p_result (_prepare_row row Sample.client Sample.fresh)
    = ("error", strip (get_or row "phone" ""), None, message)
    /\ p_calls (_prepare_row row Sample.client Sample.fresh) = [].
Proof.
  intros row.
  destruct (copy_code_needs_coupon row Sample.client Sample.fresh 1) as [(m & Hm & _) _].
  - repeat split; [intros H; vm_compute in H; discriminate | vm_compute; discriminate
                  | vm_compute; discriminate].
  - lia.
  - vm_compute. reflexivity.
  - vm_compute. reflexivity.
  - intros m Hm _. assert (m = 0) as -> by lia. vm_compute. discriminate.
  - exists m. split; [exact Hm|]. vm_compute. reflexivity.
Defined.

(** ** The row processor over the real client *)

Lemma header_component_raise a e :
  WhatsAppClient.header_component a = Raise e -> builder_rejection e.
Proof.
  unfold WhatsAppClient.header_component, builder_rejection.
  destruct (decide _); [done|]. destruct (decide _).
  { destruct (header_text a); [done|]. intros [= <-]. by left. }
  destruct (is_media_header _) eqn:Hm.
  - destruct (truthy _); [done|].
    destruct (header_media_link a) as [l|]; [destruct (decide _); [|done]|];
      intros [= <-]; right; left; eauto.
  - intros [= <-]. right. right. left. eauto.
Qed.

Lemma flow_components_raise fbs e :
  WhatsAppClient.flow_components fbs = Raise e -> builder_rejection e.
Proof.
  induction fbs as [|fb fbs IH]; [done|]. simpl.
  destruct (_ || _).
  - intros [= <-]. by repeat right.
  - destruct (WhatsAppClient.flow_components fbs); [done|]. intros [= <-]. by apply IH.
Qed.

(** The builder rejects only a header or a flow button once the
    copy-code buttons have their coupon codes. *)
Lemma build_template_components_raise a e :
  Forall (fun b => cc_coupon_code b <> "") (default [] (button_copy_code a)) ->
  WhatsAppClient.build_template_components a = Raise e -> builder_rejection e.
Proof.
  intros Hc. unfold WhatsAppClient.build_template_components.
  destruct (WhatsAppClient.header_component a) eqn:Hh;
    [|intros [= <-]; by apply header_component_raise in Hh].
  destruct (WhatsAppClient.flow_components _) eqn:Hf;
    [|intros [= <-]; by apply flow_components_raise in Hf].
  destruct (numbered_coupons_accepted _ Hc) as (cs & -> & _). done.
Qed.

Lemma build_template_real config rt phone template lang a calls s :
  let r := build_template (whatsapp_client config rt) phone template lang a calls s in
  match WhatsAppClient.build_template_components a with
  | Raise e => p_result r = ("error", phone, None, "build_failed: " +:+ e)
  | Ok cs =>
      exists payload,
        WhatsAppClient.build_template_payload phone template lang
          (if cs is [] then None else Some cs) = Ok payload
        /\ p_result r = ("ready", phone, Some payload, "")
  end.
Proof.
  unfold build_template. cbn [build_template_components build_template_payload whatsapp_client].
  destruct (WhatsAppClient.build_template_components a); [|done].
  unfold WhatsAppClient.build_template_payload. eexists. split; done.
Qed.

Lemma prepare_template_rest_real config rt row phone template lang ht htext hurl hid calls s :
  let r := prepare_template_rest row (whatsapp_client config rt) phone template lang
             ht htext hurl hid calls s in
  (exists message,
     p_result r = ("error", phone, None, message)
     /\ ((exists n, n < 10 /\ message = fkey "cta" n "_coupon_code"
                                        +:+ " is required for copy_code buttons")
         \/ exists e, message = "build_failed: " +:+ e /\ builder_rejection e))
  \/ (exists cs payload,
        WhatsAppClient.build_template_payload phone template lang cs = Ok payload
        /\ p_result r = ("ready", phone, Some payload, "")).
Proof.
  unfold prepare_template_rest.
  destruct (copy_code_buttons_of row range10 []) as [btns|message] eqn:Hcc.
  - set (a := Build_components_args _ _ _ _ _ _ _ _).
    pose proof (build_template_real config rt phone template lang a calls s) as H.
    destruct (WhatsAppClient.build_template_components a) as [cs|e] eqn:Hb.
    + right. destruct H as (payload & H1 & H2). eauto.
    + left. eexists. split; [exact H|]. right. exists e. split; [done|].
      revert Hb. apply build_template_components_raise.
      apply copy_code_buttons_of_ok in Hcc as [[_ Hc] _]; [|apply numbered_coupons_nil].
      subst a. simpl. by destruct btns.
  - left. exists message. split; [done|]. left.
    clear -Hcc. revert Hcc. unfold range10. generalize (@nil copy_code_button).
    assert (forall k a l, copy_code_buttons_of row (seq a k) l = Raise message ->
              exists n, n < a + k /\ message = fkey "cta" n "_coupon_code"
                                              +:+ " is required for copy_code buttons") as H.
    { induction k as [|k IH]; intros a l; simpl; [done|].
      destruct (decide _); [destruct (decide _)|].
      - intros [= <-]. exists a. split; [lia|done].
      - intros H. apply IH in H as (n' & ? & ?). exists n'. split; [lia|done].
      - intros H. apply IH in H as (n' & ? & ?). exists n'. split; [lia|done]. }
    intros l Hl. apply H in Hl as (n & ? & ?). exists n. split; [lia|done].
Qed.

(** X9. Over the real client a row fails only for a failed upload, for
    a copy-code descriptor without coupon, or because the component
    builder rejects the header or a flow button; interactive rows never
    fail, and no row fails on a copy-code button inside the builder. *)
Theorem error_reasons (config : WhatsAppConfig) (rt : Runtime) (row : Row) (s : ClientState) :
  let r := _prepare_row row (whatsapp_client config rt) s in
  p_status r = "error" ->
  template_kind row
  /\ exists message,
       p_result r = ("error", strip (get_or row "phone" ""), None, message)
       /\ ((exists e, message = "media_upload_failed: " +:+ e)
           \/ (exists n, n < 10 /\ message = fkey "cta" n "_coupon_code"
                                              +:+ " is required for copy_code buttons")
           \/ exists e, message = "build_failed: " +:+ e /\ builder_rejection e).
Proof.
  unfold _prepare_row.
  destruct (decide (strip (get_or row "phone" "") = "")) as [Hp|Hp]; [done|].
  assert (~ no_phone row) as Hnp by by rewrite no_phone_iff.
  destruct (decide (lower (strip (get_or row "msg_type" "template")) = "interactive")) as [Hm|Hm].
  { unfold prepare_interactive. destruct (scan_cta row range10) as [[[[ct|] ?] ?] ?]; [|done].
    destruct (decide _); [done|]. destruct (decide _); [done|].
    by destruct (decide _). }
  unfold prepare_template.
  destruct (decide (strip (get_or row "template" "") = "")) as [Ht|Ht]; [done|].
  intros Hst. split; [done|]. revert Hst.
  assert (forall ht htext hurl hid calls s',
    let r := prepare_template_rest row (whatsapp_client config rt)
               (strip (get_or row "phone" "")) (strip (get_or row "template" ""))
               (strip (get_or row "lang" "en_US")) ht htext hurl hid calls s' in
    p_status r = "error" ->
    exists message,
       p_result r = ("error", strip (get_or row "phone" ""), None, message)
       /\ ((exists e, message = "media_upload_failed: " +:+ e)
           \/ (exists n, n < 10 /\ message = fkey "cta" n "_coupon_code"
                                              +:+ " is required for copy_code buttons")
           \/ exists e, message = "build_failed: " +:+ e /\ builder_rejection e)) as Hrest.
  { intros ht htext hurl hid calls s' r Hst.
    destruct (prepare_template_rest_real config rt row (strip (get_or row "phone" ""))
                (strip (get_or row "template" "")) (strip (get_or row "lang" "en_US"))
                ht htext hurl hid calls s') as [(m & Hr & Hm')|(cs & pl & _ & Hr)]; fold r in Hr.
    - exists m. split; [done|]. by right.
    - unfold p_status in Hst. by rewrite Hr in Hst. }
  destruct (is_media_header _); [|by apply Hrest].
  destruct (or_none (strip (get_or row "header_media_path" ""))) as [path|]; [|by apply Hrest].
  destruct (truthy _); [by apply Hrest|].
  destruct (upload_media _ path s) as [[info|e] s1].
  - destruct (dict_get info "id"); [by apply Hrest|].
    intros _. eexists. split; [done|]. left. by exists "'id'".
  - intros _. eexists. split; [done|]. left. by exists e.
Qed.

Lemma error_reasons_witness :
  let row := Sample.row_of [("phone", "201000000003"); ("template", "promo");
                            ("header_type", "sticker")] in
  p_result (_prepare_row row Sample.client Sample.fresh)
  = ("error", "201000000003", None, "build_failed: Unsupported header_type: sticker")
  /\ template_kind row.
Proof.
  intros row. split; [vm_compute; reflexivity|].
  apply (error_reasons Sample.config Sample.rt row Sample.fresh).
  vm_compute. reflexivity.
Defined.

Lemma build_template_payload_envelope to template lang cs payload :
  WhatsAppClient.build_template_payload to template lang cs = Ok payload ->
  dict_get payload "messaging_product" = Some (JStr "whatsapp")
  /\ dict_get payload "to" = Some (JStr to)
  /\ dict_get payload "type" = Some (JStr "template")
  /\ jpath (JDict payload) [Key "template"; Key "name"] = Some (JStr template)
  /\ jpath (JDict payload) [Key "template"; Key "language"; Key "code"] = Some (JStr lang).
Proof. intros [= <-]. by vm_compute. Qed.

(** X10. Over the real client every payload that is ready to send is
    addressed to the stripped phone of its row on the whatsapp product;
    a template payload names the stripped template and the language of
    the row, [en_US] by default, and an interactive payload carries the
    stripped body text. *)
Theorem ready_payload_envelope (config : WhatsAppConfig) (rt : Runtime) (row : Row)
    (s : ClientState) (phone : string) (payload : dict) (message : string) :
  p_result (_prepare_row row (whatsapp_client config rt) s)
  = ("ready", phone, Some payload, message) ->
  phone = strip (get_or row "phone" "") /\ phone <> "" /\ message = ""
  /\ dict_get payload "messaging_product" = Some (JStr "whatsapp")
  /\ dict_get payload "to" = Some (JStr phone)
  /\ if decide (lower (strip (get_or row "msg_type" "template")) = "interactive")
     then dict_get payload "type" = Some (JStr "interactive")
          /\ jpath (JDict payload) [Key "interactive"; Key "body"; Key "text"]
             = Some (JStr (strip (get_or row "body_text" "")))
     else dict_get payload "type" = Some (JStr "template")
          /\ jpath (JDict payload) [Key "template"; Key "name"]
             = Some (JStr (strip (get_or row "template" "")))
          /\ jpath (JDict payload) [Key "template"; Key "language"; Key "code"]
             = Some (JStr (strip (get_or row "lang" "en_US"))).
Proof.
  unfold _prepare_row.
  destruct (decide (strip (get_or row "phone" "") = "")) as [Hp|Hp]; [done|].
  destruct (decide (lower (strip (get_or row "msg_type" "template")) = "interactive")) as [Hm|Hm].
  { unfold prepare_interactive. destruct (scan_cta row range10) as [[[[ct|] ?] ?] ?]; [|done].
    destruct (decide _); [done|]. destruct (decide _); [done|].
    destruct (decide _); cbn [build_interactive_cta_call build_interactive_cta_url whatsapp_client];
      unfold WhatsAppClient.build_interactive_cta_call, WhatsAppClient.build_interactive_cta_url;
      cbn [p_result]; intros [= <- <- <-]; by repeat split. }
  unfold prepare_template.
  destruct (decide (strip (get_or row "template" "") = "")) as [Ht|Ht]; [done|].
  assert (forall ht htext hurl hid calls s',
    p_result (prepare_template_rest row (whatsapp_client config rt)
               (strip (get_or row "phone" "")) (strip (get_or row "template" ""))
               (strip (get_or row "lang" "en_US")) ht htext hurl hid calls s')
    = ("ready", phone, Some payload, message) ->
    phone = strip (get_or row "phone" "") /\ phone <> "" /\ message = ""
    /\ dict_get payload "messaging_product" = Some (JStr "whatsapp")
    /\ dict_get payload "to" = Some (JStr phone)
    /\ dict_get payload "type" = Some (JStr "template")
    /\ jpath (JDict payload) [Key "template"; Key "name"]
       = Some (JStr (strip (get_or row "template" "")))
    /\ jpath (JDict payload) [Key "template"; Key "language"; Key "code"]
       = Some (JStr (strip (get_or row "lang" "en_US")))) as Hrest.
  { intros ht htext hurl hid calls s' Hr.
    destruct (prepare_template_rest_real config rt row (strip (get_or row "phone" ""))
                (strip (get_or row "template" "")) (strip (get_or row "lang" "en_US"))
                ht htext hurl hid calls s') as [(m & Hr' & _)|(cs & pl & Hpl & Hr')];
      rewrite Hr' in Hr; [done|]. injection Hr as <- <- <-.
    apply build_template_payload_envelope in Hpl. tauto. }
  destruct (is_media_header _); [|by apply Hrest].
  destruct (or_none (strip (get_or row "header_media_path" ""))) as [path|]; [|by apply Hrest].
  destruct (truthy _); [by apply Hrest|].
  destruct (upload_media _ path s) as [[info|e] s1]; [|done].
  destruct (dict_get info "id"); [by apply Hrest|done].
Qed.

Lemma ready_payload_envelope_witness :
  let row := Sample.row_of [("phone", " 201000000001 "); ("template", "promo")] in
  let payload := [("messaging_product", JStr "whatsapp"); ("to", JStr "201000000001");
                  ("type", JStr "template");
                  ("template", JDict [("name", JStr "promo");
                                      ("language", JDict [("code", JStr "en_US")])])] in
  p_result (_prepare_row row Sample.client Sample.fresh)
  = ("ready", "201000000001", Some payload, "")
  /\ dict_get payload "to" = Some (JStr "201000000001").
Proof.
  intros row payload.
  destruct (ready_payload_envelope Sample.config Sample.rt row Sample.fresh
              "201000000001" payload "") as (_ & _ & _ & _ & Hto & _).
  - vm_compute. reflexivity.
  - split; [vm_compute; reflexivity|exact Hto].
Defined.

(** ** The client *)

Lemma cache_hit_has_id cached record :
  WhatsAppClient.cache_hit cached = Some record -> is_Some (dict_get record "id").
Proof.
  unfold WhatsAppClient.cache_hit. destruct cached as [d|]; [|done].
  destruct (truthy (JDict d)); [|done]. simpl.
  case_bool_decide; [|done]. by intros [= <-].
Qed.

(** X11. Whatever [upload_media] returns, it posted at most one
    request, to the media endpoint; a missing file leaves the whole
    client as it was; a success returns a record with an id, so that
    reading the id never fails. A failure leaves the cache as it was,
    with one exception: [MediaCache.set] assigns the entry before it
    writes the cache file, so when that write raises after an accepted
    upload, the call fails with the error of the write although the
    record of the upload, which has an id, is in the cache under the
    digest of the bytes. *)
Theorem upload_media_outcome (config : WhatsAppConfig) (rt : Runtime)
    (file_path : string) (mime_type : option string) (s : ClientState) :
  let out := WhatsAppClient.upload_media config rt file_path mime_type s in
  (posted out.2 = posted s
   \/ exists name bytes mime data,
        posted out.2 = posted s ++ [PostMedia (media_url config) name bytes mime data]
        /\ fs_read rt (path_resolve rt file_path) = Some bytes)
  /\ (forall e, out.1 = Raise e ->
        media_cache out.2 = media_cache s
        \/ exists bytes record,
             fs_read rt (path_resolve rt file_path) = Some bytes
             /\ cache_write rt (length (posted out.2)) = Some e
             /\ length (posted out.2) = Datatypes.S (length (posted s))
             /\ is_Some (dict_get record "id")
             /\ media_cache out.2
                = <["sha256:" +:+ sha256_hex rt bytes := record]> (media_cache s))
  /\ (forall e, out.1 = Raise e -> cache_write rt (Datatypes.S (length (posted s))) = None ->
        media_cache out.2 = media_cache s)
  /\ (fs_read rt (path_resolve rt file_path) = None ->
      out = (Raise ("Media not found: " +:+ path_resolve rt file_path), s))
  /\ (forall record, out.1 = Ok record -> is_Some (dict_get record "id")).
Proof.
  unfold WhatsAppClient.upload_media.
  destruct (fs_read rt (path_resolve rt file_path)) as [bytes|]; [|by repeat split; auto].
  destruct (WhatsAppClient.cache_hit _) as [cached|] eqn:Hhit.
  { simpl. repeat split; auto; try done. intros record [= <-]. by eapply cache_hit_has_id. }
  set (mime := match match mime_type with Some m => _ | None => _ end with
               | Some m => m | None => _ end).
  unfold WhatsAppClient.post, MediaCache.set.
  destruct (http_post rt _ _) as [resp|e].
  2:{ simpl. split; [right; eauto 10|]. repeat split; auto; done. }
  destruct (400 <=? status_code resp)%Z.
  { simpl. split; [right; eauto 10|]. repeat split; auto; done. }
  destruct (json_body resp) as [[| | | | |d]|e];
    try (simpl; split; [right; eauto 10|]; repeat split; auto; done).
  destruct (truthy _) eqn:Hid.
  2:{ simpl. split; [right; eauto 10|]. repeat split; auto; done. }
  cbn zeta. cbn [posted length]. rewrite length_app. cbn [length].
  rewrite Nat.add_1_r.
  destruct (cache_write rt (Datatypes.S (length (posted s)))) as [e|] eqn:Hw; simpl.
  - split; [right; eauto 10|]. split; [|split; [|split; [done|done]]].
    + intros e' [= <-]. right. exists bytes. eexists. split; [done|].
      rewrite length_app. simpl. rewrite Nat.add_1_r. split; [exact Hw|]. split; [done|].
      split; [|reflexivity]. simpl. eauto.
    + intros e' _ Hnone. congruence.
  - split; [right; eauto 10|]. split; [done|]. split; [done|]. split; [done|].
    intros record [= <-]. simpl. eauto.
Qed.

(** X12. [send_message] posts exactly one request, the payload to the
    messages endpoint, whatever the outcome, and leaves the cache
    alone; it succeeds only on a response below 400 whose body is JSON,
    which it returns. *)
Theorem send_message_outcome (config : WhatsAppConfig) (rt : Runtime)
    (payload : dict) (s : ClientState) :
  let out := WhatsAppClient.send_message config rt payload s in
  posted out.2 = posted s ++ [PostJson (messages_url config) payload]
  /\ media_cache out.2 = media_cache s
  /\ (forall data, out.1 = Ok data <->
        exists resp,
          http_post rt (length (posted s)) (PostJson (messages_url config) payload) = Ok resp
          /\ (status_code resp < 400)%Z /\ json_body resp = Ok data).
Proof.
  unfold WhatsAppClient.send_message, WhatsAppClient.post.
  destruct (http_post rt _ _) as [resp|e].
  2:{ simpl. repeat split; try done. by intros (? & ? & _). }
  destruct (400 <=? status_code resp)%Z eqn:Hst.
  { simpl. repeat split; try done. intros (? & [= <-] & ? & _). lia. }
  destruct (json_body resp) as [data|e] eqn:Hj; simpl; repeat split; try done.
  - intros [= <-]. exists resp. repeat split; [lia|done].
  - intros (? & [= <-] & _ & ?). congruence.
  - intros (? & [= <-] & _ & ?). congruence.
Qed.

(** X13. [build_template_components] succeeds exactly when the header
    is none, a text header with its text, or a media header with an id
    or a link, every flow button has its token, action and screen, and
    every copy-code button has its coupon code. *)
Theorem build_template_components_accepts (a : components_args) :
  (exists cs, WhatsAppClient.build_template_components a = Ok cs) <->
  (let htype := lower (or_str (header_type a) "none") in
   htype = "none"
   \/ (htype = "text" /\ header_text a <> None)
   \/ (is_media_header htype = true
       /\ (truthy (header_media_id a) = true
           \/ exists l, header_media_link a = Some l /\ l <> "")))
  /\ Forall (fun fb => fb_flow_token fb <> "" /\ fb_flow_action fb <> ""
                       /\ fb_navigate_screen fb <> "") (default [] (button_flow a))
  /\ Forall (fun b => cc_coupon_code b <> "") (default [] (button_copy_code a)).
Proof.
  assert (forall fbs, (exists cs, WhatsAppClient.flow_components fbs = Ok cs) <->
            Forall (fun fb => fb_flow_token fb <> "" /\ fb_flow_action fb <> ""
                              /\ fb_navigate_screen fb <> "") fbs) as Hflow.
  { induction fbs as [|fb fbs IH]; simpl; [split; [by constructor|by eexists]|].
    rewrite Forall_cons, <- IH.
    repeat case_bool_decide; simpl; try (split; [by intros []|tauto]).
    destruct (WhatsAppClient.flow_components fbs).
    - split; [by eauto|by eexists].
    - split; [by intros []|by intros [_ []]]. }
  assert (forall btns, (exists cs, WhatsAppClient.copy_code_components btns = Ok cs) <->
            Forall (fun b => cc_coupon_code b <> "") btns) as Hcopy.
  { induction btns as [|b btns IH]; simpl; [split; [by constructor|by eexists]|].
    rewrite Forall_cons, <- IH. destruct (decide _); [split; [by intros []|tauto]|].
    destruct (WhatsAppClient.copy_code_components btns).
    - split; [by eauto|by eexists].
    - split; [by intros []|by intros [_ []]]. }
  assert ((exists h, WhatsAppClient.header_component a = Ok h) <->
          (let htype := lower (or_str (header_type a) "none") in
           htype = "none"
           \/ (htype = "text" /\ header_text a <> None)
           \/ (is_media_header htype = true
               /\ (truthy (header_media_id a) = true
                   \/ exists l, header_media_link a = Some l /\ l <> "")))) as Hhead.
  { unfold WhatsAppClient.header_component. cbn zeta.
    destruct (decide (_ = "none")) as [E|E]; [split; [by left|by eexists]|].
    destruct (decide (_ = "text")) as [E'|E'].
    { rewrite E'. destruct (header_text a).
      - split; [right; by left|by eexists].
      - split; [by intros []|]. intros [?|[[_ ?]|[? _]]]; done. }
    destruct (is_media_header _) eqn:Hm.
    - destruct (truthy _).
      { split; [|by eexists]. intros _. right. right. split; [done|by left]. }
      destruct (header_media_link a) as [l|].
      + destruct (decide (l = "")) as [->|Hl].
        * split; [by intros []|]. intros [?|[[? _]|[_ [?|(l & [= <-] & ?)]]]]; done.
        * split; [|by eexists]. intros _. right. right. split; [done|]. right. by exists l.
      + split; [by intros []|]. intros [?|[[? _]|[_ [?|(l & ? & ?)]]]]; done.
    - split; [by intros []|]. intros [?|[[? _]|[? _]]]; done. }
  rewrite <- Hhead, <- Hflow, <- Hcopy. unfold WhatsAppClient.build_template_components.
  destruct (WhatsAppClient.header_component a);
    [|split; [by intros []|by intros [[] _]]].
  destruct (WhatsAppClient.flow_components _);
    [|split; [by intros []|by intros (_ & [] & _)]].
  destruct (WhatsAppClient.copy_code_components _);
    [|split; [by intros []|by intros (_ & _ & [])]].
  split; [|by eexists]. intros _. repeat split; by eexists.
Qed.

(** X14. A URL button carries the position of its parameter group among
    all the groups, the empty ones that give no button included, and
    there is one button per group that is not empty. *)
Theorem url_buttons_positions (groups : list (list string)) (idx : nat) :
  length (WhatsAppClient.url_buttons idx groups)
  = length (filter (fun g => g <> []) groups)
  /\ forall i g, groups !! i = Some g -> g <> [] ->
       JDict [("type", JStr "button"); ("sub_type", JStr "url");
              ("index", JStr (str_nat (idx + i)));
              ("parameters", JList (WhatsAppClient.text_param <$> g))]
       ∈ WhatsAppClient.url_buttons idx groups.
Proof.
  revert idx. induction groups as [|g0 groups IH]; intros idx; [by split|].
  destruct (IH (Datatypes.S idx)) as [Hlen Hin]. split.
  - simpl. rewrite filter_cons, length_app, Hlen. by destruct g0.
  - intros [|i] g Hg Hne; simpl in Hg.
    + injection Hg as ->. rewrite Nat.add_0_r. simpl. destruct g; [done|]. left.
    + simpl. apply elem_of_app. right.
      replace (idx + Datatypes.S i) with (Datatypes.S idx + i) by lia. by apply Hin.
Qed.

(** ** Progress events, log lines and sends *)

Lemma prepare_row_no_send {S : Type} (row : Row) (client : Client S) (s : S) :
  Forall (fun c => is_send c = false) (p_calls (_prepare_row row client s)).
Proof.
  assert (forall phone template lang a calls s',
            Forall (fun c => is_send c = false) calls ->
            Forall (fun c => is_send c = false)
                   (p_calls (build_template client phone template lang a calls s'))) as Hb.
  { intros. unfold build_template. destruct (build_template_components client a).
    - destruct (build_template_payload client _ _ _ _); simpl;
        apply Forall_app; split; by repeat constructor.
    - simpl. apply Forall_app; split; by repeat constructor. }
  assert (forall phone template lang ht htext hurl hid calls s',
            Forall (fun c => is_send c = false) calls ->
            Forall (fun c => is_send c = false)
                   (p_calls (prepare_template_rest row client phone template lang
                               ht htext hurl hid calls s'))) as Hr.
  { intros. unfold prepare_template_rest. destruct (copy_code_buttons_of _ _ _); [|done].
    by apply Hb. }
  unfold _prepare_row. destruct (decide _); [by constructor|].
  destruct (decide _).
  - unfold prepare_interactive. destruct (scan_cta row range10) as [[[[ct|] ?] ?] ?];
      [|by constructor].
    destruct (decide _); [by constructor|]. destruct (decide _); [by constructor|].
    destruct (decide _).
    + destruct (build_interactive_cta_call client _ _ _ _ _); by repeat constructor.
    + destruct (build_interactive_cta_url client _ _ _ _ _); by repeat constructor.
  - unfold prepare_template. destruct (decide _); [by constructor|].
    destruct (is_media_header _); [|by apply Hr].
    destruct (or_none _) as [path|]; [|by apply Hr].
    destruct (truthy _); [by apply Hr|].
    destruct (upload_media client path s) as [[info|e] s1]; [|by repeat constructor].
    destruct (dict_get info "id"); [|by repeat constructor].
    apply Hr. by repeat constructor.
Qed.

Lemma seqZ_snoc (m n : Z) : (0 <= n)%Z -> seqZ m (n + 1) = seqZ m n ++ [(m + n)%Z].
Proof. intros Hn. rewrite seqZ_app by lia. f_equal. Qed.

Section Records.

Context {S : Type}.
Variable client : Client S.
Variable cfg : launch.

Lemma emit_records stats total st ph m i (w : world S) :
  let w' := emit cfg stats total st ph m i w in
  log w' = log w /\ trace w' = trace w
  /\ exists e, emitted w' = emitted w ++ (if l_progress_callback cfg then [e] else [])
       /\ BatchProgressEvent.index e = i
       /\ BatchProgressEvent.processed e = disposed stats
       /\ BatchProgressEvent.total e = total
       /\ BatchProgressEvent.dry_run e = l_dry_run cfg.
Proof.
  unfold emit.
  destruct (l_progress_callback cfg); simpl; (split; [done|]; split; [done|]).
  - eexists. split; [done|]. by repeat split.
  - exists {| BatchProgressEvent.index := i; BatchProgressEvent.phone := ph;
              BatchProgressEvent.status := st; BatchProgressEvent.sent := sent stats;
              BatchProgressEvent.skipped := skipped stats;
              BatchProgressEvent.errors := errors stats;
              BatchProgressEvent.dry_run := l_dry_run cfg;
              BatchProgressEvent.total := total; BatchProgressEvent.message := m |}.
    rewrite app_nil_r. by repeat split.
Qed.

Lemma send_payload_records payload (w : world S) :
  let out := _send_payload_sync client cfg payload w in
  emitted out.2 = emitted w
  /\ (exists line, log out.2 = (fun lines => lines ++ [line]) <$> log w)
  /\ trace out.2 = trace w ++ (if l_dry_run cfg then [] else [SendMessage payload]).
Proof.
  unfold _send_payload_sync. destruct (l_dry_run cfg); simpl.
  - rewrite app_nil_r. repeat split; eauto.
  - destruct (send_message client payload (client_state w)) as [[resp|e] s]; simpl;
      repeat split; eauto.
Qed.

(** One row of the sequential dispatcher: one event if there is an
    observer, one log line if there is a log, and no send in a dry run. *)
Lemma process_row_records tc idx row stats (w : world S) :
  let out := process_row client cfg tc idx row stats w in
  (exists e, emitted out.2 = emitted w ++ (if l_progress_callback cfg then [e] else [])
       /\ BatchProgressEvent.index e = idx
       /\ BatchProgressEvent.processed e = disposed out.1
       /\ BatchProgressEvent.total e = tc
       /\ BatchProgressEvent.dry_run e = l_dry_run cfg)
  /\ (exists line, log out.2 = (fun lines => lines ++ [line]) <$> log w)
  /\ (l_dry_run cfg = true -> Forall (fun c => is_send c = false) (trace w) ->
      Forall (fun c => is_send c = false) (trace out.2)).
Proof.
  unfold process_row.
  pose proof (prepare_row_no_send row client (client_state w)) as Hns.
  destruct (prepare_row_cases row client (client_state w))
    as [(ph & m & E)|[(ph & m & E)|(ph & pl & E)]]; simpl in E; rewrite E; simpl.
  - edestruct emit_records as (Hl & Ht & e & He). split; [exists e; exact He|].
    rewrite Hl, Ht. simpl. split; [eauto|]. intros _ H. by apply Forall_app.
  - edestruct emit_records as (Hl & Ht & e & He). split; [exists e; exact He|].
    rewrite Hl, Ht. simpl. split; [eauto|]. intros _ H. by apply Forall_app.
  - pose proof (send_payload_records pl
        (with_client (p_state (_prepare_row row client (client_state w)))
                     (p_calls (_prepare_row row client (client_state w))) w))
      as (Hem & (line & Hlog) & Htr).
    destruct (_send_payload_sync client cfg pl _) as [[st sm] w']. simpl in *.
    destruct (is_success st); simpl;
      (edestruct emit_records as (Hl & Ht & e & He & Hrest); split;
       [exists e; split; [rewrite He, Hem; reflexivity|exact Hrest]|];
       rewrite Hl, Ht, Hlog, Htr; split; [eauto|];
       intros Hd H; rewrite Hd, app_nil_r; by apply Forall_app).
Qed.

Lemma look_records (w : world S) :
  emitted (look cfg w) = emitted w /\ log (look cfg w) = log w
  /\ trace (look cfg w) = trace w.
Proof. done. Qed.

Lemma pause_wait_records fuel stats (w : world S) stats' w' :
  pause_wait cfg fuel stats w = Some (stats', w') ->
  emitted w' = emitted w /\ log w' = log w /\ trace w' = trace w
  /\ disposed stats' = disposed stats /\ total_rows stats' = total_rows stats.
Proof.
  revert w. induction fuel as [|fuel IH]; intros w; simpl.
  - unfold pause_is_set, stop_is_set. simpl.
    destruct (default false _); [|by intros [= <- <-]].
    destruct (default false _); [|done]. by intros [= <- <-].
  - unfold pause_is_set, stop_is_set. simpl.
    destruct (default false _); [|by intros [= <- <-]].
    destruct (default false _); [by intros [= <- <-]|].
    intros H. by apply IH in H.
Qed.

Lemma progress_inv_event T stats stats' (w w' : world S) e :
  progress_inv cfg T stats w ->
  disposed stats' = (disposed stats + 1)%Z ->
  emitted w' = emitted w ++ (if l_progress_callback cfg then [e] else []) ->
  BatchProgressEvent.processed e = disposed stats' ->
  BatchProgressEvent.total e = T ->
  BatchProgressEvent.dry_run e = l_dry_run cfg ->
  (l_dry_run cfg = true -> Forall (fun c => is_send c = false) (trace w) ->
   Forall (fun c => is_send c = false) (trace w')) ->
  progress_inv cfg T stats' w'.
Proof.
  intros (H0 & Hp & Ht & Hs) Hd He Hpe Hte Hde Htr. split; [lia|]. split; [|split].
  - rewrite He, fmap_app, Hp, Hd. destruct (l_progress_callback cfg); [|done].
    rewrite seqZ_snoc by done. simpl. rewrite Hpe, Hd. do 2 f_equal. lia.
  - rewrite He. apply Forall_app. split; [done|].
    destruct (l_progress_callback cfg); by repeat constructor.
  - auto.
Qed.

Lemma progress_inv_quiet T stats stats' (w w' : world S) :
  progress_inv cfg T stats w ->
  disposed stats' = disposed stats -> emitted w' = emitted w -> trace w' = trace w ->
  progress_inv cfg T stats' w'.
Proof. intros (H0 & Hp & Ht & Hs) Hd He Htr. unfold progress_inv. by rewrite Hd, He, Htr. Qed.

Lemma batch_loop_records fuel tc rows :
  forall idx stats (w : world S) stats' w',
  batch_loop client cfg fuel tc idx rows stats w = Some (stats', w') ->
  progress_inv cfg tc stats w -> sequential_inv idx stats w ->
  progress_inv cfg tc stats' w'
  /\ Forall (fun e => BatchProgressEvent.index e = BatchProgressEvent.processed e) (emitted w')
  /\ match log w' with
     | Some lines => Z.of_nat (length lines) = disposed stats' /\ is_Some (log w)
     | None => log w = None
     end.
Proof.
  induction rows as [|row rest IH]; intros idx stats w stats' w' Hrun Hp (Hi & Hidx & Hlog).
  { simpl in Hrun. injection Hrun as <- <-. split; [done|]. split; [done|].
    destruct (log w); [by eauto|done]. }
  cbn [batch_loop] in Hrun. unfold stop_is_set in Hrun. cbn zeta in Hrun.
  destruct (default false (stop_event (control (look cfg w)))).
  { injection Hrun as <- <-. split; [by eapply progress_inv_quiet|]. split; [done|].
    simpl. destruct (log w); [by eauto|done]. }
  destruct (pause_wait cfg fuel stats (look cfg w)) as [[stats2 w2]|] eqn:Epause; [|done].
  apply pause_wait_records in Epause as (He2 & Hl2 & Ht2 & Hd2 & _).
  destruct (aborted stats2).
  { injection Hrun as <- <-. split; [by eapply progress_inv_quiet|].
    rewrite He2, Hl2. split; [done|]. simpl. rewrite Hd2. destruct (log w); [by eauto|done]. }
  pose proof (process_row_spec client cfg tc idx row stats2 w2) as (Hd3 & _).
  pose proof (process_row_records tc idx row stats2 w2)
    as ((e & He3 & Hei & Hep & Het & Hed) & (line & Hl3) & Htr3).
  destruct (process_row client cfg tc idx row stats2 w2) as [stats3 w3].
  simpl in Hd3, He3, Hep, Hl3, Htr3.
  assert (progress_inv cfg tc stats2 w2) as Hp2 by by eapply progress_inv_quiet.
  apply IH in Hrun as (Hp' & Hidx' & Hlog').
  - split; [done|]. split; [done|]. destruct (log w') as [lines|].
    + destruct Hlog' as [? Hsome]. split; [done|].
      rewrite Hl3, Hl2 in Hsome. simpl in Hsome. by apply fmap_is_Some in Hsome.
    + rewrite Hl3, Hl2 in Hlog'. simpl in Hlog'. by apply fmap_None in Hlog'.
  - by eapply progress_inv_event.
  - split; [lia|]. split.
    + rewrite He3, He2. apply Forall_app. split; [done|].
      destruct (l_progress_callback cfg); [|done]. repeat constructor. lia.
    + rewrite Hl3, Hl2. simpl. destruct (log w) as [lines|]; [|done]. simpl.
      rewrite length_app. simpl. lia.
Qed.

(** One step of the pool keeps the events counting up. *)
Lemma update_stats_records T status phone message idx (p : pool S) :
  is_success status = true \/ status = "skip" \/ status = "error" ->
  total_rows (stats p) = T ->
  progress_inv cfg T (stats p) (shared p) ->
  let p' := update_stats cfg status phone message idx p in
  progress_inv cfg T (stats p') (shared p') /\ total_rows (stats p') = T.
Proof.
  intros Hst HT Hp p'.
  destruct (update_stats_effect cfg status phone message idx p Hst) as (_ & _ & Hd & _).
  fold p' in Hd. subst p'. unfold update_stats in *. cbn [stats shared] in *.
  set (st' := if is_success status then _ else _) in *.
  assert (total_rows st' = T) as HT'.
  { subst st'. destruct (is_success status); [done|].
    destruct (decide _); [done|]. by destruct (decide _). }
  split; [|done].
  edestruct emit_records as (Hl & Ht & e & He & _ & Hpe & Hte & Hde).
  eapply progress_inv_event; eauto.
  - by rewrite Hte, HT'.
  - intros _. by rewrite Ht.
Qed.

End Records.

Section PoolRecords.

Context {S : Type}.
Variable client : Client S.
Variable cfg : launch.
Variable clock : nat -> Q.

Lemma progress_inv_silent T stats stats' (w w' : world S) :
  progress_inv cfg T stats w ->
  disposed stats' = disposed stats -> emitted w' = emitted w ->
  (l_dry_run cfg = true -> Forall (fun c => is_send c = false) (trace w) ->
   Forall (fun c => is_send c = false) (trace w')) ->
  progress_inv cfg T stats' w'.
Proof.
  intros (H0 & Hp & Ht & Hs) Hd He Htr. unfold progress_inv. rewrite Hd, He.
  repeat split; auto.
Qed.

Lemma pause_turn_records T i idx row (p : pool S) :
  total_rows (stats p) = T -> progress_inv cfg T (stats p) (shared p) ->
  let p' := pause_turn cfg i idx row p in
  total_rows (stats p') = T /\ progress_inv cfg T (stats p') (shared p').
Proof.
  intros HT Hp. unfold pause_turn, pause_is_set, stop_is_set. cbn zeta.
  destruct (default false _).
  - destruct (default false _); simpl; (split; [done|]); by eapply progress_inv_silent.
  - destruct (aborted (stats p)); simpl; (split; [done|]); by eapply progress_inv_silent.
Qed.

Lemma acquire_turn_records T i idx phone payload (p : pool S) :
  total_rows (stats p) = T -> progress_inv cfg T (stats p) (shared p) ->
  let p' := acquire_turn clock i idx phone payload p in
  total_rows (stats p') = T /\ progress_inv cfg T (stats p') (shared p').
Proof.
  intros HT Hp. unfold acquire_turn.
  by destruct (AsyncRateLimiter.attempt _ _) as [o l].
Qed.

Lemma finish_send_records T i idx phone st sm (p : pool S) :
  total_rows (stats p) = T -> progress_inv cfg T (stats p) (shared p) ->
  let p' := finish_send cfg i idx phone st sm p in
  total_rows (stats p') = T /\ progress_inv cfg T (stats p') (shared p').
Proof.
  intros HT Hp. unfold finish_send, set_worker. cbn [stats shared].
  edestruct (update_stats_records cfg T (if is_success st then st else "error")
               phone sm idx p) as [? ?]; [|done|done|done].
  destruct (is_success st) eqn:E; auto.
Qed.

Lemma worker_step_records T i (p : pool S) :
  total_rows (stats p) = T -> progress_inv cfg T (stats p) (shared p) ->
  let p' := worker_step client cfg clock i p in
  total_rows (stats p') = T /\ progress_inv cfg T (stats p') (shared p').
Proof.
  intros HT Hp. unfold worker_step. cbn [queue workers stats limiter shared steps].
  destruct (workers p !! i) as [wk|]; [|done].
  destruct wk as [|idx row|idx row|idx phone payload|idx phone payload|idx phone st sm|].
  - destruct (queue p) as [|[[idx row]|] q]; [done| |done].
    unfold stop_is_set. cbn zeta. destruct (default false _).
    + simpl. split; [done|]. by eapply progress_inv_silent.
    + apply pause_turn_records; [done|]. simpl. by eapply progress_inv_silent.
  - by apply pause_turn_records.
  - pose proof (prepare_row_no_send row client (client_state (shared p))) as Hns.
    assert (forall line, progress_inv cfg T (stats p)
              (_write_log_line line
                 (with_client (p_state (_prepare_row row client (client_state (shared p))))
                              (p_calls (_prepare_row row client (client_state (shared p))))
                              (shared p)))) as Hw.
    { intros line. eapply progress_inv_silent; [exact Hp|done|done|].
      simpl. intros _ H. by apply Forall_app. }
    assert (progress_inv cfg T (stats p)
              (with_client (p_state (_prepare_row row client (client_state (shared p))))
                           (p_calls (_prepare_row row client (client_state (shared p))))
                           (shared p))) as Hw'.
    { eapply progress_inv_silent; [exact Hp|done|done|].
      simpl. intros _ H. by apply Forall_app. }
    destruct (p_result _) as [[[status phone] payload] message].
    destruct (decide _).
    { unfold set_worker. cbn [stats shared].
      apply and_comm. by apply (update_stats_records cfg T "skip"); [auto|done|apply Hw]. }
    destruct (decide _).
    { unfold set_worker. cbn [stats shared].
      apply and_comm. by apply (update_stats_records cfg T "error"); [auto|done|apply Hw]. }
    destruct payload as [payload|]; [|done].
    by apply acquire_turn_records.
  - by apply acquire_turn_records.
  - pose proof (send_payload_records client cfg payload (shared p)) as (Hem & _ & Htr).
    destruct (_send_payload_sync client cfg payload (shared p)) as [[st sm] w1].
    simpl in Hem, Htr.
    assert (progress_inv cfg T (stats p) w1) as Hp1.
    { eapply progress_inv_silent; [exact Hp|done|done|].
      intros Hd H. by rewrite Htr, Hd, app_nil_r. }
    destruct (_ && _); [done|]. by apply finish_send_records.
  - by apply finish_send_records.
  - done.
Qed.

Lemma run_pool_records T schedule (p : pool S) :
  total_rows (stats p) = T -> progress_inv cfg T (stats p) (shared p) ->
  let p' := run_pool client cfg clock schedule p in
  total_rows (stats p') = T /\ progress_inv cfg T (stats p') (shared p').
Proof.
  revert p. induction schedule as [|i schedule IH]; intros p HT Hp; [done|].
  simpl. destruct (worker_step_records T i p HT Hp). by apply IH.
Qed.

End PoolRecords.

Lemma progress_inv_init {S : Type} (cfg : launch) T tr (s : S) ctl lg :
  progress_inv cfg T (init tr (l_dry_run cfg)) (World s ctl 0 lg [] []).
Proof.
  unfold progress_inv, disposed. simpl. split; [lia|]. split; [by destruct (l_progress_callback cfg)|].
  split; [constructor|]. intros _. constructor.
Qed.

(** X15. The observer of a batch, sequential or concurrent, receives
    events whose processed counts are 1, 2, ... up to the number of
    rows disposed, in this order, each with the total and the dry-run
    flag of the batch; without an observer nothing is emitted. *)
Theorem progress_events_count_up {S : Type} (client : Client S) (cfg : launch)
    (rows : list Row) (s : S) (ctl : RunControl) :
  let T := match l_total_rows cfg with
           | Some n => Some n
           | None => Some (Z.of_nat (length rows))
           end in
  let counted stats (w : world S) :=
    BatchProgressEvent.processed <$> emitted w
    = (if l_progress_callback cfg then seqZ 1 (disposed stats) else [])
    /\ Forall (fun e => BatchProgressEvent.total e = T
                        /\ BatchProgressEvent.dry_run e = l_dry_run cfg) (emitted w) in
  (forall fuel stats w,
     run_batch_from_rows client cfg fuel rows s ctl = Some (stats, w) -> counted stats w)
  /\ (forall clock msg_per_sec async_workers schedule,
        let p := run_pool client cfg clock schedule
                   (start_pool cfg rows msg_per_sec async_workers s ctl) in
        counted (stats p) (shared p)).
Proof.
  intros T counted. split.
  - intros fuel stats w Hrun. unfold run_batch_from_rows in Hrun.
    apply (batch_loop_records client cfg) in Hrun as ((_ & Hc & Ht & _) & _).
    + by split.
    + apply progress_inv_init.
    + unfold sequential_inv, disposed. simpl. split; [done|]. split; [constructor|].
      by destruct (l_log_path cfg).
  - intros clock msg_per_sec async_workers schedule p.
    destruct (run_pool_records client cfg clock T schedule
                (start_pool cfg rows msg_per_sec async_workers s ctl))
      as (_ & _ & Hc & Ht & _); [done| |by split].
    unfold start_pool. cbn [stats shared]. apply progress_inv_init.
Qed.

(** X16. In sequential mode every event is numbered as the row it
    reports, so that the events come in the order of the rows without
    a gap, and the log, if there is one, has exactly one line per row
    disposed; without a log destination nothing is logged. *)
Theorem sequential_events_and_log {S : Type} (client : Client S) (cfg : launch)
    (rows : list Row) (s : S) (ctl : RunControl) (fuel : nat)
    (stats : BatchSendResult.t) (w : world S) :
  run_batch_from_rows client cfg fuel rows s ctl = Some (stats, w) ->
  Forall (fun e => BatchProgressEvent.index e = BatchProgressEvent.processed e) (emitted w)
  /\ match log w with
     | Some lines => l_log_path cfg = true /\ Z.of_nat (length lines) = disposed stats
     | None => l_log_path cfg = false
     end.
Proof.
  intros Hrun. unfold run_batch_from_rows in Hrun.
  apply (batch_loop_records client cfg) in Hrun as (_ & Hi & Hl).
  - split; [done|]. destruct (log w) as [lines|].
    + destruct Hl as [? Hsome]. split; [|done]. simpl in Hsome.
      destruct (l_log_path cfg); [done|by destruct Hsome].
    + simpl in Hl. by destruct (l_log_path cfg).
  - apply progress_inv_init.
  - unfold sequential_inv, disposed. simpl. split; [done|]. split; [constructor|].
    by destruct (l_log_path cfg).
Qed.

Lemma sequential_events_and_log_witness :
  exists stats w lines,
    run_batch_from_rows Sample.client Sample.quiet 0 Sample.rows Sample.fresh
      Sample.events_clear = Some (stats, w)
    /\ BatchProgressEvent.index <$> emitted w = [1; 2; 3]%Z
    /\ log w = Some lines /\ Z.of_nat (length lines) = disposed stats.
Proof.
  destruct (run_batch_from_rows Sample.client Sample.quiet 0 Sample.rows Sample.fresh
              Sample.events_clear) as [[stats w]|] eqn:E; [|vm_compute in E; discriminate].
  pose proof (sequential_events_and_log _ _ _ _ _ _ _ _ E) as [_ Hl].
  assert (BatchProgressEvent.index <$> emitted w = [1; 2; 3]%Z) as Hi.
  { vm_compute in E. injection E as <- <-. reflexivity. }
  destruct (log w) as [lines|] eqn:El; [|discriminate Hl].
  exists stats, w, lines. destruct Hl as [_ Hl]. repeat split; [exact Hi|exact El|exact Hl].
Defined.

(** X17. A dry run never calls [send_message], in either dispatcher and
    under every schedule. *)
Theorem dry_run_never_sends {S : Type} (client : Client S) (cfg : launch)
    (rows : list Row) (s : S) (ctl : RunControl) :
  l_dry_run cfg = true ->
  (forall fuel stats w,
     run_batch_from_rows client cfg fuel rows s ctl = Some (stats, w) ->
     Forall (fun c => is_send c = false) (trace w))
  /\ (forall clock msg_per_sec async_workers schedule,
        Forall (fun c => is_send c = false)
               (trace (shared (run_pool client cfg clock schedule
                                 (start_pool cfg rows msg_per_sec async_workers s ctl))))).
Proof.
  intros Hdry. split.
  - intros fuel stats w Hrun. unfold run_batch_from_rows in Hrun.
    apply (batch_loop_records client cfg) in Hrun as ((_ & _ & _ & Hs) & _).
    + by apply Hs.
    + apply progress_inv_init.
    + unfold sequential_inv, disposed. simpl. split; [done|]. split; [constructor|].
      by destruct (l_log_path cfg).
  - intros clock msg_per_sec async_workers schedule.
    destruct (run_pool_records client cfg clock
                (total_rows (stats (start_pool cfg rows msg_per_sec async_workers s ctl)))
                schedule (start_pool cfg rows msg_per_sec async_workers s ctl))
      as (_ & _ & _ & _ & Hs); [done| |by apply Hs].
    unfold start_pool. cbn [stats shared]. apply progress_inv_init.
Qed.

Lemma dry_run_never_sends_witness :
  let cfg := {| l_dry_run := true; l_delay_ms := 0; l_log_path := true;
                l_total_rows := None; l_progress_callback := true;
                l_owner := fun _ => [] |} in
  exists stats w,
    run_batch_from_rows Sample.client cfg 0 Sample.rows Sample.fresh Sample.events_clear
    = Some (stats, w)
    /\ sent stats = 1%Z
    /\ Forall (fun c => is_send c = false) (trace w).
Proof.
  intros cfg.
  destruct (run_batch_from_rows Sample.client cfg 0 Sample.rows Sample.fresh
              Sample.events_clear) as [[stats w]|] eqn:E; [|vm_compute in E; discriminate].
  destruct (dry_run_never_sends Sample.client cfg Sample.rows Sample.fresh
              Sample.events_clear) as [H _]; [reflexivity|].
  exists stats, w. split; [reflexivity|]. split; [|exact (H 0 stats w E)].
  vm_compute in E. injection E as <- <-. reflexivity.
Defined.

(** X18. A batch whose pause event is never set returns, whatever the
    budget of pause sleeps, also with none at all. *)
Theorem never_paused_returns {S : Type} (client : Client S) (cfg : launch)
    (rows : list Row) (s : S) (ctl : RunControl) (fuel : nat) :
  never_paused cfg ctl ->
  exists stats w, run_batch_from_rows client cfg fuel rows s ctl = Some (stats, w).
Proof.
  intros [Hc Hn]. unfold run_batch_from_rows.
  edestruct (batch_loop_returns client cfg fuel) as [[stats w] E]; [exact Hn| |eauto].
  done.
Qed.

Lemma never_paused_returns_witness :
  never_paused Sample.quiet Sample.events_clear
  /\ exists stats w,
       run_batch_from_rows Sample.client Sample.quiet 0 Sample.rows Sample.fresh
         Sample.events_clear = Some (stats, w).
Proof.
  assert (never_paused Sample.quiet Sample.events_clear) as H.
  { split; [discriminate|]. intros k Hin. simpl in Hin. by apply elem_of_nil in Hin. }
  split; [exact H|].
  exact (never_paused_returns Sample.client Sample.quiet Sample.rows Sample.fresh
           Sample.events_clear 0 H).
Defined.

Section LimiterProgress.

Import AsyncRateLimiter.

(** X19. After any history of turns a caller that is then alone on the
    limiter is served after at most two sleeps, provided a sleep lasts
    at least as long as asked: the sleep that [acquire] computes from
    two float subtractions may end up to [2 ** -52] s before the oldest
    return leaves the window, and one more sleep, of [0.01] s at least,
    makes up for it. Its return is recorded in the deque, and the
    ceiling still holds with it counted. *)
Theorem lone_caller_is_served (n : Z) (t0 : Q) (turns : list (nat * Q)) (now : Q)
    (wake : Q -> Q -> Q) :
  monotonic t0 turns ->
  (last_reading t0 turns <= now)%Q ->
  (forall t d, (t + d <= wake t d)%Q) ->
  exists t l',
    acquire 2 wake now (serve turns (init n)).2 = Some (t, l')
    /\ (now <= t)%Q
    /\ _timestamps l' = snd <$> trailing t ((serve turns (init n)).1 ++ [(0%nat, t)])
    /\ forall a, (Z.of_nat (count_in_window second a
                              ((serve turns (init n)).1 ++ [(0%nat, t)]))
                  <= Z.max 1 n)%Z.
Proof.
  intros Hm Hnow Hwake.
  destruct (acquire_returns (Z.max 1 n) _ _ _ now wake (serve_inv n t0 turns Hm))
    as (t & l' & Hacq & Ht & Hinv); [lia|done|done|].
  exists t, l'. split; [done|]. split; [done|].
  split; [apply (inv_deque _ _ _ _ Hinv)|apply (inv_window _ _ _ _ Hinv)].
Qed.

Lemma lone_caller_is_served_witness :
  exists t l',
    acquire 2 (fun t d => t + d)%Q (1 # 2) (serve [(0, 0%Q)] (init 1)).2 = Some (t, l')
    /\ (1 # 2 <= t)%Q.
Proof.
  destruct (lone_caller_is_served 1 0 [(0, 0%Q)] (1 # 2) (fun t d => t + d)%Q)
    as (t & l' & Hacq & Ht & _).
  - simpl. split; [|done]. unfold Qle. simpl. lia.
  - simpl. unfold Qle. simpl. lia.
  - intros t d. apply Qle_refl.
  - exists t, l'. split; [exact Hacq|exact Ht].
Defined.

(** X20. When [acquire] has to sleep, the window is full: the deque
    holds as many returns as the rate, namely the returns that lie less
    than [second] before the reading; the sleep asked for is computed
    from the oldest of them by two float subtractions, and is at least
    a hundredth of a second and at most one second. *)
Theorem sleep_is_bounded (n : Z) (t0 : Q) (turns : list (nat * Q)) (now d : Q) (l' : t) :
  monotonic t0 turns ->
  (last_reading t0 turns <= now)%Q ->
  attempt now (serve turns (init n)).2 = (Sleep d, l') ->
  (1 # 100 <= d)%Q /\ (d <= 1)%Q
  /\ d = Qmax (Float.sub 1 (Float.sub now (hd 0%Q (_timestamps l')))) poll
  /\ Z.of_nat (length (_timestamps l')) = Z.max 1 n
  /\ _timestamps l' = snd <$> trailing now (serve turns (init n)).1
  /\ (forall r, r ∈ trailing now (serve turns (init n)).1
                <-> r ∈ (serve turns (init n)).1 /\ (now - snd r < second)%Q).
Proof.
  intros Hm Hnow. pose proof (serve_inv n t0 turns Hm) as Hinv.
  rewrite (attempt_eq _ _ _ _ now Hinv Hnow).
  destruct (Z.ltb_spec (Z.of_nat (length (trailing now (serve turns (init n)).1)))
                       (Z.max 1 n)) as [Hlt|Hge]; [done|].
  intros [= <- <-]. simpl.
  pose proof poll_value as Hpoll.
  split; [eapply Qle_trans; [|apply Q.le_max_r]; rewrite Hpoll; unfold Qle; simpl; lia|].
  pose proof (inv_len _ _ _ _ Hinv) as Hlen.
  pose proof (inv_le _ _ _ _ Hinv) as Hle.
  split; [|split; [done|split; [|split; [done|]]]].
  - destruct (trailing now _) as [|[c h] tl] eqn:Etr; [simpl in Hge; lia|].
    assert ((c, h) ∈ trailing now (serve turns (init n)).1) as Hin by (rewrite Etr; left).
    unfold trailing in Hin. apply list_elem_of_filter in Hin as [Hlive Hin].
    rewrite Forall_forall in Hle. specialize (Hle _ Hin). simpl in Hle, Hlive.
    apply live_iff in Hlive. unfold second in Hlive.
    simpl. unfold Float.sub at 2.
    destruct (wait_for_bounds (now - h)) as [_ Hwf]; [lra|lra|].
    apply Q.max_lub; [done|]. rewrite Hpoll. unfold Qle. simpl. lia.
  - rewrite length_fmap.
    rewrite (trailing_later (last_reading t0 turns) now) in * by done.
    pose proof (length_filter (fun r => live now r.2 = true)
                  (trailing (last_reading t0 turns) (serve turns (init n)).1)). lia.
  - intros r. unfold trailing. rewrite list_elem_of_filter, live_iff. tauto.
Qed.

Lemma sleep_is_bounded_witness :
  exists d l',
    attempt (1 # 2) (serve [(0, 0%Q)] (init 1)).2 = (Sleep d, l')
    /\ (d == 1 # 2)%Q /\ (1 # 100 <= d)%Q /\ (d <= 1)%Q.
Proof.
  destruct (attempt (1 # 2) (serve [(0, 0%Q)] (init 1)).2) as [[|d] l'] eqn:E;
    [vm_compute in E; discriminate|].
  destruct (sleep_is_bounded 1 0 [(0, 0%Q)] (1 # 2) d l') as (H1 & H2 & _).
  - simpl. split; [|done]. unfold Qle. simpl. lia.
  - simpl. unfold Qle. simpl. lia.
  - exact E.
  - exists d, l'. split; [reflexivity|]. split; [|split; [exact H1|exact H2]].
    vm_compute in E. injection E as <- _. reflexivity.
Defined.

End LimiterProgress.

(** X21. The command line hands the dispatcher a rate between 1 and 80,
    the rate asked for when that lies in the range and 80 when the
    argument is 0; the limiter takes that rate as it is, and the derived
    pool has a quarter as many workers, between 1 and 20. *)
Theorem cli_rate_bounds (arg : Z) :
  let m := cli_msg_per_sec arg in
  (1 <= m <= 80)%Z
  /\ ((1 <= arg <= 80)%Z -> m = arg)
  /\ (arg = 0%Z -> m = 80%Z)
  /\ limiter_rate m = m
  /\ worker_count m None = Z.max 1 (m / 4)
  /\ (1 <= worker_count m None <= 20)%Z.
Proof.
  unfold cli_msg_per_sec, limiter_rate, worker_count, derived_workers. cbn zeta.
  set (m := Z.max 1 (Z.min 80 (if (arg =? 0)%Z then 80%Z else arg))).
  assert (1 <= m <= 80)%Z as Hm by (subst m; destruct (arg =? 0)%Z; lia).
  assert (0 <= m / 4 <= 20)%Z as Hq.
  { split; [apply Z.div_pos; lia|]. apply Z.div_le_upper_bound; lia. }
  split; [done|]. split; [|split; [|split; [|split]]].
  - intros Ha. subst m. destruct (Z.eqb_spec arg 0); lia.
  - intros ->. by subst m.
  - destruct (Z.eqb_spec m 0); lia.
  - destruct (Z.eqb_spec (m / 4) 0) as [E|E]; lia.
  - destruct (Z.eqb_spec (m / 4) 0) as [E|E]; lia.
Qed.

(** ** The export of [payload_builder.py] *)

Lemma row_update_other (row : Row) cols k :
  k ∉ cols.*1 -> row_update row cols !! k = row !! k.
Proof.
  unfold row_update. revert row. induction cols as [|[k' v] cols IH]; intros row Hk; [done|].
  simpl. rewrite fmap_cons in Hk. apply not_elem_of_cons in Hk as [Hne Hk].
  rewrite IH by done. simpl. by rewrite lookup_insert_ne.
Qed.

Lemma fold_update_other {A : Type} (colsf : nat -> A -> list (string * string))
    (l : list A) k :
  (forall n x, k ∉ (colsf n x).*1) ->
  forall a (row : Row),
  foldl (fun r nx => row_update r (colsf nx.1 nx.2)) row (enumerate_from a l) !! k = row !! k.
Proof.
  intros Hk. induction l as [|x l IH]; intros a row; [done|].
  simpl. rewrite IH. by apply row_update_other.
Qed.

(** The column names of the buttons start with [bu] and [ct]. *)
Lemma fkey_button_head n s : exists r, fkey "button" n s = String "b" (String "u" r).
Proof. by eexists. Qed.

Lemma fkey_cta_head n s : exists r, fkey "cta" n s = String "c" (String "t" r).
Proof. by eexists. Qed.

Lemma flow_columns_other fb n k :
  (forall r, k <> String "b" (String "u" r)) -> k ∉ (FlowButton.to_csv_columns fb n).*1.
Proof.
  intros Hk. unfold FlowButton.to_csv_columns. simpl.
  repeat (apply not_elem_of_cons; split;
          [intros ->; by edestruct fkey_button_head as [r Hr]; eapply Hk|]).
  apply not_elem_of_nil.
Qed.

Lemma cta_columns_other cta n k :
  (forall r, k <> String "c" (String "t" r)) -> k ∉ (TemplateConfig.cta_columns n cta).*1.
Proof.
  intros Hk. unfold TemplateConfig.cta_columns. simpl.
  repeat (apply not_elem_of_cons; split;
          [intros ->; by edestruct fkey_cta_head as [r Hr]; eapply Hk|]).
  apply not_elem_of_nil.
Qed.

(** The cells of an exported row that no button column overwrites. *)
Lemma csv_row_for_cells (config : TemplateConfig.t) phone :
  let row := TemplateConfig.csv_row_for config phone in
  row !! "phone" = Some (strip phone)
  /\ row !! "msg_type"
     = Some (lower (strip (or_str (TemplateConfig.msg_type config) "template")))
  /\ row !! "template" = Some (strip (TemplateConfig.template config))
  /\ row !! "body_text" = Some (strip (TemplateConfig.body_text config)).
Proof.
  unfold TemplateConfig.csv_row_for. cbn zeta.
  repeat split;
    (rewrite (fold_update_other TemplateConfig.cta_columns)
       by (intros; by apply cta_columns_other);
     rewrite (fold_update_other (fun n fb => FlowButton.to_csv_columns fb n))
       by (intros; by apply flow_columns_other);
     reflexivity).
Qed.

Lemma kept_phones_spec phones : forall seen,
  NoDup (kept_phones phones seen)
  /\ forall p, p ∈ kept_phones phones seen
               <-> (p ∉ seen) /\ p <> "" /\ exists raw, raw ∈ phones /\ strip raw = p.
Proof.
  induction phones as [|raw rest IH]; intros seen; simpl.
  { split; [constructor|]. intros p. split; [intros Hp; by apply elem_of_nil in Hp|].
    intros (_ & _ & raw & Hr & _). by apply elem_of_nil in Hr. }
  destruct (decide (strip raw = "")) as [E|E].
  { destruct (IH seen) as [Hnd Hin]. split; [done|]. intros p. rewrite Hin.
    split; intros (? & ? & raw' & Hr & <-); repeat split; try done.
    - exists raw'. split; [by right|done].
    - apply elem_of_cons in Hr as [->|Hr]; [done|]. by exists raw'. }
  destruct (decide (strip raw ∈ seen)) as [Hs|Hs].
  { destruct (IH seen) as [Hnd Hin]. split; [done|]. intros p. rewrite Hin.
    split; intros (? & ? & raw' & Hr & <-); repeat split; try done.
    - exists raw'. split; [by right|done].
    - apply elem_of_cons in Hr as [->|Hr]; [done|]. by exists raw'. }
  destruct (IH ({[strip raw]} ∪ seen)) as [Hnd Hin]. split.
  - constructor; [|done]. rewrite Hin. intros (Hn & _). apply Hn.
    apply elem_of_union. left. by apply elem_of_singleton.
  - intros p. rewrite elem_of_cons, Hin. split.
    + intros [->|(Hn & ? & raw' & Hr & <-)].
      * repeat split; try done. exists raw. split; [left|done].
      * repeat split; try done.
        { intros Hs'. apply Hn, elem_of_union. by right. }
        exists raw'. split; [by right|done].
    + intros (Hn & Hne & raw' & Hr & <-).
      destruct (decide (strip raw' = strip raw)) as [Heq|Hneq]; [by left|]. right.
      repeat split; [|done|].
      { intros Hu. apply elem_of_union in Hu as [Hu|Hu]; [|done].
        by apply elem_of_singleton in Hu. }
      apply elem_of_cons in Hr as [->|Hr]; [done|]. by exists raw'.
Qed.

Lemma kept_phones_length phones : forall seen,
  length (kept_phones phones seen) <= length phones.
Proof.
  induction phones as [|raw rest IH]; intros seen; simpl; [done|].
  destruct (decide _); [specialize (IH seen); lia|].
  destruct (decide _); [specialize (IH seen); lia|].
  simpl. specialize (IH ({[strip raw]} ∪ seen)). lia.
Qed.

(** X22. The rows [build_csv_rows] exports have pairwise different
    phones: the stripped forms of the phones given that are not blank,
    each once; none of the rows is one that the sender skips for a
    missing phone, and there are no more rows than phones given. *)
Theorem build_csv_rows_phones (phones : list string) (config : TemplateConfig.t) :
  let rows := build_csv_rows phones config in
  NoDup (phone_column rows)
  /\ (forall p, p ∈ phone_column rows
                <-> p <> "" /\ exists raw, raw ∈ phones /\ strip raw = p)
  /\ Forall (fun row => ~ no_phone row) rows
  /\ length rows <= length phones.
Proof.
  unfold build_csv_rows. cbn zeta.
  destruct (kept_phones_spec phones ∅) as [Hnd Hin].
  assert (forall p, p ∈ kept_phones phones ∅ -> strip p = p /\ p <> "") as Hstripped.
  { intros p Hp. apply Hin in Hp as (_ & Hne & raw & _ & <-). split; [apply strip_idem|done]. }
  assert (phone_column (TemplateConfig.csv_row_for config <$> kept_phones phones ∅)
          = kept_phones phones ∅) as Hcol.
  { unfold phone_column. rewrite <- list_fmap_compose.
    rewrite <- (list_fmap_id (kept_phones phones ∅)) at 2.
    apply list_fmap_ext. intros i p Hp. simpl.
    destruct (csv_row_for_cells config p) as (-> & _). simpl.
    apply Hstripped. by eapply list_elem_of_lookup_2. }
  rewrite Hcol. split; [done|]. split; [|split].
  - intros p. rewrite Hin. split; [tauto|]. intros [? ?]. split; [|done].
    apply not_elem_of_empty.
  - apply Forall_fmap, Forall_forall. intros p Hp. simpl.
    rewrite no_phone_iff. unfold get_or.
    destruct (csv_row_for_cells config p) as (-> & _).
    destruct (Hstripped p Hp) as [Hs Hne]. rewrite Hs.
    unfold or_str. rewrite decide_False by done. by rewrite Hs.
  - rewrite length_fmap. apply kept_phones_length.
Qed.

(** ** Validation and preview *)

Lemma strip_nonempty s : strip s <> "" -> s <> "".
Proof. by intros H ->. Qed.

Lemma validate_flows_ok fbs : forall i,
  TemplateConfig.validate_flows i fbs = Ok tt ->
  Forall (fun fb => FlowButton.is_complete fb = true) fbs.
Proof.
  induction fbs as [|fb fbs IH]; intros i; simpl; [by constructor|].
  destruct (FlowButton.is_complete fb) eqn:E; [|done]. intros H. constructor; [done|by eapply IH].
Qed.

(** What [validate] has checked when it accepts. *)
Lemma validate_ok_inv (self : TemplateConfig.t) message :
  TemplateConfig.validate self = (true, message) ->
  let mode := lower (or_str (TemplateConfig.msg_type self) "template") in
  let htype := lower (or_str (TemplateConfig.header_type self) "none") in
  message = ""
  /\ (exists u, TemplateConfig.validate_ctas 0 (TemplateConfig.ctas self) = Ok u)
  /\ (htype = "none"
      \/ (htype = "text" /\ strip (TemplateConfig.header_text self) <> "")
      \/ (is_media_header htype = true
          /\ length (filter (fun v => v <> "")
                            [strip (TemplateConfig.header_media_path self);
                             strip (TemplateConfig.header_media_url self);
                             strip (TemplateConfig.header_media_id self)]) = 1))
  /\ ((mode = "template"
       /\ strip (TemplateConfig.template self) <> ""
       /\ Forall (fun fb => FlowButton.is_complete fb = true) (TemplateConfig.flow_buttons self))
      \/ (mode = "interactive"
          /\ strip (TemplateConfig.body_text self) <> ""
          /\ exists cta0 rest,
               TemplateConfig.ctas self = cta0 :: rest
               /\ CtaButton.is_complete cta0 = true
               /\ lower (or_str (CtaButton.type cta0) "url") <> "copy_code")).
Proof.
  unfold TemplateConfig.validate. cbn zeta.
  set (mode := lower (or_str (TemplateConfig.msg_type self) "template")).
  set (htype := lower (or_str (TemplateConfig.header_type self) "none")).
  set (chosen := length (filter _ _)).
  destruct (negb _) eqn:Hmode; [done|].
  destruct (TemplateConfig.validate_ctas 0 _) as [u|] eqn:Hctas; [|done].
  destruct (negb (_ || _ || is_media_header htype)) eqn:Hh; [done|].
  destruct (bool_decide (htype = "text") && _) eqn:Htext; [done|].
  destruct (is_media_header htype && bool_decide (chosen = 0)) eqn:Hc0; [done|].
  destruct (is_media_header htype && bool_decide (1 < chosen)) eqn:Hc1; [done|].
  assert (htype = "none"
          \/ (htype = "text" /\ strip (TemplateConfig.header_text self) <> "")
          \/ (is_media_header htype = true /\ chosen = 1)) as Hheader.
  { apply negb_false_iff in Hh.
    destruct (is_media_header htype) eqn:Hm.
    - right. right. split; [done|]. cbn [andb] in Hc0, Hc1.
      apply bool_decide_eq_false in Hc0, Hc1. lia.
    - rewrite orb_false_r in Hh. apply orb_true_iff in Hh as [Hn|Ht].
      + left. by apply bool_decide_eq_true in Hn.
      + right. left. apply bool_decide_eq_true in Ht. split; [done|].
        rewrite (bool_decide_eq_true_2 (htype = "text")) in Htext by done.
        cbn [andb] in Htext. by apply bool_decide_eq_false in Htext. }
  destruct (decide (mode = "template")) as [Hm|Hm].
  - destruct (decide _) as [|Ht]; [done|].
    destruct (TemplateConfig.validate_flows 0 _) as [[]|] eqn:Hf; [|done].
    intros [= <-]. split; [done|]. split; [by eauto|]. split; [done|]. left.
    split; [done|]. split; [done|]. by eapply validate_flows_ok.
  - destruct (decide _) as [|Hb]; [done|].
    destruct (TemplateConfig.ctas self) as [|cta0 rest] eqn:Hc; [done|].
    destruct (negb (CtaButton.is_complete cta0)) eqn:Hcomp; [done|].
    destruct (decide _) as [|Hcc]; [done|].
    intros [= <-]. split; [done|]. split; [by eauto|]. split; [done|]. right.
    apply negb_false_iff in Hmode, Hcomp.
    apply orb_true_iff in Hmode as [Ht|Hi]; [by apply bool_decide_eq_true in Ht|].
    apply bool_decide_eq_true in Hi. split; [done|]. split; [done|]. by eauto.
Qed.

Lemma copy_code_loop_numbered ctas : forall buttons,
  numbered_coupons buttons -> numbered_coupons (TemplateConfig.copy_code_loop ctas buttons).
Proof.
  induction ctas as [|cta ctas IH]; intros buttons Hb; simpl; [done|].
  destruct (decide _); [|by apply IH]. destruct (decide _); [by apply IH|].
  apply IH. by apply numbered_coupons_snoc.
Qed.

Lemma copy_code_loop_coupons ctas : forall buttons,
  cc_coupon_code <$> TemplateConfig.copy_code_loop ctas buttons
  = (cc_coupon_code <$> buttons)
    ++ omap (fun cta =>
               if decide (lower (CtaButton.type cta) = "copy_code")
               then or_none (strip (CtaButton.coupon_code cta)) else None) ctas.
Proof.
  induction ctas as [|cta ctas IH]; intros buttons; [by rewrite app_nil_r|].
  change (omap ?f (cta :: ctas))
    with (match f cta with Some y => y :: omap f ctas | None => omap f ctas end).
  simpl. destruct (decide (lower _ = "copy_code")); [|by apply IH].
  unfold or_none. destruct (decide (strip _ = "")); [by apply IH|].
  rewrite IH, fmap_app. simpl. by rewrite <- app_assoc.
Qed.

(** X23. The copy-code buttons that [copy_code_buttons] derives from a
    configuration are the coupon codes, stripped, of its copy-code
    descriptors that have one, in order and numbered from 0; the
    component builder accepts them all. *)
Theorem builder_copy_code_buttons (config : TemplateConfig.t) :
  let btns := TemplateConfig.copy_code_buttons config in
  cc_coupon_code <$> btns
  = omap (fun cta =>
            if decide (lower (CtaButton.type cta) = "copy_code")
            then or_none (strip (CtaButton.coupon_code cta)) else None)
         (TemplateConfig.ctas config)
  /\ cc_index <$> btns = str_nat <$> seq 0 (length btns)
  /\ exists cs, WhatsAppClient.copy_code_components btns = Ok cs /\ length cs = length btns.
Proof.
  unfold TemplateConfig.copy_code_buttons. cbn zeta.
  destruct (copy_code_loop_numbered (TemplateConfig.ctas config) [] numbered_coupons_nil)
    as [Hi Hc].
  split; [by rewrite copy_code_loop_coupons|]. split; [done|].
  by apply numbered_coupons_accepted.
Qed.

Lemma flow_components_complete (fbs : list FlowButton.t) :
  Forall (fun fb => FlowButton.is_complete fb = true) fbs ->
  exists cs,
    WhatsAppClient.flow_components
      ((fun fb => {| fb_index := FlowButton.index fb;
                     fb_flow_token := FlowButton.flow_token fb;
                     fb_flow_action := FlowButton.flow_action fb;
                     fb_navigate_screen := FlowButton.navigate_screen fb |}) <$> fbs) = Ok cs.
Proof.
  induction 1 as [|fb fbs Hfb _ [cs IH]]; [by exists []|].
  rewrite fmap_cons. simpl. rewrite IH. unfold FlowButton.is_complete in Hfb.
  repeat case_bool_decide; simpl in *; try done. by eexists.
Qed.

(** X24. A configuration that [validate] accepts previews to a payload
    addressed to the phone given, except when its header media is given
    by a file path alone, which the preview cannot upload: then the
    component builder rejects the header for want of an id or a link. *)
Theorem validated_preview (phone : string) (config : TemplateConfig.t) (message : string) :
  TemplateConfig.validate config = (true, message) ->
  let mode := lower (or_str (TemplateConfig.msg_type config) "template") in
  let htype := lower (or_str (TemplateConfig.header_type config) "none") in
  match preview_payload phone config with
  | Ok payload =>
      dict_get payload "to" = Some (JStr phone)
      /\ dict_get payload "type" = Some (JStr mode)
  | Raise e =>
      mode = "template" /\ is_media_header htype = true
      /\ TemplateConfig.header_media_id config = ""
      /\ TemplateConfig.header_media_url config = ""
      /\ strip (TemplateConfig.header_media_path config) <> ""
      /\ e = "header_type=" +:+ htype +:+ " requires media id or link"
  end.
Proof.
  intros Hv. apply validate_ok_inv in Hv as (_ & _ & Hheader & Hmode). cbn zeta in *.
  unfold preview_payload.
  set (mode := lower (or_str (TemplateConfig.msg_type config) "template")) in *.
  set (htype := lower (or_str (TemplateConfig.header_type config) "none")) in *.
  destruct Hmode as [(Hm & Ht & Hflows)|(Hm & Hb & cta0 & rest & Hc & Hcomp & Hcc)].
  2:{ rewrite Hm. rewrite decide_True by done. rewrite Hc.
      rewrite decide_False by done.
      destruct (decide _); by split. }
  rewrite Hm. rewrite decide_False by done.
  destruct (flow_components_complete _ Hflows) as [flows Hfl].
  destruct (numbered_coupons_accepted (TemplateConfig.copy_code_buttons config))
    as (copies & Hcp & _);
    [exact (proj2 (copy_code_loop_numbered (TemplateConfig.ctas config) []
                     numbered_coupons_nil))|].
  unfold WhatsAppClient.build_template_components.
  cbn [header_type header_text header_media_id header_media_link body_params button_params
       button_flow button_copy_code].
  assert (WhatsAppClient.flow_components
            (default [] (if (fun fb => {| fb_index := FlowButton.index fb;
                     fb_flow_token := FlowButton.flow_token fb;
                     fb_flow_action := FlowButton.flow_action fb;
                     fb_navigate_screen := FlowButton.navigate_screen fb |})
                          <$> TemplateConfig.flow_buttons config is []
                         then None
                         else Some ((fun fb => {| fb_index := FlowButton.index fb;
                     fb_flow_token := FlowButton.flow_token fb;
                     fb_flow_action := FlowButton.flow_action fb;
                     fb_navigate_screen := FlowButton.navigate_screen fb |})
                          <$> TemplateConfig.flow_buttons config))) = Ok flows) as ->.
  { rewrite <- Hfl. by destruct (_ <$> TemplateConfig.flow_buttons config). }
  assert (WhatsAppClient.copy_code_components
            (default [] (if TemplateConfig.copy_code_buttons config is [] then None
                         else Some (TemplateConfig.copy_code_buttons config))) = Ok copies) as ->.
  { rewrite <- Hcp. by destruct (TemplateConfig.copy_code_buttons config). }
  unfold WhatsAppClient.header_component.
  cbn [header_type header_text header_media_id header_media_link].
  fold htype.
  destruct Hheader as [Hn|[[Htx Htext]|[Hmedia Hchosen]]].
  - rewrite Hn. simpl. by split.
  - rewrite Htx. simpl. apply strip_nonempty in Htext.
    unfold or_none. rewrite decide_False by done. by split.
  - destruct (decide (htype = "none")) as [E|_]; [by rewrite E in Hmedia|].
    destruct (decide (htype = "text")) as [E|_]; [by rewrite E in Hmedia|].
    rewrite Hmedia. unfold or_none.
    destruct (decide (TemplateConfig.header_media_id config = "")) as [Hid|Hid].
    + simpl. destruct (decide (TemplateConfig.header_media_url config = "")) as [Hurl|Hurl].
      * repeat split; try done. rewrite Hid, Hurl in Hchosen. intros Hp.
        rewrite Hp in Hchosen. by vm_compute in Hchosen.
      * rewrite decide_False by done. by split.
    + simpl. rewrite decide_False by done. by split.
Qed.

Lemma validated_preview_witness :
  TemplateConfig.validate SampleConfig.call_us = (true, "")
  /\ exists payload, preview_payload "201000000001" SampleConfig.call_us = Ok payload
                     /\ dict_get payload "to" = Some (JStr "201000000001").
Proof.
  split; [vm_compute; reflexivity|].
  pose proof (validated_preview "201000000001" SampleConfig.call_us "") as H.
  destruct (preview_payload "201000000001" SampleConfig.call_us) as [payload|e] eqn:E;
    [|vm_compute in E; discriminate].
  exists payload. split; [reflexivity|]. apply H. vm_compute. reflexivity.
Defined.

(** ** Column names *)

Lemma string_of_uint_digits d : all_digits (NilEmpty.string_of_uint d) = true.
Proof. induction d; simpl; by rewrite ?IHd. Qed.

Lemma str_nat_digits n : all_digits (str_nat n) = true.
Proof.
  unfold str_nat, NilZero.string_of_uint.
  destruct (Nat.to_uint n) eqn:E; try done; rewrite <- E; apply string_of_uint_digits.
Qed.

Lemma to_uint_not_nil n : Nat.to_uint n <> Decimal.Nil.
Proof.
  rewrite <- (DecimalNat.Unsigned.of_to n) at 1. rewrite DecimalNat.Unsigned.to_of.
  unfold Decimal.unorm. by destruct (Decimal.nzhead _).
Qed.

Lemma str_nat_inj n m : str_nat n = str_nat m -> n = m.
Proof.
  unfold str_nat. intros E. apply DecimalNat.Unsigned.to_uint_inj.
  apply (f_equal NilZero.uint_of_string) in E.
  rewrite !NilZero.usu in E by apply to_uint_not_nil. congruence.
Qed.

Lemma digits_split a : forall b s s',
  all_digits a = true -> all_digits b = true -> is_suffix s -> is_suffix s' ->
  a +:+ s = b +:+ s' -> a = b /\ s = s'.
Proof.
  induction a as [|x a IH]; intros [|y b] s s' Ha Hb (c & t & -> & Hc) (c' & t' & -> & Hc').
  - by intros [= -> ->].
  - rewrite app_cons. intros [= -> _]. simpl in Hb. by rewrite Hc in Hb.
  - rewrite app_cons. intros [= -> _]. simpl in Ha. by rewrite Hc' in Ha.
  - rewrite !app_cons. intros [= -> E]. simpl in Ha, Hb.
    apply andb_true_iff in Ha as [_ Ha]. apply andb_true_iff in Hb as [_ Hb].
    apply IH in E as [-> ?]; [done|done|done|by eexists _, _|by eexists _, _].
Qed.

Lemma append_cancel p a b : p +:+ a = p +:+ b -> a = b.
Proof. induction p as [|c p IH]; [done|]. rewrite !app_cons. intros [= E]. by apply IH. Qed.

(** Indexed column names are different for different positions or
    different suffixes. *)
Lemma fkey_inj prefix n m s s' :
  is_suffix s -> is_suffix s' -> fkey prefix n s = fkey prefix m s' -> n = m /\ s = s'.
Proof.
  intros Hs Hs' E. unfold fkey in E. apply append_cancel in E.
  apply digits_split in E as [E ->]; [|apply str_nat_digits..|done|done].
  split; [by apply str_nat_inj|done].
Qed.

Lemma fkey_digit prefix n s :
  exists d r, fkey prefix n s = prefix +:+ String d r /\ is_digit d = true.
Proof.
  unfold fkey. pose proof (str_nat_digits n) as Hd.
  destruct (str_nat n) as [|d r] eqn:E.
  - exfalso. unfold str_nat, NilZero.string_of_uint in E.
    by destruct (Nat.to_uint n).
  - simpl in Hd. apply andb_true_iff in Hd as [Hd _]. by exists d, (r +:+ s).
Qed.

(** ** Reading an export back *)

Lemma row_update_in (row : Row) cols k v :
  NoDup cols.*1 -> (k, v) ∈ cols -> row_update row cols !! k = Some v.
Proof.
  unfold row_update. revert row. induction cols as [|[k' v'] cols IH]; intros row Hnd Hin.
  { by apply elem_of_nil in Hin. }
  rewrite fmap_cons in Hnd. apply NoDup_cons in Hnd as [Hk' Hnd].
  apply elem_of_cons in Hin as [[= -> ->]|Hin].
  - simpl. fold (row_update (<[k':=v']> row) cols).
    rewrite row_update_other by done. apply lookup_insert_eq.
  - simpl. by apply IH.
Qed.

Section FoldUpdate.

Context {A : Type}.
Variable colsf : nat -> A -> list (string * string).
Hypothesis colsf_apart : forall n m x y k,
  n <> m -> k ∈ (colsf n x).*1 -> k ∉ (colsf m y).*1.
Hypothesis colsf_nodup : forall n x, NoDup (colsf n x).*1.

Lemma fold_update_from (l : list A) k : forall a (row : Row),
  (forall i x, l !! i = Some x -> k ∉ (colsf (a + i) x).*1) ->
  foldl (fun r nx => row_update r (colsf nx.1 nx.2)) row (enumerate_from a l) !! k = row !! k.
Proof.
  induction l as [|x l IH]; intros a row Hk; [done|].
  simpl. rewrite IH.
  - apply row_update_other. specialize (Hk 0 x eq_refl). by rewrite Nat.add_0_r in Hk.
  - intros i y Hy. specialize (Hk (Datatypes.S i) y Hy).
    by replace (Datatypes.S a + i) with (a + Datatypes.S i) by lia.
Qed.

Lemma fold_update_in (l : list A) : forall a (row : Row) i x k v,
  l !! i = Some x -> (k, v) ∈ colsf (a + i) x ->
  foldl (fun r nx => row_update r (colsf nx.1 nx.2)) row (enumerate_from a l) !! k = Some v.
Proof.
  induction l as [|y l IH]; intros a row i x k v Hi Hin; [done|].
  destruct i as [|i]; simpl in Hi.
  - injection Hi as ->. rewrite Nat.add_0_r in Hin. simpl. rewrite fold_update_from.
    + by apply row_update_in.
    + intros j z _. apply (colsf_apart a _ x); [lia|].
      apply list_elem_of_fmap. by exists (k, v).
  - simpl. apply (IH _ _ i x); [done|].
    by replace (Datatypes.S a + i) with (a + Datatypes.S i) by lia.
Qed.

End FoldUpdate.

Lemma suffix_underscore t : is_suffix (String "_" t).
Proof. by eexists _, _. Qed.

Lemma flow_columns_keys fb n k :
  k ∈ (FlowButton.to_csv_columns fb n).*1 ->
  exists s, is_suffix s /\ k = fkey "button" n s.
Proof.
  unfold FlowButton.to_csv_columns. simpl. intros Hk.
  repeat (apply elem_of_cons in Hk as [->|Hk]; [eexists; split; [apply suffix_underscore|done]|]).
  by apply elem_of_nil in Hk.
Qed.

Lemma cta_columns_keys cta n k :
  k ∈ (TemplateConfig.cta_columns n cta).*1 ->
  exists s, is_suffix s /\ k = fkey "cta" n s.
Proof.
  unfold TemplateConfig.cta_columns. simpl. intros Hk.
  repeat (apply elem_of_cons in Hk as [->|Hk]; [eexists; split; [apply suffix_underscore|done]|]).
  by apply elem_of_nil in Hk.
Qed.

Lemma flow_columns_apart n m (x y : FlowButton.t) k :
  n <> m -> k ∈ (FlowButton.to_csv_columns x n).*1 -> k ∉ (FlowButton.to_csv_columns y m).*1.
Proof.
  intros Hnm (s & Hs & ->)%flow_columns_keys (s' & Hs' & E)%flow_columns_keys.
  apply fkey_inj in E as [? _]; done.
Qed.

Lemma cta_columns_apart n m (x y : CtaButton.t) k :
  n <> m -> k ∈ (TemplateConfig.cta_columns n x).*1 -> k ∉ (TemplateConfig.cta_columns m y).*1.
Proof.
  intros Hnm (s & Hs & ->)%cta_columns_keys (s' & Hs' & E)%cta_columns_keys.
  apply fkey_inj in E as [? _]; done.
Qed.

Lemma fkey_suffix_neq prefix n s s' :
  is_suffix s -> is_suffix s' -> s <> s' -> fkey prefix n s <> fkey prefix n s'.
Proof. intros Hs Hs' Hne E. apply fkey_inj in E as [_ ?]; done. Qed.

Lemma flow_columns_nodup n (x : FlowButton.t) : NoDup (FlowButton.to_csv_columns x n).*1.
Proof.
  unfold FlowButton.to_csv_columns. simpl.
  repeat (apply NoDup_cons; split;
          [repeat (apply not_elem_of_cons; split;
                   [apply fkey_suffix_neq; [apply suffix_underscore..|discriminate]|]);
           apply not_elem_of_nil|]).
  apply NoDup_nil_2.
Qed.

Lemma cta_columns_nodup n (x : CtaButton.t) : NoDup (TemplateConfig.cta_columns n x).*1.
Proof.
  unfold TemplateConfig.cta_columns. simpl.
  repeat (apply NoDup_cons; split;
          [repeat (apply not_elem_of_cons; split;
                   [apply fkey_suffix_neq; [apply suffix_underscore..|discriminate]|]);
           apply not_elem_of_nil|]).
  apply NoDup_nil_2.
Qed.

Lemma csv_base_none (cells : list (string * string)) k :
  k ∉ cells.*1 -> (list_to_map cells : Row) !! k = None.
Proof. apply not_elem_of_list_to_map_1. Qed.

Lemma csv_row_for_flow_cell (config : TemplateConfig.t) phone i fb k v :
  TemplateConfig.flow_buttons config !! i = Some fb ->
  (k, v) ∈ FlowButton.to_csv_columns fb i ->
  TemplateConfig.csv_row_for config phone !! k = Some v.
Proof.
  intros Hi Hin. unfold TemplateConfig.csv_row_for. cbn zeta.
  assert (exists r, k = String "b" (String "u" r)) as [r Hr].
  { destruct (flow_columns_keys fb i k) as (s & _ & ->);
      [apply list_elem_of_fmap; by exists (k, v)|]. apply fkey_button_head. }
  rewrite (fold_update_other TemplateConfig.cta_columns)
    by (intros; apply cta_columns_other; intros r'; by rewrite Hr).
  apply (fold_update_in (fun n fb => FlowButton.to_csv_columns fb n)
           flow_columns_apart flow_columns_nodup _ 0 _ i fb); done.
Qed.

Lemma csv_row_for_flow_none (config : TemplateConfig.t) phone n s :
  length (TemplateConfig.flow_buttons config) <= n -> is_suffix s ->
  TemplateConfig.csv_row_for config phone !! fkey "button" n s = None.
Proof.
  intros Hn Hs. unfold TemplateConfig.csv_row_for. cbn zeta.
  destruct (fkey_digit "button" n s) as (d & r & Hr & Hd).
  change ("button" +:+ String d r)
    with (String "b" (String "u" (String "t" (String "t" (String "o"
            (String "n" (String d r))))))) in Hr.
  rewrite (fold_update_other TemplateConfig.cta_columns)
    by (intros; apply cta_columns_other; intros r'; by rewrite Hr).
  rewrite (fold_update_from (fun n fb => FlowButton.to_csv_columns fb n)).
  - rewrite Hr. apply csv_base_none. simpl.
    repeat (apply not_elem_of_cons; split;
            [first [discriminate | intros [= -> _]; discriminate Hd]|]).
    apply not_elem_of_nil.
  - intros i x Hi (s' & Hs' & E)%flow_columns_keys.
    apply fkey_inj in E as [E _]; [|done..]. apply lookup_lt_Some in Hi. simpl in E. lia.
Qed.

Lemma csv_row_for_cta_cell (config : TemplateConfig.t) phone i cta k v :
  TemplateConfig.ctas config !! i = Some cta ->
  (k, v) ∈ TemplateConfig.cta_columns i cta ->
  TemplateConfig.csv_row_for config phone !! k = Some v.
Proof.
  intros Hi Hin. unfold TemplateConfig.csv_row_for. cbn zeta.
  apply (fold_update_in TemplateConfig.cta_columns
           cta_columns_apart cta_columns_nodup _ 0 _ i cta); done.
Qed.

Lemma csv_row_for_cta_none (config : TemplateConfig.t) phone n s :
  length (TemplateConfig.ctas config) <= n -> is_suffix s ->
  TemplateConfig.csv_row_for config phone !! fkey "cta" n s = None.
Proof.
  intros Hn Hs. unfold TemplateConfig.csv_row_for. cbn zeta.
  destruct (fkey_cta_head n s) as [r Hr].
  rewrite (fold_update_from TemplateConfig.cta_columns).
  - rewrite (fold_update_other (fun n fb => FlowButton.to_csv_columns fb n))
      by (intros; apply flow_columns_other; intros r'; by rewrite Hr).
    rewrite Hr. apply csv_base_none. simpl.
    repeat (apply not_elem_of_cons; split; [discriminate|]). apply not_elem_of_nil.
  - intros i x Hi (s' & Hs' & E)%cta_columns_keys.
    apply fkey_inj in E as [E _]; [|done..]. apply lookup_lt_Some in Hi. simpl in E. lia.
Qed.

Lemma omap_seq_enumerate {A B : Type} (f : nat -> option B) (g : nat -> A -> B)
    (l : list A) : forall k a,
  (forall i x, l !! i = Some x -> f (a + i) = Some (g (a + i) x)) ->
  (forall n, a + length l <= n -> f n = None) ->
  omap f (seq a k) = (fun nx => g nx.1 nx.2) <$> take k (enumerate_from a l).
Proof.
  intros k. revert l. induction k as [|k IH]; intros l a Hin Hout; [done|].
  change (omap f (seq a (Datatypes.S k)))
    with (match f a with Some y => y :: omap f (seq (Datatypes.S a) k)
                    | None => omap f (seq (Datatypes.S a) k) end).
  destruct l as [|x l].
  - rewrite Hout by (simpl; lia). rewrite (IH [] (Datatypes.S a)).
    + simpl. by rewrite take_nil.
    + done.
    + intros n Hn. apply Hout. simpl in *. lia.
  - specialize (Hin 0 x eq_refl) as H0. rewrite Nat.add_0_r in H0. rewrite H0.
    simpl. f_equal. apply IH.
    + intros i y Hy. specialize (Hin (Datatypes.S i) y Hy).
      by replace (Datatypes.S a + i) with (a + Datatypes.S i) by lia.
    + intros n Hn. apply Hout. simpl. lia.
Qed.

Lemma or_str_empty a : or_str a "" = a.
Proof. unfold or_str. by destruct (decide (a = "")). Qed.

(** X25. The sender reads back from an exported row the flow buttons
    of the configuration, in order: the first ten of them, their
    fields stripped and a missing index replaced by the position; the
    buttons beyond the tenth are never read. *)
Theorem flow_buttons_round_trip (config : TemplateConfig.t) (phone : string) :
  flow_buttons_of (TemplateConfig.csv_row_for config phone)
  = (fun nfb => read_flow_button nfb.1 nfb.2)
      <$> take 10 (enumerate_from 0 (TemplateConfig.flow_buttons config)).
Proof.
  unfold flow_buttons_of, range10. apply omap_seq_enumerate.
  - intros i fb Hi. simpl.
    assert (forall s v, (fkey "button" i s, v) ∈ FlowButton.to_csv_columns fb i ->
              forall d, get_or (TemplateConfig.csv_row_for config phone) (fkey "button" i s) d
                        = or_str v d) as Hget.
    { intros s v Hin d. unfold get_or.
      by rewrite (csv_row_for_flow_cell config phone i fb _ v Hi Hin). }
    unfold FlowButton.to_csv_columns in Hget.
    rewrite (Hget "_type" "flow") by (repeat constructor).
    rewrite decide_True by reflexivity. f_equal. unfold read_flow_button.
    rewrite (Hget "_index" (FlowButton.index fb)) by (right; left).
    rewrite (Hget "_flow_token" (FlowButton.flow_token fb)) by (do 2 right; left).
    rewrite (Hget "_flow_action" (FlowButton.flow_action fb)) by (do 3 right; left).
    rewrite (Hget "_navigate_screen" (FlowButton.navigate_screen fb)) by (do 4 right; left).
    by rewrite !or_str_empty.
  - intros n Hn. simpl in Hn. unfold get_or.
    rewrite (csv_row_for_flow_none config phone n "_type") by (done || apply suffix_underscore).
    by rewrite decide_False by discriminate.
Qed.

(** ** From a validated configuration to the sender *)

Lemma isspace_lower_char c : isspace c = true -> lower_char c = c.
Proof. destruct c as [[] [] [] [] [] [] [] []]; vm_compute; congruence. Qed.

Lemma lower_no_space x : no_space (lower x) = true -> no_space x = true.
Proof.
  induction x as [|c x IH]; simpl; [done|]. intros [Hc Hx]%andb_true_iff.
  rewrite IH by done. destruct (isspace c) eqn:E; [|done].
  by rewrite (isspace_lower_char c E), E in Hc.
Qed.

Lemma no_space_strip x : no_space x = true -> strip x = x.
Proof.
  intros Hx. unfold strip.
  assert (lstrip x = x) as ->.
  { destruct x as [|c x]; [done|]. simpl in *. by destruct (isspace c). }
  induction x as [|c x IH]; [done|]. simpl in *.
  apply andb_true_iff in Hx as [Hc Hx]. rewrite IH by done.
  destruct x; [by destruct (isspace c)|done].
Qed.

Lemma lower_literal_strip x y : lower x = y -> no_space y = true -> strip x = x.
Proof. intros <- H. by apply no_space_strip, lower_no_space. Qed.

(** X26. A row exported from a configuration that [validate] accepts,
    for a phone that is not blank, is never skipped by the sender,
    provided the first call-to-action of an interactive configuration
    states its type: a type left empty passes [validate] as a link but
    is exported empty, and the sender then overlooks the descriptor. *)
Theorem validated_export_not_skipped {S : Type} (config : TemplateConfig.t)
    (message phone : string) (client : Client S) (s : S) :
  TemplateConfig.validate config = (true, message) ->
  strip phone <> "" ->
  (forall cta0 rest, TemplateConfig.ctas config = cta0 :: rest -> CtaButton.type cta0 <> "") ->
  p_status (_prepare_row (TemplateConfig.csv_row_for config phone) client s) <> "skip".
Proof.
  intros Hv Hphone Htype. apply validate_ok_inv in Hv as (_ & _ & _ & Hmode). cbn zeta in Hmode.
  set (row := TemplateConfig.csv_row_for config phone).
  destruct (csv_row_for_cells config phone) as (Hp & Hm & Ht & Hb). fold row in Hp, Hm, Ht, Hb.
  assert (strip (get_or row "phone" "") = strip phone) as Hrp.
  { unfold get_or. by rewrite Hp, or_str_empty, strip_idem. }
  assert (forall lit, lower (or_str (TemplateConfig.msg_type config) "template") = lit ->
            no_space lit = true -> lit <> "" -> strip lit = lit -> lower lit = lit ->
            lower (strip (get_or row "msg_type" "template")) = lit) as Hrm.
  { intros lit Hl Hns Hne Hsl Hll. unfold get_or. rewrite Hm.
    rewrite (lower_literal_strip _ lit Hl Hns), Hl.
    unfold or_str. rewrite decide_False by done. by rewrite Hsl. }
  intros Hskip. apply (skip_conditions_iff row client s) in Hskip
    as [Hnp|[[[_ Hi] Hcond]|(_ & Hni & Hnt)]].
  - apply no_phone_iff in Hnp. congruence.
  - destruct Hmode as [(Hmt & _)|(_ & Hbody & cta0 & rest & Hc & Hcomp & Hcc)].
    { assert ("template" <> "") as Hne by discriminate.
      rewrite (Hrm "template" Hmt eq_refl Hne eq_refl eq_refl) in Hi. discriminate Hi. }
    assert (CtaButton.type cta0 <> "") as Hty by by eapply Htype.
    assert (lower (CtaButton.type cta0) = "url" \/ lower (CtaButton.type cta0) = "call") as Hk.
    { assert (or_str (CtaButton.type cta0) "url" = CtaButton.type cta0) as Hor.
      { unfold or_str. by destruct (decide (CtaButton.type cta0 = "")). }
      unfold CtaButton.is_complete in Hcomp. cbn zeta in Hcomp. rewrite Hor in Hcomp, Hcc.
      destruct (decide (lower _ = "url")); [by left|].
      destruct (decide (lower _ = "call")); [by right|].
      by destruct (decide (lower _ = "copy_code")). }
    assert (cta_kind row 0 = lower (CtaButton.type cta0)) as Hkind.
    { assert (row !! fkey "cta" 0 "_type" = Some (strip (CtaButton.type cta0))) as Hl.
      { apply (csv_row_for_cta_cell config phone 0 cta0); [by rewrite Hc|left]. }
      unfold cta_kind, get_or. rewrite Hl.
      assert (strip (CtaButton.type cta0) = CtaButton.type cta0) as ->.
      { destruct Hk as [Hk|Hk]; by eapply lower_literal_strip. }
      rewrite or_str_empty.
      assert (strip (CtaButton.type cta0) = CtaButton.type cta0) as ->; [|done].
      destruct Hk as [Hk|Hk]; by eapply lower_literal_strip. }
    destruct Hcond as [Hbl|[Hall|[n Hf]]].
    + unfold get_or in Hbl. rewrite Hb, or_str_empty, strip_idem in Hbl. done.
    + specialize (Hall 0 ltac:(lia)). rewrite Hkind in Hall. destruct Hk; congruence.
    + assert (first_cta row 0 (lower (CtaButton.type cta0))) as Hf0.
      { repeat split; [lia|done| |intros m ?; lia]. destruct Hk as [-> | ->]; done. }
      destruct (first_cta_unique _ _ _ _ _ Hf Hf0) as [_ E]. destruct Hk; congruence.
  - destruct Hmode as [(_ & Htpl & _)|(Hmi & _)].
    + unfold get_or in Hnt. rewrite Ht, or_str_empty, strip_idem in Hnt. done.
    + assert ("interactive" <> "") as Hne by discriminate.
      rewrite (Hrm "interactive" Hmi eq_refl Hne eq_refl eq_refl) in Hni. by apply Hni.
Qed.

Lemma validated_export_not_skipped_witness :
  TemplateConfig.validate SampleConfig.call_us = (true, "")
  /\ p_status (_prepare_row (TemplateConfig.csv_row_for SampleConfig.call_us " 201000000001 ")
                            Sample.client Sample.fresh) <> "skip".
Proof.
  split; [vm_compute; reflexivity|].
  apply (validated_export_not_skipped SampleConfig.call_us "" " 201000000001 "
           Sample.client Sample.fresh).
  - vm_compute. reflexivity.
  - vm_compute. discriminate.
  - intros cta0 rest [= <- _]. discriminate.
Defined.

(** The proviso of the statement above is needed: with the type of its
    only call-to-action left empty the configuration is accepted, and
    the row exported from it is skipped. *)
Lemma empty_type_is_overlooked :
  TemplateConfig.validate SampleConfig.untyped = (true, "")
  /\ p_result (_prepare_row (TemplateConfig.csv_row_for SampleConfig.untyped "201000000001")
                            Sample.client Sample.fresh)
     = ("skip", "201000000001", None, "interactive needs body_text and at least one CTA").
Proof. split; vm_compute; reflexivity. Qed.

Lemma validate_ctas_ok ctas : forall i u,
  TemplateConfig.validate_ctas i ctas = Ok u ->
  Forall (fun cta =>
            let t := lower (or_str (CtaButton.type cta) "url") in
            (t = "url" \/ t = "call" \/ t = "copy_code")
            /\ (t = "copy_code" -> strip (CtaButton.coupon_code cta) <> "")) ctas.
Proof.
  induction ctas as [|cta ctas IH]; intros i u; simpl; [by constructor|].
  destruct (negb _) eqn:Ht; [done|].
  destruct (_ && _) eqn:Hc; [done|]. intros H. constructor; [|by eapply IH].
  apply negb_false_iff in Ht. split.
  - apply orb_true_iff in Ht as [Ht|Ht]; [apply orb_true_iff in Ht as [Ht|Ht]|];
      apply bool_decide_eq_true in Ht; auto.
  - intros E. rewrite (bool_decide_eq_true_2 _ E) in Hc. simpl in Hc.
    by apply bool_decide_eq_false in Hc.
Qed.

Lemma copy_code_agree (row : Row) : forall k (l : list CtaButton.t) a acc,
  (forall i cta, l !! i = Some cta ->
     (cta_kind row (a + i) = "copy_code" <-> lower (CtaButton.type cta) = "copy_code")
     /\ strip (get_or row (fkey "cta" (a + i) "_coupon_code") "")
        = strip (CtaButton.coupon_code cta)
     /\ (lower (CtaButton.type cta) = "copy_code" -> strip (CtaButton.coupon_code cta) <> "")) ->
  (forall n, a + length l <= n -> cta_kind row n <> "copy_code") ->
  copy_code_buttons_of row (seq a k) acc = Ok (TemplateConfig.copy_code_loop (take k l) acc).
Proof.
  induction k as [|k IH]; intros l a acc Hin Hout; [done|].
  simpl. fold (cta_kind row a). destruct l as [|cta l].
  - rewrite decide_False by (apply Hout; simpl; lia).
    rewrite (IH [] (Datatypes.S a)); [by rewrite take_nil|done|].
    intros n Hn. apply Hout. simpl in *. lia.
  - destruct (Hin 0 cta eq_refl) as (Hk & Hc & Hne). rewrite Nat.add_0_r in Hk, Hc.
    assert (forall acc', copy_code_buttons_of row (seq (Datatypes.S a) k) acc'
                         = Ok (TemplateConfig.copy_code_loop (take k l) acc')) as Hrec.
    { intros acc'. apply IH.
      - intros i y Hy. specialize (Hin (Datatypes.S i) y Hy).
        by replace (Datatypes.S a + i) with (a + Datatypes.S i) by lia.
      - intros n Hn. apply Hout. simpl. lia. }
    simpl. destruct (decide (cta_kind row a = "copy_code")) as [E|E].
    + destruct (decide (lower (CtaButton.type cta) = "copy_code")) as [_|E'];
        [|by destruct E'; apply Hk].
      rewrite Hc.
      destruct (decide (strip (CtaButton.coupon_code cta) = "")) as [E'|_];
        [by apply Hne in E'; [|apply Hk]|]. apply Hrec.
    + destruct (decide (lower (CtaButton.type cta) = "copy_code")) as [E'|_];
        [by destruct E; apply Hk|]. apply Hrec.
Qed.

(** X27. From a row exported from a configuration that [validate]
    accepts the sender collects the copy-code buttons of the first ten
    call-to-action descriptors, as [copy_code_buttons] builds them for
    the preview: the same buttons when there are at most ten
    descriptors. *)
Theorem copy_code_export_agrees (config : TemplateConfig.t) (message phone : string) :
  TemplateConfig.validate config = (true, message) ->
  copy_code_buttons_of (TemplateConfig.csv_row_for config phone) range10 []
  = Ok (TemplateConfig.copy_code_loop (take 10 (TemplateConfig.ctas config)) [])
  /\ (length (TemplateConfig.ctas config) <= 10 ->
      copy_code_buttons_of (TemplateConfig.csv_row_for config phone) range10 []
      = Ok (TemplateConfig.copy_code_buttons config)).
Proof.
  intros Hv. apply validate_ok_inv in Hv as (_ & [u Hctas] & _).
  apply validate_ctas_ok in Hctas.
  assert (copy_code_buttons_of (TemplateConfig.csv_row_for config phone) range10 []
          = Ok (TemplateConfig.copy_code_loop (take 10 (TemplateConfig.ctas config)) [])) as E.
  { apply copy_code_agree.
    - intros i cta Hi. simpl.
      rewrite Forall_forall in Hctas.
      destruct (Hctas cta (list_elem_of_lookup_2 _ _ _ Hi)) as [Ht Hc].
      assert (cta_kind (TemplateConfig.csv_row_for config phone) i
              = lower (strip (CtaButton.type cta))) as Hkind.
      { unfold cta_kind, get_or.
        rewrite (csv_row_for_cta_cell config phone i cta (fkey "cta" i "_type")
                   (strip (CtaButton.type cta)) Hi) by left.
        by rewrite or_str_empty, strip_idem. }
      assert (lower (strip (CtaButton.type cta)) = "copy_code"
              <-> lower (CtaButton.type cta) = "copy_code") as Hiff.
      { destruct (decide (CtaButton.type cta = "")) as [->|Hne]; [done|].
        assert (or_str (CtaButton.type cta) "url" = CtaButton.type cta) as Hor.
        { unfold or_str. by destruct (decide (CtaButton.type cta = "")). }
        rewrite Hor in Ht.
        assert (strip (CtaButton.type cta) = CtaButton.type cta) as ->; [|done].
        destruct Ht as [Ht|[Ht|Ht]]; by eapply lower_literal_strip. }
      split; [by rewrite Hkind|]. split.
      + unfold get_or.
        rewrite (csv_row_for_cta_cell config phone i cta (fkey "cta" i "_coupon_code")
                   (strip (CtaButton.coupon_code cta)) Hi) by (do 4 right; left).
        by rewrite or_str_empty, strip_idem.
      + intros E. apply Hc. unfold or_str.
        destruct (decide (CtaButton.type cta = "")) as [E'|]; [by rewrite E' in E|done].
    - intros n Hn. simpl in Hn. unfold cta_kind, get_or.
      rewrite (csv_row_for_cta_none config phone n "_type") by (done || apply suffix_underscore).
      discriminate. }
  split; [done|]. intros Hlen. rewrite E. unfold TemplateConfig.copy_code_buttons.
  by rewrite take_ge by lia.
Qed.

Lemma copy_code_export_agrees_witness :
  TemplateConfig.validate SampleConfig.coupon = (true, "")
  /\ TemplateConfig.copy_code_buttons SampleConfig.coupon
     = [{| cc_index := "0"; cc_coupon_code := "SAVE10" |}]
  /\ copy_code_buttons_of (TemplateConfig.csv_row_for SampleConfig.coupon "201000000001")
       range10 []
     = Ok [{| cc_index := "0"; cc_coupon_code := "SAVE10" |}].
Proof.
  assert (TemplateConfig.validate SampleConfig.coupon = (true, "")) as Hv
    by (vm_compute; reflexivity).
  assert (TemplateConfig.copy_code_buttons SampleConfig.coupon
          = [{| cc_index := "0"; cc_coupon_code := "SAVE10" |}]) as Hb
    by (vm_compute; reflexivity).
  split; [exact Hv|]. split; [exact Hb|]. rewrite <- Hb.
  apply (copy_code_export_agrees SampleConfig.coupon "" "201000000001" Hv).
  simpl. lia.
Defined.

(** ** The limiter inside the pool *)

Lemma sends_app a b : sends (a ++ b) = sends a + sends b.
Proof. unfold sends. by rewrite filter_app, length_app. Qed.

Lemma sends_none calls : Forall (fun c => is_send c = false) calls -> sends calls = 0.
Proof.
  unfold sends. induction 1 as [|c calls Hc _ IH]; [done|].
  rewrite filter_cons. destruct (decide _); [congruence|done].
Qed.

Section PoolGrants.

Context {S : Type}.
Variable client : Client S.
Variable cfg : launch.
Variable clock : nat -> Q.
Hypothesis clock_monotonic : forall k, (clock k <= clock (Datatypes.S k))%Q.
Variable R : Z.

Lemma granted_to_same i ws : granted_to i ws ws = false.
Proof. unfold granted_to. by destruct (is_sending _). Qed.

Lemma granted_to_insert i ws wk wk' :
  ws !! i = Some wk ->
  granted_to i ws (<[i := wk']> ws) = is_sending wk' && negb (is_sending wk).
Proof.
  intros Hi. unfold granted_to.
  rewrite list_lookup_insert_eq by (by eapply lookup_lt_Some). by rewrite Hi.
Qed.

(** A step that is no turn of [acquire]: the limiter is left alone, the
    worker is not in the send afterwards, and a send was made exactly
    when the worker was in the send of a run that is not dry. *)
Lemma granted_keep (p p' : pool S) rs i wk wk' :
  granted_inv cfg clock R p rs ->
  limiter p' = limiter p ->
  steps p' = steps p ->
  workers p !! i = Some wk -> workers p' = <[i := wk']> (workers p) ->
  is_sending wk' = false ->
  sends (trace (shared p'))
  = sends (trace (shared p)) + (if is_sending wk && negb (l_dry_run cfg) then 1 else 0) ->
  granted_inv cfg clock R p' (rs ++ step_grant clock i p p').
Proof.
  intros (last & Hinv & Hlast & Hcount & Heq & Hat) Hl Hs Hi Hw Hwk' Htr.
  unfold step_grant. rewrite Hw, (granted_to_insert i _ wk wk' Hi), Hwk', app_nil_r. simpl.
  exists last. rewrite Hl, Hs, Htr, Hw.
  pose proof (count_workers_insert is_sending (workers p) i wk wk' Hi) as Hc.
  rewrite Hwk' in Hc.
  split; [done|]. split; [done|]. split; [|split; [|done]].
  - destruct (is_sending wk), (l_dry_run cfg); simpl in *; lia.
  - intros Hd. specialize (Heq Hd). rewrite Hd. destruct (is_sending wk); simpl in *; lia.
Qed.

Lemma granted_same (p p' : pool S) rs i :
  granted_inv cfg clock R p rs ->
  limiter p' = limiter p -> steps p' = steps p -> workers p' = workers p ->
  trace (shared p') = trace (shared p) ->
  granted_inv cfg clock R p' (rs ++ step_grant clock i p p').
Proof.
  intros (last & Hinv & Hlast & Hcount & Heq & Hat) Hl Hs Hw Htr.
  unfold step_grant. rewrite Hw, granted_to_same, app_nil_r.
  exists last. by rewrite Hl, Hs, Hw, Htr.
Qed.

Lemma granted_tick (p : pool S) rs :
  granted_inv cfg clock R p rs ->
  granted_inv cfg clock R (Pool (queue p) (workers p) (stats p) (limiter p) (shared p)
                                (Datatypes.S (steps p))) rs.
Proof.
  intros (last & Hinv & Hlast & Hcount & Heq & Hat). exists last.
  split; [done|]. split; [|split; [done|split; [done|]]].
  - simpl. eapply Qle_trans; [exact Hlast|apply clock_monotonic].
  - eapply Forall_impl; [exact Hat|]. simpl. intros r (k & Hk & Hr). exists k. split; [lia|done].
Qed.

Lemma emit_trace stats total st ph m idx (w : world S) :
  trace (emit cfg stats total st ph m idx w) = trace w.
Proof. unfold emit. by destruct (l_progress_callback cfg). Qed.

Lemma pause_turn_shape i idx row (p : pool S) :
  exists wk' st' w',
    pause_turn cfg i idx row p
    = Pool (queue p) (<[i := wk']> (workers p)) st' (limiter p) w' (steps p)
    /\ is_sending wk' = false /\ trace w' = trace (shared p).
Proof.
  unfold pause_turn, pause_is_set, stop_is_set. cbn zeta.
  destruct (default false _).
  - destruct (default false _); by eexists _, _, _.
  - destruct (BatchSendResult.aborted (stats p)); by eexists _, _, _.
Qed.

Lemma finish_send_shape i idx phone st sm (p : pool S) :
  exists st' w',
    finish_send cfg i idx phone st sm p
    = Pool (queue p) (<[i := WIdle]> (workers p)) st' (limiter p) w' (steps p)
    /\ trace w' = trace (shared p).
Proof.
  unfold finish_send, set_worker, update_stats. cbn [queue workers stats limiter shared steps].
  eexists _, _. split; [done|]. apply emit_trace.
Qed.

(** A turn of [acquire] taken by worker [i] for the pool [p0], whose
    workers are those of [p]. *)
Lemma acquire_turn_granted i idx phone payload (p0 p : pool S) rs wk :
  granted_inv cfg clock R p rs ->
  workers p0 = workers p ->
  workers p !! i = Some wk -> is_sending wk = false ->
  granted_inv cfg clock R (acquire_turn clock i idx phone payload p)
    (rs ++ step_grant clock i p0 (acquire_turn clock i idx phone payload p)).
Proof.
  intros (last & Hinv & Hlast & Hcount & Heq & Hat) Hw0 Hi Hwk.
  unfold step_grant, acquire_turn. rewrite Hw0.
  destruct (attempt_inv R (limiter p) rs last (clock (steps p)) i Hinv Hlast) as [Hnew Hinv'].
  cbn zeta in Hnew, Hinv'.
  destruct (AsyncRateLimiter.attempt (clock (steps p)) (limiter p)) as [o l] eqn:E.
  simpl in Hnew, Hinv'. cbn [limiter steps shared workers].
  rewrite (granted_to_insert i _ wk _ Hi), Hwk, andb_true_r.
  pose proof (count_workers_insert is_sending (workers p) i wk
                (match o with
                 | AsyncRateLimiter.Acquired => WSending idx phone payload
                 | AsyncRateLimiter.Sleep _ => WAcquiring idx phone payload
                 end) Hi) as Hc.
  rewrite Hwk in Hc.
  assert ((if is_sending match o with
                         | AsyncRateLimiter.Acquired => WSending idx phone payload
                         | AsyncRateLimiter.Sleep _ => WAcquiring idx phone payload
                         end then [(i, clock (steps p))] else [])
          = (if bool_decide (Z.of_nat (length (AsyncRateLimiter.trailing (clock (steps p)) rs))
                             < R)%Z then [(i, clock (steps p))] else [])) as Hg.
  { rewrite <- Hnew. by destruct o. }
  rewrite Hg. exists (clock (steps p)).
  split; [exact Hinv'|]. split; [apply Qle_refl|].
  rewrite <- Hg, length_app. split; [|split].
  - destruct o; simpl in *; lia.
  - intros Hd. specialize (Heq Hd). destruct o; simpl in *; lia.
  - apply Forall_app. split; [done|].
    destruct o; simpl; [|done]. constructor; [|done]. simpl. by exists (steps p).
Qed.

Lemma worker_step_granted i (p : pool S) rs :
  granted_inv cfg clock R p rs ->
  granted_inv cfg clock R (worker_step client cfg clock i p)
    (rs ++ step_grant clock i p (worker_step client cfg clock i p)).
Proof.
  intros Hg. apply granted_tick in Hg. unfold worker_step.
  set (p0 := Pool (queue p) (workers p) (stats p) (limiter p) (shared p)
                  (Datatypes.S (steps p))) in *.
  cbn [queue workers stats limiter shared steps].
  assert (forall p', step_grant clock i p p' = step_grant clock i p0 p') as Hsg by done.
  change (workers p) with (workers p0). change (queue p) with (queue p0).
  change (stats p) with (stats p0). change (limiter p) with (limiter p0).
  change (shared p) with (shared p0). change (Datatypes.S (steps p)) with (steps p0).
  assert (Pool (queue p0) (workers p0) (stats p0) (limiter p0) (shared p0) (steps p0) = p0)
    as Hp0 by done.
  try rewrite Hp0. setoid_rewrite Hsg. clear Hsg Hp0.
  clearbody p0. clear p. rename p0 into p.
  destruct (workers p !! i) as [wk|] eqn:Hi; [|by apply granted_same].
  destruct wk as [|idx row|idx row|idx phone payload|idx phone payload|idx phone st sm|].
  - destruct (queue p) as [|[[idx row]|] q]; [by apply granted_same| |].
    + unfold stop_is_set. cbn zeta. destruct (default false _).
      * by apply granted_same.
      * destruct (pause_turn_shape i idx row
                    (Pool q (workers p) (stats p) (limiter p) (look cfg (shared p)) (steps p)))
          as (wk' & st' & w' & -> & Hwk & Htr).
        eapply (granted_keep p _ rs i WIdle wk');
          [exact Hg|reflexivity|reflexivity|exact Hi|reflexivity|exact Hwk|].
        simpl. simpl in Htr. rewrite Htr. lia.
    + eapply (granted_keep p _ rs i WIdle WDone);
        [exact Hg|reflexivity|reflexivity|exact Hi|reflexivity|reflexivity|simpl; lia].
  - destruct (pause_turn_shape i idx row p) as (wk' & st' & w' & -> & Hwk & Htr).
    eapply (granted_keep p _ rs i _ wk');
      [exact Hg|reflexivity|reflexivity|exact Hi|reflexivity|exact Hwk|].
    simpl. rewrite Htr. lia.
  - pose proof (prepare_row_no_send row client (client_state (shared p))) as Hns.
    apply sends_none in Hns.
    destruct (p_result _) as [[[status phone] payload] message].
    destruct (decide _).
    { eapply (granted_keep p _ rs i _ WIdle);
        [exact Hg|reflexivity|reflexivity|exact Hi|reflexivity|reflexivity|].
      simpl. rewrite emit_trace. simpl. rewrite sends_app, Hns. lia. }
    destruct (decide _).
    { eapply (granted_keep p _ rs i _ WIdle);
        [exact Hg|reflexivity|reflexivity|exact Hi|reflexivity|reflexivity|].
      simpl. rewrite emit_trace. simpl. rewrite sends_app, Hns. lia. }
    destruct payload as [payload|].
    + eapply acquire_turn_granted; [|reflexivity|exact Hi|done].
      destruct Hg as (last & Hinv & Hlast & Hcount & Heq & Hat). exists last.
      split; [done|]. split; [done|]. simpl. rewrite sends_app, Hns, Nat.add_0_r.
      by split; [|split].
    + eapply (granted_keep p _ rs i _ WIdle);
        [exact Hg|reflexivity|reflexivity|exact Hi|reflexivity|reflexivity|].
      simpl. rewrite sends_app, Hns. lia.
  - by eapply acquire_turn_granted.
  - pose proof (send_payload_records client cfg payload (shared p)) as (_ & _ & Htr).
    destruct (_send_payload_sync client cfg payload (shared p)) as [[st sm] w1].
    simpl in Htr.
    assert (sends (trace w1)
            = sends (trace (shared p)) + (if negb (l_dry_run cfg) then 1 else 0)) as Hs.
    { rewrite Htr, sends_app.
      destruct (l_dry_run cfg);
        [change (sends []) with 0|change (sends [SendMessage payload]) with 1]; done. }
    destruct (is_success st && (0 <? l_delay_ms cfg)%Z).
    + eapply (granted_keep p _ rs i _ (WDelaying idx phone st sm));
        [exact Hg|reflexivity|reflexivity|exact Hi|reflexivity|reflexivity|exact Hs].
    + destruct (finish_send_shape i idx phone st sm
                  (Pool (queue p) (workers p) (stats p) (limiter p) w1 (steps p)))
        as (st' & w' & -> & Htr').
      eapply (granted_keep p _ rs i _ WIdle);
        [exact Hg|reflexivity|reflexivity|exact Hi|reflexivity|reflexivity|].
      simpl. simpl in Htr'. by rewrite Htr'.
  - destruct (finish_send_shape i idx phone st sm p) as (st' & w' & -> & Htr').
    eapply (granted_keep p _ rs i _ WIdle);
      [exact Hg|reflexivity|reflexivity|exact Hi|reflexivity|reflexivity|].
    simpl. rewrite Htr'. lia.
  - by apply granted_same.
Qed.

Lemma run_pool_granted schedule : forall (p : pool S) rs,
  granted_inv cfg clock R p rs ->
  granted_inv cfg clock R (run_pool client cfg clock schedule p)
    (rs ++ pool_grants client cfg clock schedule p).
Proof.
  induction schedule as [|i schedule IH]; intros p rs Hg; [by rewrite app_nil_r|].
  simpl. rewrite app_assoc. apply IH. by apply worker_step_granted.
Qed.

End PoolGrants.

(** X28. In the concurrent dispatcher the limiter stands between every
    row and its send. Take the grants of a run: the steps at which a
    worker gets past [await limiter.acquire()], each with the clock
    reading of its step. Under a clock that never goes back, and
    whatever the schedule: every call of [send_message] made, and every
    send a worker is about to make, has its own grant, and when the run
    is not dry there are no other grants; the deque of the limiter
    holds the readings of the grants that lie less than [second] before
    the reading of its last turn; and no window [[a, a + second)] holds
    more grants than the rate of the limiter. *)
Theorem pool_sends_are_granted {S : Type} (client : Client S) (cfg : launch)
    (clock : nat -> Q) (rows : list Row) (msg_per_sec : Z) (async_workers : option Z)
    (s : S) (ctl : RunControl) (schedule : list nat) :
  (forall k, (clock k <= clock (Datatypes.S k))%Q) ->
  let p0 := start_pool cfg rows msg_per_sec async_workers s ctl in
  let p := run_pool client cfg clock schedule p0 in
  let grants := pool_grants client cfg clock schedule p0 in
  AsyncRateLimiter.rate (limiter p) = Z.max 1 msg_per_sec
  /\ sends (trace (shared p)) + count_workers is_sending (workers p) <= length grants
  /\ (l_dry_run cfg = false ->
      sends (trace (shared p)) + count_workers is_sending (workers p) = length grants)
  /\ Forall (fun r => exists k, k <= steps p /\ snd r = clock k) grants
  /\ (exists last, (last <= clock (steps p))%Q
                   /\ Forall (fun r => (snd r <= last)%Q) grants
                   /\ AsyncRateLimiter._timestamps (limiter p)
                      = snd <$> AsyncRateLimiter.trailing last grants)
  /\ (forall a, (Z.of_nat (AsyncRateLimiter.count_in_window AsyncRateLimiter.second a grants)
                 <= Z.max 1 msg_per_sec)%Z).
Proof.
  intros Hclock p0 p grants.
  assert (Z.max 1 (limiter_rate msg_per_sec) = Z.max 1 msg_per_sec) as HR.
  { unfold limiter_rate. destruct (Z.eqb_spec msg_per_sec 0); lia. }
  destruct (run_pool_granted client cfg clock Hclock (Z.max 1 msg_per_sec) schedule p0 [])
    as (last & Hinv & Hlast & Hcount & Heq & Hat).
  { exists (clock 0). unfold p0, start_pool. cbn [limiter steps shared workers trace].
    split; [rewrite <- HR; apply init_inv|]. split; [apply Qle_refl|].
    rewrite count_workers_replicate. simpl. by split; [lia|split]. }
  simpl in Hinv, Hcount, Heq, Hat. fold p grants in Hinv, Hlast, Hcount, Heq, Hat.
  split; [apply (inv_rate _ _ _ _ Hinv)|]. split; [done|]. split; [done|]. split; [done|].
  split; [|apply (inv_window _ _ _ _ Hinv)].
  exists last. split; [done|]. split; [apply (inv_le _ _ _ _ Hinv)|apply (inv_deque _ _ _ _ Hinv)].
Qed.

Lemma pool_sends_are_granted_witness :
  (forall k, (Sample.clock k <= Sample.clock (Datatypes.S k))%Q)
  /\ sends (trace (shared (run_pool Sample.client Sample.quiet Sample.clock Sample.round_robin
                             (start_pool Sample.quiet Sample.rows 8 None Sample.fresh
                                Sample.events_clear)))) = 1
  /\ pool_grants Sample.client Sample.quiet Sample.clock Sample.round_robin
       (start_pool Sample.quiet Sample.rows 8 None Sample.fresh Sample.events_clear)
     = [(0, (3 # 8)%Q)]
  /\ AsyncRateLimiter.rate
       (limiter (run_pool Sample.client Sample.quiet Sample.clock Sample.round_robin
                   (start_pool Sample.quiet Sample.rows 8 None Sample.fresh
                      Sample.events_clear))) = 8%Z.
Proof.
  assert (forall k, (Sample.clock k <= Sample.clock (Datatypes.S k))%Q) as Hc.
  { intros k. unfold Sample.clock, Qle. simpl. lia. }
  split; [exact Hc|]. split; [vm_compute; reflexivity|]. split; [vm_compute; reflexivity|].
  apply (pool_sends_are_granted Sample.client Sample.quiet Sample.clock Sample.rows 8 None
           Sample.fresh Sample.events_clear Sample.round_robin Hc).
Defined.

(** ** The header row of an export *)

Lemma row_update_is_Some (row : Row) cols k :
  is_Some (row_update row cols !! k) <-> is_Some (row !! k) \/ k ∈ cols.*1.
Proof.
  unfold row_update. revert row. induction cols as [|[k' v] cols IH]; intros row.
  { simpl. split; [by left|]. intros [?|Hk]; [done|]. by apply elem_of_nil in Hk. }
  simpl. rewrite IH. simpl. rewrite lookup_insert_is_Some, elem_of_cons.
  destruct (decide (k' = k)) as [->|Hne]; [tauto|]. split.
  - intros [[?|[_ ?]]|?]; [done|by left|by right; right].
  - intros [?|[?|?]]; [left; right; by split|by subst|by right].
Qed.

Lemma fold_update_is_Some {A : Type} (colsf : nat -> A -> list (string * string))
    (l : list A) k : forall a (row : Row),
  is_Some (foldl (fun r nx => row_update r (colsf nx.1 nx.2)) row (enumerate_from a l) !! k)
  <-> is_Some (row !! k) \/ exists i x, l !! i = Some x /\ k ∈ (colsf (a + i) x).*1.
Proof.
  induction l as [|x l IH]; intros a row.
  { simpl. split; [by left|]. intros [?|(i & y & Hi & _)]; done. }
  simpl. rewrite IH, row_update_is_Some. split.
  - intros [[?|Hk]|(i & y & Hi & Hk)]; [by left| |].
    + right. exists 0, x. by rewrite Nat.add_0_r.
    + right. exists (Datatypes.S i), y. split; [done|].
      by replace (a + Datatypes.S i) with (Datatypes.S a + i) by lia.
  - intros [?|(i & y & Hi & Hk)]; [by left; left|]. destruct i as [|i]; simpl in Hi.
    + injection Hi as ->. rewrite Nat.add_0_r in Hk. left. by right.
    + right. exists i, y. split; [done|].
      by replace (Datatypes.S a + i) with (a + Datatypes.S i) by lia.
Qed.

Lemma elem_of_concat_enumerate {A : Type} (f : nat -> list string) (l : list A) k :
  forall a,
  k ∈ concat ((fun nx : nat * A => f nx.1) <$> enumerate_from a l)
  <-> exists i x, l !! i = Some x /\ k ∈ f (a + i).
Proof.
  induction l as [|x l IH]; intros a.
  { simpl. split; [by intros ?%elem_of_nil|]. by intros (i & y & Hi & _). }
  simpl. rewrite elem_of_app, IH. split.
  - intros [Hk|(i & y & Hi & Hk)].
    + exists 0, x. by rewrite Nat.add_0_r.
    + exists (Datatypes.S i), y. split; [done|].
      by replace (a + Datatypes.S i) with (Datatypes.S a + i) by lia.
  - intros (i & y & Hi & Hk). destruct i as [|i]; simpl in Hi.
    + rewrite Nat.add_0_r in Hk. by left.
    + right. exists i, y. split; [done|].
      by replace (Datatypes.S a + i) with (a + Datatypes.S i) by lia.
Qed.

Lemma fkey_not_base prefix n s (base : list string) :
  Forall (fun k => forall d r, is_digit d = true -> k <> prefix +:+ String d r) base ->
  fkey prefix n s ∉ base.
Proof.
  intros Hall Hin. destruct (fkey_digit prefix n s) as (d & r & Hr & Hd).
  rewrite Forall_forall in Hall. by apply (Hall _ Hin d r Hd).
Qed.

Lemma NoDup_concat_enumerate {A : Type} (f : nat -> list string) (l : list A) :
  (forall n, NoDup (f n)) ->
  (forall n m k, n <> m -> k ∈ f n -> k ∉ f m) ->
  forall a, NoDup (concat ((fun nx : nat * A => f nx.1) <$> enumerate_from a l)).
Proof.
  intros Hnd Hapart. induction l as [|x l IH]; intros a; [constructor|].
  simpl. apply NoDup_app. split; [apply Hnd|]. split; [|apply IH].
  intros k Hk (i & y & _ & Hk')%elem_of_concat_enumerate.
  by apply (Hapart a (Datatypes.S a + i) k); [lia| |].
Qed.

Lemma headers_apart prefix n m k :
  n <> m ->
  k ∈ [fkey prefix n "_type"; fkey prefix n "_index"; fkey prefix n "_flow_token";
       fkey prefix n "_flow_action"; fkey prefix n "_navigate_screen";
       fkey prefix n "_text"; fkey prefix n "_url"; fkey prefix n "_phone";
       fkey prefix n "_coupon_code"] ->
  forall s, is_suffix s -> k <> fkey prefix m s.
Proof.
  intros Hnm Hk s Hs E. subst k.
  repeat (apply elem_of_cons in Hk as [Hk|Hk];
          [apply fkey_inj in Hk as [? _]; [done|done|apply suffix_underscore]|]).
  by apply elem_of_nil in Hk.
Qed.

Lemma flow_headers_keys (fb : FlowButton.t) n :
  (FlowButton.to_csv_columns fb n).*1 = flow_headers n.
Proof. reflexivity. Qed.

Lemma cta_headers_keys (cta : CtaButton.t) n :
  (TemplateConfig.cta_columns n cta).*1 = cta_headers n.
Proof. reflexivity. Qed.

Lemma flow_headers_nodup n : NoDup (flow_headers n).
Proof.
  rewrite <- (flow_headers_keys {| FlowButton.index := ""; FlowButton.flow_token := "";
                                   FlowButton.flow_action := "";
                                   FlowButton.navigate_screen := "" |}).
  apply flow_columns_nodup.
Qed.

Lemma cta_headers_nodup n : NoDup (cta_headers n).
Proof. rewrite <- (cta_headers_keys CtaButton.default). apply cta_columns_nodup. Qed.

Lemma flow_headers_apart n m k : n <> m -> k ∈ flow_headers n -> k ∉ flow_headers m.
Proof.
  intros Hnm Hn Hm.
  rewrite <- (flow_headers_keys {| FlowButton.index := ""; FlowButton.flow_token := "";
                                   FlowButton.flow_action := "";
                                   FlowButton.navigate_screen := "" |}) in Hn, Hm.
  by eapply flow_columns_apart.
Qed.

Lemma cta_headers_apart n m k : n <> m -> k ∈ cta_headers n -> k ∉ cta_headers m.
Proof.
  intros Hnm Hn Hm. rewrite <- (cta_headers_keys CtaButton.default) in Hn, Hm.
  by eapply cta_columns_apart.
Qed.

Lemma flow_header_shape n k :
  k ∈ flow_headers n ->
  exists d r, is_digit d = true
              /\ k = String "b" (String "u" (String "t" (String "t" (String "o"
                       (String "n" (String d r)))))).
Proof.
  unfold flow_headers. intros Hk.
  repeat (apply elem_of_cons in Hk as [->|Hk];
          [match goal with |- context [fkey "button" n ?s] =>
             destruct (fkey_digit "button" n s) as (d & r & -> & Hd) end; by exists d, r|]).
  by apply elem_of_nil in Hk.
Qed.

Lemma cta_header_shape n k :
  k ∈ cta_headers n -> exists r, k = String "c" (String "t" r).
Proof.
  unfold cta_headers. intros Hk.
  repeat (apply elem_of_cons in Hk as [->|Hk]; [apply fkey_cta_head|]).
  by apply elem_of_nil in Hk.
Qed.

Lemma list_to_map_is_Some (cells : list (string * string)) k :
  is_Some ((list_to_map cells : Row) !! k) <-> k ∈ cells.*1.
Proof.
  destruct ((list_to_map cells : Row) !! k) as [v|] eqn:E.
  - split; [intros _|by eauto]. apply elem_of_list_to_map_2 in E.
    apply list_elem_of_fmap. by exists (k, v).
  - split; [by intros []|]. intros Hin. by apply not_elem_of_list_to_map_2 in E.
Qed.

(** X29. [csv_headers] names exactly the columns that every exported
    row has, each once: the writer of the export meets no cell outside
    the header row and leaves no column of it empty for want of a
    cell. *)
Theorem csv_headers_match (config : TemplateConfig.t) (phone : string) :
  NoDup (csv_headers config)
  /\ forall k, k ∈ csv_headers config
               <-> is_Some (TemplateConfig.csv_row_for config phone !! k).
Proof.
  split.
  - unfold csv_headers. apply NoDup_app. split; [|split].
    + apply (bool_decide_unpack _). by vm_compute.
    + intros k Hk Hin. apply elem_of_app in Hin as [Hin|Hin].
      * apply elem_of_concat_enumerate in Hin as (i & x & _ & Hin).
        apply flow_header_shape in Hin as (d & r & Hd & ->).
        repeat (apply elem_of_cons in Hk as [Hk|Hk];
                [first [discriminate Hk | injection Hk as -> _; discriminate Hd]|]).
        by apply elem_of_nil in Hk.
      * apply elem_of_concat_enumerate in Hin as (i & x & _ & Hin).
        apply cta_header_shape in Hin as (r & ->).
        repeat (apply elem_of_cons in Hk as [Hk|Hk]; [discriminate Hk|]).
        by apply elem_of_nil in Hk.
    + apply NoDup_app. split; [|split].
      * apply NoDup_concat_enumerate; [apply flow_headers_nodup|apply flow_headers_apart].
      * intros k (i & x & _ & Hk)%elem_of_concat_enumerate
                 (j & y & _ & Hk')%elem_of_concat_enumerate.
        apply flow_header_shape in Hk as (d & r & _ & ->).
        apply cta_header_shape in Hk' as (r' & Hk'). discriminate Hk'.
      * apply NoDup_concat_enumerate; [apply cta_headers_nodup|apply cta_headers_apart].
  - intros k. unfold csv_headers, TemplateConfig.csv_row_for. cbn zeta.
    rewrite (fold_update_is_Some TemplateConfig.cta_columns).
    rewrite (fold_update_is_Some (fun n fb => FlowButton.to_csv_columns fb n)).
    rewrite !elem_of_app, !elem_of_concat_enumerate.
    rewrite list_to_map_is_Some. simpl. tauto.
Qed.

(** ** What a dry run posts *)

Lemma only_uploads_refl config s : only_uploads config s s.
Proof. exists []. by rewrite app_nil_r. Qed.

Lemma only_uploads_trans config s1 s2 s3 :
  only_uploads config s1 s2 -> only_uploads config s2 s3 -> only_uploads config s1 s3.
Proof.
  intros (m1 & E1 & H1) (m2 & E2 & H2). exists (m1 ++ m2).
  rewrite E2, E1, app_assoc. split; [done|]. by apply Forall_app.
Qed.

Lemma upload_media_only_uploads config rt file_path mime_type s :
  only_uploads config s (WhatsAppClient.upload_media config rt file_path mime_type s).2.
Proof.
  unfold WhatsAppClient.upload_media.
  destruct (fs_read rt (path_resolve rt file_path)) as [bytes|]; [|apply only_uploads_refl].
  destruct (WhatsAppClient.cache_hit _); [apply only_uploads_refl|].
  set (mime := match match mime_type with Some m => _ | None => _ end with
               | Some m => m | None => _ end).
  unfold WhatsAppClient.post.
  assert (forall c, only_uploads config s
            {| media_cache := c;
               posted := posted s ++ [PostMedia (media_url config)
                                        (path_name rt (path_resolve rt file_path)) bytes mime
                                        [("messaging_product", JStr "whatsapp");
                                         ("type", JStr mime)]] |}) as Hpost.
  { intros c. eexists. split; [done|]. repeat constructor. simpl. by apply bool_decide_eq_true. }
  destruct (http_post rt _ _) as [resp|e]; [|apply Hpost].
  destruct (400 <=? status_code resp)%Z; [apply Hpost|].
  destruct (json_body resp) as [[| | | | |d]|e]; try apply Hpost.
  destruct (truthy _); [|apply Hpost].
  unfold MediaCache.set. cbn zeta. destruct (cache_write rt _); apply Hpost.
Qed.

Lemma prepare_row_only_uploads config rt row s :
  only_uploads config s (p_state (_prepare_row row (whatsapp_client config rt) s)).
Proof.
  unfold _prepare_row. destruct (decide _); [apply only_uploads_refl|].
  destruct (decide _).
  - destruct (prepare_interactive_trace row (whatsapp_client config rt)
                (strip (get_or row "phone" "")) s) as (_ & _ & _ & ->).
    apply only_uploads_refl.
  - destruct (prepare_template_trace row (whatsapp_client config rt)
                (strip (get_or row "phone" "")) s) as (_ & _ & [[_ ->]|(path & _ & -> & _)]).
    + apply only_uploads_refl.
    + apply upload_media_only_uploads.
Qed.

Section DryRun.

Context {S : Type}.
Variable client : Client S.
Variable cfg : launch.
Hypothesis dry : l_dry_run cfg = true.

Lemma emit_client_state stats total st ph m idx (w : world S) :
  client_state (emit cfg stats total st ph m idx w) = client_state w.
Proof. unfold emit. by destruct (l_progress_callback cfg). Qed.

Lemma send_payload_dry payload (w : world S) :
  client_state (_send_payload_sync client cfg payload w).2 = client_state w.
Proof. unfold _send_payload_sync. by rewrite dry. Qed.

Lemma process_row_client_state tc idx row stats (w : world S) :
  client_state (process_row client cfg tc idx row stats w).2
  = p_state (_prepare_row row client (client_state w)).
Proof.
  unfold process_row. destruct (p_result _) as [[[status phone] payload] message].
  destruct (decide _); [cbn [snd]; by rewrite emit_client_state|].
  destruct (decide _); [cbn [snd]; by rewrite emit_client_state|].
  destruct payload as [payload|]; [|done].
  pose proof (send_payload_dry payload
                (with_client (p_state (_prepare_row row client (client_state w)))
                             (p_calls (_prepare_row row client (client_state w))) w)) as Hs.
  destruct (_send_payload_sync client cfg payload _) as [[st sm] w1]. simpl in Hs.
  destruct (is_success st); cbn [snd]; by rewrite emit_client_state.
Qed.

Lemma pause_wait_client_state fuel stats (w : world S) stats' w' :
  pause_wait cfg fuel stats w = Some (stats', w') -> client_state w' = client_state w.
Proof.
  revert w. induction fuel as [|fuel IH]; intros w; simpl;
    unfold pause_is_set, stop_is_set; simpl.
  - destruct (default false _); [|by intros [= <- <-]].
    destruct (default false _); [|done]. by intros [= <- <-].
  - destruct (default false _); [|by intros [= <- <-]].
    destruct (default false _); [by intros [= <- <-]|].
    intros H. by apply IH in H.
Qed.

Lemma pause_turn_client_state i idx row (p : pool S) :
  client_state (shared (pause_turn cfg i idx row p)) = client_state (shared p).
Proof.
  unfold pause_turn, pause_is_set, stop_is_set. cbn zeta.
  destruct (default false _).
  - by destruct (default false _).
  - by destruct (aborted (stats p)).
Qed.

Lemma finish_send_client_state i idx phone st sm (p : pool S) :
  client_state (shared (finish_send cfg i idx phone st sm p)) = client_state (shared p).
Proof. unfold finish_send, set_worker, update_stats. simpl. apply emit_client_state. Qed.

(** A step of the pool leaves the client as it was or as one run of the
    row processor left it. *)
Lemma worker_step_client_state clock i (p : pool S) :
  client_state (shared (worker_step client cfg clock i p)) = client_state (shared p)
  \/ exists row, client_state (shared (worker_step client cfg clock i p))
                 = p_state (_prepare_row row client (client_state (shared p))).
Proof.
  unfold worker_step. cbn [queue workers stats limiter shared steps].
  destruct (workers p !! i) as [wk|]; [|by left].
  destruct wk as [|idx row|idx row|idx phone payload|idx phone payload|idx phone st sm|].
  - destruct (queue p) as [|[[idx row]|] q]; [by left| |by left].
    unfold stop_is_set. cbn zeta. destruct (default false _); [by left|].
    left. by rewrite pause_turn_client_state.
  - left. by rewrite pause_turn_client_state.
  - right. exists row. destruct (p_result _) as [[[status phone] payload] message].
    destruct (decide _); [unfold set_worker, update_stats; simpl; by rewrite emit_client_state|].
    destruct (decide _); [unfold set_worker, update_stats; simpl; by rewrite emit_client_state|].
    destruct payload as [payload|]; [|done].
    unfold acquire_turn. cbn [limiter steps].
    by destruct (AsyncRateLimiter.attempt _ _).
  - left. unfold acquire_turn. by destruct (AsyncRateLimiter.attempt _ _).
  - left. pose proof (send_payload_dry payload (shared p)) as Hs.
    destruct (_send_payload_sync client cfg payload (shared p)) as [[st sm] w1]. simpl in Hs.
    destruct (_ && _); [done|]. by rewrite finish_send_client_state.
  - left. by rewrite finish_send_client_state.
  - by left.
Qed.

End DryRun.

(** X30. A dry run over the real client posts nothing to the messages
    endpoint, in either dispatcher and under every schedule: every
    request posted while the batch runs is an upload to the media
    endpoint. A dry run does upload the header media of its rows. *)
Theorem dry_run_only_uploads (config : WhatsAppConfig) (rt : Runtime) (cfg : launch)
    (rows : list Row) (s : ClientState) (ctl : RunControl) :
  l_dry_run cfg = true ->
  (forall fuel stats w,
     run_batch_from_rows (whatsapp_client config rt) cfg fuel rows s ctl = Some (stats, w) ->
     only_uploads config s (client_state w))
  /\ (forall clock msg_per_sec async_workers schedule,
        only_uploads config s
          (client_state (shared (run_pool (whatsapp_client config rt) cfg clock schedule
                                   (start_pool cfg rows msg_per_sec async_workers s ctl))))).
Proof.
  intros Hdry. split.
  - intros fuel stats w. unfold run_batch_from_rows.
    set (w0 := World s ctl 0 _ [] []). change s with (client_state w0).
    generalize (init (l_total_rows cfg) (l_dry_run cfg)) 1%Z
               (match l_total_rows cfg with
                | Some n => Some n
                | None => Some (Z.of_nat (length rows))
                end).
    clearbody w0. revert w0.
    induction rows as [|row rest IH]; intros w0 st idx tc Hrun.
    { simpl in Hrun. injection Hrun as _ <-. apply only_uploads_refl. }
    cbn [batch_loop] in Hrun. unfold stop_is_set in Hrun. cbn zeta in Hrun.
    destruct (default false _); [injection Hrun as _ <-; apply only_uploads_refl|].
    destruct (pause_wait cfg fuel st (look cfg w0)) as [[st2 w2]|] eqn:Ep; [|done].
    apply pause_wait_client_state in Ep. simpl in Ep.
    destruct (aborted st2).
    { injection Hrun as _ <-. rewrite Ep. apply only_uploads_refl. }
    pose proof (process_row_client_state (whatsapp_client config rt) cfg Hdry tc idx row st2 w2)
      as Hc.
    destruct (process_row _ cfg tc idx row st2 w2) as [st3 w3]. simpl in Hc.
    apply IH in Hrun. eapply only_uploads_trans; [|exact Hrun].
    rewrite Hc, Ep. apply prepare_row_only_uploads.
  - intros clock msg_per_sec async_workers schedule.
    set (p0 := start_pool cfg rows msg_per_sec async_workers s ctl).
    change s with (client_state (shared p0)) at 1. clearbody p0. revert p0.
    induction schedule as [|i schedule IH]; intros p0; [apply only_uploads_refl|].
    simpl. eapply only_uploads_trans; [|apply IH].
    destruct (worker_step_client_state (whatsapp_client config rt) cfg Hdry clock i p0)
      as [-> | [row ->]]; [apply only_uploads_refl|apply prepare_row_only_uploads].
Qed.

Lemma dry_run_only_uploads_witness :
  let cfg := {| l_dry_run := true; l_delay_ms := 0; l_log_path := true;
                l_total_rows := None; l_progress_callback := true;
                l_owner := fun _ => [] |} in
  let rows := [Sample.row_of [("phone", "201000000001"); ("template", "promo");
                              ("header_type", "image");
                              ("header_media_path", "promo.png")]] in
  exists stats w,
    run_batch_from_rows Sample.client cfg 0 rows Sample.fresh Sample.events_clear
    = Some (stats, w)
    /\ length (posted (client_state w)) = 1
    /\ only_uploads Sample.config Sample.fresh (client_state w).
Proof.
  intros cfg rows.
  destruct (run_batch_from_rows Sample.client cfg 0 rows Sample.fresh Sample.events_clear)
    as [[stats w]|] eqn:E; [|vm_compute in E; discriminate].
  destruct (dry_run_only_uploads Sample.config Sample.rt cfg rows Sample.fresh
              Sample.events_clear) as [H _]; [reflexivity|].
  exists stats, w. split; [reflexivity|]. split; [|exact (H 0 stats w E)].
  vm_compute in E. injection E as <- <-. reflexivity.
Defined.
